(** * TCP stream analysis and reassembly (epan/dissectors/packet-tcp.c)

    A shallow embedding of the sequence-number analysis state machine
    ([tcp_analyze_sequence_number]), of the desegmentation entry
    ([desegment_tcp]), of the PDU loop ([tcp_dissect_pdus]), of the FIN and
    port-reuse handling of [dissect_tcp] and of the MPTCP token derivation
    ([mptcp_cryptodata_sha1]), followed by the properties the specification
    states about them. The option loop ([tcp_dissect_options]), the window
    scale and SACK options, the exported TCP information, the MPTCP data
    sequence numbers, the flags as text, the Follow TCP Stream listener and
    the PDU tracking without reassembly are embedded as well, with
    properties read off the code.

    C integers are integers of [Z] with the wrap-around of each operation
    written out; C structs are records; the two wmem trees (the per-packet
    [acked_table] and the per-flow [multisegment_pdus]) are finite maps, and a
    pointer to a tree-resident struct is the key it is stored under. *)

From Stdlib Require Import ZArith Lia List Bool.
From stdpp Require Import base option list gmap fin_maps.

Local Open Scope Z_scope.

(** ** Machine integers *)

Module Int.

Definition u8  (x : Z) : Z := x mod 2^8.
Definition u16 (x : Z) : Z := x mod 2^16.
Definition u32 (x : Z) : Z := x mod 2^32.
Definition u64 (x : Z) : Z := x mod 2^64.

(** [(gint32) x] for an unsigned 32-bit [x]. *)
Definition s32 (x : Z) : Z :=
  let r := u32 x in if r <? 2^31 then r else r - 2^32.

(** [x & m] read as a C condition. *)
Definition tst (x m : Z) : bool := negb (Z.land x m =? 0).

End Int.
Import Int.

(** ** Constants and macros *)

Module K.

(** TCP header flags (packet-tcp.h, which src/ does not hold: the values
    are those of the TCP header itself). *)
Definition TH_FIN  : Z := 0x0001.
Definition TH_SYN  : Z := 0x0002.
Definition TH_RST  : Z := 0x0004.
Definition TH_PUSH : Z := 0x0008.
Definition TH_ACK  : Z := 0x0010.

(** packet-tcp.c:1328-1342 *)
Definition TCP_A_RETRANSMISSION          : Z := 0x0001.
Definition TCP_A_LOST_PACKET             : Z := 0x0002.
Definition TCP_A_ACK_LOST_PACKET         : Z := 0x0004.
Definition TCP_A_KEEP_ALIVE              : Z := 0x0008.
Definition TCP_A_DUPLICATE_ACK           : Z := 0x0010.
Definition TCP_A_ZERO_WINDOW             : Z := 0x0020.
Definition TCP_A_ZERO_WINDOW_PROBE       : Z := 0x0040.
Definition TCP_A_ZERO_WINDOW_PROBE_ACK   : Z := 0x0080.
Definition TCP_A_KEEP_ALIVE_ACK          : Z := 0x0100.
Definition TCP_A_OUT_OF_ORDER            : Z := 0x0200.
Definition TCP_A_FAST_RETRANSMISSION     : Z := 0x0400.
Definition TCP_A_WINDOW_UPDATE           : Z := 0x0800.
Definition TCP_A_WINDOW_FULL             : Z := 0x1000.
Definition TCP_A_REUSED_PORTS            : Z := 0x2000.
Definition TCP_A_SPURIOUS_RETRANSMISSION : Z := 0x4000.

(** packet-tcp.c:1345-1347 *)
Definition TCP_S_BASE_SEQ_SET : Z := 0x01.
Definition TCP_S_SAW_SYN      : Z := 0x03.
Definition TCP_S_SAW_SYNACK   : Z := 0x05.

(** Flow and MSP flag bits and the two desegmentation sentinels: declared in
    packet-tcp.h and epan/packet_info.h, outside src/. Only their being
    distinct single bits (resp. distinct values) matters below. *)
Definition TCP_FLOW_REASSEMBLE_UNTIL_FIN       : Z := 0x0001.
Definition MSP_FLAGS_REASSEMBLE_ENTIRE_SEGMENT : Z := 0x0001.
Definition MSP_FLAGS_GOT_ALL_SEGMENTS          : Z := 0x0002.
Definition MSP_FLAGS_MISSING_FIRST_SEGMENT     : Z := 0x0004.
Definition DESEGMENT_ONE_MORE_SEGMENT : Z := 0x0fffffff.
Definition DESEGMENT_UNTIL_FIN        : Z := 0x0ffffffe.

(** Modelled from the spec: the sequence-space comparison macros of
    packet-tcp.h (not under src/). Section 9 of the specification gives
    them as signed-difference comparisons, [(int32)(a - b) > 0]. *)
Definition GT_SEQ (x y : Z) : bool := 0 <? s32 (x - y).
Definition LT_SEQ (x y : Z) : bool := s32 (x - y) <? 0.
Definition GE_SEQ (x y : Z) : bool := 0 <=? s32 (x - y).
Definition LE_SEQ (x y : Z) : bool := s32 (x - y) <=? 0.
Definition EQ_SEQ (x y : Z) : bool := x =? y.

End K.
Import K.

(** ** Data model of the sequence analysis *)

Module T.

(** nstime_t: seconds and nanoseconds. *)
Record nstime_t := NsTime { secs : Z; nsecs : Z }.

Definition nstime_zero : nstime_t := NsTime 0 0.

(** Modelled from the spec: [nstime_delta] of wsutil/nstime.c, which is not
  under src/. The specification uses it as "delta = now - then"; the delta
  keeps both parts of one sign, the nanoseconds within one second. *)
Definition nstime_delta (b a : nstime_t) : nstime_t :=
if secs b =? secs a then NsTime 0 (nsecs b - nsecs a)
else if secs b <? secs a then
  let s := secs b - secs a in
  let n := nsecs b - nsecs a in
  if 0 <? n then NsTime (s + 1) (n - 1000000000) else NsTime s n
else
  let s := secs b - secs a in
  let n := nsecs b - nsecs a in
  if n <? 0 then NsTime (s - 1) (n + 1000000000) else NsTime s n.

(** tcp_unacked_t, one entry of a flow's list of segments not yet ACKed. *)
Record tcp_unacked_t := Unacked {
ual_frame   : Z;
ual_seq     : Z;
ual_nextseq : Z;
ual_ts      : nstime_t
}.

(** struct tcp_acked, the per-packet analysis result. *)
Record tcp_acked := Acked {
frame_acked        : Z;
ack_ts             : nstime_t;
rto_frame          : Z;
rto_ts             : nstime_t;
ta_flags           : Z;
dupack_num         : Z;
dupack_frame       : Z;
bytes_in_flight    : Z;
ta_push_bytes_sent : Z
}.

(** wmem_new0: a zeroed struct tcp_acked. *)
Definition tcp_acked0 : tcp_acked :=
Acked 0 nstime_zero 0 nstime_zero 0 0 0 0 0.

(** tcp_analyze_seq_flow_info_t *)
Record tcp_analyze_seq_flow_info_t := SeqInfo {
segments        : list tcp_unacked_t;
segment_count   : Z;
lastack         : Z;
lastacktime     : nstime_t;
lastnondupack   : Z;
dupacknum       : Z;
nextseq         : Z;
maxseqtobeacked : Z;
nextseqframe    : Z;
nextseqtime     : nstime_t
}.

Definition seq_info0 : tcp_analyze_seq_flow_info_t :=
SeqInfo [] 0 0 nstime_zero 0 0 0 0 0 nstime_zero.

(** struct tcp_multisegment_pdu *)
Record tcp_multisegment_pdu := Msp {
msp_seq                  : Z;
msp_nxtpdu               : Z;
msp_first_frame          : Z;
msp_first_frame_with_seq : Z;
msp_last_frame           : Z;
msp_last_frame_time      : nstime_t;
msp_flags                : Z
}.

(** tcp_flow_t, one direction of a connection. The fields are those the
  modelled functions read or write. *)
Record tcp_flow_t := Flow {
static_flags         : Z;
base_seq             : Z;
fin                  : Z;
window               : Z;
win_scale            : Z;
scps_capable         : bool;
maxsizeacked         : Z;
valid_bif            : bool;
push_bytes_sent      : Z;
push_set_last        : bool;
flow_flags           : Z;
lastsegmentflags     : Z;
maxnextseq           : Z;
multisegment_pdus    : gmap Z tcp_multisegment_pdu;
tcp_analyze_seq_info : tcp_analyze_seq_flow_info_t
}.

(** The key of the per-packet result tree: (frame, seq, ack). *)
Definition acked_key : Type := Z * Z * Z.

(** struct tcp_analysis. [fwd_is_flow1] is the orientation chosen by
  [get_tcp_conversation_data]: the pointers [fwd] and [rev] name [flow1] and
  [flow2] or the converse. [ta] points into [acked_table]. *)
Record tcp_analysis := Analysis {
flow1        : tcp_flow_t;
flow2        : tcp_flow_t;
fwd_is_flow1 : bool;
ta           : option acked_key;
acked_table  : gmap acked_key tcp_acked;
ts_first_rtt : nstime_t;
stream       : Z
}.

(** The part of packet_info the analysis reads. *)
Record packet_info := PInfo {
num     : Z;
abs_ts  : nstime_t;
visited : bool
}.

End T.
Import T.

(** *** Field updates *)

Module Upd.

Definition si_segments v (i : tcp_analyze_seq_flow_info_t) :=
  SeqInfo v (segment_count i) (lastack i) (lastacktime i) (lastnondupack i)
          (dupacknum i) (nextseq i) (maxseqtobeacked i) (nextseqframe i) (nextseqtime i).
Definition si_segment_count v (i : tcp_analyze_seq_flow_info_t) :=
  SeqInfo (segments i) v (lastack i) (lastacktime i) (lastnondupack i)
          (dupacknum i) (nextseq i) (maxseqtobeacked i) (nextseqframe i) (nextseqtime i).
Definition si_lastack v (i : tcp_analyze_seq_flow_info_t) :=
  SeqInfo (segments i) (segment_count i) v (lastacktime i) (lastnondupack i)
          (dupacknum i) (nextseq i) (maxseqtobeacked i) (nextseqframe i) (nextseqtime i).
Definition si_lastacktime v (i : tcp_analyze_seq_flow_info_t) :=
  SeqInfo (segments i) (segment_count i) (lastack i) v (lastnondupack i)
          (dupacknum i) (nextseq i) (maxseqtobeacked i) (nextseqframe i) (nextseqtime i).
Definition si_lastnondupack v (i : tcp_analyze_seq_flow_info_t) :=
  SeqInfo (segments i) (segment_count i) (lastack i) (lastacktime i) v
          (dupacknum i) (nextseq i) (maxseqtobeacked i) (nextseqframe i) (nextseqtime i).
Definition si_dupacknum v (i : tcp_analyze_seq_flow_info_t) :=
  SeqInfo (segments i) (segment_count i) (lastack i) (lastacktime i) (lastnondupack i)
          v (nextseq i) (maxseqtobeacked i) (nextseqframe i) (nextseqtime i).
Definition si_nextseq v (i : tcp_analyze_seq_flow_info_t) :=
  SeqInfo (segments i) (segment_count i) (lastack i) (lastacktime i) (lastnondupack i)
          (dupacknum i) v (maxseqtobeacked i) (nextseqframe i) (nextseqtime i).
Definition si_maxseqtobeacked v (i : tcp_analyze_seq_flow_info_t) :=
  SeqInfo (segments i) (segment_count i) (lastack i) (lastacktime i) (lastnondupack i)
          (dupacknum i) (nextseq i) v (nextseqframe i) (nextseqtime i).
Definition si_nextseqframe v (i : tcp_analyze_seq_flow_info_t) :=
  SeqInfo (segments i) (segment_count i) (lastack i) (lastacktime i) (lastnondupack i)
          (dupacknum i) (nextseq i) (maxseqtobeacked i) v (nextseqtime i).
Definition si_nextseqtime v (i : tcp_analyze_seq_flow_info_t) :=
  SeqInfo (segments i) (segment_count i) (lastack i) (lastacktime i) (lastnondupack i)
          (dupacknum i) (nextseq i) (maxseqtobeacked i) (nextseqframe i) v.

Definition fl_static_flags v (f : tcp_flow_t) :=
  Flow v (base_seq f) (fin f) (window f) (win_scale f) (scps_capable f)
       (maxsizeacked f) (valid_bif f) (push_bytes_sent f) (push_set_last f)
       (flow_flags f) (lastsegmentflags f) (maxnextseq f) (multisegment_pdus f)
       (tcp_analyze_seq_info f).
Definition fl_base_seq v (f : tcp_flow_t) :=
  Flow (static_flags f) v (fin f) (window f) (win_scale f) (scps_capable f)
       (maxsizeacked f) (valid_bif f) (push_bytes_sent f) (push_set_last f)
       (flow_flags f) (lastsegmentflags f) (maxnextseq f) (multisegment_pdus f)
       (tcp_analyze_seq_info f).
Definition fl_fin v (f : tcp_flow_t) :=
  Flow (static_flags f) (base_seq f) v (window f) (win_scale f) (scps_capable f)
       (maxsizeacked f) (valid_bif f) (push_bytes_sent f) (push_set_last f)
       (flow_flags f) (lastsegmentflags f) (maxnextseq f) (multisegment_pdus f)
       (tcp_analyze_seq_info f).
Definition fl_window v (f : tcp_flow_t) :=
  Flow (static_flags f) (base_seq f) (fin f) v (win_scale f) (scps_capable f)
       (maxsizeacked f) (valid_bif f) (push_bytes_sent f) (push_set_last f)
       (flow_flags f) (lastsegmentflags f) (maxnextseq f) (multisegment_pdus f)
       (tcp_analyze_seq_info f).
Definition fl_maxsizeacked v (f : tcp_flow_t) :=
  Flow (static_flags f) (base_seq f) (fin f) (window f) (win_scale f) (scps_capable f)
       v (valid_bif f) (push_bytes_sent f) (push_set_last f)
       (flow_flags f) (lastsegmentflags f) (maxnextseq f) (multisegment_pdus f)
       (tcp_analyze_seq_info f).
Definition fl_valid_bif v (f : tcp_flow_t) :=
  Flow (static_flags f) (base_seq f) (fin f) (window f) (win_scale f) (scps_capable f)
       (maxsizeacked f) v (push_bytes_sent f) (push_set_last f)
       (flow_flags f) (lastsegmentflags f) (maxnextseq f) (multisegment_pdus f)
       (tcp_analyze_seq_info f).
Definition fl_push v1 v2 (f : tcp_flow_t) :=
  Flow (static_flags f) (base_seq f) (fin f) (window f) (win_scale f) (scps_capable f)
       (maxsizeacked f) (valid_bif f) v1 v2
       (flow_flags f) (lastsegmentflags f) (maxnextseq f) (multisegment_pdus f)
       (tcp_analyze_seq_info f).
Definition fl_flow_flags v (f : tcp_flow_t) :=
  Flow (static_flags f) (base_seq f) (fin f) (window f) (win_scale f) (scps_capable f)
       (maxsizeacked f) (valid_bif f) (push_bytes_sent f) (push_set_last f)
       v (lastsegmentflags f) (maxnextseq f) (multisegment_pdus f)
       (tcp_analyze_seq_info f).
Definition fl_lastsegmentflags v (f : tcp_flow_t) :=
  Flow (static_flags f) (base_seq f) (fin f) (window f) (win_scale f) (scps_capable f)
       (maxsizeacked f) (valid_bif f) (push_bytes_sent f) (push_set_last f)
       (flow_flags f) v (maxnextseq f) (multisegment_pdus f)
       (tcp_analyze_seq_info f).
Definition fl_maxnextseq v (f : tcp_flow_t) :=
  Flow (static_flags f) (base_seq f) (fin f) (window f) (win_scale f) (scps_capable f)
       (maxsizeacked f) (valid_bif f) (push_bytes_sent f) (push_set_last f)
       (flow_flags f) (lastsegmentflags f) v (multisegment_pdus f)
       (tcp_analyze_seq_info f).
Definition fl_multisegment_pdus v (f : tcp_flow_t) :=
  Flow (static_flags f) (base_seq f) (fin f) (window f) (win_scale f) (scps_capable f)
       (maxsizeacked f) (valid_bif f) (push_bytes_sent f) (push_set_last f)
       (flow_flags f) (lastsegmentflags f) (maxnextseq f) v
       (tcp_analyze_seq_info f).
Definition fl_si (g : tcp_analyze_seq_flow_info_t -> tcp_analyze_seq_flow_info_t)
           (f : tcp_flow_t) :=
  Flow (static_flags f) (base_seq f) (fin f) (window f) (win_scale f) (scps_capable f)
       (maxsizeacked f) (valid_bif f) (push_bytes_sent f) (push_set_last f)
       (flow_flags f) (lastsegmentflags f) (maxnextseq f) (multisegment_pdus f)
       (g (tcp_analyze_seq_info f)).

Definition an_flows f1 f2 (t : tcp_analysis) :=
  Analysis f1 f2 (fwd_is_flow1 t) (ta t) (acked_table t) (ts_first_rtt t) (stream t).
Definition an_ta v tbl (t : tcp_analysis) :=
  Analysis (flow1 t) (flow2 t) (fwd_is_flow1 t) v tbl (ts_first_rtt t) (stream t).

Definition ta_with_flags v (a : tcp_acked) :=
  Acked (frame_acked a) (ack_ts a) (rto_frame a) (rto_ts a) v (dupack_num a)
        (dupack_frame a) (bytes_in_flight a) (ta_push_bytes_sent a).
Definition ta_with_dupack n fr (a : tcp_acked) :=
  Acked (frame_acked a) (ack_ts a) (rto_frame a) (rto_ts a) (ta_flags a) n
        fr (bytes_in_flight a) (ta_push_bytes_sent a).
Definition ta_with_rto fr ts (a : tcp_acked) :=
  Acked (frame_acked a) (ack_ts a) fr ts (ta_flags a) (dupack_num a)
        (dupack_frame a) (bytes_in_flight a) (ta_push_bytes_sent a).
Definition ta_with_acked fr ts (a : tcp_acked) :=
  Acked fr ts (rto_frame a) (rto_ts a) (ta_flags a) (dupack_num a)
        (dupack_frame a) (bytes_in_flight a) (ta_push_bytes_sent a).
Definition ta_with_bif v (a : tcp_acked) :=
  Acked (frame_acked a) (ack_ts a) (rto_frame a) (rto_ts a) (ta_flags a) (dupack_num a)
        (dupack_frame a) v (ta_push_bytes_sent a).
Definition ta_with_push v (a : tcp_acked) :=
  Acked (frame_acked a) (ack_ts a) (rto_frame a) (rto_ts a) (ta_flags a) (dupack_num a)
        (dupack_frame a) (bytes_in_flight a) v.

Definition msp_with_flags v (m : tcp_multisegment_pdu) :=
  Msp (msp_seq m) (msp_nxtpdu m) (msp_first_frame m) (msp_first_frame_with_seq m)
      (msp_last_frame m) (msp_last_frame_time m) v.
Definition msp_with_nxtpdu v (m : tcp_multisegment_pdu) :=
  Msp (msp_seq m) v (msp_first_frame m) (msp_first_frame_with_seq m)
      (msp_last_frame m) (msp_last_frame_time m) (msp_flags m).
Definition msp_with_last fr ts (m : tcp_multisegment_pdu) :=
  Msp (msp_seq m) (msp_nxtpdu m) (msp_first_frame m) (msp_first_frame_with_seq m)
      fr ts (msp_flags m).
Definition msp_with_first_frame_with_seq v (m : tcp_multisegment_pdu) :=
  Msp (msp_seq m) (msp_nxtpdu m) (msp_first_frame m) v
      (msp_last_frame m) (msp_last_frame_time m) (msp_flags m).

End Upd.
Import Upd.

(** ** Sequence analysis: [tcp_analyze_sequence_number] *)

Module Seq.

(** [tcpd->fwd] and [tcpd->rev] *)
Definition fwd (t : tcp_analysis) : tcp_flow_t :=
  if fwd_is_flow1 t then flow1 t else flow2 t.
Definition rev (t : tcp_analysis) : tcp_flow_t :=
  if fwd_is_flow1 t then flow2 t else flow1 t.

Definition upd_fwd (g : tcp_flow_t -> tcp_flow_t) (t : tcp_analysis) : tcp_analysis :=
  if fwd_is_flow1 t then an_flows (g (flow1 t)) (flow2 t) t
  else an_flows (flow1 t) (g (flow2 t)) t.
Definition upd_rev (g : tcp_flow_t -> tcp_flow_t) (t : tcp_analysis) : tcp_analysis :=
  if fwd_is_flow1 t then an_flows (flow1 t) (g (flow2 t)) t
  else an_flows (g (flow1 t)) (flow2 t) t.

(** [flow->tcp_analyze_seq_info] *)
Abbreviation si f := (tcp_analyze_seq_info f).

(** packet-tcp.c:1803-1830 (the NULL test on [tcpd] is made by the callers
    below, which hold a record). *)
Definition tcp_analyze_get_acked_struct
           (frame seq ack : Z) (createflag : bool) (t : tcp_analysis) : tcp_analysis :=
  let key : acked_key := (frame, seq, ack) in
  match acked_table t !! key with
  | Some _ => an_ta (Some key) (acked_table t) t
  | None =>
      if createflag
      then an_ta (Some key) (<[key := tcp_acked0]> (acked_table t)) t
      else an_ta None (acked_table t) t
  end.

(** [tcpd->ta != NULL] and [*tcpd->ta] *)
Definition has_ta (t : tcp_analysis) : bool :=
  match ta t with Some _ => true | None => false end.
Definition ta_deref (t : tcp_analysis) : option tcp_acked :=
  match ta t with Some k => acked_table t !! k | None => None end.
(** [tcpd->ta->flags], read where the code has tested [tcpd->ta] *)
Definition cur_flags (t : tcp_analysis) : Z :=
  match ta_deref t with Some a => ta_flags a | None => 0 end.

(** [if(!tcpd->ta) tcp_analyze_get_acked_struct(pinfo->num, seq, ack, TRUE, tcpd);] *)
Definition ensure_ta (pinfo : packet_info) (seq ack : Z) (t : tcp_analysis) : tcp_analysis :=
  match ta t with
  | Some _ => t
  | None => tcp_analyze_get_acked_struct (num pinfo) seq ack true t
  end.

(** a write through [tcpd->ta] *)
Definition ta_modify (g : tcp_acked -> tcp_acked) (t : tcp_analysis) : tcp_analysis :=
  match ta t with
  | Some k => an_ta (Some k) (alter g k (acked_table t)) t
  | None => t
  end.

(** [if(!tcpd->ta) ...get_acked_struct...; tcpd->ta->flags |= F;] *)
Definition set_flag (pinfo : packet_info) (seq ack F : Z) (t : tcp_analysis) : tcp_analysis :=
  ta_modify (fun a => ta_with_flags (Z.lor (ta_flags a) F) a) (ensure_ta pinfo seq ack t).

(** [(flags&(TH_SYN|TH_FIN|TH_RST))==0] *)
Definition no_syn_fin_rst (flags : Z) : bool :=
  Z.land flags (Z.lor TH_SYN (Z.lor TH_FIN TH_RST)) =? 0.

(** the guint64 [t] of lines 2133-2134 and 2150-2151 *)
Definition time_since (now past : nstime_t) : Z :=
  let t := u64 ((secs now - secs past) * 1000000000) in
  u64 (t + nsecs now - nsecs past).

Section Analysis.

(** The preference [tcp_track_bytes_in_flight] (packet-tcp.c:1319) and the
    bound TCP_MAX_UNACKED_SEGMENTS, a macro of packet-tcp.h. *)
Variable tcp_track_bytes_in_flight : bool.
Variable TCP_MAX_UNACKED_SEGMENTS : Z.

Variable pinfo : packet_info.
Variables seq ack seglen flags window : Z.

Let flag F := set_flag pinfo seq ack F.

(** *** The conditions, on the forward flow [f] and the reverse flow [r] *)

(** packet-tcp.c:1912-1914, ZERO WINDOW PROBE *)
Definition zwp_test (f r : tcp_flow_t) : bool :=
  (seglen =? 1)
  && (seq =? nextseq (si f))
  && (T.window r =? 0).

(** packet-tcp.c:1926-1927, ZERO WINDOW *)
Definition zero_window_test : bool :=
  (window =? 0) && (Z.land flags (Z.lor TH_RST (Z.lor TH_FIN TH_SYN)) =? 0).

(** packet-tcp.c:1943-1945, LOST PACKET *)
Definition lost_test (f : tcp_flow_t) : bool :=
  negb (nextseq (si f) =? 0)
  && GT_SEQ seq (nextseq (si f))
  && (Z.land flags TH_RST =? 0).

(** packet-tcp.c:1961-1963, KEEP ALIVE *)
Definition keepalive_test (f : tcp_flow_t) : bool :=
  ((seglen =? 0) || (seglen =? 1))
  && (seq =? u32 (nextseq (si f) - 1))
  && no_syn_fin_rst flags.

(** packet-tcp.c:1974-1979, WINDOW UPDATE *)
Definition window_update_test (f : tcp_flow_t) : bool :=
  (seglen =? 0)
  && negb (window =? 0)
  && negb (window =? T.window f)
  && (seq =? nextseq (si f))
  && (ack =? lastack (si f))
  && no_syn_fin_rst flags.

(** packet-tcp.c:1994-1997, WINDOW FULL *)
Definition window_full_test (r : tcp_flow_t) : bool :=
  (0 <? seglen)
  && negb (win_scale r =? -1)
  && (u32 (seq + seglen)
      =? u32 (lastack (si r)
              + u32 (Z.shiftl (T.window r)
                              (if win_scale r =? -2 then 0 else win_scale r))))
  && no_syn_fin_rst flags.

(** packet-tcp.c:2009-2015, KEEP ALIVE ACK *)
Definition keepalive_ack_test (f r : tcp_flow_t) : bool :=
  (seglen =? 0)
  && negb (window =? 0)
  && (window =? T.window f)
  && (seq =? nextseq (si f))
  && (ack =? lastack (si f))
  && tst (lastsegmentflags r) TCP_A_KEEP_ALIVE
  && no_syn_fin_rst flags.

(** packet-tcp.c:2029-2035, ZERO WINDOW PROBE ACK *)
Definition zwp_ack_test (f r : tcp_flow_t) : bool :=
  (seglen =? 0)
  && (window =? 0)
  && (window =? T.window f)
  && (seq =? nextseq (si f))
  && (ack =? lastack (si f))
  && tst (lastsegmentflags r) TCP_A_ZERO_WINDOW_PROBE
  && no_syn_fin_rst flags.

(** packet-tcp.c:2048-2053, DUPLICATE ACK *)
Definition dupack_test (f : tcp_flow_t) : bool :=
  (seglen =? 0)
  && negb (window =? 0)
  && (window =? T.window f)
  && (seq =? nextseq (si f))
  && (ack =? lastack (si f))
  && no_syn_fin_rst flags.

(** packet-tcp.c:2081-2083, ACKED LOST PACKET *)
Definition ack_lost_test (r : tcp_flow_t) : bool :=
  negb (maxseqtobeacked (si r) =? 0)
  && GT_SEQ ack (maxseqtobeacked (si r))
  && tst flags TH_ACK.

(** packet-tcp.c:2105-2106 and 2122-2124 *)
Definition seq_not_advanced (f : tcp_flow_t) : bool :=
  let sna := negb (nextseq (si f) =? 0) && LT_SEQ seq (nextseq (si f)) in
  if (1 <? seglen) && (u32 (nextseq (si f) - 1) =? seq) then false else sna.

(** packet-tcp.c:2133-2138, FAST RETRANSMISSION *)
Definition fast_retransmission_test (f r : tcp_flow_t) : bool :=
  seq_not_advanced f
  && (2 <=? dupacknum (si r))
  && (lastack (si r) =? seq)
  && (time_since (abs_ts pinfo) (lastacktime (si r)) <? 20000000).

(** packet-tcp.c:2152-2156 *)
Definition ooo_thres (first_rtt : nstime_t) : Z :=
  if (nsecs first_rtt =? 0) && (secs first_rtt =? 0)
  then 3000000
  else u64 (nsecs first_rtt + secs first_rtt * 1000000000).

(** packet-tcp.c:2150-2160, OUT-OF-ORDER *)
Definition out_of_order_test (f : tcp_flow_t) (first_rtt : nstime_t) : bool :=
  seq_not_advanced f
  && (time_since (abs_ts pinfo) (nextseqtime (si f)) <? ooo_thres first_rtt)
  && negb (nextseq (si f) =? u32 (seq + seglen)).

(** packet-tcp.c:2172-2174, SPURIOUS RETRANSMISSION *)
Definition spurious_test (r : tcp_flow_t) : bool :=
  (0 <? seglen)
  && negb (lastack (si r) =? 0)
  && LE_SEQ (u32 (seq + seglen)) (lastack (si r)).

(** *** The function, part by part *)

(** packet-tcp.c:1875-1884, the forward flow's base sequence number *)
Definition store_fwd_base_seq (f : tcp_flow_t) : tcp_flow_t :=
  if negb (tst (static_flags f) TCP_S_BASE_SEQ_SET) then
    let f :=
      if tst flags TH_SYN then
        fl_static_flags
          (u8 (Z.lor (static_flags f)
                     (if tst flags TH_ACK then TCP_S_SAW_SYNACK else TCP_S_SAW_SYN)))
          (fl_base_seq seq f)
      else fl_base_seq (u32 (seq - 1)) f in
    fl_static_flags (u8 (Z.lor (static_flags f) TCP_S_BASE_SEQ_SET)) f
  else f.

(** packet-tcp.c:1897-1904, the reverse flow's base sequence number and the
    validity of its bytes in flight *)
Definition store_rev_base_seq (r : tcp_flow_t) : tcp_flow_t :=
  let r :=
    if negb (tst (static_flags r) TCP_S_BASE_SEQ_SET) && tst flags TH_ACK then
      fl_static_flags (u8 (Z.lor (static_flags r) TCP_S_BASE_SEQ_SET))
                      (fl_base_seq (u32 (ack - 1)) r)
    else r in
  if tst flags TH_ACK then fl_valid_bif true r else r.

(** packet-tcp.c:1875-1904 *)
Definition store_base_seq (t : tcp_analysis) : tcp_analysis :=
  upd_rev store_rev_base_seq (upd_fwd store_fwd_base_seq t).

(** packet-tcp.c:1923-1932 *)
Definition check_zero_window (t : tcp_analysis) : tcp_analysis :=
  if zero_window_test then flag TCP_A_ZERO_WINDOW t else t.

(** packet-tcp.c:1935-1953 *)
Definition check_lost_packet (t : tcp_analysis) : tcp_analysis :=
  if lost_test (fwd t)
  then upd_fwd (fl_valid_bif false) (flag TCP_A_LOST_PACKET t)
  else t.

(** packet-tcp.c:1956-1968 *)
Definition check_keep_alive (t : tcp_analysis) : tcp_analysis :=
  if keepalive_test (fwd t) then flag TCP_A_KEEP_ALIVE t else t.

(** packet-tcp.c:1970-1984 *)
Definition check_window_update (t : tcp_analysis) : tcp_analysis :=
  if window_update_test (fwd t) then flag TCP_A_WINDOW_UPDATE t else t.

(** packet-tcp.c:1987-2002 *)
Definition check_window_full (t : tcp_analysis) : tcp_analysis :=
  if window_full_test (rev t) then flag TCP_A_WINDOW_FULL t else t.

(** packet-tcp.c:2054-2060, the body of DUPLICATE ACK *)
Definition count_duplicate_ack (t : tcp_analysis) : tcp_analysis :=
  let t := upd_fwd (fl_si (fun i => si_dupacknum (u32 (dupacknum i + 1)) i)) t in
  let t := flag TCP_A_DUPLICATE_ACK t in
  ta_modify (ta_with_dupack (dupacknum (si (fwd t))) (lastnondupack (si (fwd t)))) t.

(** packet-tcp.c:1906-2061: the checks up to the label [finished_fwd].
    The three [goto finished_fwd] are the three branches that return
    at once. *)
Definition forward_checks (t : tcp_analysis) : tcp_analysis :=
  if zwp_test (fwd t) (rev t) then flag TCP_A_ZERO_WINDOW_PROBE t
  else
  let t := check_zero_window t in
  let t := check_lost_packet t in
  let t := check_keep_alive t in
  let t := check_window_update t in
  let t := check_window_full t in
  if keepalive_ack_test (fwd t) (rev t) then flag TCP_A_KEEP_ALIVE_ACK t
  else
  if zwp_ack_test (fwd t) (rev t) then flag TCP_A_ZERO_WINDOW_PROBE_ACK t
  else
  if dupack_test (fwd t) then count_duplicate_ack t
  else t.

(** packet-tcp.c:2066-2070 *)
Definition reset_dupack (t : tcp_analysis) : tcp_analysis :=
  if negb (ack =? lastack (si (fwd t))) then
    upd_fwd (fl_si (fun i => si_dupacknum 0 (si_lastnondupack (num pinfo) i))) t
  else t.

(** packet-tcp.c:2073-2092 *)
Definition check_ack_lost_packet (t : tcp_analysis) : tcp_analysis :=
  if ack_lost_test (rev t) then
    upd_rev (fl_si (fun i => si_maxseqtobeacked (nextseq i) i))
            (flag TCP_A_ACK_LOST_PACKET t)
  else t.

(** packet-tcp.c:2065-2092, from the label [finished_fwd] on *)
Definition finished_fwd (t : tcp_analysis) : tcp_analysis :=
  check_ack_lost_packet (reset_dupack t).

(** packet-tcp.c:2104-2193: retransmission, fast retransmission,
    out-of-order, spurious retransmission. Every [goto
    finished_checking_retransmission_type] is a branch that returns. *)
Definition check_retransmission (t : tcp_analysis) : tcp_analysis :=
  if (0 <? seglen) || tst flags (Z.lor TH_SYN TH_FIN) then
    if has_ta t && tst (cur_flags t) TCP_A_KEEP_ALIVE then t
    else
    if fast_retransmission_test (fwd t) (rev t) then flag TCP_A_FAST_RETRANSMISSION t
    else
    if out_of_order_test (fwd t) (ts_first_rtt t) then flag TCP_A_OUT_OF_ORDER t
    else
    if spurious_test (rev t) then flag TCP_A_SPURIOUS_RETRANSMISSION t
    else
    if seq_not_advanced (fwd t) then
      let rto := nstime_delta (abs_ts pinfo) (nextseqtime (si (fwd t))) in
      let frm := nextseqframe (si (fwd t)) in
      ta_modify (ta_with_rto frm rto) (flag TCP_A_RETRANSMISSION t)
    else t
  else t.

(** [!tcpd->ta || !(tcpd->ta->flags&TCP_A_ZERO_WINDOW_PROBE)] *)
Definition not_zwp (t : tcp_analysis) : bool :=
  negb (has_ta t) || negb (tst (cur_flags t) TCP_A_ZERO_WINDOW_PROBE).

(** the condition of line 2196 *)
Definition keeps_segment (f : tcp_flow_t) : bool :=
  (negb (seglen =? 0) || tst flags (Z.lor TH_SYN TH_FIN))
  && (segment_count (si f) <? TCP_MAX_UNACKED_SEGMENTS).

(** packet-tcp.c:2195-2213: the local [nextseq] at line 2215 *)
Definition segment_nextseq (f : tcp_flow_t) : Z :=
  let nxt := u32 (seq + seglen) in
  if keeps_segment f
  then if tst flags (Z.lor TH_SYN TH_FIN) then u32 (nxt + 1) else nxt
  else nxt.

(** packet-tcp.c:2196-2213: the new entry at the head of the forward list *)
Definition add_unacked (nxt : Z) (f : tcp_flow_t) : tcp_flow_t :=
  if keeps_segment f then
    fl_si (fun i =>
      si_segment_count (u16 (segment_count i + 1))
        (si_segments (Unacked (num pinfo) seq nxt (abs_ts pinfo) :: segments i) i)) f
  else f.

(** packet-tcp.c:2215-2227: the highest [nextseq] seen so far *)
Definition store_nextseq (nxt : Z) (zwp_free : bool) (f : tcp_flow_t) : tcp_flow_t :=
  if GT_SEQ nxt (nextseq (si f)) || (nextseq (si f) =? 0) then
    if zwp_free then
      fl_si (fun i =>
        si_nextseqtime (abs_ts pinfo) (si_nextseqframe (num pinfo) (si_nextseq nxt i))) f
    else f
  else f.

(** packet-tcp.c:2229-2236: the highest continuous sequence number *)
Definition store_maxseqtobeacked (zwp_free : bool) (f : tcp_flow_t) : tcp_flow_t :=
  if EQ_SEQ seq (maxseqtobeacked (si f)) || (maxseqtobeacked (si f) =? 0) then
    if zwp_free then fl_si (fun i => si_maxseqtobeacked (nextseq i) i) f
    else f
  else f.

(** packet-tcp.c:2239-2243 *)
Definition store_ack_window (f : tcp_flow_t) : tcp_flow_t :=
  fl_si (fun i => si_lastacktime (abs_ts pinfo) (si_lastack ack i)) (fl_window window f).

(** packet-tcp.c:2195-2253 on the forward flow, the only thing the block
    writes; [zwp_free] and [last_flags] are what it reads of the packet's
    result *)
Definition remember_flow (zwp_free : bool) (last_flags : Z) (f : tcp_flow_t) : tcp_flow_t :=
  let nxt := segment_nextseq f in
  let f := add_unacked nxt f in
  let f := store_nextseq nxt zwp_free f in
  let f := store_maxseqtobeacked zwp_free f in
  let f := store_ack_window f in
  fl_lastsegmentflags last_flags f.

(** packet-tcp.c:2195-2253: the state remembered for the next segment *)
Definition remember_segment (t : tcp_analysis) : tcp_analysis :=
  upd_fwd (remember_flow (not_zwp t) (if has_ta t then cur_flags t else 0)) t.

(** packet-tcp.c:2282-2301: an entry leaves the reverse list *)
Definition delete_unacked (ual : tcp_unacked_t) (t : tcp_analysis) : tcp_analysis :=
  let t :=
    if scps_capable (rev t) then
      if maxsizeacked (fwd t) <? u32 (ual_nextseq ual - ual_seq ual)
      then upd_fwd (fl_maxsizeacked (u16 (u32 (ual_nextseq ual - ual_seq ual)))) t
      else t
    else t in
  upd_rev (fl_si (fun i => si_segment_count (u16 (segment_count i - 1)) i)) t.

(** packet-tcp.c:2261-2302, the walk over the reverse list. The result is
    the list that remains. An entry that the ACK covers in part has its
    [seq] moved to [ack] and is then visited again ([continue] without
    stepping): on that second visit the first test fails as before and
    the second fails because [GT_SEQ(ack, ack)] is false, which leaves the
    third test and the deletion. *)
Fixpoint ack_walk (l : list tcp_unacked_t) (t : tcp_analysis)
  : list tcp_unacked_t * tcp_analysis :=
  match l with
  | [] => ([], t)
  | ual :: next =>
      if ack =? ual_nextseq ual then
        let t := tcp_analyze_get_acked_struct (num pinfo) seq ack true t in
        let t := ta_modify (ta_with_acked (ual_frame ual)
                                          (nstime_delta (abs_ts pinfo) (ual_ts ual))) t in
        ack_walk next (delete_unacked ual t)
      else
        let ual :=
          if GT_SEQ ack (ual_seq ual) && LE_SEQ ack (ual_nextseq ual)
          then Unacked (ual_frame ual) ack (ual_nextseq ual) (ual_ts ual)
          else ual in
        if GT_SEQ (ual_nextseq ual) ack then
          let '(kept, t) := ack_walk next t in (ual :: kept, t)
        else
          ack_walk next (delete_unacked ual t)
  end.

(** packet-tcp.c:2256-2302 *)
Definition remove_acked_segments (t : tcp_analysis) : tcp_analysis :=
  let '(kept, t) := ack_walk (segments (si (rev t))) t in
  upd_rev (fl_si (si_segments kept)) t.

(** packet-tcp.c:2311-2321: the scan of the forward list for the lowest
    [seq] and the highest [nextseq], both relative to [base_seq] *)
Definition in_flight_range (base : Z) (ual0 : tcp_unacked_t) (l : list tcp_unacked_t)
  : Z * Z :=
  fold_left
    (fun (acc : Z * Z) (ual : tcp_unacked_t) =>
       let '(first_seq, last_seq) := acc in
       let last_seq :=
         if last_seq <? u32 (ual_nextseq ual - base)
         then u32 (ual_nextseq ual - base) else last_seq in
       let first_seq :=
         if u32 (ual_seq ual - base) <? first_seq
         then u32 (ual_seq ual - base) else first_seq in
       (first_seq, last_seq))
    l
    (u32 (ual_seq ual0 - base), u32 (ual_nextseq ual0 - base)).

(** [in_flight] of line 2322 *)
Definition in_flight (f : tcp_flow_t) : Z :=
  match segments (si f) with
  | [] => 0
  | ual0 :: _ =>
      let '(first_seq, last_seq) := in_flight_range (base_seq f) ual0 (segments (si f)) in
      u32 (last_seq - first_seq)
  end.

(** the condition of line 2308 *)
Definition tracks_in_flight (f : tcp_flow_t) : bool :=
  tcp_track_bytes_in_flight
  && negb (seglen =? 0)
  && match segments (si f) with [] => false | _ :: _ => true end
  && valid_bif f.

(** packet-tcp.c:2331-2342: the bytes sent since the last PSH *)
Definition count_push_bytes (f : tcp_flow_t) : tcp_flow_t :=
  if tst flags TH_PUSH && negb (push_set_last f) then
    fl_push (u32 (push_bytes_sent f + seglen)) true f
  else if tst flags TH_PUSH && push_set_last f then
    fl_push seglen true f
  else if push_set_last f then
    fl_push seglen false f
  else
    fl_push (u32 (push_bytes_sent f + seglen)) (push_set_last f) f.

(** packet-tcp.c:2304-2347 ([pinfo->fd->num] of line 2344 is the frame
    number [pinfo->num]) *)
Definition track_bytes_in_flight (t : tcp_analysis) : tcp_analysis :=
  if tracks_in_flight (fwd t) then
    let in_flight := in_flight (fwd t) in
    let t :=
      if (0 <? in_flight) && (in_flight <? 2000000000)
      then ta_modify (ta_with_bif in_flight) (ensure_ta pinfo seq ack t)
      else t in
    let t := upd_fwd count_push_bytes t in
    ta_modify (ta_with_push (push_bytes_sent (fwd t))) (ensure_ta pinfo seq ack t)
  else t.

(** packet-tcp.c:1843-2349 on a connection record *)
Definition analyze (t : tcp_analysis) : tcp_analysis :=
  let t := store_base_seq t in
  let t := forward_checks t in
  let t := finished_fwd t in
  let t := check_retransmission t in
  let t := remember_segment t in
  let t := remove_acked_segments t in
  track_bytes_in_flight t.

(** packet-tcp.c:1843-2349; [if (!tcpd) return;] *)
Definition tcp_analyze_sequence_number (tcpd : option tcp_analysis)
  : option tcp_analysis :=
  match tcpd with
  | None => None
  | Some t => Some (analyze t)
  end.

End Analysis.

End Seq.


(** ** Conversation records: creation, orientation, port reuse *)

Module Conv.

(** a zeroed tcp_flow_t as [init_tcp_conversation_data] leaves it
    (packet-tcp.c:1412-1446, with [tcp_analyze_seq] on, its default) *)
Definition flow0 : tcp_flow_t :=
  Flow 0 0 0 0xFFFFFFFF (-1) false 0 true 0 false 0 0 0 ∅ seq_info0.

(** packet-tcp.c:1406-1451; [stream_count] is the global [tcp_stream_count]
    the new record takes its stream index from *)
Definition init_tcp_conversation_data (stream_count : Z) : tcp_analysis :=
  Analysis flow0 flow0 true None ∅ nstime_zero stream_count.

(** packet-tcp.c:1511-1527 of [get_tcp_conversation_data], on the record the
    conversation holds: [direction] is the result of [cmp_address], ties
    broken by the ports; the caller of [dissect_tcp] supplies the
    conversation, so [ta] is cleared *)
Definition get_tcp_conversation_data (direction : Z) (t : tcp_analysis) : tcp_analysis :=
  Analysis (flow1 t) (flow2 t) (0 <=? direction) None (acked_table t)
           (ts_first_rtt t) (stream t).

(** packet-tcp.c:6088-6102 of [dissect_tcp]: a SYN without ACK whose
    sequence number is not the base the flow already has. On the first pass
    a new conversation is made and its fresh record takes the place of the
    old one. The second component tells whether that happened. *)
Definition reused_ports_syn (pinfo : packet_info) (direction stream_count : Z)
           (th_flags th_seq th_ack : Z) (t : tcp_analysis) : tcp_analysis * bool :=
  if (Z.land th_flags (Z.lor TH_SYN TH_ACK) =? TH_SYN)
     && tst (static_flags (Seq.fwd t)) TCP_S_BASE_SEQ_SET
     && negb (th_seq =? base_seq (Seq.fwd t))
  then
    let '(t, fresh) :=
      if negb (visited pinfo)
      then (get_tcp_conversation_data direction (init_tcp_conversation_data stream_count),
            true)
      else (t, false) in
    (Seq.set_flag pinfo th_seq th_ack TCP_A_REUSED_PORTS t, fresh)
  else (t, false).

(** packet-tcp.c:6111-6130 of [dissect_tcp]: a SYN/ACK whose sequence number
    is not the base the flow already has. [other_conv] is the record of the
    conversation [find_conversation] returns for the reversed addresses, if
    any; the second component tells whether the record was exchanged. *)
Definition reused_ports_synack (pinfo : packet_info) (direction : Z)
           (other_conv : option tcp_analysis)
           (th_flags th_seq th_ack : Z) (t : tcp_analysis) : tcp_analysis * bool :=
  if (Z.land th_flags (Z.lor TH_SYN TH_ACK) =? Z.lor TH_SYN TH_ACK)
     && tst (static_flags (Seq.fwd t)) TCP_S_BASE_SEQ_SET
     && negb (th_seq =? base_seq (Seq.fwd t))
  then
    let '(t, other) :=
      match other_conv with
      | Some o => (get_tcp_conversation_data direction o, true)
      | None => (t, false)
      end in
    (Seq.set_flag pinfo th_seq th_ack TCP_A_REUSED_PORTS t, other)
  else (t, false).

(** One segment as [dissect_tcp] hands it to the analysis. *)
Record segment := Segment {
  sg_pinfo     : packet_info;
  sg_direction : Z;
  sg_seq       : Z;
  sg_ack       : Z;
  sg_seglen    : Z;
  sg_flags     : Z;
  sg_window    : Z
}.

Section FirstPass.

Variable tcp_track_bytes_in_flight : bool.
Variable TCP_MAX_UNACKED_SEGMENTS : Z.

(** The call of line 6190 on the record of the segment's conversation,
    oriented for the segment (lines 6078 and 1511-1527). *)
Definition analyze_segment (g : segment) (t : tcp_analysis) : tcp_analysis :=
  Seq.analyze tcp_track_bytes_in_flight TCP_MAX_UNACKED_SEGMENTS
              (sg_pinfo g) (sg_seq g) (sg_ack g) (sg_seglen g) (sg_flags g) (sg_window g)
              (get_tcp_conversation_data (sg_direction g) t).

(** The records a conversation goes through while its segments are analysed
    one after the other, the first being the one it starts from. *)
Fixpoint first_pass (gs : list segment) (t : tcp_analysis) : list tcp_analysis :=
  match gs with
  | [] => [t]
  | g :: gs => t :: first_pass gs (analyze_segment g t)
  end.

(** packet-tcp.c:6066-6130 and 6187-6191 of [dissect_tcp] on the first pass:
    the record is fetched and oriented, the two port-reuse tests may
    exchange it, and the analysis runs on what they leave. The second
    component tells whether the record was exchanged. *)
Definition dissect_tcp_analysis (stream_count : Z) (other_conv : option tcp_analysis)
           (g : segment) (t : tcp_analysis) : tcp_analysis * bool :=
  let t := get_tcp_conversation_data (sg_direction g) t in
  let '(t, fresh) :=
    reused_ports_syn (sg_pinfo g) (sg_direction g) stream_count
                     (sg_flags g) (sg_seq g) (sg_ack g) t in
  let '(t, other) :=
    reused_ports_synack (sg_pinfo g) (sg_direction g) other_conv
                        (sg_flags g) (sg_seq g) (sg_ack g) t in
  (if visited (sg_pinfo g) then t
   else Seq.analyze tcp_track_bytes_in_flight TCP_MAX_UNACKED_SEGMENTS
                    (sg_pinfo g) (sg_seq g) (sg_ack g) (sg_seglen g) (sg_flags g)
                    (sg_window g) t,
   fresh || other).

End FirstPass.

End Conv.


(** ** The PDU loop: [tcp_dissect_pdus] *)

Module Pdus.

(** The fields of packet_info the loop reads and writes; [ext] stands for
    everything else the two callbacks may reach through their arguments. *)
Record pdu_pinfo (X : Type) := PduPInfo {
  can_desegment        : Z;
  desegment_offset     : Z;
  desegment_len        : Z;
  want_pdu_tracking    : Z;
  bytes_until_next_pdu : Z;
  fd_visited           : bool;
  ext                  : X
}.
Arguments PduPInfo {X}.
Arguments can_desegment {X}.
Arguments desegment_offset {X}.
Arguments desegment_len {X}.
Arguments want_pdu_tracking {X}.
Arguments bytes_until_next_pdu {X}.
Arguments fd_visited {X}.
Arguments ext {X}.

(** What a call of [dissect_pdu] inside TRY ... CATCH_NONFATAL_ERRORS comes
    to: it returns, it throws an error the loop reports and survives, or it
    throws one that leaves the function. *)
Inductive dissect_result (X : Type) :=
| Dissected (p : pdu_pinfo X)
| NonFatal (p : pdu_pinfo X)
| Fatal (p : pdu_pinfo X).
Arguments Dissected {X}.
Arguments NonFatal {X}.
Arguments Fatal {X}.

(** How [tcp_dissect_pdus] is left. *)
Inductive pdus_exit (X : Type) :=
| Returned (p : pdu_pinfo X)
| Raised (p : pdu_pinfo X).
Arguments Returned {X}.
Arguments Raised {X}.

Section Loop.

Context {X : Type}.

(** tvbuff accessors on the [tvb] argument (epan/tvbuff.c), as functions of
    the offset; [tvb_ensure_captured_length_remaining] throws when nothing
    is left ([None]). *)
Variable tvb_reported_length_remaining : Z -> Z.
Variable tvb_ensure_captured_length_remaining : Z -> option Z.
(** [proto_tree_add_uint] (epan/proto.c) for the PDU size, on [tvb] at
    [offset] with the length [plen], and [tvb_new_subset_length_caplen]
    (epan/tvbuff.c) on [tvb] at [offset] with the captured length [length]
    and the reported length [plen]. Both take the unsigned [plen] as a
    [gint] and may throw; [false] is the call that throws, which
    [tvb_new_subset_length_caplen] does for a reported length below -1,
    that is for a [plen] from 2^31 to 2^32 - 2. *)
Variable proto_tree_add_uint : Z -> Z -> bool.
Variable tvb_new_subset_length_caplen : Z -> Z -> Z -> bool.

Variable proto_desegment : bool.
Variable fixed_len : Z.
(** [get_pdu_len] returns the length or throws ([None]). *)
Variable get_pdu_len : pdu_pinfo X -> Z -> option (Z * pdu_pinfo X).
(** [dissect_pdu] on the sub-buffer at [offset] of captured length [length]
    and reported length [plen]. *)
Variable dissect_pdu : pdu_pinfo X -> Z -> Z -> Z -> dissect_result X.
(** the preference [tcp_analyze_seq] (packet-tcp.c:1317) *)
Variable tcp_analyze_seq : bool.

Definition ask_more (offset len : Z) (p : pdu_pinfo X) : pdu_pinfo X :=
  PduPInfo (can_desegment p) offset len (want_pdu_tracking p)
           (bytes_until_next_pdu p) (fd_visited p) (ext p).

Definition hint_next_pdu (n : Z) (p : pdu_pinfo X) : pdu_pinfo X :=
  PduPInfo (can_desegment p) (desegment_offset p) (desegment_len p) 2 n
           (fd_visited p) (ext p).

(** packet-tcp.c:3668-3841. [fuel] bounds the iterations of the [while];
    the second component of the result lists the (offset, plen) pairs
    [dissect_pdu] was called at, in order. *)
Fixpoint pdus_loop (fuel : nat) (offset : Z) (p : pdu_pinfo X) (calls : list (Z * Z))
  : option (pdus_exit X * list (Z * Z)) :=
  match fuel with
  | O => None
  | S fuel =>
    if 0 <? tvb_reported_length_remaining offset then
      match tvb_ensure_captured_length_remaining offset with
      | None => Some (Raised p, calls)
      | Some captured_length_remaining =>
        if proto_desegment && negb (can_desegment p =? 0)
           && (captured_length_remaining <? fixed_len)
        then Some (Returned (ask_more offset DESEGMENT_ONE_MORE_SEGMENT p), calls)
        else
        match get_pdu_len p offset with
        | None => Some (Raised p, calls)
        | Some (plen, p) =>
          if plen =? 0 then
            (* DISSECTOR_ASSERT(proto_desegment && pinfo->can_desegment) *)
            if proto_desegment && negb (can_desegment p =? 0)
            then Some (Returned (ask_more offset DESEGMENT_ONE_MORE_SEGMENT p), calls)
            else Some (Raised p, calls)
          else if plen <? fixed_len then
            (* show_reported_bounds_error *)
            Some (Returned p, calls)
          else
          let p :=
            if negb (fd_visited p) && tcp_analyze_seq then
              let remaining_bytes := u32 (tvb_reported_length_remaining offset) in
              if remaining_bytes <? plen
              then hint_next_pdu (u32 (plen - remaining_bytes)) p
              else p
            else p in
          if proto_desegment && negb (can_desegment p =? 0)
             && (captured_length_remaining <? plen)
          then Some (Returned (ask_more offset (u32 (plen - captured_length_remaining)) p),
                     calls)
          else
          if negb (proto_tree_add_uint offset plen) then Some (Raised p, calls)
          else
          let length := if plen <? captured_length_remaining
                        then plen else captured_length_remaining in
          (* outside the TRY: an exception of the sub-buffer leaves the function *)
          if negb (tvb_new_subset_length_caplen offset length plen)
          then Some (Raised p, calls)
          else
          let calls := calls ++ [(offset, plen)] in
          match dissect_pdu p offset length plen with
          | Fatal p => Some (Raised p, calls)
          | Dissected p | NonFatal p =>
            (* Step to the next PDU. Make sure we don't overflow. *)
            let offset_before := offset in
            let offset := s32 (offset + plen) in
            if offset <=? offset_before then Some (Returned p, calls)
            else pdus_loop fuel offset p calls
          end
        end
      end
    else Some (Returned p, calls)
  end.

(** packet-tcp.c:3651-3842 on a buffer of reported length [reported_length];
    the loop is given one more round than the buffer has bytes. *)
Definition tcp_dissect_pdus (reported_length : Z) (p : pdu_pinfo X)
  : option (pdus_exit X * list (Z * Z)) :=
  pdus_loop (S (Z.to_nat reported_length)) 0 p [].

End Loop.

End Pdus.


(** ** Desegmentation: [desegment_tcp] and the FIN handling of [dissect_tcp] *)

Module Reasm.

(** Modelled from the spec: the wmem tree operations on an index keyed by a
    32-bit number (wmem_tree.c is not under src/). Section 9 of the
    specification asks of the index an exact lookup and the
    "less-or-equal" range query, "closest MSP at or before a sequence
    number". A pointer to a stored struct is the key it is stored under. *)
Definition wmem_tree_lookup32 {V} (m : gmap Z V) (k : Z) : option Z :=
  match m !! k with Some _ => Some k | None => None end.

Definition wmem_tree_lookup32_le {V} (m : gmap Z V) (k : Z) : option Z :=
  map_fold
    (fun (key : Z) (_ : V) (best : option Z) =>
       if key <=? k then
         match best with
         | Some b => if b <? key then Some key else best
         | None => Some key
         end
       else best)
    None m.

(** fragment_head of epan/reassemble.h: the fields read here. [fd_items] are
    the (offset, len) pairs of the chain that starts at the head. *)
Record fragment_head := FdHead {
  reassembled_in : Z;
  datalen        : Z;
  fd_flags       : Z;
  fd_items       : list (Z * Z);
  tvb_data_len   : Z
}.

Definition FD_PARTIAL_REASSEMBLY : Z := 0x0040.

(** The buffer handed to the subdissector: the segment's own tvb from an
    offset on, or the tvb chained from a reassembly head. *)
Inductive buffer :=
| SegmentTvb (offset : Z)
| ReassembledTvb (h : fragment_head).

(** One call of [process_tcp_payload] with [is_tcp_segment] FALSE, that is,
    of the subdissector chosen by [decode_tcp_ports]. *)
Record sub_call := SubCall {
  sc_frame          : Z;
  sc_visited        : bool;
  sc_buffer         : buffer;
  sc_seq            : Z;
  sc_is_reassembled : bool;
  sc_can_desegment  : Z
}.

(** What the subdissector leaves in [pinfo->desegment_offset] and
    [pinfo->desegment_len]. *)
Record sub_reply := SubReply {
  rp_desegment_offset : Z;
  rp_desegment_len    : Z
}.

(** What the functions put on the protocol tree and the columns, and the
    calls they make to the subdissector, in order. *)
Inductive event :=
| EvSubdissector (c : sub_call)
| EvSegmentData (retransmitted : bool) (offset nbytes : Z)
| EvReassembledIn (frame : Z)
| EvColSegmentOfPdu
| EvColProtocolTcp
| EvDataSource
| EvRemoveDataSource
| EvFragmentTree (h : fragment_head)
| EvFinRetransmission (frame : Z)
| EvColFence
| EvColWritable (b : bool).

(** The state the two functions thread: the connection record, the
    reassembly table, the desegmentation fields of packet_info, the struct
    tcpinfo, and the events so far. *)
Record dstate (R : Type) := DState {
  d_tcpd          : option tcp_analysis;
  d_table         : R;
  d_desegment_offset : Z;
  d_desegment_len : Z;
  d_can_desegment : Z;
  d_tcpinfo_seq   : Z;
  d_is_reassembled : bool;
  d_events        : list event
}.
Arguments DState {R}.
Arguments d_tcpd {R}.
Arguments d_table {R}.
Arguments d_desegment_offset {R}.
Arguments d_desegment_len {R}.
Arguments d_can_desegment {R}.
Arguments d_tcpinfo_seq {R}.
Arguments d_is_reassembled {R}.
Arguments d_events {R}.

(** The locals of [desegment_tcp] that survive from one part of a pass to the
    next. [msp] and [ipfd_head] are pointers: the first is the key of the
    MSP in the forward flow's index, the second a copy of the head. *)
Record locals := Locals {
  l_offset              : Z;
  l_seq                 : Z;
  l_msp                 : option Z;
  l_ipfd_head           : option fragment_head;
  l_last_fragment_len   : Z;
  l_must_desegment      : bool;
  l_called_dissector    : bool;
  l_another_pdu_follows : Z;
  l_deseg_offset        : Z;
  l_cleared_writable    : bool
}.

(** How one pass through the body of [desegment_tcp] ends. *)
Inductive pass_exit (R : Type) :=
| Return (s : dstate R)
| Again (offset seq : Z) (cleared_writable col_writable : bool) (s : dstate R)
| Raise (s : dstate R).
Arguments Return {R}.
Arguments Again {R}.
Arguments Raise {R}.

Section Desegment.

Context {R : Type}.

(** epan/reassemble.c on [tcp_reassembly_table]; the reassembly id is the
    MSP's [first_frame]. [fragment_add] returns the head when the
    reassembly is complete. *)
Variable fragment_get : R -> Z -> option fragment_head.
Variable fragment_add :
  R -> packet_info -> forall (tvb_offset id frag_offset frag_data_len : Z) (more_frags : bool),
  R * option fragment_head.
Variable fragment_reset_tot_len : R -> Z -> Z -> R.
Variable fragment_set_partial_reassembly : R -> Z -> R.

(** tvbuff accessors on the segment's [tvb] *)
Variable tvb_reported_length : Z.
Variable tvb_reported_length_remaining : Z -> Z.
Variable tvb_captured_length_remaining : Z -> Z.

(** the subdissector; [None] is an exception, which [process_tcp_payload]
    rethrows *)
Variable subdissector : sub_call -> option sub_reply.

(** the preferences [tcp_desegment] and [tcp_reassemble_out_of_order]
    (packet-tcp.c:2994, 2998) *)
Variable tcp_desegment : bool.
Variable tcp_reassemble_out_of_order : bool.

Variable pinfo : packet_info.
Variable nxtseq : Z.

Definition reassemble_ooo : bool := tcp_desegment && tcp_reassemble_out_of_order.

Definition emit (e : event) (s : dstate R) : dstate R :=
  DState (d_tcpd s) (d_table s) (d_desegment_offset s) (d_desegment_len s)
         (d_can_desegment s) (d_tcpinfo_seq s) (d_is_reassembled s) (d_events s ++ [e]).
Definition with_tcpd (t : option tcp_analysis) (s : dstate R) : dstate R :=
  DState t (d_table s) (d_desegment_offset s) (d_desegment_len s)
         (d_can_desegment s) (d_tcpinfo_seq s) (d_is_reassembled s) (d_events s).
Definition with_table (r : R) (s : dstate R) : dstate R :=
  DState (d_tcpd s) r (d_desegment_offset s) (d_desegment_len s)
         (d_can_desegment s) (d_tcpinfo_seq s) (d_is_reassembled s) (d_events s).
Definition with_desegment (off len can : Z) (s : dstate R) : dstate R :=
  DState (d_tcpd s) (d_table s) off len can (d_tcpinfo_seq s) (d_is_reassembled s)
         (d_events s).
Definition with_tcpinfo (sq : Z) (re : bool) (s : dstate R) : dstate R :=
  DState (d_tcpd s) (d_table s) (d_desegment_offset s) (d_desegment_len s)
         (d_can_desegment s) sq re (d_events s).

(** [tcpd->fwd->multisegment_pdus] *)
Definition msps (s : dstate R) : gmap Z tcp_multisegment_pdu :=
  match d_tcpd s with
  | Some t => multisegment_pdus (Seq.fwd t)
  | None => ∅
  end.

(** [*msp] and a write through [msp] *)
Definition msp_deref (s : dstate R) (msp : option Z) : option tcp_multisegment_pdu :=
  match msp with Some k => msps s !! k | None => None end.
Definition msp_modify (g : tcp_multisegment_pdu -> tcp_multisegment_pdu)
           (msp : option Z) (s : dstate R) : dstate R :=
  match msp, d_tcpd s with
  | Some k, Some t =>
      with_tcpd (Some (Seq.upd_fwd (fun f =>
        fl_multisegment_pdus (alter g k (multisegment_pdus f)) f) t)) s
  | _, _ => s
  end.

(** packet-tcp.c:1727-1743; the result is the pointer to the new MSP *)
Definition pdu_store_sequencenumber_of_next_pdu (sq nxtpdu : Z) (s : dstate R)
  : option Z * dstate R :=
  match d_tcpd s with
  | Some t =>
      let m := Msp sq nxtpdu (num pinfo) (num pinfo) (num pinfo) (abs_ts pinfo) 0 in
      (Some sq,
       with_tcpd (Some (Seq.upd_fwd (fun f =>
         fl_multisegment_pdus (<[sq := m]> (multisegment_pdus f)) f) t)) s)
  | None => (None, s)
  end.

(** packet-tcp.c:3002-3025; [None] is the failed DISSECTOR_ASSERT *)
Definition missing_segments (r : R) (m : tcp_multisegment_pdu) (sq : Z) : option bool :=
  let frag_offset := u32 (sq - msp_seq m) in
  if s32 frag_offset <=? 0 then Some false
  else
    match fragment_get r (msp_first_frame m) with
    | None => None
    | Some fd_head =>
        let max :=
          fold_left
            (fun (max : Z) (frag : Z * Z) =>
               let frag_end := u32 (fst frag + snd frag) in
               if (fst frag <=? max) && (max <? frag_end) then frag_end else max)
            (fd_items fd_head) 0 in
        Some (max <? frag_offset)
    end.

(** [process_tcp_payload(..., FALSE, tcpd, tcpinfo)]: the call is recorded
    and the reply stored in [pinfo]; the left result is the state in which
    the subdissector threw *)
Definition process_tcp_payload (b : buffer) (s : dstate R) : dstate R + dstate R :=
  let c := SubCall (num pinfo) (visited pinfo) b (d_tcpinfo_seq s)
                   (d_is_reassembled s) (d_can_desegment s) in
  let s := emit (EvSubdissector c) s in
  match subdissector c with
  | Some rp =>
      inr (with_desegment (rp_desegment_offset rp) (rp_desegment_len rp)
                          (d_can_desegment s) s)
  | None => inl s
  end.

(** packet-tcp.c:3071-3181: the retransmission short cuts and the lookup of
    the MSP. The left result leaves the function. *)
Definition find_msp (offset sq : Z) (s : dstate R) : dstate R + option Z :=
  match d_tcpd s with
  | None => inr None
  | Some t =>
      let msp := wmem_tree_lookup32 (multisegment_pdus (Seq.fwd t)) sq in
      let short_cut :=
        match msp_deref s msp with
        | Some m =>
            if (nxtseq <=? msp_nxtpdu m)
               && negb (tst (msp_flags m) MSP_FLAGS_MISSING_FIRST_SEGMENT)
               && negb (msp_last_frame m =? num pinfo)
            then Some m else None
        | None => None
        end in
      match short_cut with
      | Some m =>
          let first := (msp_first_frame m =? num pinfo)
                       || (msp_first_frame_with_seq m =? num pinfo) in
          let is_retransmission := negb first in
          let s := if first then emit EvColSegmentOfPdu s else s in
          let s :=
            if negb is_retransmission then
              match fragment_get (d_table s) (msp_first_frame m) with
              | Some ipfd_head =>
                  if negb (reassembled_in ipfd_head =? 0)
                  then emit (EvReassembledIn (reassembled_in ipfd_head)) s else s
              | None => s
              end
            else s in
          let nbytes := tvb_reported_length_remaining offset in
          inl (emit (EvSegmentData is_retransmission offset nbytes) s)
      | None =>
          if Seq.has_ta t
             && (Z.land (Seq.cur_flags t) TCP_A_RETRANSMISSION =? TCP_A_RETRANSMISSION)
          then
            let nbytes := tvb_reported_length_remaining offset in
            inl (emit (EvSegmentData true offset nbytes) s)
          else
            match msp with
            | Some _ => inr msp
            | None => inr (wmem_tree_lookup32_le (multisegment_pdus (Seq.fwd t)) (u32 (sq - 1)))
            end
      end
  end.

(** packet-tcp.c:3183-3234: out-of-order reassembly, first pass only.
    [None] is the failed assertion of [missing_segments]. *)
Definition track_out_of_order (sq : Z) (msp : option Z) (s : dstate R)
  : option (option Z * dstate R) :=
  match d_tcpd s with
  | Some t =>
      if reassemble_ooo && negb (visited pinfo) then
        let step1 : option (option Z * dstate R) :=
          if negb (maxnextseq (Seq.fwd t) =? 0) then
            let has_unfinished_msp :=
              match msp_deref s msp with
              | Some m => negb (tst (msp_flags m) MSP_FLAGS_GOT_ALL_SEGMENTS)
              | None => false
              end in
            let has_gap := LT_SEQ (maxnextseq (Seq.fwd t)) sq in
            let missing : option bool :=
              match msp_deref s msp with
              | Some m => if has_unfinished_msp then missing_segments (d_table s) m sq
                          else Some false
              | None => Some false
              end in
            match missing with
            | None => None
            | Some missing =>
                if has_unfinished_msp && missing then
                  Some (msp,
                        msp_modify (fun m =>
                          if LT_SEQ (msp_nxtpdu m) nxtseq then msp_with_nxtpdu nxtseq m else m)
                          msp s)
                else if negb has_unfinished_msp && has_gap then
                  let '(msp, s) :=
                    pdu_store_sequencenumber_of_next_pdu (maxnextseq (Seq.fwd t)) nxtseq s in
                  Some (msp,
                        msp_modify (fun m =>
                          msp_with_flags (Z.lor (msp_flags m) MSP_FLAGS_MISSING_FIRST_SEGMENT) m)
                          msp s)
                else Some (msp, s)
            end
          else Some (msp, s) in
        match step1 with
        | None => None
        | Some (msp, s) =>
            match d_tcpd s with
            | Some t =>
                if (maxnextseq (Seq.fwd t) =? 0) || LT_SEQ (maxnextseq (Seq.fwd t)) nxtseq
                then Some (msp, with_tcpd (Some (Seq.upd_fwd (fl_maxnextseq nxtseq) t)) s)
                else Some (msp, s)
            | None => Some (msp, s)
            end
        end
      else Some (msp, s)
  | None => Some (msp, s)
  end.

(** packet-tcp.c:3236-3350: the segment continues an MSP and is added to its
    reassembly, or it is handed to the subdissector as it is *)
Definition add_or_call (l : locals) (s : dstate R) : dstate R + locals * dstate R :=
  let offset := l_offset l in
  let sq := l_seq l in
  let msp := l_msp l in
  let covering :=
    match msp_deref s msp with
    | Some m => if (msp_seq m <=? sq) && (sq <? msp_nxtpdu m) then Some m else None
    | None => None
    end in
  match covering with
  | Some m0 =>
      let s :=
        if negb (visited pinfo)
        then msp_modify (msp_with_last (num pinfo) (abs_ts pinfo)) msp s else s in
      let len :=
        if tst (msp_flags m0) MSP_FLAGS_REASSEMBLE_ENTIRE_SEGMENT
        then tvb_captured_length_remaining offset
        else s32 (u32 ((if nxtseq <? msp_nxtpdu m0 then nxtseq else msp_nxtpdu m0) - sq)) in
      let s :=
        if reassemble_ooo then
          let e := u32 (sq + len) in
          with_table
            (fragment_reset_tot_len (d_table s) (msp_first_frame m0)
               (u32 ((if e <? msp_nxtpdu m0 then msp_nxtpdu m0 else e) - msp_seq m0))) s
        else s in
      let '(r, ipfd_head) :=
        fragment_add (d_table s) pinfo offset (msp_first_frame m0)
                     (u32 (sq - msp_seq m0)) len (LT_SEQ nxtseq (msp_nxtpdu m0)) in
      let s := with_table r s in
      let s :=
        if negb (visited pinfo) && tst (msp_flags m0) MSP_FLAGS_REASSEMBLE_ENTIRE_SEGMENT
        then msp_modify (fun m =>
               msp_with_nxtpdu nxtseq
                 (msp_with_flags (Z.ldiff (msp_flags m) MSP_FLAGS_REASSEMBLE_ENTIRE_SEGMENT) m))
               msp s
        else s in
      let s :=
        if reassemble_ooo && negb (visited pinfo) then
          let s :=
            msp_modify (fun m =>
              if (msp_seq m =? sq) && tst (msp_flags m) MSP_FLAGS_MISSING_FIRST_SEGMENT
              then msp_with_first_frame_with_seq (num pinfo)
                     (msp_with_flags (Z.ldiff (msp_flags m) MSP_FLAGS_MISSING_FIRST_SEGMENT) m)
              else m) msp s in
          match ipfd_head with
          | Some _ =>
              msp_modify (fun m =>
                msp_with_flags (Z.lor (msp_flags m) MSP_FLAGS_GOT_ALL_SEGMENTS) m) msp s
          | None => s
          end
        else s in
      let another_pdu_follows :=
        match msp_deref s msp with
        | Some m =>
            if (msp_nxtpdu m <? nxtseq) && (sq <=? msp_nxtpdu m) && (0 <? len)
            then s32 (u32 (msp_nxtpdu m - sq)) else 0
        | None => 0
        end in
      inr (Locals offset sq msp ipfd_head len (l_must_desegment l) (l_called_dissector l)
                  another_pdu_follows (l_deseg_offset l) (l_cleared_writable l), s)
  | None =>
      let s := with_tcpinfo sq (d_is_reassembled s) s in
      match process_tcp_payload (SegmentTvb offset) s with
      | inl s => inl s
      | inr s =>
          let asked := negb (d_desegment_len s =? 0) in
          inr (Locals offset sq msp None (l_last_fragment_len l)
                      (if asked && negb (visited pinfo) then true else l_must_desegment l)
                      true (l_another_pdu_follows l)
                      (if asked then s32 (offset + d_desegment_offset s) else l_deseg_offset l)
                      (l_cleared_writable l), s)
      end
  end.

(** What follows the block "is it completely desegmented?": the pass goes
    on, restarts at [again], or the subdissector threw. *)
Inductive completed_exit :=
| GoOn (l : locals) (s : dstate R)
| Restart (l : locals) (s : dstate R)
| Threw (s : dstate R).

(** packet-tcp.c:3353-3529 *)
Definition completed (l : locals) (s : dstate R) : completed_exit :=
  match l_ipfd_head l with
  | None => GoOn l s
  | Some ipfd_head =>
    if reassembled_in ipfd_head =? num pinfo then
      let msp := l_msp l in
      let s := emit EvDataSource s in
      let s := with_tcpinfo (match msp_deref s msp with Some m => msp_seq m | None => 0 end)
                            true s in
      match process_tcp_payload (ReassembledTvb ipfd_head) s with
      | inl s => Threw s
      | inr s =>
        let s :=
          if reassemble_ooo && negb (visited pinfo) && negb (d_desegment_len s =? 0)
          then msp_modify (fun m =>
                 msp_with_flags (Z.ldiff (msp_flags m) MSP_FLAGS_GOT_ALL_SEGMENTS) m) msp s
          else s in
        let old_len := s32 (u32 (tvb_data_len ipfd_head - l_last_fragment_len l)) in
        if negb (d_desegment_len s =? 0) && (d_desegment_offset s <=? old_len) then
          let s := if d_desegment_offset s =? 0 then emit EvRemoveDataSource s else s in
          let s :=
            with_table
              (fragment_set_partial_reassembly (d_table s)
                 (match msp_deref s msp with Some m => msp_first_frame m | None => 0 end)) s in
          (* the head [ipfd_head] points to is the one the table just flagged *)
          let ipfd_head :=
            FdHead (reassembled_in ipfd_head) (datalen ipfd_head)
                   (Z.lor (fd_flags ipfd_head) FD_PARTIAL_REASSEMBLY)
                   (fd_items ipfd_head) (tvb_data_len ipfd_head) in
          let s :=
            if d_desegment_len s =? DESEGMENT_ONE_MORE_SEGMENT then
              msp_modify (fun m =>
                let e := u32 (l_seq l + tvb_reported_length_remaining (l_offset l)) in
                msp_with_flags (Z.lor (msp_flags m) MSP_FLAGS_REASSEMBLE_ENTIRE_SEGMENT)
                  (msp_with_nxtpdu
                     (u32 ((if e <? msp_nxtpdu m then msp_nxtpdu m else e) + 1)) m)) msp s
            else if d_desegment_len s =? DESEGMENT_UNTIL_FIN then
              match d_tcpd s with
              | Some t =>
                  with_tcpd (Some (Seq.upd_fwd (fun f =>
                    fl_flow_flags (Z.lor (flow_flags f) TCP_FLOW_REASSEMBLE_UNTIL_FIN) f) t)) s
              | None => s
              end
            else
              msp_modify (fun m =>
                if msp_nxtpdu m <=? u32 (l_seq l + l_last_fragment_len l)
                then msp_with_nxtpdu
                       (u32 (l_seq l + l_last_fragment_len l + d_desegment_len s)) m
                else msp_with_nxtpdu (u32 (msp_nxtpdu m + d_desegment_len s)) m) msp s in
          let offset := s32 (l_offset l + l_last_fragment_len l) in
          let sq := u32 (l_seq l + l_last_fragment_len l) in
          let l := Locals offset sq msp (Some ipfd_head) (l_last_fragment_len l)
                          (l_must_desegment l) true 0 (l_deseg_offset l)
                          (l_cleared_writable l) in
          if 0 <? tvb_captured_length_remaining offset then Restart l s else GoOn l s
        else
          let nbytes :=
            if 0 <? l_another_pdu_follows l then l_another_pdu_follows l
            else tvb_reported_length_remaining (l_offset l) in
          let s := emit (EvSegmentData false (l_offset l) nbytes) s in
          let s := emit (EvFragmentTree ipfd_head) s in
          let asked := negb (d_desegment_len s =? 0) in
          let deseg_offset :=
            if asked
            then s32 (tvb_reported_length - s32 (datalen ipfd_head - d_desegment_offset s))
            else l_deseg_offset l in
          GoOn (Locals (l_offset l) (l_seq l) msp (Some ipfd_head) (l_last_fragment_len l)
                       (if asked && negb (visited pinfo) then true else l_must_desegment l)
                       true (l_another_pdu_follows l) deseg_offset (l_cleared_writable l)) s
      end
    else GoOn l s
  end.

(** packet-tcp.c:3531-3576: a new MSP for the data the subdissector could
    not dissect *)
Definition start_new_pdu (l : locals) (s : dstate R) : locals * dstate R :=
  if l_must_desegment l then
    let s :=
      match d_tcpd s with
      | Some t =>
          if d_desegment_len s =? DESEGMENT_UNTIL_FIN
          then with_tcpd (Some (Seq.upd_fwd (fun f =>
                 fl_flow_flags (Z.lor (flow_flags f) TCP_FLOW_REASSEMBLE_UNTIL_FIN) f) t)) s
          else s
      | None => s
      end in
    let deseg_seq := u32 (l_seq l + (l_deseg_offset l - l_offset l)) in
    match d_tcpd s with
    | Some _ =>
        if (u32 (nxtseq - deseg_seq) <=? 1024 * 1024) && negb (visited pinfo) then
          let '(msp, s) :=
            if d_desegment_len s =? DESEGMENT_ONE_MORE_SEGMENT then
              let '(msp, s) :=
                pdu_store_sequencenumber_of_next_pdu deseg_seq (u32 (nxtseq + 1)) s in
              (msp, msp_modify (fun m =>
                 msp_with_flags (Z.lor (msp_flags m) MSP_FLAGS_REASSEMBLE_ENTIRE_SEGMENT) m)
                 msp s)
            else
              pdu_store_sequencenumber_of_next_pdu deseg_seq
                (u32 (nxtseq + d_desegment_len s)) s in
          let s :=
            match msp_deref s msp with
            | Some m =>
                with_table
                  (fst (fragment_add (d_table s) pinfo (l_deseg_offset l) (msp_first_frame m)
                          0 (u32 (nxtseq - deseg_seq)) (LT_SEQ nxtseq (msp_nxtpdu m)))) s
            | None => s
            end in
          (Locals (l_offset l) (l_seq l) msp (l_ipfd_head l) (l_last_fragment_len l)
                  (l_must_desegment l) (l_called_dissector l) (l_another_pdu_follows l)
                  (l_deseg_offset l) (l_cleared_writable l), s)
        else (l, s)
    | None => (l, s)
    end
  else (l, s).

(** packet-tcp.c:3578-3648; [col_writable] is what
    [col_get_writable(pinfo->cinfo, COL_PROTOCOL)] answers, false once
    [col_set_writable(..., FALSE)] has run *)
Definition finish_pass (col_writable : bool) (l : locals) (s : dstate R) : pass_exit R :=
  let s :=
    if negb (l_called_dissector l) || negb (d_desegment_len s =? 0) then
      let s :=
        match l_ipfd_head l with
        | Some h =>
            if negb (reassembled_in h =? 0) && negb (tst (fd_flags h) FD_PARTIAL_REASSEMBLY)
            then emit (EvReassembledIn (reassembled_in h)) s else s
        | None => s
        end in
      let s :=
        if d_desegment_offset s =? 0
        then emit EvColSegmentOfPdu (emit EvColProtocolTcp s) else s in
      let nbytes := tvb_reported_length_remaining (l_deseg_offset l) in
      emit (EvSegmentData false (l_deseg_offset l) nbytes) s
    else s in
  let s := with_desegment 0 0 0 s in
  if negb (l_another_pdu_follows l =? 0) then
    let s := with_desegment 0 0 2 s in
    let s := emit EvColFence s in
    let cleared_writable := l_cleared_writable l || col_writable in
    let s := emit (EvColWritable false) s in
    Again (s32 (l_offset l + l_another_pdu_follows l))
          (u32 (l_seq l + l_another_pdu_follows l)) cleared_writable false s
  else
    Return (if l_cleared_writable l then emit (EvColWritable true) s else s).

(** packet-tcp.c:3047-3648, one pass from the label [again] *)
Definition pass (col_writable : bool) (offset sq : Z) (cleared_writable : bool)
           (s : dstate R) : pass_exit R :=
  let s := with_desegment 0 0 (d_can_desegment s) s in
  match find_msp offset sq s with
  | inl s => Return s
  | inr msp =>
    match track_out_of_order sq msp s with
    | None => Raise s
    | Some (msp, s1) =>
      let l := Locals offset sq msp None 0 false false 0 offset cleared_writable in
      match add_or_call l s1 with
      | inl s2 => Raise s2
      | inr (l, s2) =>
        match completed l s2 with
        | Threw s3 => Raise s3
        | Restart l s3 =>
            Again (l_offset l) (l_seq l) (l_cleared_writable l) col_writable s3
        | GoOn l s3 =>
            let '(l, s4) := start_new_pdu l s3 in
            finish_pass col_writable l s4
        end
      end
    end
  end.

(** [desegment_tcp], packet-tcp.c:3027-3649. [fuel] bounds the number of
    [goto again]; [col_writable] is the state of the protocol column at
    entry. *)
Fixpoint desegment_loop (fuel : nat) (col_writable : bool) (offset sq : Z)
         (cleared_writable : bool) (s : dstate R) : option (pass_exit R) :=
  match fuel with
  | O => None
  | S fuel =>
      match pass col_writable offset sq cleared_writable s with
      | Again offset sq cleared_writable col_writable s =>
          desegment_loop fuel col_writable offset sq cleared_writable s
      | e => Some e
      end
  end.

Definition desegment_tcp (fuel : nat) (col_writable : bool) (offset sq : Z) (s : dstate R)
  : option (pass_exit R) :=
  desegment_loop fuel col_writable offset sq col_writable s.

(** What the FIN handling of [dissect_tcp] comes to: the function returns
    from inside the block, or goes on to the rest of the dissection. *)
Inductive fin_exit :=
| FinReturned (s : dstate R)
| FinGoesOn (s : dstate R)
| FinRaised (s : dstate R).

(** packet-tcp.c:6649-6709, the block of [dissect_tcp] that checks for the
    FIN of a flow reassembled until its end. [offset] is past the header. *)
Definition dissect_tcp_fin (th_have_seglen : bool) (th_flags th_seq th_seglen offset : Z)
           (s : dstate R) : fin_exit :=
  match d_tcpd s with
  | Some t =>
      if th_have_seglen && tst th_flags TH_FIN
         && tst (flow_flags (Seq.fwd t)) TCP_FLOW_REASSEMBLE_UNTIL_FIN
      then
        if (fin (Seq.fwd t) =? 0) || (fin (Seq.fwd t) =? num pinfo) then
          let t := Seq.upd_fwd (fl_fin (num pinfo)) t in
          let s := with_tcpd (Some t) s in
          let msp := wmem_tree_lookup32_le (multisegment_pdus (Seq.fwd t)) (u32 (th_seq - 1)) in
          match msp_deref s msp with
          | Some m =>
              let '(r, ipfd_head) :=
                fragment_add (d_table s) pinfo offset (msp_first_frame m)
                             (u32 (th_seq - msp_seq m)) th_seglen false in
              let s := with_table r s in
              match ipfd_head with
              | Some h =>
                  let s := emit EvDataSource s in
                  let s := emit (EvFragmentTree h) s in
                  let s := with_desegment (d_desegment_offset s) (d_desegment_len s) 0 s in
                  match process_tcp_payload (ReassembledTvb h) s with
                  | inr s => FinReturned s
                  | inl s => FinRaised s
                  end
              | None => FinGoesOn s
              end
          | None => FinGoesOn s
          end
        else
          FinGoesOn (emit (EvFinRetransmission (fin (Seq.fwd t))) s)
      else FinGoesOn s
  | None => FinGoesOn s
  end.

End Desegment.

End Reasm.


(** ** MPTCP: token and initial data sequence number *)

Module Mptcp.

(** Bytes are integers below 256. [bytes_be n x] are the [n] low bytes of
    [x], most significant first; [be_word] reads such a list back. *)
Definition bytes_be (n : nat) (x : Z) : list Z :=
  map (fun i : nat => Z.shiftr x (8 * Z.of_nat i) mod 256) (rev (seq 0 n)).

Definition be_word (bs : list Z) : Z :=
  fold_left (fun acc b => acc * 256 + b) bs 0.

(** *** SHA-1

    [gcry_md_hash_buffer(GCRY_MD_SHA1, ...)] is libgcrypt's; what it computes
    is the SHA-1 of FIPS 180-4, written out here. *)

Definition rotl32 (n x : Z) : Z :=
  u32 (Z.lor (Z.shiftl x n) (Z.shiftr x (32 - n))).

Definition sha1_pad (msg : list Z) : list Z :=
  let l := Z.of_nat (length msg) in
  msg ++ [0x80] ++ repeat 0 (Z.to_nat ((55 - l) mod 64)) ++ bytes_be 8 (8 * l).

Fixpoint sha1_blocks (fuel : nat) (bs : list Z) : list (list Z) :=
  match fuel with
  | O => []
  | S fuel =>
      match bs with
      | [] => []
      | _ => firstn 64 bs :: sha1_blocks fuel (skipn 64 bs)
      end
  end.

Fixpoint sha1_words (n : nat) (bs : list Z) : list Z :=
  match n with
  | O => []
  | S n => be_word (firstn 4 bs) :: sha1_words n (skipn 4 bs)
  end.

(** the message schedule, newest word first *)
Fixpoint sha1_schedule (n : nat) (ws : list Z) : list Z :=
  match n with
  | O => ws
  | S n =>
      let w := rotl32 1 (Z.lxor (Z.lxor (nth 2 ws 0) (nth 7 ws 0))
                                (Z.lxor (nth 13 ws 0) (nth 15 ws 0))) in
      sha1_schedule n (w :: ws)
  end.

Definition sha1_f (t : nat) (b c d : Z) : Z :=
  if (t <? 20)%nat then Z.lor (Z.land b c) (Z.land (u32 (Z.lnot b)) d)
  else if (t <? 40)%nat then Z.lxor (Z.lxor b c) d
  else if (t <? 60)%nat then Z.lor (Z.lor (Z.land b c) (Z.land b d)) (Z.land c d)
  else Z.lxor (Z.lxor b c) d.

Definition sha1_k (t : nat) : Z :=
  if (t <? 20)%nat then 0x5a827999
  else if (t <? 40)%nat then 0x6ed9eba1
  else if (t <? 60)%nat then 0x8f1bbcdc
  else 0xca62c1d6.

Definition sha1_state : Type := Z * Z * Z * Z * Z.

Fixpoint sha1_rounds (t : nat) (ws : list Z) (s : sha1_state) : sha1_state :=
  match ws with
  | [] => s
  | w :: ws =>
      let '(a, b, c, d, e) := s in
      let tmp := u32 (rotl32 5 a + sha1_f t b c d + e + sha1_k t + w) in
      sha1_rounds (S t) ws (tmp, a, rotl32 30 b, c, d)
  end.

Definition sha1_block (h : sha1_state) (block : list Z) : sha1_state :=
  let ws := rev (sha1_schedule 64 (rev (sha1_words 16 block))) in
  let '(h0, h1, h2, h3, h4) := h in
  let '(a, b, c, d, e) := sha1_rounds 0 ws h in
  (u32 (h0 + a), u32 (h1 + b), u32 (h2 + c), u32 (h3 + d), u32 (h4 + e)).

Definition sha1_init : sha1_state :=
  (0x67452301, 0xefcdab89, 0x98badcfe, 0x10325476, 0xc3d2e1f0).

Definition sha1 (msg : list Z) : list Z :=
  let padded := sha1_pad msg in
  let '(h0, h1, h2, h3, h4) :=
    fold_left sha1_block (sha1_blocks (length padded) padded) sha1_init in
  bytes_be 4 h0 ++ bytes_be 4 h1 ++ bytes_be 4 h2 ++ bytes_be 4 h3 ++ bytes_be 4 h4.

(** *** [mptcp_cryptodata_sha1] *)

Definition HASH_SHA1_LENGTH : nat := 20.

Section Host.

(** the byte order of the machine the dissector runs on *)
Variable host_big_endian : bool.

(** the bytes of an [n]-byte unsigned object in memory, and the value of the
    object such bytes make *)
Definition to_memory (n : nat) (x : Z) : list Z :=
  if host_big_endian then bytes_be n x else rev (bytes_be n x).
Definition of_memory (bs : list Z) : Z :=
  if host_big_endian then be_word bs else be_word (rev bs).

(** glib's GUINT64_TO_BE, GUINT32_FROM_BE and GUINT64_FROM_BE: nothing on a
    big-endian host, a byte swap on a little-endian one *)
Definition bswap (n : nat) (x : Z) : Z := be_word (rev (bytes_be n x)).
Definition GUINT64_TO_BE (x : Z) : Z := if host_big_endian then x else bswap 8 x.
Definition GUINT32_FROM_BE (x : Z) : Z := if host_big_endian then x else bswap 4 x.
Definition GUINT64_FROM_BE (x : Z) : Z := if host_big_endian then x else bswap 8 x.

(** packet-tcp.c:2556-2571; the result is the pair ( *token, *idsn ) *)
Definition mptcp_cryptodata_sha1 (key : Z) : Z * Z :=
  let pseudokey := GUINT64_TO_BE key in
  let digest_buf := sha1 (to_memory 8 pseudokey) in
  (* memcpy(&_token, digest_buf, sizeof(_token)) *)
  let _token := of_memory (firstn 4 digest_buf) in
  let token := GUINT32_FROM_BE _token in
  (* memcpy(&_isdn, digest_buf + HASH_SHA1_LENGTH - sizeof(_isdn), sizeof(_isdn)) *)
  let _isdn := of_memory (firstn 8 (skipn (HASH_SHA1_LENGTH - 8) digest_buf)) in
  let idsn := GUINT64_FROM_BE _isdn in
  (token, idsn).

End Host.

End Mptcp.

(** ** The TCP options *)

Module Opts.

(** packet-tcp.c:431-432 *)
Definition TCPOPT_NOP : Z := 1.
Definition TCPOPT_EOL : Z := 0.

(** What [tcp_dissect_options] leaves behind: an item for EOL or NOP, the
    expert note on four NOPs in a row, the call of an option's dissector
    on the bytes of the option, and the three notes on a bogus length. *)
Inductive opt_event : Type :=
  | EvEol (offset : Z)
  | EvNop (offset : Z)
  | EvNopRow
  | EvOption (opt offset optlen : Z)
  | EvLengthPastEnd (opt offset : Z)
  | EvTooShort (opt offset optlen : Z)
  | EvGoesPastEnd (opt offset length optlen : Z).

Inductive opt_exit : Type := OptReturned | OptRaised.

Section Options.

(** [tvb_get_guint8] on the buffer of the header; [None] when the read
    throws. *)
Variable tvb_get_guint8 : Z -> option Z.

(** [tvb_new_subset_length] and [call_dissector_with_data] for the option
    [opt] at [offset] with [optlen] bytes; [false] when an exception
    leaves the call. *)
Variable call_option_dissector : Z -> Z -> Z -> bool.

(** [opt_item != NULL] *)
Variable opt_item : bool.

Variable eol : Z.

(** packet-tcp.c:5585-5662, the [while] loop. [offset] is an int, [length],
    [optlen] and [nop_count] are guint, [opt] is a guchar. *)
Fixpoint options_loop (fuel : nat) (offset length nop_count : Z) (evs : list opt_event)
  : option (opt_exit * list opt_event) :=
  if length =? 0 then Some (OptReturned, evs)
  else
  match fuel with
  | O => None
  | S fuel =>
      match tvb_get_guint8 offset with
      | None => Some (OptRaised, evs)
      | Some b =>
          let opt := u8 b in
          let length := u32 (length - 1) in
          if (opt =? TCPOPT_EOL) || (opt =? TCPOPT_NOP) then
            let '(nop_count, evs) :=
              if opt =? TCPOPT_EOL then (nop_count, evs)
              else if opt_item && ((nop_count =? 0) || negb (Z.rem offset 4 =? 0)) then
                (u32 (nop_count + 1),
                 if u32 (nop_count + 1) =? 4 then evs ++ [EvNopRow] else evs)
              else (0, evs) in
            let evs := evs ++ [if opt =? TCPOPT_EOL then EvEol offset else EvNop offset] in
            let offset := s32 (offset + 1) in
            if opt =? eol then Some (OptReturned, evs)
            else options_loop fuel offset length nop_count evs
          else
            if length =? 0 then Some (OptReturned, evs ++ [EvLengthPastEnd opt offset])
            else
            match tvb_get_guint8 (s32 (offset + 1)) with
            | None => Some (OptRaised, evs)
            | Some l =>
                let optlen := u8 l in
                let length := u32 (length - 1) in
                if optlen <? 2 then
                  Some (OptReturned, evs ++ [EvTooShort opt offset optlen])
                else if length <? u32 (optlen - 2) then
                  Some (OptReturned, evs ++ [EvGoesPastEnd opt offset length optlen])
                else
                  let evs := evs ++ [EvOption opt offset optlen] in
                  if call_option_dissector opt offset optlen then
                    let offset := s32 (offset + optlen) in
                    let length := u32 (length - u32 (optlen - 2)) in
                    if opt =? eol then Some (OptReturned, evs)
                    else options_loop fuel offset length nop_count evs
                  else Some (OptRaised, evs)
            end
      end
  end.

(** packet-tcp.c:5573-5663 *)
Definition tcp_dissect_options (offset length : Z)
  : option (opt_exit * list opt_event) :=
  options_loop (Z.to_nat (u32 length)) offset (u32 length) 0 [].

End Options.

End Opts.

(** ** The TCP information of an exported PDU *)

Module ExpPdu.

(** packet-tcp.c:1167-1168 *)
Definition EXP_PDU_TCP_INFO_DATA_LEN : Z := 19.
Definition EXP_PDU_TCP_INFO_VERSION : Z := 1.

(** struct tcpinfo, as far as the export reads it *)
Record tcpinfo := TcpInfo {
  ti_seq            : Z;
  ti_nxtseq         : Z;
  ti_lastackseq     : Z;
  ti_is_reassembled : Z;
  ti_flags          : Z;
  ti_urgent_pointer : Z
}.

(** packet-tcp.c:1170-1173 *)
Definition exp_pdu_tcp_dissector_data_size : Z := EXP_PDU_TCP_INFO_DATA_LEN + 4.

Section Populate.

(** EXP_PDU_TAG_TCP_INFO_DATA of exported_pdu.h *)
Variable EXP_PDU_TAG_TCP_INFO_DATA : Z.

(** [tlv_buffer[i] = v] on a buffer of guint8 *)
Definition store (i : nat) (v : Z) (buf : list Z) : list Z := <[i := u8 v]> buf.

(** packet-tcp.c:1175-1203: the buffer after the call and the value
    returned *)
Definition exp_pdu_tcp_dissector_data_populate_data (d : tcpinfo) (tlv_buffer : list Z)
  : list Z * Z :=
  let b := store 0 0 tlv_buffer in
  let b := store 1 EXP_PDU_TAG_TCP_INFO_DATA b in
  let b := store 2 0 b in
  let b := store 3 EXP_PDU_TCP_INFO_DATA_LEN b in
  let b := store 4 0 b in
  let b := store 5 EXP_PDU_TCP_INFO_VERSION b in
  let b := store 6 (Z.shiftr (Z.land (ti_seq d) 0xff000000) 24) b in
  let b := store 7 (Z.shiftr (Z.land (ti_seq d) 0x00ff0000) 16) b in
  let b := store 8 (Z.shiftr (Z.land (ti_seq d) 0x0000ff00) 8) b in
  let b := store 9 (Z.land (ti_seq d) 0x000000ff) b in
  let b := store 10 (Z.shiftr (Z.land (ti_nxtseq d) 0xff000000) 24) b in
  let b := store 11 (Z.shiftr (Z.land (ti_nxtseq d) 0x00ff0000) 16) b in
  let b := store 12 (Z.shiftr (Z.land (ti_nxtseq d) 0x0000ff00) 8) b in
  let b := store 13 (Z.land (ti_nxtseq d) 0x000000ff) b in
  let b := store 14 (Z.shiftr (Z.land (ti_lastackseq d) 0xff000000) 24) b in
  let b := store 15 (Z.shiftr (Z.land (ti_lastackseq d) 0x00ff0000) 16) b in
  let b := store 16 (Z.shiftr (Z.land (ti_lastackseq d) 0x0000ff00) 8) b in
  let b := store 17 (Z.land (ti_lastackseq d) 0x000000ff) b in
  let b := store 18 (ti_is_reassembled d) b in
  let b := store 19 (Z.shiftr (Z.land (ti_flags d) 0xff00) 8) b in
  let b := store 20 (Z.land (ti_flags d) 0x00ff) b in
  let b := store 21 (Z.shiftr (Z.land (ti_urgent_pointer d) 0xff00) 8) b in
  let b := store 22 (Z.land (ti_urgent_pointer d) 0x00ff) b in
  (b, exp_pdu_tcp_dissector_data_size).

End Populate.

(** the fields of the TLV read back, each big-endian *)
Definition field (from len : nat) (buf : list Z) : Z :=
  Mptcp.be_word (take len (drop from buf)).

End ExpPdu.

(** ** MPTCP data sequence numbers *)

Module Dsn.

(** enum mptcp_dsn_conversion *)
Inductive mptcp_dsn_conversion : Type :=
  | DSN_CONV_64_TO_32
  | DSN_CONV_32_TO_64
  | DSN_CONV_NONE.

(** packet-tcp.c:1350 *)
Definition MPTCP_META_HAS_BASE_DSN_MSB : Z := 0x01.

(** mptcp_meta_flow_t, as far as the conversion reads it *)
Record mptcp_meta_flow_t := Meta {
  meta_static_flags : Z;
  meta_base_dsn     : Z
}.

(** packet-tcp.c:53-55 *)
Definition KEEP_32MSB_OF_GUINT64 (nb : Z) : Z :=
  u64 (Z.shiftl (Z.shiftr nb 32) 32).

Definition is_32_to_64 (conv : mptcp_dsn_conversion) : bool :=
  match conv with DSN_CONV_32_TO_64 => true | _ => false end.
Definition is_64_to_32 (conv : mptcp_dsn_conversion) : bool :=
  match conv with DSN_CONV_64_TO_32 => true | _ => false end.

(** packet-tcp.c:1366-1397: the value returned and [*result] *)
Definition mptcp_convert_dsn (dsn : Z) (meta : mptcp_meta_flow_t)
           (conv : mptcp_dsn_conversion) (relative : bool) : bool * Z :=
  let result := dsn in
  if (is_32_to_64 conv || relative)
     && negb (tst (meta_static_flags meta) MPTCP_META_HAS_BASE_DSN_MSB)
  then (false, result)
  else
    let result :=
      if is_32_to_64 conv
      then Z.lor (KEEP_32MSB_OF_GUINT64 (meta_base_dsn meta)) dsn
      else result in
    let result := if relative then u64 (result - meta_base_dsn meta) else result in
    let result := if is_64_to_32 conv then u32 result else result in
    (true, result).

(** mptcp_dss_mapping_t, as far as the lookup reads it *)
Record mptcp_dss_mapping_t := Mapping {
  rawdsn   : Z;
  ssn_low  : Z;
  ssn_high : Z
}.

(** packet-tcp.c:2602-2611: the value returned and [*dsn], which the
    function leaves alone when it fails *)
Definition mptcp_map_relssn_to_rawdsn (mapping : mptcp_dss_mapping_t) (relssn : Z) (dsn : Z)
  : bool * Z :=
  if (relssn <? ssn_low mapping) || (ssn_high mapping <? relssn) then (false, dsn)
  else (true, u64 (rawdsn mapping + u32 (relssn - ssn_low mapping))).

End Dsn.

(** ** Window scaling *)

Module WScale.

Import Seq.

(** packet-tcp.c:462 *)
Definition TCPOLEN_WINDOW : Z := 3.

Definition fl_win_scale (v : Z) (f : tcp_flow_t) : tcp_flow_t :=
  Flow (static_flags f) (base_seq f) (fin f) (T.window f) v (scps_capable f)
       (maxsizeacked f) (valid_bif f) (push_bytes_sent f) (push_set_last f)
       (flow_flags f) (lastsegmentflags f) (maxnextseq f) (multisegment_pdus f)
       (tcp_analyze_seq_info f).

(** packet-tcp.c:1794-1799; [ws] is a guint8 *)
Definition pdu_store_window_scale_option (ws : Z) (tcpd : option tcp_analysis)
  : option tcp_analysis :=
  match tcpd with
  | Some t => Some (upd_fwd (fl_win_scale (u8 ws)) t)
  | None => None
  end.

(** packet-tcp.c:4036-4084, on the record [get_tcp_conversation_data] finds
    for the packet: [optlen] is the reported length of the option,
    [shift_byte] its third byte. An option of another length is left
    alone; a shift above 14 counts as 14. *)
Definition dissect_tcpopt_wscale (visited : bool) (optlen shift_byte : Z)
           (tcpd : option tcp_analysis) : option tcp_analysis :=
  if negb (optlen =? TCPOLEN_WINDOW) then tcpd
  else
    let shift := u8 shift_byte in
    let shift := if 14 <? shift then 14 else shift in
    if negb visited then pdu_store_window_scale_option shift tcpd else tcpd.

(** packet-tcp.c:1752-1777 *)
Definition verify_tcp_window_scaling (is_synack : bool) (t : tcp_analysis) : tcp_analysis :=
  if win_scale (fwd t) =? -1 then
    upd_rev (fl_win_scale (-2)) (upd_fwd (fl_win_scale (-2)) t)
  else if is_synack && (win_scale (rev t) =? -2) then
    upd_fwd (fl_win_scale (-2)) t
  else t.

(** What [dissect_tcp] does about window scaling for a segment with SYN on
    the first pass (packet-tcp.c:6572-6601): the options are dissected,
    among them a window scale option [ws] (its length and its shift), if
    the segment has one, and then the scaling is verified. *)
Definition syn_window_scaling (ws : option (Z * Z)) (is_synack : bool) (t : tcp_analysis)
  : tcp_analysis :=
  let t :=
    match ws with
    | Some (optlen, shift_byte) =>
        default t (dissect_tcpopt_wscale false optlen shift_byte (Some t))
    | None => t
    end in
  verify_tcp_window_scaling is_synack t.

(** the shifts of the two flows *)
Definition scales (t : tcp_analysis) : Z * Z := (win_scale (fwd t), win_scale (rev t)).

(** the shift a window scale option asks for, if it is one *)
Definition offered (ws : option (Z * Z)) : option Z :=
  match ws with
  | Some (optlen, shift_byte) =>
      if optlen =? TCPOLEN_WINDOW then Some (Z.min (u8 shift_byte) 14) else None
  | None => None
  end.

End WScale.

(** ** Relative sequence numbers *)

Module Rel.

Import Seq.

Section Numbers.

(** the preference [tcp_relative_seq] *)
Variable tcp_relative_seq : bool.
Variable tcp_track_bytes_in_flight : bool.
Variable TCP_MAX_UNACKED_SEGMENTS : Z.

(** What [dissect_tcp] does with the sequence numbers of a segment of
    known length while [tcp_analyze_seq] is on: the analysis on the first
    pass (packet-tcp.c:6188-6191), the numbers made relative to the bases
    (6192-6197), and the absolute numbers recovered for
    [tcp_print_sequence_number_analysis] (6544-6556). *)
Record numbers := Numbers {
  n_tcpd    : tcp_analysis;
  n_th_seq  : Z;
  n_th_ack  : Z;
  n_use_seq : Z;
  n_use_ack : Z
}.

Definition dissect_tcp_numbers (pinfo : packet_info)
           (th_seq th_ack th_seglen th_flags th_win : Z) (t : tcp_analysis) : numbers :=
  let t :=
    if negb (visited pinfo)
    then analyze tcp_track_bytes_in_flight TCP_MAX_UNACKED_SEGMENTS
                 pinfo th_seq th_ack th_seglen th_flags th_win t
    else t in
  let th_seq := if tcp_relative_seq then u32 (th_seq - base_seq (fwd t)) else th_seq in
  let th_ack :=
    if tcp_relative_seq && tst th_flags TH_ACK
    then u32 (th_ack - base_seq (rev t)) else th_ack in
  let use_seq := if tcp_relative_seq then u32 (th_seq + base_seq (fwd t)) else th_seq in
  let use_ack :=
    if tcp_relative_seq && tst th_flags TH_ACK
    then u32 (th_ack + base_seq (rev t)) else th_ack in
  Numbers t th_seq th_ack use_seq use_ack.

End Numbers.

End Rel.

(** ** The flags of a segment as text *)

Module FlagsStr.

Import Stdlib.Strings.String.
Local Open Scope string_scope.

(** packet-tcp.c:619 *)
Definition flags : list string :=
  ["FIN"; "SYN"; "RST"; "PSH"; "ACK"; "URG"; "ECN"; "CWR"; "NS"]%list.

(** packet-tcp.c:620 *)
Definition maxlength : Z := 64.

(** packet-tcp.c:632-634 and 640-642: [pbuf] points to the terminating NUL
    of the text in [buf], so that [g_stpcpy] appends *)
Definition add_flag (name : string) (buf : string) : string :=
  let buf := match buf with EmptyString => buf | String _ _ => buf ++ ", " end in
  buf ++ name.

Section Flags.

(** the mask of the reserved bits, from packet-tcp.h *)
Variable TH_RES : Z.

(** packet-tcp.c:630-636, from index [i] on *)
Fixpoint flags_loop (i : Z) (names : list string) (th_flags : Z) (buf : string) : string :=
  match names with
  | []%list => buf
  | (name :: names)%list =>
      flags_loop (i + 1) names th_flags
        (if tst th_flags (Z.shiftl 1 i) then add_flag name buf else buf)
  end.

(** packet-tcp.c:627-643: what is written to the buffer of [maxlength]
    bytes, without the terminating NUL *)
Definition tcp_flags_buffer (th_flags : Z) : string :=
  let buf := flags_loop 0 flags th_flags "" in
  if tst th_flags TH_RES then add_flag "Reserved" buf else buf.

(** packet-tcp.c:617-649 *)
Definition tcp_flags_to_str (th_flags : Z) : string :=
  match tcp_flags_buffer th_flags with
  | EmptyString => "<None>"
  | buf => buf
  end.

(** the names of the bits that are set, from index [i] on *)
Fixpoint names_set (i : Z) (names : list string) (th_flags : Z) : list string :=
  match names with
  | []%list => []%list
  | (name :: names)%list =>
      ((if tst th_flags (Z.shiftl 1 i) then [name] else []) ++
       names_set (i + 1) names th_flags)%list
  end.

(** the names [tcp_flags_to_str] has to show *)
Definition shown_flags (th_flags : Z) : list string :=
  (names_set 0 flags th_flags ++ (if tst th_flags TH_RES then ["Reserved"] else []))%list.

End Flags.

End FlagsStr.

(** ** The SACK option *)

Module Sack.

(** the fields of [struct tcpheader] that hold the SACK ranges for the tap *)
Record sack_tap := SackTap {
  num_sack_ranges : Z;
  sack_left_edge  : list Z;
  sack_right_edge : list Z
}.

(** what the function shows, in order: the two edges of a range with their
    offsets, and the expert note on a range that is cut short *)
Inductive sack_event :=
| EvSle (offset edge : Z)
| EvSre (offset edge : Z)
| EvSuboptionMalformed (offset len : Z).

Inductive sack_exit :=
| SackReturned (num_sack_ranges : Z)   (* the generated range count *)
| SackRaised.                          (* [tvb_get_ntohl] threw *)

Section Option.

(** the big-endian word at an offset of the option's buffer, [None] where
    the read throws *)
Variable tvb_get_ntohl : Z -> option Z.
(** the size of the tap's arrays, from packet-tcp.h *)
Variable MAX_TCP_SACK_RANGES : Z.
(** [tcpd->rev->base_seq] while the numbers are relative, 0 otherwise
    (packet-tcp.c:4094-4105) *)
Variable base_ack : Z.

(** packet-tcp.c:4146-4151 *)
Definition update_tap (leftedge rightedge : Z) (tcph : option sack_tap) : option sack_tap :=
  match tcph with
  | Some h =>
      if num_sack_ranges h <? MAX_TCP_SACK_RANGES then
        Some (SackTap (num_sack_ranges h + 1)
                      (<[Z.to_nat (num_sack_ranges h) := leftedge]> (sack_left_edge h))
                      (<[Z.to_nat (num_sack_ranges h) := rightedge]> (sack_right_edge h)))
      else Some h
  | None => None
  end.

(** packet-tcp.c:4118-4155. [offset + optlen] stays what it is at the
    start, the length of the option, so that neither [int] overflows. *)
Fixpoint sack_loop (fuel : nat) (offset optlen num : Z) (tcph : option sack_tap)
         (evs : list sack_event) : option (sack_exit * option sack_tap * list sack_event) :=
  if 0 <? optlen then
    match fuel with
    | O => None
    | S fuel =>
        if optlen <? 4 then
          Some (SackReturned num, tcph, evs ++ [EvSuboptionMalformed offset optlen])
        else
          match tvb_get_ntohl offset with
          | None => Some (SackRaised, tcph, evs)
          | Some w =>
              let leftedge := u32 (w - base_ack) in
              let evs := evs ++ [EvSle offset leftedge] in
              let optlen := optlen - 4 in
              if optlen <? 4 then
                Some (SackReturned num, tcph, evs ++ [EvSuboptionMalformed offset optlen])
              else
                match tvb_get_ntohl (offset + 4) with
                | None => Some (SackRaised, tcph, evs)
                | Some w =>
                    let rightedge := u32 (w - base_ack) in
                    let optlen := optlen - 4 in
                    let evs := evs ++ [EvSre (offset + 4) rightedge] in
                    let num := u32 (num + 1) in
                    let tcph := update_tap leftedge rightedge tcph in
                    sack_loop fuel (offset + 8) optlen num tcph evs
                end
          end
    end
  else Some (SackReturned num, tcph, evs).

(** packet-tcp.c:4086-4163, for an option of [reported_length] bytes *)
Definition dissect_tcpopt_sack (reported_length : Z) (tcph : option sack_tap)
  : option (sack_exit * option sack_tap * list sack_event) :=
  sack_loop (Z.to_nat reported_length) 2 (reported_length - 2) 0 tcph [].

(** an edge as it is shown: the word at the offset, less the base *)
Definition edge (offset : Z) : Z :=
  u32 (default 0 (tvb_get_ntohl offset) - base_ack).

(** [n] ranges of eight bytes from an offset on *)
Fixpoint ranges_from (n : nat) (offset : Z) : list (Z * Z) :=
  match n with
  | O => []
  | S n => (edge offset, edge (offset + 4)) :: ranges_from n (offset + 8)
  end.

Fixpoint range_events (n : nat) (offset : Z) : list sack_event :=
  match n with
  | O => []
  | S n => EvSle offset (edge offset) :: EvSre (offset + 4) (edge (offset + 4))
           :: range_events n (offset + 8)
  end.

(** what is shown of the [rest] bytes (fewer than eight) after the last
    whole range *)
Definition rest_events (offset rest : Z) : list sack_event :=
  if rest =? 0 then []
  else if rest <? 4 then [EvSuboptionMalformed offset rest]
  else [EvSle offset (edge offset); EvSuboptionMalformed offset (rest - 4)].

Definition tap_ranges (rs : list (Z * Z)) (tcph : option sack_tap) : option sack_tap :=
  fold_left (fun h r => update_tap (fst r) (snd r) h) rs tcph.

End Option.

End Sack.

(** ** Follow TCP stream *)

Module Follow.

(** a chunk of the followed stream, or a segment waiting for its
    predecessors *)
Record follow_record_t := FollowRecord {
  fr_is_server  : bool;
  fr_packet_num : Z;
  fr_seq        : Z;
  fr_data       : list Z
}.

(** [data->len] *)
Definition fr_len (r : follow_record_t) : Z := Z.of_nat (length (fr_data r)).

(** an array of two, indexed by [is_server] *)
Definition ix {A} (p : A * A) (is_server : bool) : A :=
  if is_server then snd p else fst p.
Definition set_ix {A} (is_server : bool) (v : A) (p : A * A) : A * A :=
  if is_server then (fst p, v) else (v, snd p).

Section Stream.

Context {address : Type}.
Variable addresses_equal : address -> address -> bool.

(** the text "[%d bytes missing in capture file]" for a number, as
    [g_strdup_printf] gives it, without the terminating NUL *)
Variable missing_in_capture : Z -> list Z.

(** the fields of [follow_info_t] the listener works on; the payload has
    its newest chunk first *)
Record follow_info_t := FollowInfo {
  payload       : list follow_record_t;
  fragments     : list follow_record_t * list follow_record_t;
  fi_seq        : Z * Z;
  bytes_written : Z * Z;
  client_port   : Z;
  client_ip     : address;
  server_port   : Z;
  server_ip     : address
}.

Definition with_payload v (fi : follow_info_t) :=
  FollowInfo v (fragments fi) (fi_seq fi) (bytes_written fi)
             (client_port fi) (client_ip fi) (server_port fi) (server_ip fi).
Definition with_fragments v (fi : follow_info_t) :=
  FollowInfo (payload fi) v (fi_seq fi) (bytes_written fi)
             (client_port fi) (client_ip fi) (server_port fi) (server_ip fi).
Definition with_seq v (fi : follow_info_t) :=
  FollowInfo (payload fi) (fragments fi) v (bytes_written fi)
             (client_port fi) (client_ip fi) (server_port fi) (server_ip fi).
Definition with_bytes_written v (fi : follow_info_t) :=
  FollowInfo (payload fi) (fragments fi) (fi_seq fi) v
             (client_port fi) (client_ip fi) (server_port fi) (server_ip fi).

(** packet-tcp.c:1027-1031 and 1041: [g_list_delete_link] on the entry at
    position [i] *)
Definition delete_link (is_server : bool) (i : nat) (fi : follow_info_t) : follow_info_t :=
  with_fragments (set_ix is_server (delete i (ix (fragments fi) is_server)) (fragments fi)) fi.

(** packet-tcp.c:996-1032: a fragment that begins before the position of
    the stream *)
Definition apply_dated (is_server : bool) (i : nat) (fragment : follow_record_t)
           (fi : follow_info_t) : follow_info_t :=
  let newseq := u32 (fr_seq fragment + fr_len fragment) in
  let fi :=
    if GT_SEQ newseq (ix (fi_seq fi) is_server) then
      let new_pos := u32 (ix (fi_seq fi) is_server - fr_seq fragment) in
      let fi :=
        if new_pos <? fr_len fragment then
          let new_frag_size := u32 (fr_len fragment - new_pos) in
          let follow_record :=
            FollowRecord is_server (fr_packet_num fragment)
                         (u32 (ix (fi_seq fi) is_server + new_frag_size))
                         (take (Z.to_nat new_frag_size)
                               (drop (Z.to_nat new_pos) (fr_data fragment))) in
          with_payload (follow_record :: payload fi) fi
        else fi in
      with_seq (set_ix is_server
                       (u32 (ix (fi_seq fi) is_server + u32 (fr_len fragment - new_pos)))
                       (fi_seq fi)) fi
    else fi in
  delete_link is_server i fi.

(** packet-tcp.c:1034-1043: a fragment that begins at the position of the
    stream *)
Definition apply_fitting (is_server : bool) (i : nat) (fragment : follow_record_t)
           (fi : follow_info_t) : follow_info_t :=
  let fi :=
    if 0 <? fr_len fragment then with_payload (fragment :: payload fi) fi else fi in
  let fi :=
    with_seq (set_ix is_server (u32 (ix (fi_seq fi) is_server + fr_len fragment))
                     (fi_seq fi)) fi in
  delete_link is_server i fi.

(** packet-tcp.c:988-1044: the walk over the list, from the entry at
    position [i] on. [inl] is the state at [return TRUE], [inr] the lowest
    sequence number after a walk to the end. *)
Fixpoint scan_fragments (is_server : bool) (i : nat) (l : list follow_record_t)
         (lowest_seq : Z) (fi : follow_info_t) : follow_info_t + Z :=
  match l with
  | [] => inr lowest_seq
  | fragment :: next =>
      let lowest_seq :=
        if GT_SEQ lowest_seq (fr_seq fragment) then fr_seq fragment else lowest_seq in
      if LT_SEQ (fr_seq fragment) (ix (fi_seq fi) is_server) then
        inl (apply_dated is_server i fragment fi)
      else if EQ_SEQ (fr_seq fragment) (ix (fi_seq fi) is_server) then
        inl (apply_fitting is_server i fragment fi)
      else scan_fragments is_server (S i) next lowest_seq fi
  end.

(** packet-tcp.c:1046-1068: the chunk that stands for bytes the capture
    has not got *)
Definition apply_missing (is_server : bool) (lowest_seq packet_num : Z)
           (fi : follow_info_t) : follow_info_t :=
  let dummy_str := missing_in_capture (s32 (u32 (lowest_seq - ix (fi_seq fi) is_server))) in
  let follow_record := FollowRecord is_server packet_num lowest_seq (dummy_str ++ [0]) in
  let fi := with_seq (set_ix is_server lowest_seq (fi_seq fi)) fi in
  with_payload (follow_record :: payload fi) fi.

(** packet-tcp.c:969-1072 *)
Definition check_follow_fragments (fi : follow_info_t) (is_server : bool)
           (acknowledged packet_num : Z) : bool * follow_info_t :=
  match ix (fragments fi) is_server with
  | [] => (false, fi)
  | fragment :: _ =>
      match scan_fragments is_server 0 (ix (fragments fi) is_server) (fr_seq fragment) fi with
      | inl fi => (true, fi)
      | inr lowest_seq =>
          if GT_SEQ acknowledged lowest_seq
          then (true, apply_missing is_server lowest_seq packet_num fi)
          else (false, fi)
      end
  end.

(** [while (check_follow_fragments(...));] of lines 1102 and 1159 *)
Fixpoint follow_drain (fuel : nat) (fi : follow_info_t) (is_server : bool)
         (acknowledged packet_num : Z) : option follow_info_t :=
  match fuel with
  | O => None
  | S fuel =>
      let '(again, fi) := check_follow_fragments fi is_server acknowledged packet_num in
      if again then follow_drain fuel fi is_server acknowledged packet_num
      else Some fi
  end.

(** what the listener reads of [pinfo] *)
Record follow_pinfo := FollowPInfo {
  src      : address;
  srcport  : Z;
  dst      : address;
  destport : Z;
  fd_num   : Z
}.

(** packet-tcp.c:1088-1093 *)
Definition note_client (pinfo : follow_pinfo) (fi : follow_info_t) : follow_info_t :=
  if client_port fi =? 0 then
    FollowInfo (payload fi) (fragments fi) (fi_seq fi) (bytes_written fi)
               (srcport pinfo) (src pinfo) (destport pinfo) (dst pinfo)
  else fi.

(** packet-tcp.c:1095 *)
Definition from_server (pinfo : follow_pinfo) (fi : follow_info_t) : bool :=
  negb (addresses_equal (client_ip fi) (src pinfo) && (client_port fi =? srcport pinfo)).

(** packet-tcp.c:1105-1135: the first segment sets the position; of a
    segment that begins before the position the part behind it is taken.
    The result is [sequence], [length], [data_offset] and [data_length]. *)
Definition trim_segment (position sequence length captured : Z) : Z * Z * Z * Z :=
  if LT_SEQ sequence position then
    let nextseq := u32 (sequence + length) in
    if GT_SEQ nextseq position then
      let data_offset := u32 (position - sequence) in
      let data_length :=
        if captured <=? data_offset then 0 else u32 (captured - data_offset) in
      (position, u32 (nextseq - position), data_offset, data_length)
    else (sequence, length, 0, captured)
  else (sequence, length, 0, captured).

(** packet-tcp.c:1105-1163: the segment itself, after the fragments of the
    other direction. [tvb] is the captured payload. *)
Definition follow_segment (fuel : nat) (is_server : bool) (packet_num sequence length : Z)
           (tvb : list Z) (fi : follow_info_t) : option follow_info_t :=
  let fi :=
    if (ix (bytes_written fi) is_server =? 0) && (ix (fi_seq fi) is_server =? 0)
    then with_seq (set_ix is_server sequence (fi_seq fi)) fi
    else fi in
  let '(sequence, length, data_offset, data_length) :=
    trim_segment (ix (fi_seq fi) is_server) sequence length (Z.of_nat (List.length tvb)) in
  if (data_length =? 0) || LT_SEQ sequence (ix (fi_seq fi) is_server) then Some fi
  else
    let follow_record :=
      FollowRecord is_server packet_num sequence
                   (take (Z.to_nat data_length) (drop (Z.to_nat data_offset) tvb)) in
    if EQ_SEQ sequence (ix (fi_seq fi) is_server) then
      let fi := with_seq (set_ix is_server (u32 (ix (fi_seq fi) is_server + length))
                                 (fi_seq fi)) fi in
      let fi := with_bytes_written
                  (set_ix is_server
                          (u32 (ix (bytes_written fi) is_server + fr_len follow_record))
                          (bytes_written fi)) fi in
      let fi := with_payload (follow_record :: payload fi) fi in
      follow_drain fuel fi is_server 0 packet_num
    else
      Some (with_fragments
              (set_ix is_server (ix (fragments fi) is_server ++ [follow_record])
                      (fragments fi)) fi).

(** packet-tcp.c:1074-1165 *)
Definition follow_tcp_tap_listener (fuel : nat) (fi : follow_info_t) (pinfo : follow_pinfo)
           (tvb : list Z) (th_seq th_ack th_seglen th_flags : Z) : option follow_info_t :=
  let sequence := if tst th_flags TH_SYN then u32 (th_seq + 1) else th_seq in
  let fi := note_client pinfo fi in
  let is_server := from_server pinfo fi in
  match
    match ix (fragments fi) (negb is_server) with
    | [] => Some fi
    | _ :: _ => follow_drain fuel fi (negb is_server) th_ack (fd_num pinfo)
    end
  with
  | None => None
  | Some fi => follow_segment fuel is_server (fd_num pinfo) sequence th_seglen tvb fi
  end.

End Stream.

End Follow.

(** ** PDU tracking without reassembly *)

Module NextPdu.

Import Reasm.

(** what [scan_for_next_pdu] adds to the tree of the packet *)
Inductive pdu_event :=
| EvContinuationTo (first_frame : Z)   (* [print_pdu_tracking_data] *)
| EvPduLastFrame (last_frame : Z)
| EvPduTime (ns : nstime_t).

(** packet-tcp.c:1727-1743, on the tree it is given *)
Definition pdu_store_sequencenumber_of_next_pdu (pinfo : packet_info) (seq nxtpdu : Z)
           (multisegment_pdus : gmap Z tcp_multisegment_pdu)
  : gmap Z tcp_multisegment_pdu :=
  <[seq := Msp seq nxtpdu (num pinfo) (num pinfo) (num pinfo) (abs_ts pinfo) 0]>
    multisegment_pdus.

(** packet-tcp.c:1644-1722. The result is the returned offset, the tree
    and what is shown. [offset + (nxtpdu - seq)] is computed unsigned and
    stored in an [int]. *)
Definition scan_for_next_pdu (pinfo : packet_info) (offset seq nxtseq : Z)
           (multisegment_pdus : gmap Z tcp_multisegment_pdu)
  : Z * gmap Z tcp_multisegment_pdu * list pdu_event :=
  if negb (visited pinfo) then
    match wmem_tree_lookup32_le multisegment_pdus (u32 (seq - 1)) with
    | Some k =>
        match multisegment_pdus !! k with
        | Some m =>
            let '(pdus, evs) :=
              if (msp_seq m <? seq) && (seq <? msp_nxtpdu m)
              then (alter (msp_with_last (num pinfo) (abs_ts pinfo)) k multisegment_pdus,
                    [EvContinuationTo (msp_first_frame m)])
              else (multisegment_pdus, []) in
            if (msp_seq m <? seq) && (nxtseq <=? msp_nxtpdu m)
            then (-1, pdus, evs)
            else if (seq <? msp_nxtpdu m) && (msp_nxtpdu m <? nxtseq)
                 then (s32 (offset + u32 (msp_nxtpdu m - seq)), pdus, evs)
                 else (offset, pdus, evs)
        | None => (offset, multisegment_pdus, [])
        end
    | None => (offset, multisegment_pdus, [])
    end
  else
    let evs :=
      match wmem_tree_lookup32_le multisegment_pdus (u32 (nxtseq - 1)) with
      | Some k =>
          match multisegment_pdus !! k with
          | Some m =>
              if num pinfo =? msp_first_frame m
              then [EvPduLastFrame (msp_last_frame m);
                    EvPduTime (nstime_delta (msp_last_frame_time m) (abs_ts pinfo))]
              else []
          | None => []
          end
      | None => []
      end in
    match wmem_tree_lookup32_le multisegment_pdus (u32 (seq - 1)) with
    | Some k =>
        match multisegment_pdus !! k with
        | Some m =>
            if (msp_seq m <? seq) && (nxtseq <=? msp_nxtpdu m)
            then (-1, multisegment_pdus, evs ++ [EvContinuationTo (msp_first_frame m)])
            else if (seq <? msp_nxtpdu m) && (msp_nxtpdu m <? nxtseq)
                 then (s32 (offset + u32 (msp_nxtpdu m - seq)), multisegment_pdus, evs)
                 else (offset, multisegment_pdus, evs)
        | None => (offset, multisegment_pdus, evs)
        end
    | None => (offset, multisegment_pdus, evs)
    end.

End NextPdu.


(** * Properties *)

(** ** Machine integers and sequence-space order *)

Section IntFacts.

Lemma u32_range x : 0 <= u32 x < 2^32.
Proof. unfold u32. apply Z.mod_pos_bound. lia. Qed.

Lemma u32_id x : 0 <= x < 2^32 -> u32 x = x.
Proof. intros H. unfold u32. apply Z.mod_small. exact H. Qed.

Lemma s32_0 : s32 0 = 0.
Proof. reflexivity. Qed.

Lemma tst_0_l m : tst 0 m = false.
Proof. unfold tst. rewrite Z.land_0_l. reflexivity. Qed.

Lemma tst_lor a b m : tst (Z.lor a b) m = tst a m || tst b m.
Proof.
  unfold tst. rewrite Z.land_lor_distr_l.
  destruct (Z.eqb_spec (Z.land a m) 0) as [Ha|Ha];
    destruct (Z.eqb_spec (Z.land b m) 0) as [Hb|Hb]; simpl.
  - rewrite Ha, Hb. reflexivity.
  - destruct (Z.eqb_spec (Z.lor (Z.land a m) (Z.land b m)) 0) as [E|E]; [|reflexivity].
    apply Z.lor_eq_0_iff in E. tauto.
  - destruct (Z.eqb_spec (Z.lor (Z.land a m) (Z.land b m)) 0) as [E|E]; [|reflexivity].
    apply Z.lor_eq_0_iff in E. tauto.
  - destruct (Z.eqb_spec (Z.lor (Z.land a m) (Z.land b m)) 0) as [E|E]; [|reflexivity].
    apply Z.lor_eq_0_iff in E. tauto.
Qed.

Lemma GT_SEQ_irrefl x : GT_SEQ x x = false.
Proof. unfold GT_SEQ. rewrite Z.sub_diag. reflexivity. Qed.

Lemma GE_SEQ_refl x : GE_SEQ x x = true.
Proof. unfold GE_SEQ. rewrite Z.sub_diag. reflexivity. Qed.

Lemma GT_GE_SEQ x y : GT_SEQ x y = true -> GE_SEQ x y = true.
Proof. unfold GT_SEQ, GE_SEQ. intros H. apply Z.ltb_lt in H. apply Z.leb_le. lia. Qed.

End IntFacts.

(** ** C5: the token and the IDSN are read big-endian off the SHA-1 digest *)

Section MptcpProps.

Import Mptcp.

Lemma bytes_be_S n x : bytes_be (S n) x = bytes_be n (x / 256) ++ [x mod 256].
Proof.
  unfold bytes_be.
  change (seq 0 (S n)) with (0%nat :: seq 1 n).
  rewrite <- seq_shift. simpl rev. rewrite map_app. simpl.
  rewrite Z.shiftr_0_r. f_equal.
  rewrite <- map_rev, map_map. apply map_ext. intros i.
  rewrite !Z.shiftr_div_pow2 by lia.
  replace (8 * Z.of_nat (S i)) with (8 + 8 * Z.of_nat i) by lia.
  rewrite Z.pow_add_r by lia.
  rewrite Z.div_div by lia. reflexivity.
Qed.

Lemma bytes_be_length n x : length (bytes_be n x) = n.
Proof. unfold bytes_be. rewrite length_map, length_rev, length_seq. reflexivity. Qed.

Lemma bytes_be_range n x : Forall (fun b => 0 <= b < 256) (bytes_be n x).
Proof.
  unfold bytes_be. apply Forall_map. apply Forall_forall. intros i _.
  apply Z.mod_pos_bound. lia.
Qed.

Lemma be_word_snoc bs b : be_word (bs ++ [b]) = be_word bs * 256 + b.
Proof. unfold be_word. rewrite fold_left_app. reflexivity. Qed.

Lemma be_word_nonneg bs : Forall (fun b => 0 <= b < 256) bs -> 0 <= be_word bs.
Proof.
  induction bs as [|b bs IH] using rev_ind; intros H.
  - unfold be_word. simpl. lia.
  - rewrite be_word_snoc. apply Forall_app in H as [H1 H2].
    inversion H2; subst. specialize (IH H1). lia.
Qed.

Lemma be_word_bound bs :
  Forall (fun b => 0 <= b < 256) bs -> 0 <= be_word bs < 256 ^ Z.of_nat (length bs).
Proof.
  induction bs as [|b bs IH] using rev_ind; intros H.
  - unfold be_word. simpl. lia.
  - rewrite be_word_snoc, length_app. simpl length.
    apply Forall_app in H as [H1 H2]. inversion H2; subst.
    specialize (IH H1).
    replace (Z.of_nat (length bs + 1)) with (Z.of_nat (length bs) + 1) by lia.
    rewrite Z.pow_add_r by lia. lia.
Qed.

(** reading back what was laid out gives the bytes again *)
Lemma bytes_be_be_word bs :
  Forall (fun b => 0 <= b < 256) bs -> bytes_be (length bs) (be_word bs) = bs.
Proof.
  induction bs as [|b bs IH] using rev_ind; intros H.
  - reflexivity.
  - apply Forall_app in H as [H1 H2]. inversion H2; subst.
    rewrite length_app. simpl length.
    replace (length bs + 1)%nat with (S (length bs)) by lia.
    rewrite bytes_be_S, be_word_snoc.
    replace ((be_word bs * 256 + b) / 256) with (be_word bs)
      by (apply Z.div_unique with (r := b); lia).
    replace ((be_word bs * 256 + b) mod 256) with b
      by (symmetry; rewrite Z.add_comm, Z.mod_add by lia; apply Z.mod_small; lia).
    rewrite IH by assumption. reflexivity.
Qed.

Lemma sha1_length msg : length (sha1 msg) = 20%nat.
Proof.
  unfold sha1.
  destruct (fold_left sha1_block _ sha1_init) as [[[[h0 h1] h2] h3] h4].
  rewrite !length_app, !bytes_be_length. reflexivity.
Qed.

Lemma sha1_range msg : Forall (fun b => 0 <= b < 256) (sha1 msg).
Proof.
  unfold sha1.
  destruct (fold_left sha1_block _ sha1_init) as [[[[h0 h1] h2] h3] h4].
  repeat (apply Forall_app; split); apply bytes_be_range.
Qed.

(** a byte swap followed by the host's layout is the big-endian layout *)
Lemma to_memory_TO_BE (hbe : bool) (x : Z) : to_memory hbe 8 (GUINT64_TO_BE hbe x) = bytes_be 8 x.
Proof.
  unfold to_memory, GUINT64_TO_BE, bswap. destruct hbe; [reflexivity|].
  pose proof (bytes_be_be_word (rev (bytes_be 8 x))) as E.
  rewrite length_rev, bytes_be_length in E.
  rewrite E by (apply Forall_rev, bytes_be_range).
  apply rev_involutive.
Qed.

(** the host's reading followed by a byte swap is the big-endian reading *)
Lemma FROM_BE_of_memory (hbe : bool) (n : nat) (bs : list Z) :
  length bs = n -> Forall (fun b => 0 <= b < 256) bs ->
  (if hbe then of_memory hbe bs else bswap n (of_memory hbe bs)) = be_word bs.
Proof.
  intros Hl Hr. unfold of_memory, bswap. destruct hbe; [reflexivity|].
  pose proof (bytes_be_be_word (rev bs)) as E.
  rewrite length_rev, Hl in E.
  rewrite E by (apply Forall_rev; exact Hr).
  rewrite rev_involutive. reflexivity.
Qed.

(** C5. For every key and on either byte order of the host,
    [mptcp_cryptodata_sha1] returns as token the first 4 bytes and as IDSN
    the last 8 bytes of the 20-byte SHA-1 digest of the key's 8-byte
    big-endian encoding, each read big-endian; the token fits 32 bits and
    the IDSN 64; the result depends on nothing but the key, so equal keys
    give equal pairs. *)
Theorem mptcp_cryptodata_sha1_spec (host_big_endian : bool) (key : Z) :
  let digest := sha1 (bytes_be 8 key) in
  length digest = 20%nat
  /\ mptcp_cryptodata_sha1 host_big_endian key
     = (be_word (firstn 4 digest), be_word (skipn 12 digest))
  /\ 0 <= fst (mptcp_cryptodata_sha1 host_big_endian key) < 2^32
  /\ 0 <= snd (mptcp_cryptodata_sha1 host_big_endian key) < 2^64
  /\ mptcp_cryptodata_sha1 true key = mptcp_cryptodata_sha1 false key
  /\ forall key', key' = key ->
       mptcp_cryptodata_sha1 host_big_endian key'
       = mptcp_cryptodata_sha1 host_big_endian key.
Proof.
  intros digest.
  pose proof (sha1_length (bytes_be 8 key)) as Hlen.
  pose proof (sha1_range (bytes_be 8 key)) as Hrange.
  fold digest in Hlen, Hrange.
  assert (H4 : length (firstn 4 digest) = 4%nat)
    by (rewrite length_firstn, Hlen; reflexivity).
  assert (H8 : length (skipn 12 digest) = 8%nat)
    by (rewrite length_skipn, Hlen; reflexivity).
  assert (R4 : Forall (fun b => 0 <= b < 256) (firstn 4 digest))
    by (apply Forall_take; exact Hrange).
  assert (R8 : Forall (fun b => 0 <= b < 256) (skipn 12 digest))
    by (apply Forall_drop; exact Hrange).
  assert (E : forall hbe, mptcp_cryptodata_sha1 hbe key
                          = (be_word (firstn 4 digest), be_word (skipn 12 digest))).
  { intros hbe. unfold mptcp_cryptodata_sha1.
    rewrite to_memory_TO_BE. fold digest.
    change (HASH_SHA1_LENGTH - 8)%nat with 12%nat.
    assert (F8 : firstn 8 (skipn 12 digest) = skipn 12 digest)
      by (apply firstn_all2; rewrite H8; lia).
    rewrite F8.
    pose proof (FROM_BE_of_memory hbe 4 (firstn 4 digest) H4 R4) as E4.
    pose proof (FROM_BE_of_memory hbe 8 (skipn 12 digest) H8 R8) as E8.
    unfold GUINT32_FROM_BE, GUINT64_FROM_BE.
    destruct hbe; rewrite E4, E8; reflexivity. }
  split; [exact Hlen|].
  split; [apply E|].
  rewrite !E. cbn [fst snd].
  pose proof (be_word_bound _ R4) as B4. rewrite H4 in B4.
  pose proof (be_word_bound _ R8) as B8. rewrite H8 in B8.
  split; [exact B4|]. split; [exact B8|]. split; [reflexivity|].
  intros key' ->. apply E.
Qed.

Lemma mptcp_cryptodata_sha1_spec_witness :
  0x0102030405060708 = 0x0102030405060708
  /\ Mptcp.mptcp_cryptodata_sha1 false 0x0102030405060708
     = Mptcp.mptcp_cryptodata_sha1 false 0x0102030405060708.
Proof.
  split; [reflexivity|].
  destruct (mptcp_cryptodata_sha1_spec false 0x0102030405060708)
    as (_ & _ & _ & _ & _ & H).
  apply H. reflexivity.
Defined.

(** The token and the IDSN of a sample key, as computed by the model. *)
Example mptcp_cryptodata_sha1_sample :
  mptcp_cryptodata_sha1 false 0x0102030405060708 = (3713500092, 4221541283752790741).
Proof. vm_compute. reflexivity. Qed.

End MptcpProps.

(** ** C9: the PDU loop only moves forward, and ends *)

Section PdusProps.

Import Pdus.

Context {X : Type}.
Variable tvb_reported_length_remaining : Z -> Z.
Variable tvb_ensure_captured_length_remaining : Z -> option Z.
Variable proto_tree_add_uint : Z -> Z -> bool.
Variable tvb_new_subset_length_caplen : Z -> Z -> Z -> bool.
Variable proto_desegment : bool.
Variable fixed_len : Z.
Variable get_pdu_len : pdu_pinfo X -> Z -> option (Z * pdu_pinfo X).
Variable dissect_pdu : pdu_pinfo X -> Z -> Z -> Z -> dissect_result X.
Variable tcp_analyze_seq : bool.
Variable reported_length : Z.

(** What is asked of the tvbuff: from an offset that is not negative, bytes
    remain only before the end of the buffer. *)
Hypothesis remaining_inside :
  forall offset, 0 <= offset -> 0 < tvb_reported_length_remaining offset ->
                 offset < reported_length.

(** The calls of [dissect_pdu] of one run: the first at [offset], each next
    one at the offset the previous PDU ends at, which lies strictly after
    the offset of the previous one. *)
Fixpoint forward_calls (offset : Z) (calls : list (Z * Z)) : Prop :=
  match calls with
  | [] => True
  | (o, plen) :: rest =>
      o = offset
      /\ match rest with
         | [] => True
         | _ :: _ => offset < s32 (offset + plen)
         end
      /\ forward_calls (s32 (offset + plen)) rest
  end.

Let loop := pdus_loop tvb_reported_length_remaining tvb_ensure_captured_length_remaining
                      proto_tree_add_uint tvb_new_subset_length_caplen
                      proto_desegment fixed_len get_pdu_len dissect_pdu tcp_analyze_seq.

Lemma pdus_loop_ends (fuel : nat) :
  forall offset p calls,
    0 <= offset ->
    (Z.to_nat (reported_length - offset) < fuel)%nat ->
    exists e calls',
      loop fuel offset p calls = Some (e, calls ++ calls')
      /\ forward_calls offset calls'.
Proof.
  induction fuel as [|fuel IH]; intros offset p calls Hoff Hfuel; [lia|].
  unfold loop in *. cbn [pdus_loop].
  destruct (Z.ltb_spec 0 (tvb_reported_length_remaining offset)) as [Hrem|Hrem].
  2:{ exists (Returned p), []. rewrite app_nil_r. split; [reflexivity|exact I]. }
  pose proof (remaining_inside offset Hoff Hrem) as Hin.
  destruct (tvb_ensure_captured_length_remaining offset) as [cap|].
  2:{ exists (Raised p), []. rewrite app_nil_r. split; [reflexivity|exact I]. }
  destruct (proto_desegment && negb (can_desegment p =? 0) && (cap <? fixed_len)).
  { eexists _, []. rewrite app_nil_r. split; [reflexivity|exact I]. }
  destruct (get_pdu_len p offset) as [[plen p1]|].
  2:{ exists (Raised p), []. rewrite app_nil_r. split; [reflexivity|exact I]. }
  destruct (plen =? 0).
  { destruct (proto_desegment && negb (can_desegment p1 =? 0));
      eexists _, []; rewrite app_nil_r; (split; [reflexivity|exact I]). }
  destruct (plen <? fixed_len).
  { eexists _, []. rewrite app_nil_r. split; [reflexivity|exact I]. }
  set (p2 := if negb (fd_visited p1) && tcp_analyze_seq then _ else p1).
  destruct (proto_desegment && negb (can_desegment p2 =? 0) && (cap <? plen)).
  { eexists _, []. rewrite app_nil_r. split; [reflexivity|exact I]. }
  destruct (proto_tree_add_uint offset plen); cbn [negb].
  2:{ exists (Raised p2), []. rewrite app_nil_r. split; [reflexivity|exact I]. }
  set (len := if plen <? cap then plen else cap).
  destruct (tvb_new_subset_length_caplen offset len plen); cbn [negb].
  2:{ exists (Raised p2), []. rewrite app_nil_r. split; [reflexivity|exact I]. }
  assert (Hstep : forall p3,
    exists e calls',
      (if s32 (offset + plen) <=? offset
       then Some (Returned p3, calls ++ [(offset, plen)])
       else pdus_loop tvb_reported_length_remaining tvb_ensure_captured_length_remaining
              proto_tree_add_uint tvb_new_subset_length_caplen
              proto_desegment fixed_len get_pdu_len dissect_pdu tcp_analyze_seq
              fuel (s32 (offset + plen)) p3 (calls ++ [(offset, plen)]))
      = Some (e, calls ++ calls')
      /\ forward_calls offset calls').
  { intros p3.
    destruct (Z.leb_spec (s32 (offset + plen)) offset) as [Hle|Hgt].
    - exists (Returned p3), [(offset, plen)].
      split; [reflexivity|]. cbn. auto.
    - destruct (IH (s32 (offset + plen)) p3 (calls ++ [(offset, plen)])) as (e & calls' & E & F);
        [lia|lia|].
      exists e, ((offset, plen) :: calls').
      rewrite <- app_assoc in E. split; [exact E|].
      cbn [forward_calls]. split; [reflexivity|]. split; [|exact F].
      destruct calls'; [exact I|exact Hgt]. }
  destruct (dissect_pdu p2 offset len plen) as [p3|p3|p3].
  - apply Hstep.
  - apply Hstep.
  - exists (Raised p3), [(offset, plen)]. split; [reflexivity|]. cbn. auto.
Qed.

(** C9. Whatever the two callbacks and the calls into the tree and the
    tvbuff do, [tcp_dissect_pdus] comes to an end, and the offsets it calls
    [dissect_pdu] at move strictly forward: a next call is made only at an
    offset strictly after the previous one, so when the offset after a PDU,
    [offset + plen] as an int, is not after the offset before, no further
    PDU is dissected. *)
Theorem tcp_dissect_pdus_moves_forward (p : pdu_pinfo X) :
  exists e calls,
    tcp_dissect_pdus tvb_reported_length_remaining tvb_ensure_captured_length_remaining
                     proto_tree_add_uint tvb_new_subset_length_caplen
                     proto_desegment fixed_len get_pdu_len dissect_pdu tcp_analyze_seq
                     reported_length p = Some (e, calls)
    /\ forward_calls 0 calls.
Proof.
  unfold tcp_dissect_pdus.
  destruct (pdus_loop_ends (S (Z.to_nat reported_length)) 0 p []) as (e & calls & E & F);
    [lia | rewrite Z.sub_0_r; lia |].
  exists e, calls. split; [exact E | exact F].
Qed.

End PdusProps.

Section PdusExamples.

Import Pdus.

(** A 10-byte buffer, all of it captured. *)
Definition sample_remaining (offset : Z) : Z :=
  if (0 <=? offset) && (offset <=? 10) then 10 - offset else 0.
Definition sample_ensure (offset : Z) : option Z :=
  if 0 <? sample_remaining offset then Some (sample_remaining offset) else None.

(** no tree is built: [proto_tree_add_uint] returns at once *)
Definition sample_tree_add (offset plen : Z) : bool := true.
(** the sub-buffer is refused when the reported length, as a [gint], is
    below -1 *)
Definition sample_subset (offset length plen : Z) : bool := negb (s32 plen <? -1).

(** PDUs of 4 bytes, then one whose declared length wraps the offset. *)
Definition sample_pdu_len (p : pdu_pinfo unit) (offset : Z) : option (Z * pdu_pinfo unit) :=
  Some (if offset <? 8 then 4 else 0x7fffffff, p).
Definition sample_dissect (p : pdu_pinfo unit) (offset length plen : Z)
  : dissect_result unit := Dissected p.
Definition sample_pinfo : pdu_pinfo unit := PduPInfo 0 0 0 0 0 false tt.

Lemma tcp_dissect_pdus_moves_forward_witness :
  (forall offset, 0 <= offset -> 0 < sample_remaining offset -> offset < 10)
  /\ exists e calls,
       tcp_dissect_pdus sample_remaining sample_ensure sample_tree_add sample_subset
                        false 4 sample_pdu_len
                        sample_dissect true 10 sample_pinfo = Some (e, calls)
       /\ forward_calls 0 calls.
Proof.
  assert (H : forall offset, 0 <= offset -> 0 < sample_remaining offset -> offset < 10).
  { intros offset H0. unfold sample_remaining.
    destruct (Z.leb_spec 0 offset); destruct (Z.leb_spec offset 10); simpl; lia. }
  split; [exact H|].
  exact (tcp_dissect_pdus_moves_forward sample_remaining sample_ensure
           sample_tree_add sample_subset false 4
           sample_pdu_len sample_dissect true 10 H sample_pinfo).
Defined.

(** On the sample the third PDU declares a length of 2^31 - 1, which takes
    the int offset from 8 below zero: the PDU is dissected and the loop
    stops after it. *)
Example tcp_dissect_pdus_overflow_stops :
  tcp_dissect_pdus sample_remaining sample_ensure sample_tree_add sample_subset
                   false 4 sample_pdu_len
                   sample_dissect true 10 sample_pinfo
  = Some (Returned (PduPInfo 0 0 0 2 0x7ffffffd false tt),
          [(0, 4); (4, 4); (8, 0x7fffffff)]).
Proof. vm_compute. reflexivity. Qed.

(** A declared length of 2^32 - 4 never reaches [dissect_pdu]: as a [gint]
    it is -4, the sub-buffer is refused, and the exception leaves the
    function after the two PDUs before it. *)
Example tcp_dissect_pdus_length_refused :
  tcp_dissect_pdus sample_remaining sample_ensure sample_tree_add sample_subset
                   false 4
                   (fun p offset => Some (if offset <? 8 then 4 else 0xfffffffc, p))
                   sample_dissect true 10 sample_pinfo
  = Some (Raised (PduPInfo 0 0 0 2 0xfffffffa false tt), [(0, 4); (4, 4)]).
Proof. vm_compute. reflexivity. Qed.

End PdusExamples.

(** ** C2 and C7: duplicates of a reassembled PDU, and the FIN that ends a stream *)

Section ReasmProps.

Import Reasm.

Context {R : Type}.
Variable fragment_get : R -> Z -> option fragment_head.
Variable fragment_add :
  R -> packet_info -> forall (tvb_offset id frag_offset frag_data_len : Z) (more_frags : bool),
  R * option fragment_head.
Variable fragment_reset_tot_len : R -> Z -> Z -> R.
Variable fragment_set_partial_reassembly : R -> Z -> R.
Variable tvb_reported_length : Z.
Variable tvb_reported_length_remaining : Z -> Z.
Variable tvb_captured_length_remaining : Z -> Z.
Variable subdissector : sub_call -> option sub_reply.
Variable tcp_desegment : bool.
Variable tcp_reassemble_out_of_order : bool.
Variable pinfo : packet_info.
Variable nxtseq : Z.

Let deseg :=
  desegment_tcp fragment_get fragment_add fragment_reset_tot_len
                fragment_set_partial_reassembly tvb_reported_length
                tvb_reported_length_remaining tvb_captured_length_remaining
                subdissector tcp_desegment tcp_reassemble_out_of_order pinfo nxtseq.

(** the state a duplicate leaves: one "Retransmitted TCP segment data" item
    more, the desegmentation request cleared as at [again] *)
Definition after_duplicate (offset : Z) (s : dstate R) : dstate R :=
  emit (EvSegmentData true offset (tvb_reported_length_remaining offset))
       (with_desegment 0 0 (d_can_desegment s) s).

Lemma find_msp_duplicate (offset sq : Z) (s : dstate R) (t : tcp_analysis)
      (m : tcp_multisegment_pdu) :
  d_tcpd s = Some t ->
  multisegment_pdus (Seq.fwd t) !! sq = Some m ->
  nxtseq <= msp_nxtpdu m ->
  tst (msp_flags m) MSP_FLAGS_MISSING_FIRST_SEGMENT = false ->
  msp_first_frame m <> num pinfo ->
  msp_first_frame_with_seq m <> num pinfo ->
  msp_last_frame m <> num pinfo ->
  find_msp fragment_get tvb_reported_length_remaining pinfo nxtseq offset sq s
  = inl (emit (EvSegmentData true offset (tvb_reported_length_remaining offset)) s).
Proof.
  intros Ht Hm Hn Hf H1 H2 H3.
  unfold find_msp, wmem_tree_lookup32, msp_deref, msps.
  rewrite Ht, Hm. cbv beta iota. rewrite Hm.
  apply Z.leb_le in Hn. rewrite Hn, Hf.
  apply Z.eqb_neq in H1, H2, H3. rewrite H3. cbn [andb negb].
  rewrite H1, H2. reflexivity.
Qed.

(** C2. A segment that starts where an MSP of the forward flow starts and
    ends no later than it, the MSP not waiting for its first segment, seen in
    a frame that is neither the MSP's first frame, nor the frame of its
    first segment, nor its last frame: [desegment_tcp] returns in its first
    pass; all it adds is the item "Retransmitted TCP segment data", so the
    subdissector is not called; the connection record, and with it the
    index of MSPs, and the reassembly table stay as they were. Delivering
    the segment once more does the same again. *)
Theorem desegment_tcp_duplicate (fuel : nat) (col_writable : bool) (offset sq : Z)
        (s : dstate R) (t : tcp_analysis) (m : tcp_multisegment_pdu) :
  d_tcpd s = Some t ->
  multisegment_pdus (Seq.fwd t) !! sq = Some m ->
  nxtseq <= msp_nxtpdu m ->
  tst (msp_flags m) MSP_FLAGS_MISSING_FIRST_SEGMENT = false ->
  msp_first_frame m <> num pinfo ->
  msp_first_frame_with_seq m <> num pinfo ->
  msp_last_frame m <> num pinfo ->
  let s' := after_duplicate offset s in
  deseg (S fuel) col_writable offset sq s = Some (Return s')
  /\ d_events s'
     = d_events s ++ [EvSegmentData true offset (tvb_reported_length_remaining offset)]
  /\ d_tcpd s' = d_tcpd s
  /\ msps s' = msps s
  /\ d_table s' = d_table s
  /\ deseg (S fuel) col_writable offset sq s' = Some (Return (after_duplicate offset s'))
  /\ msps (after_duplicate offset s') = msps s.
Proof.
  intros Ht Hm Hn Hf H1 H2 H3 s'.
  assert (E : forall s0, d_tcpd s0 = Some t ->
                deseg (S fuel) col_writable offset sq s0
                = Some (Return (after_duplicate offset s0))).
  { intros s0 Ht0. unfold deseg, desegment_tcp. cbn [desegment_loop]. unfold pass.
    rewrite (find_msp_duplicate offset sq _ t m); try assumption.
    reflexivity. }
  split; [apply E; exact Ht|].
  split; [reflexivity|].
  split; [reflexivity|].
  split; [reflexivity|].
  split; [reflexivity|].
  split; [apply E; exact Ht|].
  reflexivity.
Qed.

Let fin_block :=
  dissect_tcp_fin fragment_add subdissector pinfo.

(** the call the FIN handling makes to the subdissector for the head [h] *)
Definition fin_call (h : fragment_head) (s : dstate R) : sub_call :=
  SubCall (num pinfo) (visited pinfo) (ReassembledTvb h) (d_tcpinfo_seq s)
          (d_is_reassembled s) 0.

(** C7, as the code has it. A segment of known length with FIN on a flow
    marked "reassemble until FIN".
    - No FIN recorded yet, or this frame is the recorded one: the frame is
      recorded as the flow's FIN. If an MSP starts at or before [seq - 1],
      the segment is added to its reassembly as the last fragment; if that
      completes the reassembly, the reassembled data goes to the
      subdissector and [dissect_tcp] returns. If the index has no such MSP,
      or the reassembly is not complete, nothing is delivered here and the
      dissection goes on.
    - A FIN recorded in another frame: the segment is a retransmission of
      the FIN; only the "FIN retransmission" item is added, nothing is
      delivered, and record and reassembly table stay as they were. *)
Theorem dissect_tcp_fin_spec (th_flags th_seq th_seglen offset : Z)
        (s : dstate R) (t : tcp_analysis) :
  d_tcpd s = Some t ->
  tst th_flags TH_FIN = true ->
  tst (flow_flags (Seq.fwd t)) TCP_FLOW_REASSEMBLE_UNTIL_FIN = true ->
  let t' := Seq.upd_fwd (fl_fin (num pinfo)) t in
  let s1 := with_tcpd (Some t') s in
  let msp := wmem_tree_lookup32_le (multisegment_pdus (Seq.fwd t)) (u32 (th_seq - 1)) in
  (fin (Seq.fwd t) = 0 \/ fin (Seq.fwd t) = num pinfo ->
     fin (Seq.fwd t') = num pinfo
     /\ match msp_deref s msp with
        | Some m =>
            let added :=
              fragment_add (d_table s) pinfo offset (msp_first_frame m)
                           (u32 (th_seq - msp_seq m)) th_seglen false in
            match snd added with
            | Some h =>
                let s2 := with_desegment (d_desegment_offset s) (d_desegment_len s) 0
                            (emit (EvFragmentTree h)
                               (emit EvDataSource (with_table (fst added) s1))) in
                exists s3,
                  (fin_block true th_flags th_seq th_seglen offset s = FinReturned s3
                   \/ fin_block true th_flags th_seq th_seglen offset s = FinRaised s3)
                  /\ d_tcpd s3 = Some t'
                  /\ d_table s3 = fst added
                  /\ d_events s3
                     = d_events s ++ [EvDataSource; EvFragmentTree h;
                                      EvSubdissector (fin_call h s)]
            | None =>
                fin_block true th_flags th_seq th_seglen offset s
                = FinGoesOn (with_table (fst added) s1)
            end
        | None =>
            fin_block true th_flags th_seq th_seglen offset s = FinGoesOn s1
        end)
  /\ (fin (Seq.fwd t) <> 0 -> fin (Seq.fwd t) <> num pinfo ->
      fin_block true th_flags th_seq th_seglen offset s
      = FinGoesOn (emit (EvFinRetransmission (fin (Seq.fwd t))) s)).
Proof.
  intros Ht Hfin Hflag t' s1 msp.
  assert (Hfwd : multisegment_pdus (Seq.fwd t') = multisegment_pdus (Seq.fwd t)).
  { unfold t', Seq.upd_fwd, Seq.fwd. destruct (fwd_is_flow1 t) eqn:E; cbn; rewrite E; reflexivity. }
  assert (Hmsps : msp_deref s1 msp = msp_deref s msp).
  { unfold msp_deref, msps, s1. cbn. rewrite Ht, Hfwd. reflexivity. }
  split.
  - intros Hrec.
    assert (Hc : (fin (Seq.fwd t) =? 0) || (fin (Seq.fwd t) =? num pinfo) = true).
    { destruct Hrec as [->| ->]; [reflexivity|].
      rewrite Z.eqb_refl. apply orb_true_r. }
    split.
    { unfold t', Seq.upd_fwd, Seq.fwd.
      destruct (fwd_is_flow1 t) eqn:E; cbn; rewrite E; reflexivity. }
    unfold fin_block, dissect_tcp_fin. rewrite Ht, Hfin, Hflag, Hc. cbn [andb].
    fold t'. fold s1. rewrite Hfwd. fold msp. rewrite Hmsps.
    destruct (msp_deref s msp) as [m|]; [|reflexivity].
    change (d_table s1) with (d_table s).
    destruct (fragment_add (d_table s) pinfo offset (msp_first_frame m)
                           (u32 (th_seq - msp_seq m)) th_seglen false) as [r [h|]];
      cbn [fst snd]; [|reflexivity].
    unfold process_tcp_payload.
    match goal with |- context [subdissector ?c] => destruct (subdissector c) end.
    + eexists. split; [left; reflexivity|]. cbn. rewrite <- !app_assoc. auto.
    + eexists. split; [right; reflexivity|]. cbn. rewrite <- !app_assoc. auto.
  - intros N0 Nn. unfold fin_block, dissect_tcp_fin. rewrite Ht, Hfin, Hflag.
    apply Z.eqb_neq in N0, Nn. rewrite N0, Nn. reflexivity.
Qed.

End ReasmProps.

Section ReasmExamples.

Import Reasm.

(** A small reassembly table for one reassembly id: the (offset, length)
    pairs added so far. [fragment_add] answers with the head once the last
    fragment is in and the fragments cover the data from 0 on without a gap
    (the scan is the one of [missing_segments]). *)
Definition toy_covered (frags : list (Z * Z)) : Z :=
  fold_left
    (fun (max : Z) (frag : Z * Z) =>
       if (fst frag <=? max) && (max <? fst frag + snd frag)
       then fst frag + snd frag else max)
    frags 0.

Definition toy_fragment_get (r : list (Z * Z)) (id : Z) : option fragment_head := None.

Definition toy_fragment_add (r : list (Z * Z)) (pi : packet_info)
           (tvb_offset id frag_offset frag_data_len : Z) (more_frags : bool)
  : list (Z * Z) * option fragment_head :=
  let r' := r ++ [(frag_offset, frag_data_len)] in
  let tot := frag_offset + frag_data_len in
  if negb more_frags && (tot <=? toy_covered r')
  then (r', Some (FdHead (num pi) tot 0 r' tot))
  else (r', None).

Definition toy_reset (r : list (Z * Z)) (id tot : Z) : list (Z * Z) := r.
Definition toy_partial (r : list (Z * Z)) (id : Z) : list (Z * Z) := r.
Definition toy_remaining (offset : Z) : Z := 50 - offset.
Definition toy_subdissector (c : sub_call) : option sub_reply := Some (SubReply 0 0).

(** A flow that holds one MSP: it starts at sequence number 100 in frame 3,
    was last extended in frame 4, and the subdissector asked to reassemble
    until the FIN. The first 50 bytes are in the reassembly table. *)
Definition toy_msp : tcp_multisegment_pdu :=
  Msp 100 (100 + 50 + DESEGMENT_UNTIL_FIN) 3 3 4 (NsTime 10 0) 0.

Definition toy_flow : tcp_flow_t :=
  Flow TCP_S_BASE_SEQ_SET 99 0 65535 (-1) false 0 true 0 false
       TCP_FLOW_REASSEMBLE_UNTIL_FIN 0 0 (<[100 := toy_msp]> ∅) seq_info0.

Definition toy_tcpd : tcp_analysis :=
  Analysis toy_flow Conv.flow0 true None ∅ nstime_zero 0.

Definition toy_state : dstate (list (Z * Z)) :=
  DState (Some toy_tcpd) [(0, 50)] 0 0 2 0 false [].

Definition toy_pinfo (frame : Z) : packet_info := PInfo frame (NsTime 11 0) false.

Lemma desegment_tcp_duplicate_witness :
  d_tcpd toy_state = Some toy_tcpd
  /\ multisegment_pdus (Seq.fwd toy_tcpd) !! 100 = Some toy_msp
  /\ 150 <= msp_nxtpdu toy_msp
  /\ tst (msp_flags toy_msp) MSP_FLAGS_MISSING_FIRST_SEGMENT = false
  /\ msp_first_frame toy_msp <> num (toy_pinfo 6)
  /\ msp_first_frame_with_seq toy_msp <> num (toy_pinfo 6)
  /\ msp_last_frame toy_msp <> num (toy_pinfo 6)
  /\ desegment_tcp toy_fragment_get toy_fragment_add toy_reset toy_partial 50
                   toy_remaining toy_remaining toy_subdissector true false
                   (toy_pinfo 6) 150 1 true 0 100 toy_state
     = Some (Return (after_duplicate toy_remaining 0 toy_state)).
Proof.
  assert (H1 : d_tcpd toy_state = Some toy_tcpd) by reflexivity.
  assert (H2 : multisegment_pdus (Seq.fwd toy_tcpd) !! 100 = Some toy_msp)
    by (vm_compute; reflexivity).
  assert (H3 : 150 <= msp_nxtpdu toy_msp) by (vm_compute; discriminate).
  assert (H4 : tst (msp_flags toy_msp) MSP_FLAGS_MISSING_FIRST_SEGMENT = false)
    by reflexivity.
  assert (H5 : msp_first_frame toy_msp <> num (toy_pinfo 6)) by (vm_compute; discriminate).
  assert (H6 : msp_first_frame_with_seq toy_msp <> num (toy_pinfo 6))
    by (vm_compute; discriminate).
  assert (H7 : msp_last_frame toy_msp <> num (toy_pinfo 6)) by (vm_compute; discriminate).
  repeat (split; [assumption|]).
  exact (proj1 (desegment_tcp_duplicate toy_fragment_get toy_fragment_add toy_reset
                  toy_partial 50 toy_remaining toy_remaining toy_subdissector true false
                  (toy_pinfo 6) 150 0 true 0 100 toy_state toy_tcpd toy_msp
                  H1 H2 H3 H4 H5 H6 H7)).
Defined.

(** The FIN of the toy flow arrives in frame 5 at sequence number 150, right
    after the 50 bytes reassembled so far: the reassembly completes and the
    data is delivered. *)
Lemma dissect_tcp_fin_spec_witness :
  d_tcpd toy_state = Some toy_tcpd
  /\ tst (Z.lor TH_FIN TH_ACK) TH_FIN = true
  /\ tst (flow_flags (Seq.fwd toy_tcpd)) TCP_FLOW_REASSEMBLE_UNTIL_FIN = true
  /\ fin (Seq.fwd toy_tcpd) = 0
  /\ fin (Seq.fwd (Seq.upd_fwd (fl_fin (num (toy_pinfo 5))) toy_tcpd)) = num (toy_pinfo 5).
Proof.
  assert (H1 : d_tcpd toy_state = Some toy_tcpd) by reflexivity.
  assert (H2 : tst (Z.lor TH_FIN TH_ACK) TH_FIN = true) by reflexivity.
  assert (H3 : tst (flow_flags (Seq.fwd toy_tcpd)) TCP_FLOW_REASSEMBLE_UNTIL_FIN = true)
    by reflexivity.
  assert (H4 : fin (Seq.fwd toy_tcpd) = 0) by reflexivity.
  repeat (split; [assumption|]).
  exact (proj1 (proj1 (dissect_tcp_fin_spec toy_fragment_add toy_subdissector (toy_pinfo 5)
                         (Z.lor TH_FIN TH_ACK) 150 0 20 toy_state toy_tcpd H1 H2 H3)
                      (or_introl H4))).
Defined.

Example dissect_tcp_fin_delivers :
  dissect_tcp_fin toy_fragment_add toy_subdissector (toy_pinfo 5) true
                  (Z.lor TH_FIN TH_ACK) 150 0 20 toy_state
  = FinReturned
      (DState (Some (Seq.upd_fwd (fl_fin 5) toy_tcpd)) [(0, 50); (50, 0)] 0 0 0 0 false
              [EvDataSource;
               EvFragmentTree (FdHead 5 50 0 [(0, 50); (50, 0)] 50);
               EvSubdissector
                 (SubCall 5 false (ReassembledTvb (FdHead 5 50 0 [(0, 50); (50, 0)] 50))
                          0 false 0)]).
Proof. vm_compute. reflexivity. Qed.

(** C7 as stated fails. The FIN of the toy flow arrives in frame 5 at
    sequence number 200, 50 bytes after the end of what was reassembled: the
    flow is marked, no FIN was recorded, the MSP at or before [seq - 1] is
    found and the segment added to it, the frame is recorded as the FIN, and
    yet nothing is delivered to the subdissector: the reassembly has a gap,
    and the dissection goes on. *)
Lemma dissect_tcp_fin_not_delivered :
  tst (Z.lor TH_FIN TH_ACK) TH_FIN = true
  /\ tst (flow_flags (Seq.fwd toy_tcpd)) TCP_FLOW_REASSEMBLE_UNTIL_FIN = true
  /\ fin (Seq.fwd toy_tcpd) = 0
  /\ wmem_tree_lookup32_le (multisegment_pdus (Seq.fwd toy_tcpd)) (u32 (200 - 1)) = Some 100
  /\ dissect_tcp_fin toy_fragment_add toy_subdissector (toy_pinfo 5) true
                     (Z.lor TH_FIN TH_ACK) 200 0 20 toy_state
     = FinGoesOn
         (DState (Some (Seq.upd_fwd (fl_fin 5) toy_tcpd)) [(0, 50); (100, 0)]
                 0 0 2 0 false []).
Proof. vm_compute. repeat split; reflexivity. Qed.

End ReasmExamples.

(** ** The sequence analysis, block by block *)

(** From one call to the next a flow's [nextseq] stays, or it is assigned
    while it was zero or to a value after it in sequence space. *)
Definition nextseq_step (f f' : tcp_flow_t) : Prop :=
  nextseq (tcp_analyze_seq_info f') = nextseq (tcp_analyze_seq_info f)
  \/ nextseq (tcp_analyze_seq_info f) = 0
  \/ GT_SEQ (nextseq (tcp_analyze_seq_info f')) (nextseq (tcp_analyze_seq_info f)) = true.

Lemma nextseq_step_ge f f' :
  nextseq_step f f' ->
  nextseq (tcp_analyze_seq_info f) <> 0 ->
  GE_SEQ (nextseq (tcp_analyze_seq_info f')) (nextseq (tcp_analyze_seq_info f)) = true.
Proof.
  intros [E | [E | E]] N.
  - rewrite E. apply GE_SEQ_refl.
  - contradiction.
  - apply GT_GE_SEQ. exact E.
Qed.

Lemma tst_bit0 x : tst x 1 = Z.testbit x 0.
Proof.
  unfold tst. change 1 with (Z.ones 1). rewrite Z.land_ones by lia.
  change (2 ^ 1) with 2. rewrite <- Z.bit0_mod.
  destruct (Z.testbit x 0); reflexivity.
Qed.

Lemma tst_base_set_lor x k :
  Z.testbit k 0 = true -> tst (u8 (Z.lor x k)) TCP_S_BASE_SEQ_SET = true.
Proof.
  intros H. unfold TCP_S_BASE_SEQ_SET. rewrite tst_bit0. unfold u8.
  rewrite Z.mod_pow2_bits_low by lia. rewrite Z.lor_spec, H. apply orb_true_r.
Qed.

Section SeqProps.

Import Seq.

Variable tcp_track_bytes_in_flight : bool.
Variable TCP_MAX_UNACKED_SEGMENTS : Z.
Variable pinfo : packet_info.
Variables seq ack seglen flags window : Z.

(** the key of this packet's analysis result *)
Definition packet_key : acked_key := (num pinfo, seq, ack).

(** What [dissect_tcp] hands over on the first pass: [tcpd->ta] is NULL and
    the tree has no result for this packet yet, or [tcpd->ta] points to this
    packet's result (the port-reuse tests have made it). *)
Definition packet_ready (t : tcp_analysis) : Prop :=
  match ta t with
  | None => acked_table t !! packet_key = None
  | Some k => k = packet_key /\ is_Some (acked_table t !! packet_key)
  end.

(** this packet's analysis result, zeroed as long as there is none *)
Definition cur (t : tcp_analysis) : tcp_acked :=
  default tcp_acked0 (acked_table t !! packet_key).

Lemma fwd_upd_fwd g t : fwd (upd_fwd g t) = g (fwd t).
Proof. unfold fwd, upd_fwd. destruct (fwd_is_flow1 t) eqn:E; cbn; rewrite E; reflexivity. Qed.
Lemma rev_upd_fwd g t : rev (upd_fwd g t) = rev t.
Proof. unfold rev, upd_fwd. destruct (fwd_is_flow1 t) eqn:E; cbn; rewrite E; reflexivity. Qed.
Lemma fwd_upd_rev g t : fwd (upd_rev g t) = fwd t.
Proof. unfold fwd, upd_rev. destruct (fwd_is_flow1 t) eqn:E; cbn; rewrite E; reflexivity. Qed.
Lemma rev_upd_rev g t : rev (upd_rev g t) = g (rev t).
Proof. unfold rev, upd_rev. destruct (fwd_is_flow1 t) eqn:E; cbn; rewrite E; reflexivity. Qed.

Lemma ta_upd_fwd g t : ta (upd_fwd g t) = ta t.
Proof. unfold upd_fwd. destruct (fwd_is_flow1 t); reflexivity. Qed.
Lemma ta_upd_rev g t : ta (upd_rev g t) = ta t.
Proof. unfold upd_rev. destruct (fwd_is_flow1 t); reflexivity. Qed.
Lemma acked_table_upd_fwd g t : acked_table (upd_fwd g t) = acked_table t.
Proof. unfold upd_fwd. destruct (fwd_is_flow1 t); reflexivity. Qed.
Lemma acked_table_upd_rev g t : acked_table (upd_rev g t) = acked_table t.
Proof. unfold upd_rev. destruct (fwd_is_flow1 t); reflexivity. Qed.
Lemma ts_first_rtt_upd_fwd g t : ts_first_rtt (upd_fwd g t) = ts_first_rtt t.
Proof. unfold upd_fwd. destruct (fwd_is_flow1 t); reflexivity. Qed.
Lemma ts_first_rtt_upd_rev g t : ts_first_rtt (upd_rev g t) = ts_first_rtt t.
Proof. unfold upd_rev. destruct (fwd_is_flow1 t); reflexivity. Qed.

Lemma fwd_an_ta v tbl t : fwd (an_ta v tbl t) = fwd t.
Proof. reflexivity. Qed.
Lemma rev_an_ta v tbl t : rev (an_ta v tbl t) = rev t.
Proof. reflexivity. Qed.

Lemma ts_first_rtt_an_ta v tbl t : ts_first_rtt (an_ta v tbl t) = ts_first_rtt t.
Proof. reflexivity. Qed.

(** *** Writes through [tcpd->ta] *)

Lemma packet_ready_upd_fwd g t : packet_ready (upd_fwd g t) <-> packet_ready t.
Proof. unfold packet_ready. rewrite ta_upd_fwd, acked_table_upd_fwd. reflexivity. Qed.
Lemma packet_ready_upd_rev g t : packet_ready (upd_rev g t) <-> packet_ready t.
Proof. unfold packet_ready. rewrite ta_upd_rev, acked_table_upd_rev. reflexivity. Qed.
Lemma cur_upd_fwd g t : cur (upd_fwd g t) = cur t.
Proof. unfold cur. rewrite acked_table_upd_fwd. reflexivity. Qed.
Lemma cur_upd_rev g t : cur (upd_rev g t) = cur t.
Proof. unfold cur. rewrite acked_table_upd_rev. reflexivity. Qed.

(** the record once [tcpd->ta] points to this packet's result *)
Definition pointing (t : tcp_analysis) : Prop :=
  ta t = Some packet_key /\ is_Some (acked_table t !! packet_key).

Lemma pointing_ready t : pointing t -> packet_ready t.
Proof. intros [E H]. unfold packet_ready. rewrite E. auto. Qed.

Lemma pointing_upd_fwd g t : pointing (upd_fwd g t) <-> pointing t.
Proof. unfold pointing. rewrite ta_upd_fwd, acked_table_upd_fwd. reflexivity. Qed.
Lemma pointing_upd_rev g t : pointing (upd_rev g t) <-> pointing t.
Proof. unfold pointing. rewrite ta_upd_rev, acked_table_upd_rev. reflexivity. Qed.

Lemma get_acked_struct_spec t :
  packet_ready t ->
  let t' := tcp_analyze_get_acked_struct (num pinfo) seq ack true t in
  pointing t' /\ cur t' = cur t
  /\ fwd t' = fwd t /\ rev t' = rev t /\ ts_first_rtt t' = ts_first_rtt t.
Proof.
  intros H. unfold tcp_analyze_get_acked_struct. fold packet_key.
  unfold packet_ready in H. unfold pointing, cur.
  destruct (acked_table t !! packet_key) as [a|] eqn:E; cbn.
  - rewrite E. repeat split; eauto.
  - rewrite lookup_insert_eq. cbn. repeat split; eauto.
Qed.

Lemma ensure_ta_spec t :
  packet_ready t ->
  let t' := ensure_ta pinfo seq ack t in
  pointing t' /\ cur t' = cur t
  /\ fwd t' = fwd t /\ rev t' = rev t /\ ts_first_rtt t' = ts_first_rtt t.
Proof.
  intros H. unfold ensure_ta.
  destruct (ta t) as [k|] eqn:E.
  - unfold packet_ready in H. rewrite E in H. destruct H as [-> H].
    cbn. unfold pointing. auto.
  - apply get_acked_struct_spec. exact H.
Qed.

Lemma ta_modify_spec g t :
  pointing t ->
  let t' := ta_modify g t in
  pointing t' /\ cur t' = g (cur t)
  /\ fwd t' = fwd t /\ rev t' = rev t /\ ts_first_rtt t' = ts_first_rtt t.
Proof.
  intros [E [a Ha]]. unfold ta_modify. rewrite E. cbn.
  unfold pointing, cur. cbn. rewrite lookup_alter_eq, Ha. cbn.
  repeat split; eauto.
Qed.

Lemma set_flag_spec F t :
  packet_ready t ->
  let t' := set_flag pinfo seq ack F t in
  pointing t'
  /\ cur t' = ta_with_flags (Z.lor (ta_flags (cur t)) F) (cur t)
  /\ fwd t' = fwd t /\ rev t' = rev t /\ ts_first_rtt t' = ts_first_rtt t.
Proof.
  intros H. unfold set_flag.
  destruct (ensure_ta_spec t H) as (P & C & Ef & Er & Et).
  destruct (ta_modify_spec (fun a => ta_with_flags (Z.lor (ta_flags a) F) a) _ P)
    as (P' & C' & Ef' & Er' & Et').
  cbn zeta. rewrite C', C, Ef', Ef, Er', Er, Et', Et. auto.
Qed.

Lemma cur_flags_ready t : packet_ready t -> cur_flags t = ta_flags (cur t).
Proof.
  unfold packet_ready, cur_flags, ta_deref, cur.
  destruct (ta t) as [k|].
  - intros [-> [a Ha]]. rewrite Ha. reflexivity.
  - intros ->. reflexivity.
Qed.

Lemma has_ta_tst t F :
  packet_ready t -> has_ta t && tst (cur_flags t) F = tst (ta_flags (cur t)) F.
Proof.
  intros H. rewrite (cur_flags_ready t H).
  unfold has_ta. destruct (ta t) eqn:E; [reflexivity|].
  unfold packet_ready in H. rewrite E in H. unfold cur. rewrite H. cbn.
  rewrite tst_0_l. reflexivity.
Qed.

Lemma not_zwp_ready t :
  packet_ready t -> not_zwp t = negb (tst (ta_flags (cur t)) TCP_A_ZERO_WINDOW_PROBE).
Proof.
  intros H. unfold not_zwp. rewrite <- negb_andb. rewrite has_ta_tst by exact H. reflexivity.
Qed.

Lemma last_flags_ready t :
  packet_ready t -> (if has_ta t then cur_flags t else 0) = ta_flags (cur t).
Proof.
  intros H. rewrite (cur_flags_ready t H).
  unfold has_ta. destruct (ta t) eqn:E; [reflexivity|].
  unfold packet_ready in H. rewrite E in H. unfold cur. rewrite H. reflexivity.
Qed.

Lemma ta_with_flags_lor_0 a : ta_with_flags (Z.lor (ta_flags a) 0) a = a.
Proof. rewrite Z.lor_0_r. destruct a; reflexivity. Qed.

(** [if (c) { if(!tcpd->ta) ...; tcpd->ta->flags |= F; }] *)
Lemma flag_if (c : bool) F t :
  packet_ready t ->
  let t' := if c then set_flag pinfo seq ack F t else t in
  packet_ready t'
  /\ cur t' = ta_with_flags (Z.lor (ta_flags (cur t)) (if c then F else 0)) (cur t)
  /\ fwd t' = fwd t /\ rev t' = rev t /\ ts_first_rtt t' = ts_first_rtt t.
Proof.
  intros H. destruct c; cbn zeta.
  - destruct (set_flag_spec F t H) as (P & C & Ef & Er & Et).
    split; [apply pointing_ready; exact P|]. auto.
  - rewrite ta_with_flags_lor_0. auto.
Qed.

(** *** The analysis seen through the packet's own result

    What the analysis reads and writes of the record: this packet's result,
    the two flows and the first RTT. Under [packet_ready] each part of the
    analysis acts on this view as the function of the same name below. *)

Record view := View {
  v_cur : tcp_acked;
  v_fwd : tcp_flow_t;
  v_rev : tcp_flow_t;
  v_rtt : nstime_t
}.

Definition view_of (t : tcp_analysis) : view :=
  View (cur t) (fwd t) (rev t) (ts_first_rtt t).

Definition v_flag (F : Z) (v : view) : view :=
  View (ta_with_flags (Z.lor (ta_flags (v_cur v)) F) (v_cur v)) (v_fwd v) (v_rev v) (v_rtt v).
Definition v_cur_map (g : tcp_acked -> tcp_acked) (v : view) : view :=
  View (g (v_cur v)) (v_fwd v) (v_rev v) (v_rtt v).
Definition v_fwd_map (g : tcp_flow_t -> tcp_flow_t) (v : view) : view :=
  View (v_cur v) (g (v_fwd v)) (v_rev v) (v_rtt v).
Definition v_rev_map (g : tcp_flow_t -> tcp_flow_t) (v : view) : view :=
  View (v_cur v) (v_fwd v) (g (v_rev v)) (v_rtt v).

Lemma view_upd_fwd g t : view_of (upd_fwd g t) = v_fwd_map g (view_of t).
Proof.
  unfold view_of, v_fwd_map. cbn.
  rewrite cur_upd_fwd, fwd_upd_fwd, rev_upd_fwd, ts_first_rtt_upd_fwd. reflexivity.
Qed.

Lemma view_upd_rev g t : view_of (upd_rev g t) = v_rev_map g (view_of t).
Proof.
  unfold view_of, v_rev_map. cbn.
  rewrite cur_upd_rev, fwd_upd_rev, rev_upd_rev, ts_first_rtt_upd_rev. reflexivity.
Qed.

Lemma view_set_flag F t :
  packet_ready t ->
  pointing (set_flag pinfo seq ack F t)
  /\ view_of (set_flag pinfo seq ack F t) = v_flag F (view_of t).
Proof.
  intros H. destruct (set_flag_spec F t H) as (P & C & Ef & Er & Et).
  split; [exact P|]. unfold view_of, v_flag. cbn. rewrite C, Ef, Er, Et. reflexivity.
Qed.

Lemma view_ta_modify g t :
  pointing t ->
  pointing (ta_modify g t) /\ view_of (ta_modify g t) = v_cur_map g (view_of t).
Proof.
  intros H. destruct (ta_modify_spec g t H) as (P & C & Ef & Er & Et).
  split; [exact P|]. unfold view_of, v_cur_map. cbn. rewrite C, Ef, Er, Et. reflexivity.
Qed.

Lemma view_ensure_ta t :
  packet_ready t ->
  pointing (ensure_ta pinfo seq ack t) /\ view_of (ensure_ta pinfo seq ack t) = view_of t.
Proof.
  intros H. destruct (ensure_ta_spec t H) as (P & C & Ef & Er & Et).
  split; [exact P|]. unfold view_of. rewrite C, Ef, Er, Et. reflexivity.
Qed.

Lemma view_get_acked_struct t :
  packet_ready t ->
  pointing (tcp_analyze_get_acked_struct (num pinfo) seq ack true t)
  /\ view_of (tcp_analyze_get_acked_struct (num pinfo) seq ack true t) = view_of t.
Proof.
  intros H. destruct (get_acked_struct_spec t H) as (P & C & Ef & Er & Et).
  split; [exact P|]. unfold view_of. rewrite C, Ef, Er, Et. reflexivity.
Qed.

(** a part of the analysis [B] acts on the view as [Bv] *)
Definition acts_as (B : tcp_analysis -> tcp_analysis) (Bv : view -> view) : Prop :=
  forall t, packet_ready t -> packet_ready (B t) /\ view_of (B t) = Bv (view_of t).

Lemma acts_as_compose B1 B1v B2 B2v :
  acts_as B1 B1v -> acts_as B2 B2v ->
  acts_as (fun t => B2 (B1 t)) (fun v => B2v (B1v v)).
Proof.
  intros H1 H2 t H. destruct (H1 t H) as [R1 V1]. destruct (H2 (B1 t) R1) as [R2 V2].
  split; [exact R2|]. rewrite V2, V1. reflexivity.
Qed.

Lemma acts_as_flag F : acts_as (set_flag pinfo seq ack F) (v_flag F).
Proof.
  intros t H. destruct (view_set_flag F t H) as [P V].
  split; [apply pointing_ready; exact P | exact V].
Qed.

Lemma acts_as_upd_fwd g : acts_as (upd_fwd g) (v_fwd_map g).
Proof.
  intros t H. split; [apply packet_ready_upd_fwd; exact H | apply view_upd_fwd].
Qed.

Lemma acts_as_upd_rev g : acts_as (upd_rev g) (v_rev_map g).
Proof.
  intros t H. split; [apply packet_ready_upd_rev; exact H | apply view_upd_rev].
Qed.

Lemma acts_as_id : acts_as (fun t => t) (fun v => v).
Proof. intros t H. auto. Qed.

(** [if (c(t)) B1 else B2], the condition being one on the view *)
Lemma acts_as_if (c : tcp_analysis -> bool) (cv : view -> bool) B1 B1v B2 B2v :
  (forall t, packet_ready t -> c t = cv (view_of t)) ->
  acts_as B1 B1v -> acts_as B2 B2v ->
  acts_as (fun t => if c t then B1 t else B2 t) (fun v => if cv v then B1v v else B2v v).
Proof.
  intros Hc H1 H2 t H. rewrite <- (Hc t H). destruct (c t); [apply H1 | apply H2]; exact H.
Qed.

(** *** The parts of the analysis on the view *)

Definition store_base_seq_v (v : view) : view :=
  v_rev_map (store_rev_base_seq ack flags) (v_fwd_map (store_fwd_base_seq seq flags) v).

Definition check_zero_window_v (v : view) : view :=
  if zero_window_test flags window then v_flag TCP_A_ZERO_WINDOW v else v.
Definition check_lost_packet_v (v : view) : view :=
  if lost_test seq flags (v_fwd v)
  then v_fwd_map (fl_valid_bif false) (v_flag TCP_A_LOST_PACKET v) else v.
Definition check_keep_alive_v (v : view) : view :=
  if keepalive_test seq seglen flags (v_fwd v) then v_flag TCP_A_KEEP_ALIVE v else v.
Definition check_window_update_v (v : view) : view :=
  if window_update_test seq ack seglen flags window (v_fwd v)
  then v_flag TCP_A_WINDOW_UPDATE v else v.
Definition check_window_full_v (v : view) : view :=
  if window_full_test seq seglen flags (v_rev v) then v_flag TCP_A_WINDOW_FULL v else v.
Definition count_duplicate_ack_v (v : view) : view :=
  let v := v_fwd_map (fl_si (fun i => si_dupacknum (u32 (dupacknum i + 1)) i)) v in
  let v := v_flag TCP_A_DUPLICATE_ACK v in
  v_cur_map (ta_with_dupack (dupacknum (si (v_fwd v))) (lastnondupack (si (v_fwd v)))) v.

Definition forward_checks_v (v : view) : view :=
  if zwp_test seq seglen (v_fwd v) (v_rev v) then v_flag TCP_A_ZERO_WINDOW_PROBE v
  else
  let v := check_zero_window_v v in
  let v := check_lost_packet_v v in
  let v := check_keep_alive_v v in
  let v := check_window_update_v v in
  let v := check_window_full_v v in
  if keepalive_ack_test seq ack seglen flags window (v_fwd v) (v_rev v)
  then v_flag TCP_A_KEEP_ALIVE_ACK v
  else
  if zwp_ack_test seq ack seglen flags window (v_fwd v) (v_rev v)
  then v_flag TCP_A_ZERO_WINDOW_PROBE_ACK v
  else
  if dupack_test seq ack seglen flags window (v_fwd v) then count_duplicate_ack_v v
  else v.

Definition reset_dupack_v (v : view) : view :=
  if negb (ack =? lastack (si (v_fwd v))) then
    v_fwd_map (fl_si (fun i => si_dupacknum 0 (si_lastnondupack (num pinfo) i))) v
  else v.
Definition check_ack_lost_packet_v (v : view) : view :=
  if ack_lost_test ack flags (v_rev v) then
    v_rev_map (fl_si (fun i => si_maxseqtobeacked (nextseq i) i))
              (v_flag TCP_A_ACK_LOST_PACKET v)
  else v.
Definition finished_fwd_v (v : view) : view :=
  check_ack_lost_packet_v (reset_dupack_v v).

Definition check_retransmission_v (v : view) : view :=
  if (0 <? seglen) || tst flags (Z.lor TH_SYN TH_FIN) then
    if tst (ta_flags (v_cur v)) TCP_A_KEEP_ALIVE then v
    else
    if fast_retransmission_test pinfo seq seglen (v_fwd v) (v_rev v)
    then v_flag TCP_A_FAST_RETRANSMISSION v
    else
    if out_of_order_test pinfo seq seglen (v_fwd v) (v_rtt v)
    then v_flag TCP_A_OUT_OF_ORDER v
    else
    if spurious_test seq seglen (v_rev v) then v_flag TCP_A_SPURIOUS_RETRANSMISSION v
    else
    if seq_not_advanced seq seglen (v_fwd v) then
      v_cur_map (ta_with_rto (nextseqframe (si (v_fwd v)))
                             (nstime_delta (abs_ts pinfo) (nextseqtime (si (v_fwd v)))))
                (v_flag TCP_A_RETRANSMISSION v)
    else v
  else v.

Definition remember_segment_v (v : view) : view :=
  v_fwd_map
    (remember_flow TCP_MAX_UNACKED_SEGMENTS pinfo seq ack seglen flags window
       (negb (tst (ta_flags (v_cur v)) TCP_A_ZERO_WINDOW_PROBE)) (ta_flags (v_cur v))) v.

Definition delete_unacked_v (ual : tcp_unacked_t) (v : view) : view :=
  let v :=
    if scps_capable (v_rev v) then
      if maxsizeacked (v_fwd v) <? u32 (ual_nextseq ual - ual_seq ual)
      then v_fwd_map (fl_maxsizeacked (u16 (u32 (ual_nextseq ual - ual_seq ual)))) v
      else v
    else v in
  v_rev_map (fl_si (fun i => si_segment_count (u16 (segment_count i - 1)) i)) v.

Fixpoint ack_walk_v (l : list tcp_unacked_t) (v : view) : list tcp_unacked_t * view :=
  match l with
  | [] => ([], v)
  | ual :: next =>
      if ack =? ual_nextseq ual then
        let v := v_cur_map (ta_with_acked (ual_frame ual)
                                          (nstime_delta (abs_ts pinfo) (ual_ts ual))) v in
        ack_walk_v next (delete_unacked_v ual v)
      else
        let ual :=
          if GT_SEQ ack (ual_seq ual) && LE_SEQ ack (ual_nextseq ual)
          then Unacked (ual_frame ual) ack (ual_nextseq ual) (ual_ts ual)
          else ual in
        if GT_SEQ (ual_nextseq ual) ack then
          let '(kept, v) := ack_walk_v next v in (ual :: kept, v)
        else
          ack_walk_v next (delete_unacked_v ual v)
  end.

Definition remove_acked_segments_v (v : view) : view :=
  let '(kept, v) := ack_walk_v (segments (si (v_rev v))) v in
  v_rev_map (fl_si (si_segments kept)) v.

Definition track_bytes_in_flight_v (v : view) : view :=
  if tracks_in_flight tcp_track_bytes_in_flight seglen (v_fwd v) then
    let in_flight := in_flight (v_fwd v) in
    let v :=
      if (0 <? in_flight) && (in_flight <? 2000000000)
      then v_cur_map (ta_with_bif in_flight) v
      else v in
    let v := v_fwd_map (count_push_bytes seglen flags) v in
    v_cur_map (ta_with_push (push_bytes_sent (v_fwd v))) v
  else v.

Definition analyze_v (v : view) : view :=
  track_bytes_in_flight_v
    (remove_acked_segments_v
       (remember_segment_v
          (check_retransmission_v
             (finished_fwd_v
                (forward_checks_v
                   (store_base_seq_v v)))))).

Let flag := set_flag pinfo seq ack.

Lemma store_base_seq_acts : acts_as (store_base_seq seq ack flags) store_base_seq_v.
Proof.
  unfold store_base_seq, store_base_seq_v.
  apply (acts_as_compose (upd_fwd _) (v_fwd_map _) (upd_rev _) (v_rev_map _)).
  - apply acts_as_upd_fwd.
  - apply acts_as_upd_rev.
Qed.

Lemma check_zero_window_acts :
  acts_as (check_zero_window pinfo seq ack flags window) check_zero_window_v.
Proof.
  intros t H. unfold check_zero_window, check_zero_window_v.
  destruct (zero_window_test flags window); [apply acts_as_flag; exact H | auto].
Qed.

Lemma check_lost_packet_acts :
  acts_as (check_lost_packet pinfo seq ack flags) check_lost_packet_v.
Proof.
  intros t H. unfold check_lost_packet, check_lost_packet_v.
  change (v_fwd (view_of t)) with (fwd t).
  destruct (lost_test seq flags (fwd t)); [|auto].
  apply (acts_as_compose (set_flag pinfo seq ack _) (v_flag _) (upd_fwd _) (v_fwd_map _));
    [apply acts_as_flag | apply acts_as_upd_fwd | exact H].
Qed.

Lemma check_keep_alive_acts :
  acts_as (check_keep_alive pinfo seq ack seglen flags) check_keep_alive_v.
Proof.
  intros t H. unfold check_keep_alive, check_keep_alive_v.
  change (v_fwd (view_of t)) with (fwd t).
  destruct (keepalive_test seq seglen flags (fwd t)); [apply acts_as_flag; exact H | auto].
Qed.

Lemma check_window_update_acts :
  acts_as (check_window_update pinfo seq ack seglen flags window) check_window_update_v.
Proof.
  intros t H. unfold check_window_update, check_window_update_v.
  change (v_fwd (view_of t)) with (fwd t).
  destruct (window_update_test seq ack seglen flags window (fwd t));
    [apply acts_as_flag; exact H | auto].
Qed.

Lemma check_window_full_acts :
  acts_as (check_window_full pinfo seq ack seglen flags) check_window_full_v.
Proof.
  intros t H. unfold check_window_full, check_window_full_v.
  change (v_rev (view_of t)) with (rev t).
  destruct (window_full_test seq seglen flags (rev t)); [apply acts_as_flag; exact H | auto].
Qed.

Lemma count_duplicate_ack_acts :
  acts_as (count_duplicate_ack pinfo seq ack) count_duplicate_ack_v.
Proof.
  intros t H. unfold count_duplicate_ack, count_duplicate_ack_v. cbv zeta.
  set (g := fl_si (fun i => si_dupacknum (u32 (dupacknum i + 1)) i)).
  assert (H1 : packet_ready (upd_fwd g t)) by (apply packet_ready_upd_fwd; exact H).
  destruct (view_set_flag TCP_A_DUPLICATE_ACK _ H1) as [P V].
  rewrite view_upd_fwd in V.
  set (t2 := set_flag pinfo seq ack TCP_A_DUPLICATE_ACK (upd_fwd g t)) in *.
  destruct (view_ta_modify
              (ta_with_dupack (dupacknum (si (fwd t2))) (lastnondupack (si (fwd t2)))) t2 P)
    as [P' V'].
  split; [apply pointing_ready; exact P'|].
  rewrite V'. change (fwd t2) with (v_fwd (view_of t2)). rewrite V. reflexivity.
Qed.

Lemma forward_checks_acts :
  acts_as (forward_checks pinfo seq ack seglen flags window) forward_checks_v.
Proof.
  intros t H. unfold forward_checks, forward_checks_v.
  change (v_fwd (view_of t)) with (fwd t). change (v_rev (view_of t)) with (rev t).
  destruct (zwp_test seq seglen (fwd t) (rev t)); [apply acts_as_flag; exact H|].
  cbv zeta.
  destruct (check_zero_window_acts t H) as [R1 V1].
  destruct (check_lost_packet_acts _ R1) as [R2 V2]. rewrite V1 in V2.
  destruct (check_keep_alive_acts _ R2) as [R3 V3]. rewrite V2 in V3.
  destruct (check_window_update_acts _ R3) as [R4 V4]. rewrite V3 in V4.
  destruct (check_window_full_acts _ R4) as [R5 V5]. rewrite V4 in V5.
  set (t5 := check_window_full pinfo seq ack seglen flags
               (check_window_update pinfo seq ack seglen flags window
                  (check_keep_alive pinfo seq ack seglen flags
                     (check_lost_packet pinfo seq ack flags
                        (check_zero_window pinfo seq ack flags window t))))) in *.
  rewrite <- V5.
  change (v_fwd (view_of t5)) with (fwd t5). change (v_rev (view_of t5)) with (rev t5).
  destruct (keepalive_ack_test seq ack seglen flags window (fwd t5) (rev t5));
    [apply acts_as_flag; exact R5|].
  destruct (zwp_ack_test seq ack seglen flags window (fwd t5) (rev t5));
    [apply acts_as_flag; exact R5|].
  destruct (dupack_test seq ack seglen flags window (fwd t5));
    [apply count_duplicate_ack_acts; exact R5|].
  auto.
Qed.

Lemma finished_fwd_acts : acts_as (finished_fwd pinfo seq ack flags) finished_fwd_v.
Proof.
  unfold finished_fwd, finished_fwd_v.
  apply (acts_as_compose (reset_dupack pinfo ack) reset_dupack_v
                         (check_ack_lost_packet pinfo seq ack flags) check_ack_lost_packet_v).
  - intros t H. unfold reset_dupack, reset_dupack_v.
    change (v_fwd (view_of t)) with (fwd t).
    destruct (negb (ack =? lastack (si (fwd t)))); [apply acts_as_upd_fwd; exact H | auto].
  - intros t H. unfold check_ack_lost_packet, check_ack_lost_packet_v.
    change (v_rev (view_of t)) with (rev t).
    destruct (ack_lost_test ack flags (rev t)); [|auto].
    apply (acts_as_compose (set_flag pinfo seq ack _) (v_flag _) (upd_rev _) (v_rev_map _));
      [apply acts_as_flag | apply acts_as_upd_rev | exact H].
Qed.

Lemma check_retransmission_acts :
  acts_as (check_retransmission pinfo seq ack seglen flags) check_retransmission_v.
Proof.
  intros t H. unfold check_retransmission, check_retransmission_v.
  rewrite (has_ta_tst t TCP_A_KEEP_ALIVE H).
  change (v_fwd (view_of t)) with (fwd t). change (v_rev (view_of t)) with (rev t).
  change (v_rtt (view_of t)) with (ts_first_rtt t). change (v_cur (view_of t)) with (cur t).
  destruct ((0 <? seglen) || tst flags (Z.lor TH_SYN TH_FIN)); [|auto].
  destruct (tst (ta_flags (cur t)) TCP_A_KEEP_ALIVE); [auto|].
  destruct (fast_retransmission_test pinfo seq seglen (fwd t) (rev t));
    [apply acts_as_flag; exact H|].
  destruct (out_of_order_test pinfo seq seglen (fwd t) (ts_first_rtt t));
    [apply acts_as_flag; exact H|].
  destruct (spurious_test seq seglen (rev t)); [apply acts_as_flag; exact H|].
  destruct (seq_not_advanced seq seglen (fwd t)); [|auto].
  cbv zeta.
  destruct (view_set_flag TCP_A_RETRANSMISSION t H) as [P V].
  destruct (view_ta_modify
              (ta_with_rto (nextseqframe (si (fwd t)))
                           (nstime_delta (abs_ts pinfo) (nextseqtime (si (fwd t))))) _ P)
    as [P' V'].
  split; [apply pointing_ready; exact P'|]. rewrite V', V. reflexivity.
Qed.

Lemma remember_segment_acts :
  acts_as (remember_segment TCP_MAX_UNACKED_SEGMENTS pinfo seq ack seglen flags window)
          remember_segment_v.
Proof.
  intros t H. unfold remember_segment, remember_segment_v.
  rewrite (not_zwp_ready t H), (last_flags_ready t H).
  split; [apply packet_ready_upd_fwd; exact H | apply view_upd_fwd].
Qed.

Lemma delete_unacked_acts ual : acts_as (delete_unacked ual) (delete_unacked_v ual).
Proof.
  intros t H. unfold delete_unacked, delete_unacked_v. cbv zeta.
  change (v_fwd (view_of t)) with (fwd t). change (v_rev (view_of t)) with (rev t).
  destruct (scps_capable (rev t)).
  - destruct (maxsizeacked (fwd t) <? u32 (ual_nextseq ual - ual_seq ual)).
    + apply (acts_as_compose (upd_fwd _) (v_fwd_map _) (upd_rev _) (v_rev_map _));
        [apply acts_as_upd_fwd | apply acts_as_upd_rev | exact H].
    + apply acts_as_upd_rev; exact H.
  - apply acts_as_upd_rev; exact H.
Qed.

Lemma ack_walk_acts l :
  forall t, packet_ready t ->
    packet_ready (snd (ack_walk pinfo seq ack l t))
    /\ fst (ack_walk pinfo seq ack l t) = fst (ack_walk_v l (view_of t))
    /\ view_of (snd (ack_walk pinfo seq ack l t)) = snd (ack_walk_v l (view_of t)).
Proof.
  induction l as [|ual next IH]; intros t H; cbn [ack_walk ack_walk_v]; [auto|].
  destruct (ack =? ual_nextseq ual).
  - cbv zeta.
    destruct (view_get_acked_struct t H) as [P V].
    destruct (view_ta_modify
                (ta_with_acked (ual_frame ual) (nstime_delta (abs_ts pinfo) (ual_ts ual)))
                _ P) as [P' V'].
    rewrite V in V'.
    destruct (delete_unacked_acts ual _ (pointing_ready _ P')) as [R W].
    rewrite V' in W.
    destruct (IH _ R) as (R' & F' & W'). rewrite W in F', W'. auto.
  - cbv zeta.
    set (ual' := if GT_SEQ ack (ual_seq ual) && LE_SEQ ack (ual_nextseq ual)
                 then Unacked (ual_frame ual) ack (ual_nextseq ual) (ual_ts ual) else ual).
    destruct (GT_SEQ (ual_nextseq ual') ack).
    + destruct (IH t H) as (R' & F' & W').
      destruct (ack_walk pinfo seq ack next t) as [k t'].
      destruct (ack_walk_v next (view_of t)) as [k' v']. cbn in *.
      subst. auto.
    + destruct (delete_unacked_acts ual' t H) as [R W].
      destruct (IH _ R) as (R' & F' & W'). rewrite W in F', W'. auto.
Qed.

Lemma remove_acked_segments_acts :
  acts_as (remove_acked_segments pinfo seq ack) remove_acked_segments_v.
Proof.
  intros t H. unfold remove_acked_segments, remove_acked_segments_v.
  change (v_rev (view_of t)) with (rev t).
  destruct (ack_walk_acts (segments (si (rev t))) t H) as (R & F & W).
  destruct (ack_walk pinfo seq ack (segments (si (rev t))) t) as [k t'].
  destruct (ack_walk_v (segments (si (rev t))) (view_of t)) as [k' v']. cbn in *. subst.
  split; [apply packet_ready_upd_rev; exact R | apply view_upd_rev].
Qed.

Lemma track_bytes_in_flight_acts :
  acts_as (track_bytes_in_flight tcp_track_bytes_in_flight pinfo seq ack seglen flags)
          track_bytes_in_flight_v.
Proof.
  intros t H. unfold track_bytes_in_flight, track_bytes_in_flight_v.
  change (v_fwd (view_of t)) with (fwd t).
  destruct (tracks_in_flight tcp_track_bytes_in_flight seglen (fwd t)); [|auto].
  cbv zeta.
  assert (S1 : let t1 := if (0 <? in_flight (fwd t)) && (in_flight (fwd t) <? 2000000000)
                         then ta_modify (ta_with_bif (in_flight (fwd t)))
                                        (ensure_ta pinfo seq ack t)
                         else t in
               packet_ready t1
               /\ view_of t1
                  = (if (0 <? in_flight (fwd t)) && (in_flight (fwd t) <? 2000000000)
                     then v_cur_map (ta_with_bif (in_flight (fwd t))) (view_of t)
                     else view_of t)).
  { destruct ((0 <? in_flight (fwd t)) && (in_flight (fwd t) <? 2000000000)); cbv zeta; [|auto].
    destruct (view_ensure_ta t H) as [P V].
    destruct (view_ta_modify (ta_with_bif (in_flight (fwd t))) _ P) as [P' V'].
    rewrite V in V'. split; [apply pointing_ready; exact P' | exact V']. }
  cbv zeta in S1. destruct S1 as [R1 V1].
  set (t1 := if (0 <? in_flight (fwd t)) && (in_flight (fwd t) <? 2000000000)
             then _ else t) in *.
  assert (R2 : packet_ready (upd_fwd (count_push_bytes seglen flags) t1))
    by (apply packet_ready_upd_fwd; exact R1).
  set (t2 := upd_fwd (count_push_bytes seglen flags) t1) in *.
  destruct (view_ensure_ta t2 R2) as [P V].
  destruct (view_ta_modify (ta_with_push (push_bytes_sent (fwd t2))) _ P) as [P' V'].
  split; [apply pointing_ready; exact P'|].
  rewrite V', V. unfold t2 at 2. rewrite view_upd_fwd, V1.
  change (fwd t2) with (v_fwd (view_of t2)). unfold t2. rewrite view_upd_fwd, V1.
  reflexivity.
Qed.

(** Under [packet_ready] the analysis acts on the view as [analyze_v]. *)
Lemma analyze_acts :
  acts_as (analyze tcp_track_bytes_in_flight TCP_MAX_UNACKED_SEGMENTS
                   pinfo seq ack seglen flags window) analyze_v.
Proof.
  intros t H. unfold analyze, analyze_v. cbv zeta.
  destruct (store_base_seq_acts t H) as [R1 V1].
  destruct (forward_checks_acts _ R1) as [R2 V2]. rewrite V1 in V2.
  destruct (finished_fwd_acts _ R2) as [R3 V3]. rewrite V2 in V3.
  destruct (check_retransmission_acts _ R3) as [R4 V4]. rewrite V3 in V4.
  destruct (remember_segment_acts _ R4) as [R5 V5]. rewrite V4 in V5.
  destruct (remove_acked_segments_acts _ R5) as [R6 V6]. rewrite V5 in V6.
  destruct (track_bytes_in_flight_acts _ R6) as [R7 V7]. rewrite V6 in V7.
  auto.
Qed.

(** *** What the analysis leaves alone in a flow

    Of a flow's base sequence number, static flags and [nextseq], all parts
    of the analysis but two keep all three: [store_base_seq] writes the
    first two, [remember_segment] the third. This holds on every record,
    whatever [tcpd->ta] points to. *)

Definition keeps (f f' : tcp_flow_t) : Prop :=
  base_seq f' = base_seq f
  /\ static_flags f' = static_flags f
  /\ nextseq (si f') = nextseq (si f).

Lemma keeps_refl f : keeps f f.
Proof. unfold keeps. auto. Qed.

Lemma keeps_trans f1 f2 f3 : keeps f1 f2 -> keeps f2 f3 -> keeps f1 f3.
Proof. unfold keeps. intros (A & B & C) (A' & B' & C'). repeat split; congruence. Qed.

Definition flows_keep (B : tcp_analysis -> tcp_analysis) : Prop :=
  forall t, keeps (fwd t) (fwd (B t)) /\ keeps (rev t) (rev (B t))
            /\ fwd_is_flow1 (B t) = fwd_is_flow1 t.

Lemma flows_keep_id : flows_keep (fun t => t).
Proof. intros t. repeat split; reflexivity. Qed.

Lemma flows_keep_compose B1 B2 :
  flows_keep B1 -> flows_keep B2 -> flows_keep (fun t => B2 (B1 t)).
Proof.
  intros H1 H2 t. destruct (H1 t) as (F1 & R1 & O1). destruct (H2 (B1 t)) as (F2 & R2 & O2).
  split; [eapply keeps_trans; eassumption|].
  split; [eapply keeps_trans; eassumption|]. congruence.
Qed.

Lemma flows_keep_if (c : tcp_analysis -> bool) B1 B2 :
  flows_keep B1 -> flows_keep B2 -> flows_keep (fun t => if c t then B1 t else B2 t).
Proof. intros H1 H2 t. destruct (c t); [apply H1 | apply H2]. Qed.

Lemma flows_keep_get frame s a create :
  flows_keep (tcp_analyze_get_acked_struct frame s a create).
Proof.
  intros t. unfold tcp_analyze_get_acked_struct. cbv zeta.
  destruct (acked_table t !! _); [|destruct create];
    repeat split; reflexivity.
Qed.

Lemma flows_keep_ensure_ta : flows_keep (ensure_ta pinfo seq ack).
Proof.
  intros t. unfold ensure_ta. destruct (ta t); [apply flows_keep_id|apply flows_keep_get].
Qed.

Lemma flows_keep_ta_modify g : flows_keep (ta_modify g).
Proof. intros t. unfold ta_modify. destruct (ta t); repeat split; reflexivity. Qed.

Lemma flows_keep_flag F : flows_keep (set_flag pinfo seq ack F).
Proof.
  unfold set_flag.
  apply (flows_keep_compose (ensure_ta pinfo seq ack) (ta_modify _));
    [apply flows_keep_ensure_ta | apply flows_keep_ta_modify].
Qed.

Lemma orientation_upd_fwd g t : fwd_is_flow1 (upd_fwd g t) = fwd_is_flow1 t.
Proof. unfold upd_fwd. destruct (fwd_is_flow1 t) eqn:E; cbn; exact E. Qed.
Lemma orientation_upd_rev g t : fwd_is_flow1 (upd_rev g t) = fwd_is_flow1 t.
Proof. unfold upd_rev. destruct (fwd_is_flow1 t) eqn:E; cbn; exact E. Qed.

Lemma flows_keep_upd_fwd g : (forall f, keeps f (g f)) -> flows_keep (upd_fwd g).
Proof.
  intros H t. rewrite fwd_upd_fwd, rev_upd_fwd, orientation_upd_fwd.
  split; [apply H|]. split; [apply keeps_refl | reflexivity].
Qed.

Lemma flows_keep_upd_rev g : (forall f, keeps f (g f)) -> flows_keep (upd_rev g).
Proof.
  intros H t. rewrite fwd_upd_rev, rev_upd_rev, orientation_upd_rev.
  split; [apply keeps_refl|]. split; [apply H | reflexivity].
Qed.

Lemma keeps_valid_bif b f : keeps f (fl_valid_bif b f).
Proof. unfold keeps. auto. Qed.
Lemma keeps_maxsizeacked x f : keeps f (fl_maxsizeacked x f).
Proof. unfold keeps. auto. Qed.
Lemma keeps_si g f : (forall i, nextseq (g i) = nextseq i) -> keeps f (fl_si g f).
Proof. intros H. unfold keeps. cbn. auto. Qed.
Lemma keeps_count_push_bytes f : keeps f (count_push_bytes seglen flags f).
Proof.
  unfold count_push_bytes.
  destruct (tst flags TH_PUSH && negb (push_set_last f));
    [|destruct (tst flags TH_PUSH && push_set_last f); [|destruct (push_set_last f)]];
    unfold keeps; auto.
Qed.

Lemma forward_checks_keep : flows_keep (forward_checks pinfo seq ack seglen flags window).
Proof.
  intros t. unfold forward_checks.
  destruct (zwp_test seq seglen (fwd t) (rev t)); [apply flows_keep_flag|].
  cbv zeta.
  assert (K1 : flows_keep (check_zero_window pinfo seq ack flags window)).
  { intros t0. unfold check_zero_window.
    destruct (zero_window_test flags window); [apply flows_keep_flag | apply flows_keep_id]. }
  assert (K2 : flows_keep (check_lost_packet pinfo seq ack flags)).
  { intros t0. unfold check_lost_packet. destruct (lost_test seq flags (fwd t0)).
    - apply (flows_keep_compose (set_flag pinfo seq ack _) (upd_fwd _));
        [apply flows_keep_flag | apply flows_keep_upd_fwd; apply keeps_valid_bif].
    - apply flows_keep_id. }
  assert (K3 : flows_keep (check_keep_alive pinfo seq ack seglen flags)).
  { intros t0. unfold check_keep_alive.
    destruct (keepalive_test seq seglen flags (fwd t0));
      [apply flows_keep_flag | apply flows_keep_id]. }
  assert (K4 : flows_keep (check_window_update pinfo seq ack seglen flags window)).
  { intros t0. unfold check_window_update.
    destruct (window_update_test seq ack seglen flags window (fwd t0));
      [apply flows_keep_flag | apply flows_keep_id]. }
  assert (K5 : flows_keep (check_window_full pinfo seq ack seglen flags)).
  { intros t0. unfold check_window_full.
    destruct (window_full_test seq seglen flags (rev t0));
      [apply flows_keep_flag | apply flows_keep_id]. }
  assert (K6 : flows_keep (count_duplicate_ack pinfo seq ack)).
  { intros t0. unfold count_duplicate_ack. cbv zeta.
    pose proof (flows_keep_upd_fwd
                  (fl_si (fun i => si_dupacknum (u32 (dupacknum i + 1)) i))
                  (fun f => keeps_si _ f (fun i => eq_refl)) t0) as A.
    set (t1 := upd_fwd _ t0) in *.
    pose proof (flows_keep_flag TCP_A_DUPLICATE_ACK t1) as B.
    set (t2 := set_flag pinfo seq ack TCP_A_DUPLICATE_ACK t1) in *.
    pose proof (flows_keep_ta_modify
                  (ta_with_dupack (dupacknum (si (fwd t2))) (lastnondupack (si (fwd t2))))
                  t2) as C.
    destruct A as (A1 & A2 & A3), B as (B1 & B2 & B3), C as (C1 & C2 & C3).
    split; [eauto using keeps_trans|]. split; [eauto using keeps_trans | congruence]. }
  pose proof (flows_keep_compose _ _ (flows_keep_compose _ _ (flows_keep_compose _ _
               (flows_keep_compose _ _ K1 K2) K3) K4) K5) as K.
  cbv beta in K.
  set (t5 := check_window_full pinfo seq ack seglen flags
               (check_window_update pinfo seq ack seglen flags window
                  (check_keep_alive pinfo seq ack seglen flags
                     (check_lost_packet pinfo seq ack flags
                        (check_zero_window pinfo seq ack flags window t))))) in *.
  assert (Kt : flows_keep (fun t5 =>
            if keepalive_ack_test seq ack seglen flags window (fwd t5) (rev t5)
            then set_flag pinfo seq ack TCP_A_KEEP_ALIVE_ACK t5
            else if zwp_ack_test seq ack seglen flags window (fwd t5) (rev t5)
            then set_flag pinfo seq ack TCP_A_ZERO_WINDOW_PROBE_ACK t5
            else if dupack_test seq ack seglen flags window (fwd t5)
            then count_duplicate_ack pinfo seq ack t5 else t5)).
  { intros t0.
    destruct (keepalive_ack_test seq ack seglen flags window (fwd t0) (rev t0));
      [apply flows_keep_flag|].
    destruct (zwp_ack_test seq ack seglen flags window (fwd t0) (rev t0));
      [apply flows_keep_flag|].
    destruct (dupack_test seq ack seglen flags window (fwd t0));
      [apply K6 | apply flows_keep_id]. }
  exact (flows_keep_compose _ _ K Kt t).
Qed.

Lemma finished_fwd_keep : flows_keep (finished_fwd pinfo seq ack flags).
Proof.
  unfold finished_fwd.
  apply (flows_keep_compose (reset_dupack pinfo ack) (check_ack_lost_packet pinfo seq ack flags)).
  - intros t. unfold reset_dupack. destruct (negb (ack =? lastack (si (fwd t)))).
    + apply flows_keep_upd_fwd. intros f. apply keeps_si. reflexivity.
    + apply flows_keep_id.
  - intros t. unfold check_ack_lost_packet. destruct (ack_lost_test ack flags (rev t)).
    + apply (flows_keep_compose (set_flag pinfo seq ack _) (upd_rev _));
        [apply flows_keep_flag
        | apply flows_keep_upd_rev; intros f; apply keeps_si; reflexivity].
    + apply flows_keep_id.
Qed.

Lemma check_retransmission_keep :
  flows_keep (check_retransmission pinfo seq ack seglen flags).
Proof.
  intros t. unfold check_retransmission.
  destruct ((0 <? seglen) || tst flags (Z.lor TH_SYN TH_FIN)); [|apply flows_keep_id].
  destruct (has_ta t && tst (cur_flags t) TCP_A_KEEP_ALIVE); [apply flows_keep_id|].
  destruct (fast_retransmission_test pinfo seq seglen (fwd t) (rev t));
    [apply flows_keep_flag|].
  destruct (out_of_order_test pinfo seq seglen (fwd t) (ts_first_rtt t));
    [apply flows_keep_flag|].
  destruct (spurious_test seq seglen (rev t)); [apply flows_keep_flag|].
  destruct (seq_not_advanced seq seglen (fwd t)); [|apply flows_keep_id].
  cbv zeta.
  apply (flows_keep_compose (set_flag pinfo seq ack _) (ta_modify _));
    [apply flows_keep_flag | apply flows_keep_ta_modify].
Qed.

Lemma delete_unacked_keep ual : flows_keep (delete_unacked ual).
Proof.
  intros t. unfold delete_unacked. cbv zeta.
  assert (Kr : flows_keep
                 (upd_rev (fl_si (fun i => si_segment_count (u16 (segment_count i - 1)) i))))
    by (apply flows_keep_upd_rev; intros f; apply keeps_si; reflexivity).
  destruct (scps_capable (rev t)); [|apply Kr].
  destruct (maxsizeacked (fwd t) <? u32 (ual_nextseq ual - ual_seq ual)); [|apply Kr].
  apply (flows_keep_compose (upd_fwd _) (upd_rev _));
    [apply flows_keep_upd_fwd; intros f; apply keeps_maxsizeacked | exact Kr].
Qed.

Lemma ack_walk_keep l : flows_keep (fun t => snd (ack_walk pinfo seq ack l t)).
Proof.
  induction l as [|ual next IH]; intros t; cbn [ack_walk]; [apply flows_keep_id|].
  destruct (ack =? ual_nextseq ual).
  - cbv zeta.
    apply (flows_keep_compose
             (fun t => delete_unacked ual
                         (ta_modify _ (tcp_analyze_get_acked_struct (num pinfo) seq ack true t)))
             (fun t => snd (ack_walk pinfo seq ack next t))); [|exact IH].
    apply (flows_keep_compose
             (fun t => ta_modify _ (tcp_analyze_get_acked_struct (num pinfo) seq ack true t))
             (delete_unacked ual)); [|apply delete_unacked_keep].
    apply (flows_keep_compose (tcp_analyze_get_acked_struct (num pinfo) seq ack true)
                              (ta_modify _));
      [apply flows_keep_get | apply flows_keep_ta_modify].
  - cbv zeta.
    set (ual' := if GT_SEQ ack (ual_seq ual) && LE_SEQ ack (ual_nextseq ual)
                 then Unacked (ual_frame ual) ack (ual_nextseq ual) (ual_ts ual) else ual).
    destruct (GT_SEQ (ual_nextseq ual') ack).
    + pose proof (IH t) as K. cbv beta in K.
      destruct (ack_walk pinfo seq ack next t) as [k t']. exact K.
    + apply (flows_keep_compose (delete_unacked ual')
                                (fun t => snd (ack_walk pinfo seq ack next t)));
        [apply delete_unacked_keep | exact IH].
Qed.

Lemma remove_acked_segments_keep : flows_keep (remove_acked_segments pinfo seq ack).
Proof.
  intros t. unfold remove_acked_segments.
  pose proof (ack_walk_keep (segments (si (rev t))) t) as K.
  cbv beta in K.
  destruct (ack_walk pinfo seq ack (segments (si (rev t))) t) as [k t']. cbn in K.
  destruct K as (F & R & O).
  rewrite fwd_upd_rev, rev_upd_rev, orientation_upd_rev.
  split; [exact F|]. split; [|exact O].
  eapply keeps_trans; [exact R|]. apply keeps_si. reflexivity.
Qed.

Lemma track_bytes_in_flight_keep :
  flows_keep (track_bytes_in_flight tcp_track_bytes_in_flight pinfo seq ack seglen flags).
Proof.
  intros t. unfold track_bytes_in_flight.
  destruct (tracks_in_flight tcp_track_bytes_in_flight seglen (fwd t)); [|apply flows_keep_id].
  cbv zeta.
  assert (Km : forall g, flows_keep (fun t0 => ta_modify g (ensure_ta pinfo seq ack t0))).
  { intros g. apply (flows_keep_compose (ensure_ta pinfo seq ack) (ta_modify g));
      [apply flows_keep_ensure_ta | apply flows_keep_ta_modify]. }
  set (t1 := if (0 <? in_flight (fwd t)) && (in_flight (fwd t) <? 2000000000)
             then _ else t).
  assert (K1 : keeps (fwd t) (fwd t1) /\ keeps (rev t) (rev t1)
               /\ fwd_is_flow1 t1 = fwd_is_flow1 t).
  { unfold t1. destruct ((0 <? in_flight (fwd t)) && (in_flight (fwd t) <? 2000000000));
      [apply Km | apply flows_keep_id]. }
  pose proof (flows_keep_upd_fwd (count_push_bytes seglen flags) keeps_count_push_bytes t1)
    as K2.
  set (t2 := upd_fwd (count_push_bytes seglen flags) t1) in *.
  pose proof (Km (ta_with_push (push_bytes_sent (fwd t2))) t2) as K3. cbv beta in K3.
  destruct K1 as (A1 & B1 & C1), K2 as (A2 & B2 & C2), K3 as (A3 & B3 & C3).
  split; [eauto using keeps_trans|]. split; [eauto using keeps_trans | congruence].
Qed.

(** the flows after the forward flow's part of [remember_segment] *)
Lemma remember_flow_base z lf f :
  let f' := remember_flow TCP_MAX_UNACKED_SEGMENTS pinfo seq ack seglen flags window z lf f in
  base_seq f' = base_seq f /\ static_flags f' = static_flags f.
Proof.
  unfold remember_flow, store_ack_window, store_maxseqtobeacked, store_nextseq, add_unacked.
  cbv zeta.
  repeat match goal with
         | |- context [if ?c then _ else _] => destruct c
         end; cbn; auto.
Qed.

Lemma remember_flow_nextseq z lf f :
  nextseq (si (remember_flow TCP_MAX_UNACKED_SEGMENTS pinfo seq ack seglen flags window z lf f))
  = if (GT_SEQ (segment_nextseq TCP_MAX_UNACKED_SEGMENTS seq seglen flags f) (nextseq (si f))
        || (nextseq (si f) =? 0)) && z
    then segment_nextseq TCP_MAX_UNACKED_SEGMENTS seq seglen flags f
    else nextseq (si f).
Proof.
  unfold remember_flow, store_ack_window, store_maxseqtobeacked, store_nextseq, add_unacked.
  cbv zeta.
  set (nxt := segment_nextseq TCP_MAX_UNACKED_SEGMENTS seq seglen flags f).
  destruct (keeps_segment TCP_MAX_UNACKED_SEGMENTS seglen flags f); cbn;
    destruct (GT_SEQ nxt (nextseq (si f)) || (nextseq (si f) =? 0)); cbn;
    destruct z; cbn;
    repeat match goal with
           | |- context [if ?c then _ else _] => destruct c; cbn
           end; reflexivity.
Qed.

Lemma store_fwd_base_seq_nextseq f :
  nextseq (si (store_fwd_base_seq seq flags f)) = nextseq (si f).
Proof.
  unfold store_fwd_base_seq.
  destruct (negb (tst (static_flags f) TCP_S_BASE_SEQ_SET)); [|reflexivity].
  destruct (tst flags TH_SYN); reflexivity.
Qed.

Lemma store_rev_base_seq_nextseq r :
  nextseq (si (store_rev_base_seq ack flags r)) = nextseq (si r).
Proof.
  unfold store_rev_base_seq.
  destruct (negb (tst (static_flags r) TCP_S_BASE_SEQ_SET) && tst flags TH_ACK);
    destruct (tst flags TH_ACK); reflexivity.
Qed.

Let analyze_here :=
  analyze tcp_track_bytes_in_flight TCP_MAX_UNACKED_SEGMENTS pinfo seq ack seglen flags window.

(** The flows after the analysis, as far as base sequence number, static
    flags and [nextseq] go: the forward flow went through
    [store_fwd_base_seq] and [remember_flow], the reverse flow through
    [store_rev_base_seq]. *)
Lemma analyze_flows t :
  exists z lf f4,
    keeps (store_fwd_base_seq seq flags (fwd t)) f4
    /\ keeps (remember_flow TCP_MAX_UNACKED_SEGMENTS pinfo seq ack seglen flags window z lf f4)
             (fwd (analyze_here t))
    /\ keeps (store_rev_base_seq ack flags (rev t)) (rev (analyze_here t))
    /\ fwd_is_flow1 (analyze_here t) = fwd_is_flow1 t.
Proof.
  unfold analyze_here, analyze. cbv zeta.
  set (t1 := store_base_seq seq ack flags t).
  assert (F1 : fwd t1 = store_fwd_base_seq seq flags (fwd t))
    by (unfold t1, store_base_seq; rewrite fwd_upd_rev, fwd_upd_fwd; reflexivity).
  assert (R1 : rev t1 = store_rev_base_seq ack flags (rev t))
    by (unfold t1, store_base_seq; rewrite rev_upd_rev, rev_upd_fwd; reflexivity).
  assert (O1 : fwd_is_flow1 t1 = fwd_is_flow1 t)
    by (unfold t1, store_base_seq; rewrite orientation_upd_rev, orientation_upd_fwd;
        reflexivity).
  destruct (forward_checks_keep t1) as (A2 & B2 & C2).
  set (t2 := forward_checks pinfo seq ack seglen flags window t1) in *.
  destruct (finished_fwd_keep t2) as (A3 & B3 & C3).
  set (t3 := finished_fwd pinfo seq ack flags t2) in *.
  destruct (check_retransmission_keep t3) as (A4 & B4 & C4).
  set (t4 := check_retransmission pinfo seq ack seglen flags t3) in *.
  set (t5 := remember_segment TCP_MAX_UNACKED_SEGMENTS pinfo seq ack seglen flags window t4).
  assert (F5 : fwd t5 = remember_flow TCP_MAX_UNACKED_SEGMENTS pinfo seq ack seglen flags window
                          (not_zwp t4) (if has_ta t4 then cur_flags t4 else 0) (fwd t4))
    by (unfold t5, remember_segment; apply fwd_upd_fwd).
  assert (R5 : rev t5 = rev t4) by (unfold t5, remember_segment; apply rev_upd_fwd).
  assert (O5 : fwd_is_flow1 t5 = fwd_is_flow1 t4)
    by (unfold t5, remember_segment; apply orientation_upd_fwd).
  destruct (remove_acked_segments_keep t5) as (A6 & B6 & C6).
  set (t6 := remove_acked_segments pinfo seq ack t5) in *.
  destruct (track_bytes_in_flight_keep t6) as (A7 & B7 & C7).
  exists (not_zwp t4), (if has_ta t4 then cur_flags t4 else 0), (fwd t4).
  rewrite <- F1, <- R1, <- F5.
  split; [eauto using keeps_trans|].
  split; [eauto using keeps_trans|].
  split; [|congruence].
  rewrite R5 in B6. eauto using keeps_trans.
Qed.

(** what one call does to the two base sequence numbers *)
Lemma analyze_base_seq t :
  let t' := analyze_here t in
  (tst (static_flags (fwd t)) TCP_S_BASE_SEQ_SET = true ->
     base_seq (fwd t') = base_seq (fwd t)
     /\ tst (static_flags (fwd t')) TCP_S_BASE_SEQ_SET = true)
  /\ (tst (static_flags (rev t)) TCP_S_BASE_SEQ_SET = true ->
       base_seq (rev t') = base_seq (rev t)
       /\ tst (static_flags (rev t')) TCP_S_BASE_SEQ_SET = true)
  /\ (tst (static_flags (fwd t)) TCP_S_BASE_SEQ_SET = false ->
       base_seq (fwd t') = (if tst flags TH_SYN then seq else u32 (seq - 1))
       /\ tst (static_flags (fwd t')) TCP_S_BASE_SEQ_SET = true)
  /\ (tst (static_flags (rev t)) TCP_S_BASE_SEQ_SET = false -> tst flags TH_ACK = true ->
       base_seq (rev t') = u32 (ack - 1)
       /\ tst (static_flags (rev t')) TCP_S_BASE_SEQ_SET = true)
  /\ (tst (static_flags (rev t)) TCP_S_BASE_SEQ_SET = false -> tst flags TH_ACK = false ->
       base_seq (rev t') = base_seq (rev t)
       /\ tst (static_flags (rev t')) TCP_S_BASE_SEQ_SET = false).
Proof.
  intros t'. destruct (analyze_flows t) as (z & lf & f4 & K1 & K2 & K3 & _).
  fold t' in K2, K3.
  destruct (remember_flow_base z lf f4) as [Rb Rs].
  destruct K1 as (B1 & S1 & _), K2 as (B2 & S2 & _), K3 as (B3 & S3 & _).
  assert (Fb : base_seq (fwd t') = base_seq (store_fwd_base_seq seq flags (fwd t)))
    by congruence.
  assert (Fs : static_flags (fwd t') = static_flags (store_fwd_base_seq seq flags (fwd t)))
    by congruence.
  rewrite Fb, Fs, B3, S3. clear. unfold store_fwd_base_seq, store_rev_base_seq.
  repeat split.
  - rewrite H. reflexivity.
  - rewrite H. exact H.
  - rewrite H. cbn. destruct (tst flags TH_ACK); reflexivity.
  - rewrite H. cbn. destruct (tst flags TH_ACK); exact H.
  - rewrite H. cbn. destruct (tst flags TH_SYN); reflexivity.
  - rewrite H. cbn. destruct (tst flags TH_SYN); cbn; apply tst_base_set_lor; reflexivity.
  - rewrite H, H0. reflexivity.
  - rewrite H, H0. cbn. apply tst_base_set_lor. reflexivity.
  - rewrite H, H0. reflexivity.
  - rewrite H, H0. exact H.
Qed.

(** what one call does to the two [nextseq] *)
Lemma analyze_nextseq_step t :
  nextseq_step (fwd t) (fwd (analyze_here t))
  /\ nextseq (si (rev (analyze_here t))) = nextseq (si (rev t))
  /\ fwd_is_flow1 (analyze_here t) = fwd_is_flow1 t.
Proof.
  destruct (analyze_flows t) as (z & lf & f4 & K1 & K2 & K3 & O).
  destruct K1 as (_ & _ & N1), K2 as (_ & _ & N2), K3 as (_ & _ & N3).
  rewrite store_fwd_base_seq_nextseq in N1. rewrite store_rev_base_seq_nextseq in N3.
  split; [|split; [exact N3 | exact O]].
  unfold nextseq_step. rewrite N2, remember_flow_nextseq, N1.
  destruct (GT_SEQ (segment_nextseq TCP_MAX_UNACKED_SEGMENTS seq seglen flags f4)
                   (nextseq (si (fwd t)))) eqn:G; cbn.
  - destruct z; auto.
  - destruct (Z.eqb_spec (nextseq (si (fwd t))) 0); cbn; [auto|]. auto.
Qed.

(** *** The forward checks on the view, in one piece *)

(** a forward flow up to BiF validity and the dupack counters, a reverse
    flow up to BiF validity and [maxseqtobeacked], each also up to base
    sequence number and static flags *)
Definition fwd_upto (f f' : tcp_flow_t) : Prop :=
  exists sf bs vb d n,
    f' = fl_static_flags sf (fl_base_seq bs (fl_valid_bif vb
           (fl_si (fun i => si_dupacknum d (si_lastnondupack n i)) f))).
Definition rev_upto (r r' : tcp_flow_t) : Prop :=
  exists sf bs vb m,
    r' = fl_static_flags sf (fl_base_seq bs (fl_valid_bif vb
           (fl_si (si_maxseqtobeacked m) r))).

Lemma fwd_upto_refl f : fwd_upto f f.
Proof.
  exists (static_flags f), (base_seq f), (valid_bif f),
         (dupacknum (si f)), (lastnondupack (si f)).
  destruct f as [? ? ? ? ? ? ? ? ? ? ? ? ? ? []]. reflexivity.
Qed.

Lemma fwd_upto_trans f1 f2 f3 : fwd_upto f1 f2 -> fwd_upto f2 f3 -> fwd_upto f1 f3.
Proof.
  intros (sf & bs & vb & d & n & ->) (sf' & bs' & vb' & d' & n' & ->).
  exists sf', bs', vb', d', n'. destruct f1 as [? ? ? ? ? ? ? ? ? ? ? ? ? ? []]. reflexivity.
Qed.

Lemma rev_upto_refl r : rev_upto r r.
Proof.
  exists (static_flags r), (base_seq r), (valid_bif r), (maxseqtobeacked (si r)).
  destruct r as [? ? ? ? ? ? ? ? ? ? ? ? ? ? []]. reflexivity.
Qed.

Lemma rev_upto_trans r1 r2 r3 : rev_upto r1 r2 -> rev_upto r2 r3 -> rev_upto r1 r3.
Proof.
  intros (sf & bs & vb & m & ->) (sf' & bs' & vb' & m' & ->).
  exists sf', bs', vb', m'. destruct r1 as [? ? ? ? ? ? ? ? ? ? ? ? ? ? []]. reflexivity.
Qed.

Lemma fwd_upto_valid_bif b f : fwd_upto f (fl_valid_bif b f).
Proof.
  exists (static_flags f), (base_seq f), b, (dupacknum (si f)), (lastnondupack (si f)).
  destruct f as [? ? ? ? ? ? ? ? ? ? ? ? ? ? []]. reflexivity.
Qed.

Lemma fwd_upto_dupacknum d f : fwd_upto f (fl_si (fun i => si_dupacknum d i) f).
Proof.
  exists (static_flags f), (base_seq f), (valid_bif f), d, (lastnondupack (si f)).
  destruct f as [? ? ? ? ? ? ? ? ? ? ? ? ? ? []]. reflexivity.
Qed.

Lemma fwd_upto_dupack_reset d n f :
  fwd_upto f (fl_si (fun i => si_dupacknum d (si_lastnondupack n i)) f).
Proof.
  exists (static_flags f), (base_seq f), (valid_bif f), d, n.
  destruct f as [? ? ? ? ? ? ? ? ? ? ? ? ? ? []]. reflexivity.
Qed.

Lemma fwd_upto_store f : fwd_upto f (store_fwd_base_seq seq flags f).
Proof.
  unfold store_fwd_base_seq.
  destruct (negb (tst (static_flags f) TCP_S_BASE_SEQ_SET)); [|apply fwd_upto_refl].
  destruct (tst flags TH_SYN); cbv zeta.
  - eexists _, seq, (valid_bif f), (dupacknum (si f)), (lastnondupack (si f)).
    destruct f as [? ? ? ? ? ? ? ? ? ? ? ? ? ? []]. reflexivity.
  - eexists _, (u32 (seq - 1)), (valid_bif f), (dupacknum (si f)), (lastnondupack (si f)).
    destruct f as [? ? ? ? ? ? ? ? ? ? ? ? ? ? []]. reflexivity.
Qed.

Lemma rev_upto_store r : rev_upto r (store_rev_base_seq ack flags r).
Proof.
  unfold store_rev_base_seq.
  destruct (negb (tst (static_flags r) TCP_S_BASE_SEQ_SET) && tst flags TH_ACK);
    destruct (tst flags TH_ACK); cbv zeta.
  - exists (u8 (Z.lor (static_flags r) TCP_S_BASE_SEQ_SET)), (u32 (ack - 1)), true,
           (maxseqtobeacked (si r)).
    destruct r as [? ? ? ? ? ? ? ? ? ? ? ? ? ? []]. reflexivity.
  - exists (u8 (Z.lor (static_flags r) TCP_S_BASE_SEQ_SET)), (u32 (ack - 1)), (valid_bif r),
           (maxseqtobeacked (si r)).
    destruct r as [? ? ? ? ? ? ? ? ? ? ? ? ? ? []]. reflexivity.
  - exists (static_flags r), (base_seq r), true, (maxseqtobeacked (si r)).
    destruct r as [? ? ? ? ? ? ? ? ? ? ? ? ? ? []]. reflexivity.
  - apply rev_upto_refl.
Qed.

Lemma rev_upto_maxseqtobeacked r :
  rev_upto r (fl_si (fun i => si_maxseqtobeacked (nextseq i) i) r).
Proof.
  exists (static_flags r), (base_seq r), (valid_bif r), (nextseq (si r)).
  destruct r as [? ? ? ? ? ? ? ? ? ? ? ? ? ? []]. reflexivity.
Qed.

(** the conditions do not read what [fwd_upto] and [rev_upto] leave open
    ([ack_lost_test] reads [maxseqtobeacked]: it is not among them) *)
Ltac upto_f H :=
  destruct H as (?sf & ?bs & ?vb & ?d & ?n & ->);
  match goal with f : tcp_flow_t |- _ =>
    destruct f as [? ? ? ? ? ? ? ? ? ? ? ? ? ? []]
  end; reflexivity.
Ltac upto_r H :=
  destruct H as (?sf & ?bs & ?vb & ?m & ->);
  match goal with r : tcp_flow_t |- _ =>
    destruct r as [? ? ? ? ? ? ? ? ? ? ? ? ? ? []]
  end; reflexivity.

Lemma lost_test_upto f f' :
  fwd_upto f f' -> lost_test seq flags f' = lost_test seq flags f.
Proof. intros H. upto_f H. Qed.
Lemma keepalive_test_upto f f' :
  fwd_upto f f' -> keepalive_test seq seglen flags f' = keepalive_test seq seglen flags f.
Proof. intros H. upto_f H. Qed.
Lemma window_update_test_upto f f' :
  fwd_upto f f' ->
  window_update_test seq ack seglen flags window f'
  = window_update_test seq ack seglen flags window f.
Proof. intros H. upto_f H. Qed.
Lemma dupack_test_upto f f' :
  fwd_upto f f' ->
  dupack_test seq ack seglen flags window f' = dupack_test seq ack seglen flags window f.
Proof. intros H. upto_f H. Qed.
Lemma seq_not_advanced_upto f f' :
  fwd_upto f f' -> seq_not_advanced seq seglen f' = seq_not_advanced seq seglen f.
Proof. intros H. upto_f H. Qed.
Lemma window_full_test_upto r r' :
  rev_upto r r' -> window_full_test seq seglen flags r' = window_full_test seq seglen flags r.
Proof. intros H. upto_r H. Qed.
Lemma spurious_test_upto r r' :
  rev_upto r r' -> spurious_test seq seglen r' = spurious_test seq seglen r.
Proof. intros H. upto_r H. Qed.

Lemma zwp_test_upto f f' r r' :
  fwd_upto f f' -> rev_upto r r' -> zwp_test seq seglen f' r' = zwp_test seq seglen f r.
Proof.
  intros (sf & bs & vb & d & n & ->) (sf' & bs' & vb' & m' & ->).
  destruct f as [? ? ? ? ? ? ? ? ? ? ? ? ? ? []], r as [? ? ? ? ? ? ? ? ? ? ? ? ? ? []].
  reflexivity.
Qed.
Lemma keepalive_ack_test_upto f f' r r' :
  fwd_upto f f' -> rev_upto r r' ->
  keepalive_ack_test seq ack seglen flags window f' r'
  = keepalive_ack_test seq ack seglen flags window f r.
Proof.
  intros (sf & bs & vb & d & n & ->) (sf' & bs' & vb' & m' & ->).
  destruct f as [? ? ? ? ? ? ? ? ? ? ? ? ? ? []], r as [? ? ? ? ? ? ? ? ? ? ? ? ? ? []].
  reflexivity.
Qed.
Lemma zwp_ack_test_upto f f' r r' :
  fwd_upto f f' -> rev_upto r r' ->
  zwp_ack_test seq ack seglen flags window f' r'
  = zwp_ack_test seq ack seglen flags window f r.
Proof.
  intros (sf & bs & vb & d & n & ->) (sf' & bs' & vb' & m' & ->).
  destruct f as [? ? ? ? ? ? ? ? ? ? ? ? ? ? []], r as [? ? ? ? ? ? ? ? ? ? ? ? ? ? []].
  reflexivity.
Qed.
Lemma fast_retransmission_test_upto f f' r r' :
  fwd_upto f f' -> rev_upto r r' ->
  fast_retransmission_test pinfo seq seglen f' r'
  = fast_retransmission_test pinfo seq seglen f r.
Proof.
  intros (sf & bs & vb & d & n & ->) (sf' & bs' & vb' & m' & ->).
  destruct f as [? ? ? ? ? ? ? ? ? ? ? ? ? ? []], r as [? ? ? ? ? ? ? ? ? ? ? ? ? ? []].
  reflexivity.
Qed.
Lemma out_of_order_test_upto f f' rtt :
  fwd_upto f f' ->
  out_of_order_test pinfo seq seglen f' rtt = out_of_order_test pinfo seq seglen f rtt.
Proof. intros H. upto_f H. Qed.

(** the view after some flags were set and, possibly, a lost packet seen *)
Definition nf (bits : Z) (lost : bool) (v : view) : view :=
  View (ta_with_flags (Z.lor (ta_flags (v_cur v)) bits) (v_cur v))
       (if lost then fl_valid_bif false (v_fwd v) else v_fwd v)
       (v_rev v) (v_rtt v).

Lemma nf_0 v : nf 0 false v = v.
Proof.
  destruct v as [c f r rtt]. unfold nf. cbn. rewrite ta_with_flags_lor_0. reflexivity.
Qed.

Lemma nf_nf b1 l1 b2 l2 v : nf b2 l2 (nf b1 l1 v) = nf (Z.lor b1 b2) (l1 || l2) v.
Proof.
  destruct v as [c f r rtt]. destruct c, l1, l2; unfold nf; cbn; rewrite Z.lor_assoc;
    reflexivity.
Qed.

Lemma fwd_upto_nf b l v : fwd_upto (v_fwd v) (v_fwd (nf b l v)).
Proof. destruct l; cbn; [apply fwd_upto_valid_bif | apply fwd_upto_refl]. Qed.

Lemma v_flag_nf F v : v_flag F v = nf F false v.
Proof. reflexivity. Qed.

(** the flags of the five checks between ZERO WINDOW PROBE and KEEP ALIVE ACK *)
Definition bits5 (f r : tcp_flow_t) : Z :=
  Z.lor (Z.lor (Z.lor (Z.lor
    (if zero_window_test flags window then TCP_A_ZERO_WINDOW else 0)
    (if lost_test seq flags f then TCP_A_LOST_PACKET else 0))
    (if keepalive_test seq seglen flags f then TCP_A_KEEP_ALIVE else 0))
    (if window_update_test seq ack seglen flags window f then TCP_A_WINDOW_UPDATE else 0))
    (if window_full_test seq seglen flags r then TCP_A_WINDOW_FULL else 0).

Lemma checks5_nf v :
  check_window_full_v
    (check_window_update_v (check_keep_alive_v (check_lost_packet_v (check_zero_window_v v))))
  = nf (bits5 (v_fwd v) (v_rev v)) (lost_test seq flags (v_fwd v)) v.
Proof.
  assert (E1 : check_zero_window_v v
               = nf (if zero_window_test flags window then TCP_A_ZERO_WINDOW else 0) false v).
  { unfold check_zero_window_v. destruct (zero_window_test flags window);
      [reflexivity | symmetry; apply nf_0]. }
  assert (E2 : forall w, check_lost_packet_v w
               = nf (if lost_test seq flags (v_fwd w) then TCP_A_LOST_PACKET else 0)
                    (lost_test seq flags (v_fwd w)) w).
  { intros w. unfold check_lost_packet_v. destruct (lost_test seq flags (v_fwd w));
      [reflexivity | symmetry; apply nf_0]. }
  assert (E3 : forall w, check_keep_alive_v w
               = nf (if keepalive_test seq seglen flags (v_fwd w) then TCP_A_KEEP_ALIVE else 0)
                    false w).
  { intros w. unfold check_keep_alive_v. destruct (keepalive_test seq seglen flags (v_fwd w));
      [reflexivity | symmetry; apply nf_0]. }
  assert (E4 : forall w, check_window_update_v w
               = nf (if window_update_test seq ack seglen flags window (v_fwd w)
                     then TCP_A_WINDOW_UPDATE else 0) false w).
  { intros w. unfold check_window_update_v.
    destruct (window_update_test seq ack seglen flags window (v_fwd w));
      [reflexivity | symmetry; apply nf_0]. }
  assert (E5 : forall w, check_window_full_v w
               = nf (if window_full_test seq seglen flags (v_rev w)
                     then TCP_A_WINDOW_FULL else 0) false w).
  { intros w. unfold check_window_full_v.
    destruct (window_full_test seq seglen flags (v_rev w));
      [reflexivity | symmetry; apply nf_0]. }
  rewrite E1, E2, nf_nf, E3, nf_nf, E4, nf_nf, E5, nf_nf.
  rewrite (lost_test_upto _ _ (fwd_upto_nf _ _ v)).
  rewrite (keepalive_test_upto _ _ (fwd_upto_nf _ _ v)).
  rewrite (window_update_test_upto _ _ (fwd_upto_nf _ _ v)).
  cbn [v_rev nf]. rewrite !orb_false_r. cbn [orb]. reflexivity.
Qed.

(** [forward_checks] on the view, the conditions all taken on the flows the
    checks start from *)
Definition forward_checks_x (v : view) : view :=
  let f := v_fwd v in
  let r := v_rev v in
  if zwp_test seq seglen f r then nf TCP_A_ZERO_WINDOW_PROBE false v
  else
  let v5 := nf (bits5 f r) (lost_test seq flags f) v in
  if keepalive_ack_test seq ack seglen flags window f r
  then nf (Z.lor (bits5 f r) TCP_A_KEEP_ALIVE_ACK) (lost_test seq flags f) v
  else
  if zwp_ack_test seq ack seglen flags window f r
  then nf (Z.lor (bits5 f r) TCP_A_ZERO_WINDOW_PROBE_ACK) (lost_test seq flags f) v
  else
  if dupack_test seq ack seglen flags window f then count_duplicate_ack_v v5
  else v5.

Lemma forward_checks_v_x v : forward_checks_v v = forward_checks_x v.
Proof.
  unfold forward_checks_v, forward_checks_x. cbv zeta.
  destruct (zwp_test seq seglen (v_fwd v) (v_rev v)); [reflexivity|].
  rewrite checks5_nf.
  set (v5 := nf (bits5 (v_fwd v) (v_rev v)) (lost_test seq flags (v_fwd v)) v).
  assert (U : fwd_upto (v_fwd v) (v_fwd v5)) by apply fwd_upto_nf.
  assert (R : v_rev v5 = v_rev v) by reflexivity.
  rewrite R.
  rewrite (keepalive_ack_test_upto _ _ _ _ U (rev_upto_refl _)).
  rewrite (zwp_ack_test_upto _ _ _ _ U (rev_upto_refl _)).
  rewrite (dupack_test_upto _ _ U).
  destruct (keepalive_ack_test seq ack seglen flags window (v_fwd v) (v_rev v)).
  { unfold v5. rewrite v_flag_nf, nf_nf, orb_false_r. reflexivity. }
  destruct (zwp_ack_test seq ack seglen flags window (v_fwd v) (v_rev v)).
  { unfold v5. rewrite v_flag_nf, nf_nf, orb_false_r. reflexivity. }
  reflexivity.
Qed.

(** the duplicate ACK is counted: no earlier check has left for
    [finished_fwd] *)
Definition counted (f r : tcp_flow_t) : bool :=
  negb (zwp_test seq seglen f r)
  && negb (keepalive_ack_test seq ack seglen flags window f r)
  && negb (zwp_ack_test seq ack seglen flags window f r)
  && dupack_test seq ack seglen flags window f.

(** the lost packet is seen: the segment is no zero window probe *)
Definition lost_seen (f r : tcp_flow_t) : bool :=
  negb (zwp_test seq seglen f r) && lost_test seq flags f.

(** the flags the forward checks set *)
Definition fwd_bits (f r : tcp_flow_t) : Z :=
  if zwp_test seq seglen f r then TCP_A_ZERO_WINDOW_PROBE
  else
    Z.lor (bits5 f r)
      (if keepalive_ack_test seq ack seglen flags window f r then TCP_A_KEEP_ALIVE_ACK
       else if zwp_ack_test seq ack seglen flags window f r then TCP_A_ZERO_WINDOW_PROBE_ACK
       else if dupack_test seq ack seglen flags window f then TCP_A_DUPLICATE_ACK
       else 0).

Lemma forward_checks_view v :
  forward_checks_v v =
  let f := v_fwd v in
  let r := v_rev v in
  let w := nf (fwd_bits f r) (lost_seen f r) v in
  if counted f r then
    View (ta_with_dupack (u32 (dupacknum (si f) + 1)) (lastnondupack (si f)) (v_cur w))
         (fl_si (fun i => si_dupacknum (u32 (dupacknum i + 1)) i) (v_fwd w))
         (v_rev v) (v_rtt v)
  else w.
Proof.
  rewrite forward_checks_v_x. unfold forward_checks_x, counted, lost_seen, fwd_bits.
  cbv zeta.
  set (b5 := bits5 (v_fwd v) (v_rev v)).
  set (l := lost_test seq flags (v_fwd v)).
  destruct (zwp_test seq seglen (v_fwd v) (v_rev v)); cbn [negb andb]; [reflexivity|].
  destruct (keepalive_ack_test seq ack seglen flags window (v_fwd v) (v_rev v));
    cbn [negb andb]; [reflexivity|].
  destruct (zwp_ack_test seq ack seglen flags window (v_fwd v) (v_rev v));
    cbn [negb andb]; [reflexivity|].
  destruct (dupack_test seq ack seglen flags window (v_fwd v)).
  - unfold count_duplicate_ack_v, nf, v_fwd_map, v_flag, v_cur_map.
    destruct l; cbn; rewrite Z.lor_assoc; reflexivity.
  - rewrite Z.lor_0_r. reflexivity.
Qed.

(** a projection of the packet's result that does not read a field *)
Definition past_flags {A} (p : tcp_acked -> A) : Prop :=
  forall x a, p (ta_with_flags x a) = p a.
Definition past_dupack {A} (p : tcp_acked -> A) : Prop :=
  forall n fr a, p (ta_with_dupack n fr a) = p a.
Definition past_rto {A} (p : tcp_acked -> A) : Prop :=
  forall fr ts a, p (ta_with_rto fr ts a) = p a.
Definition past_acked {A} (p : tcp_acked -> A) : Prop :=
  forall fr ts a, p (ta_with_acked fr ts a) = p a.
Definition past_bif {A} (p : tcp_acked -> A) : Prop :=
  forall x a, p (ta_with_bif x a) = p a.
Definition past_push {A} (p : tcp_acked -> A) : Prop :=
  forall x a, p (ta_with_push x a) = p a.

(** *** [forward_checks] *)

Lemma forward_checks_flags v :
  ta_flags (v_cur (forward_checks_v v))
  = Z.lor (ta_flags (v_cur v)) (fwd_bits (v_fwd v) (v_rev v)).
Proof.
  rewrite forward_checks_view. cbv zeta. destruct (counted (v_fwd v) (v_rev v)); reflexivity.
Qed.

Lemma forward_checks_cur {A} (p : tcp_acked -> A) v :
  past_flags p -> past_dupack p -> p (v_cur (forward_checks_v v)) = p (v_cur v).
Proof.
  intros Hf Hd. rewrite forward_checks_view. cbv zeta.
  destruct (counted (v_fwd v) (v_rev v)); cbn [v_cur nf]; rewrite ?Hd, Hf; reflexivity.
Qed.

Lemma forward_checks_dupack v :
  dupack_num (v_cur (forward_checks_v v))
  = (if counted (v_fwd v) (v_rev v) then u32 (dupacknum (si (v_fwd v)) + 1)
     else dupack_num (v_cur v))
  /\ dupack_frame (v_cur (forward_checks_v v))
     = (if counted (v_fwd v) (v_rev v) then lastnondupack (si (v_fwd v))
        else dupack_frame (v_cur v)).
Proof.
  rewrite forward_checks_view. cbv zeta.
  destruct (counted (v_fwd v) (v_rev v)); split; reflexivity.
Qed.

Lemma forward_checks_fwd v :
  v_fwd (forward_checks_v v)
  = (if counted (v_fwd v) (v_rev v)
     then fl_si (fun i => si_dupacknum (u32 (dupacknum i + 1)) i)
     else fun f => f)
      (if lost_seen (v_fwd v) (v_rev v) then fl_valid_bif false (v_fwd v) else v_fwd v).
Proof.
  rewrite forward_checks_view. cbv zeta.
  destruct (counted (v_fwd v) (v_rev v)); reflexivity.
Qed.

Lemma forward_checks_rev v : v_rev (forward_checks_v v) = v_rev v.
Proof.
  rewrite forward_checks_view. cbv zeta.
  destruct (counted (v_fwd v) (v_rev v)); reflexivity.
Qed.

Lemma forward_checks_rtt v : v_rtt (forward_checks_v v) = v_rtt v.
Proof.
  rewrite forward_checks_view. cbv zeta.
  destruct (counted (v_fwd v) (v_rev v)); reflexivity.
Qed.

Lemma forward_checks_upto v : fwd_upto (v_fwd v) (v_fwd (forward_checks_v v)).
Proof.
  rewrite forward_checks_fwd.
  assert (U : fwd_upto (v_fwd v)
                (if lost_seen (v_fwd v) (v_rev v) then fl_valid_bif false (v_fwd v)
                 else v_fwd v))
    by (destruct (lost_seen (v_fwd v) (v_rev v));
        [apply fwd_upto_valid_bif | apply fwd_upto_refl]).
  destruct (counted (v_fwd v) (v_rev v)); [|exact U].
  eapply fwd_upto_trans; [exact U | apply fwd_upto_dupacknum].
Qed.

(** *** [finished_fwd] *)

Lemma finished_fwd_flags v :
  ta_flags (v_cur (finished_fwd_v v))
  = Z.lor (ta_flags (v_cur v))
          (if ack_lost_test ack flags (v_rev v) then TCP_A_ACK_LOST_PACKET else 0).
Proof.
  unfold finished_fwd_v, check_ack_lost_packet_v, reset_dupack_v.
  destruct (negb (ack =? lastack (si (v_fwd v)))); cbn [v_rev v_fwd_map];
    destruct (ack_lost_test ack flags (v_rev v)); cbn; rewrite ?Z.lor_0_r; reflexivity.
Qed.

Lemma finished_fwd_cur {A} (p : tcp_acked -> A) v :
  past_flags p -> p (v_cur (finished_fwd_v v)) = p (v_cur v).
Proof.
  intros Hf. unfold finished_fwd_v, check_ack_lost_packet_v, reset_dupack_v.
  destruct (negb (ack =? lastack (si (v_fwd v)))); cbn [v_rev v_fwd_map];
    destruct (ack_lost_test ack flags (v_rev v)); cbn; rewrite ?Hf; reflexivity.
Qed.

Lemma finished_fwd_fwd v :
  v_fwd (finished_fwd_v v)
  = (if negb (ack =? lastack (si (v_fwd v)))
     then fl_si (fun i => si_dupacknum 0 (si_lastnondupack (num pinfo) i)) (v_fwd v)
     else v_fwd v).
Proof.
  unfold finished_fwd_v, check_ack_lost_packet_v, reset_dupack_v.
  destruct (negb (ack =? lastack (si (v_fwd v)))); cbn [v_rev v_fwd_map];
    destruct (ack_lost_test ack flags (v_rev v)); reflexivity.
Qed.

Lemma finished_fwd_upto v :
  fwd_upto (v_fwd v) (v_fwd (finished_fwd_v v))
  /\ rev_upto (v_rev v) (v_rev (finished_fwd_v v))
  /\ v_rtt (finished_fwd_v v) = v_rtt v.
Proof.
  rewrite finished_fwd_fwd. split.
  { destruct (negb (ack =? lastack (si (v_fwd v))));
      [apply fwd_upto_dupack_reset | apply fwd_upto_refl]. }
  unfold finished_fwd_v, check_ack_lost_packet_v, reset_dupack_v.
  destruct (negb (ack =? lastack (si (v_fwd v)))); cbn [v_rev v_fwd_map];
    destruct (ack_lost_test ack flags (v_rev v)); cbn;
    (split; [first [apply rev_upto_maxseqtobeacked | apply rev_upto_refl] | reflexivity]).
Qed.


(** *** [check_retransmission] *)

(** the outcome of the retransmission family *)
Inductive retrans_kind : Set :=
  | NotRetrans | FastRetrans | OutOfOrder | Spurious | PlainRetrans.

Definition kind_flag (k : retrans_kind) : Z :=
  match k with
  | NotRetrans => 0
  | FastRetrans => TCP_A_FAST_RETRANSMISSION
  | OutOfOrder => TCP_A_OUT_OF_ORDER
  | Spurious => TCP_A_SPURIOUS_RETRANSMISSION
  | PlainRetrans => TCP_A_RETRANSMISSION
  end.

(** The family as a chain in which the first match decides, with [thres]
    the time in ns below which a segment counts as out of order. The
    fields are unsigned: [> 0] is [<> 0]. *)
Definition family_chain (thres : Z) (f r : tcp_flow_t) : retrans_kind :=
  let not_advanced :=
    negb (nextseq (si f) =? 0) && LT_SEQ seq (nextseq (si f))
    && negb ((1 <? seglen) && (seq =? u32 (nextseq (si f) - 1))) in
  if not_advanced
     && (2 <=? dupacknum (si r))
     && (lastack (si r) =? seq)
     && (time_since (abs_ts pinfo) (lastacktime (si r)) <? 20000000)
  then FastRetrans
  else
  if not_advanced
     && (time_since (abs_ts pinfo) (nextseqtime (si f)) <? thres)
     && negb (nextseq (si f) =? u32 (seq + seglen))
  then OutOfOrder
  else
  if (0 <? seglen)
     && negb (lastack (si r) =? 0)
     && LE_SEQ (u32 (seq + seglen)) (lastack (si r))
  then Spurious
  else
  if not_advanced then PlainRetrans else NotRetrans.

Lemma seq_not_advanced_chain f :
  seq_not_advanced seq seglen f
  = negb (nextseq (si f) =? 0) && LT_SEQ seq (nextseq (si f))
    && negb ((1 <? seglen) && (seq =? u32 (nextseq (si f) - 1))).
Proof.
  unfold seq_not_advanced. cbv zeta. rewrite (Z.eqb_sym (u32 (nextseq (si f) - 1)) seq).
  destruct ((1 <? seglen) && (seq =? u32 (nextseq (si f) - 1))); cbn [negb].
  - rewrite andb_false_r. reflexivity.
  - rewrite andb_true_r. reflexivity.
Qed.

Lemma family_chain_tests rtt f r :
  family_chain (ooo_thres rtt) f r
  = if fast_retransmission_test pinfo seq seglen f r then FastRetrans
    else if out_of_order_test pinfo seq seglen f rtt then OutOfOrder
    else if spurious_test seq seglen r then Spurious
    else if seq_not_advanced seq seglen f then PlainRetrans
    else NotRetrans.
Proof.
  unfold family_chain, fast_retransmission_test, out_of_order_test, spurious_test.
  cbv zeta. rewrite <- seq_not_advanced_chain. reflexivity.
Qed.

Lemma family_chain_upto thres f f' r r' :
  fwd_upto f f' -> rev_upto r r' -> family_chain thres f' r' = family_chain thres f r.
Proof.
  intros (sf & bs & vb & d & n & ->) (sf' & bs' & vb' & m' & ->).
  destruct f as [? ? ? ? ? ? ? ? ? ? ? ? ? ? []], r as [? ? ? ? ? ? ? ? ? ? ? ? ? ? []].
  reflexivity.
Qed.

(** the family is looked at: the segment has data, or SYN or FIN, and is
    not flagged as a keep-alive *)
Definition family_kind (v : view) : retrans_kind :=
  if ((0 <? seglen) || tst flags (Z.lor TH_SYN TH_FIN))
     && negb (tst (ta_flags (v_cur v)) TCP_A_KEEP_ALIVE)
  then family_chain (ooo_thres (v_rtt v)) (v_fwd v) (v_rev v)
  else NotRetrans.

Lemma check_retransmission_view v :
  check_retransmission_v v =
  View ((match family_kind v with
         | PlainRetrans =>
             ta_with_rto (nextseqframe (si (v_fwd v)))
                         (nstime_delta (abs_ts pinfo) (nextseqtime (si (v_fwd v))))
         | _ => fun a => a
         end)
          (ta_with_flags (Z.lor (ta_flags (v_cur v)) (kind_flag (family_kind v))) (v_cur v)))
       (v_fwd v) (v_rev v) (v_rtt v).
Proof.
  unfold check_retransmission_v, family_kind.
  destruct ((0 <? seglen) || tst flags (Z.lor TH_SYN TH_FIN)); cbn [andb].
  2: { cbn. rewrite ta_with_flags_lor_0. destruct v; reflexivity. }
  destruct (tst (ta_flags (v_cur v)) TCP_A_KEEP_ALIVE); cbn [negb].
  { cbn. rewrite ta_with_flags_lor_0. destruct v; reflexivity. }
  rewrite family_chain_tests.
  destruct (fast_retransmission_test pinfo seq seglen (v_fwd v) (v_rev v)); [reflexivity|].
  destruct (out_of_order_test pinfo seq seglen (v_fwd v) (v_rtt v)); [reflexivity|].
  destruct (spurious_test seq seglen (v_rev v)); [reflexivity|].
  destruct (seq_not_advanced seq seglen (v_fwd v)); [reflexivity|].
  cbn. rewrite ta_with_flags_lor_0. destruct v; reflexivity.
Qed.

Lemma check_retransmission_flags v :
  ta_flags (v_cur (check_retransmission_v v))
  = Z.lor (ta_flags (v_cur v)) (kind_flag (family_kind v)).
Proof. rewrite check_retransmission_view. destruct (family_kind v); reflexivity. Qed.

Lemma check_retransmission_cur {A} (p : tcp_acked -> A) v :
  past_flags p -> past_rto p -> p (v_cur (check_retransmission_v v)) = p (v_cur v).
Proof.
  intros Hf Hr. rewrite check_retransmission_view.
  destruct (family_kind v); cbn [v_cur]; rewrite ?Hr, Hf; reflexivity.
Qed.

Lemma check_retransmission_rto v :
  rto_frame (v_cur (check_retransmission_v v))
  = (match family_kind v with
     | PlainRetrans => nextseqframe (si (v_fwd v))
     | _ => rto_frame (v_cur v)
     end)
  /\ rto_ts (v_cur (check_retransmission_v v))
     = (match family_kind v with
        | PlainRetrans => nstime_delta (abs_ts pinfo) (nextseqtime (si (v_fwd v)))
        | _ => rto_ts (v_cur v)
        end).
Proof. rewrite check_retransmission_view. destruct (family_kind v); split; reflexivity. Qed.

Lemma check_retransmission_flows v :
  v_fwd (check_retransmission_v v) = v_fwd v
  /\ v_rev (check_retransmission_v v) = v_rev v
  /\ v_rtt (check_retransmission_v v) = v_rtt v.
Proof. rewrite check_retransmission_view. repeat split. Qed.


(** *** The checks before the retransmission family, in terms of the
    flows and the result the call starts from *)

Lemma store_fwd_base_seq_si f : si (store_fwd_base_seq seq flags f) = si f.
Proof.
  unfold store_fwd_base_seq.
  destruct (negb (tst (static_flags f) TCP_S_BASE_SEQ_SET)); [|reflexivity].
  destruct (tst flags TH_SYN); reflexivity.
Qed.

Lemma ack_lost_test_store r :
  ack_lost_test ack flags (store_rev_base_seq ack flags r) = ack_lost_test ack flags r.
Proof.
  unfold store_rev_base_seq.
  destruct (negb (tst (static_flags r) TCP_S_BASE_SEQ_SET) && tst flags TH_ACK);
    destruct (tst flags TH_ACK); reflexivity.
Qed.

Lemma fwd_bits_upto f f' r r' :
  fwd_upto f f' -> rev_upto r r' -> fwd_bits f' r' = fwd_bits f r.
Proof.
  intros (sf & bs & vb & d & n & ->) (sf' & bs' & vb' & m' & ->).
  destruct f as [? ? ? ? ? ? ? ? ? ? ? ? ? ? []], r as [? ? ? ? ? ? ? ? ? ? ? ? ? ? []].
  reflexivity.
Qed.

Lemma counted_upto f f' r r' :
  fwd_upto f f' -> rev_upto r r' -> counted f' r' = counted f r.
Proof.
  intros (sf & bs & vb & d & n & ->) (sf' & bs' & vb' & m' & ->).
  destruct f as [? ? ? ? ? ? ? ? ? ? ? ? ? ? []], r as [? ? ? ? ? ? ? ? ? ? ? ? ? ? []].
  reflexivity.
Qed.

Lemma lost_seen_upto f f' r r' :
  fwd_upto f f' -> rev_upto r r' -> lost_seen f' r' = lost_seen f r.
Proof.
  intros (sf & bs & vb & d & n & ->) (sf' & bs' & vb' & m' & ->).
  destruct f as [? ? ? ? ? ? ? ? ? ? ? ? ? ? []], r as [? ? ? ? ? ? ? ? ? ? ? ? ? ? []].
  reflexivity.
Qed.

(** the view at the retransmission family *)
Definition checked (v : view) : view :=
  finished_fwd_v (forward_checks_v (store_base_seq_v v)).

Lemma checked_upto v :
  fwd_upto (v_fwd v) (v_fwd (checked v))
  /\ rev_upto (v_rev v) (v_rev (checked v))
  /\ v_rtt (checked v) = v_rtt v.
Proof.
  unfold checked.
  destruct (finished_fwd_upto (forward_checks_v (store_base_seq_v v))) as (F & R & T).
  pose proof (forward_checks_upto (store_base_seq_v v)) as F2.
  rewrite forward_checks_rev in R. rewrite forward_checks_rtt in T.
  split; [|split].
  - eapply fwd_upto_trans; [|exact F]. eapply fwd_upto_trans; [|exact F2].
    apply fwd_upto_store.
  - eapply rev_upto_trans; [|exact R]. apply rev_upto_store.
  - exact T.
Qed.

Lemma checked_flags v :
  ta_flags (v_cur (checked v))
  = Z.lor (Z.lor (ta_flags (v_cur v)) (fwd_bits (v_fwd v) (v_rev v)))
          (if ack_lost_test ack flags (v_rev v) then TCP_A_ACK_LOST_PACKET else 0).
Proof.
  unfold checked. rewrite finished_fwd_flags, forward_checks_rev, forward_checks_flags.
  cbn [store_base_seq_v v_rev_map v_fwd_map v_cur v_fwd v_rev].
  rewrite ack_lost_test_store.
  rewrite (fwd_bits_upto _ _ _ _ (fwd_upto_store (v_fwd v)) (rev_upto_store (v_rev v))).
  reflexivity.
Qed.

Lemma checked_cur {A} (p : tcp_acked -> A) v :
  past_flags p -> past_dupack p -> p (v_cur (checked v)) = p (v_cur v).
Proof.
  intros Hf Hd. unfold checked.
  rewrite (finished_fwd_cur p _ Hf), (forward_checks_cur p _ Hf Hd). reflexivity.
Qed.

Lemma checked_dupack v :
  dupack_num (v_cur (checked v))
  = (if counted (v_fwd v) (v_rev v) then u32 (dupacknum (si (v_fwd v)) + 1)
     else dupack_num (v_cur v))
  /\ dupack_frame (v_cur (checked v))
     = (if counted (v_fwd v) (v_rev v) then lastnondupack (si (v_fwd v))
        else dupack_frame (v_cur v)).
Proof.
  unfold checked.
  rewrite (finished_fwd_cur dupack_num), (finished_fwd_cur dupack_frame)
    by (intros ? ?; reflexivity).
  destruct (forward_checks_dupack (store_base_seq_v v)) as [-> ->].
  cbn [store_base_seq_v v_rev_map v_fwd_map v_cur v_fwd v_rev].
  rewrite (counted_upto _ _ _ _ (fwd_upto_store (v_fwd v)) (rev_upto_store (v_rev v))).
  rewrite store_fwd_base_seq_si. split; reflexivity.
Qed.

Lemma checked_si v :
  si (v_fwd (checked v))
  = (if negb (ack =? lastack (si (v_fwd v)))
     then si_dupacknum 0 (si_lastnondupack (num pinfo) (si (v_fwd v)))
     else if counted (v_fwd v) (v_rev v)
          then si_dupacknum (u32 (dupacknum (si (v_fwd v)) + 1)) (si (v_fwd v))
          else si (v_fwd v)).
Proof.
  unfold checked. rewrite finished_fwd_fwd, forward_checks_fwd.
  cbn [store_base_seq_v v_rev_map v_fwd_map v_cur v_fwd v_rev].
  rewrite (counted_upto _ _ _ _ (fwd_upto_store (v_fwd v)) (rev_upto_store (v_rev v))).
  rewrite (lost_seen_upto _ _ _ _ (fwd_upto_store (v_fwd v)) (rev_upto_store (v_rev v))).
  pose proof (store_fwd_base_seq_si (v_fwd v)) as S.
  destruct (counted (v_fwd v) (v_rev v)), (lost_seen (v_fwd v) (v_rev v));
    cbn; rewrite S; destruct (negb (ack =? lastack (si (v_fwd v)))); cbn; rewrite ?S;
    destruct (si (v_fwd v)); reflexivity.
Qed.

Lemma checked_valid_bif v :
  valid_bif (v_fwd (checked v))
  = (if lost_seen (v_fwd v) (v_rev v) then false
     else valid_bif (store_fwd_base_seq seq flags (v_fwd v))).
Proof.
  unfold checked. rewrite finished_fwd_fwd, forward_checks_fwd.
  cbn [store_base_seq_v v_rev_map v_fwd_map v_cur v_fwd v_rev].
  rewrite (lost_seen_upto _ _ _ _ (fwd_upto_store (v_fwd v)) (rev_upto_store (v_rev v))).
  destruct (counted _ _), (lost_seen (v_fwd v) (v_rev v));
    match goal with |- context [negb ?b] => destruct (negb b) end; reflexivity.
Qed.

(** the outcome of the retransmission family in the call *)
Definition kind_of (v : view) : retrans_kind :=
  if ((0 <? seglen) || tst flags (Z.lor TH_SYN TH_FIN))
     && negb (tst (Z.lor (ta_flags (v_cur v)) (fwd_bits (v_fwd v) (v_rev v)))
                  TCP_A_KEEP_ALIVE)
  then family_chain (ooo_thres (v_rtt v)) (v_fwd v) (v_rev v)
  else NotRetrans.

Lemma family_kind_checked v : family_kind (checked v) = kind_of v.
Proof.
  unfold family_kind, kind_of. rewrite checked_flags.
  destruct (checked_upto v) as (F & R & ->).
  rewrite (family_chain_upto _ _ _ _ _ F R).
  rewrite (tst_lor _ (if ack_lost_test ack flags (v_rev v) then _ else _)).
  replace (tst (if ack_lost_test ack flags (v_rev v) then TCP_A_ACK_LOST_PACKET else 0)
               TCP_A_KEEP_ALIVE) with false
    by (destruct (ack_lost_test ack flags (v_rev v)); reflexivity).
  rewrite orb_false_r. reflexivity.
Qed.


(** the view after the retransmission family *)
Definition classified (v : view) : view := check_retransmission_v (checked v).

Lemma classified_flags v :
  ta_flags (v_cur (classified v))
  = Z.lor (Z.lor (Z.lor (ta_flags (v_cur v)) (fwd_bits (v_fwd v) (v_rev v)))
                 (if ack_lost_test ack flags (v_rev v) then TCP_A_ACK_LOST_PACKET else 0))
          (kind_flag (kind_of v)).
Proof.
  unfold classified. rewrite check_retransmission_flags, family_kind_checked, checked_flags.
  reflexivity.
Qed.

Lemma classified_fwd v : v_fwd (classified v) = v_fwd (checked v).
Proof. unfold classified. apply check_retransmission_flows. Qed.

Lemma classified_cur {A} (p : tcp_acked -> A) v :
  past_flags p -> past_dupack p -> past_rto p -> p (v_cur (classified v)) = p (v_cur v).
Proof.
  intros Hf Hd Hr. unfold classified.
  rewrite (check_retransmission_cur p _ Hf Hr). apply checked_cur; assumption.
Qed.

Lemma classified_dupack v :
  dupack_num (v_cur (classified v))
  = (if counted (v_fwd v) (v_rev v) then u32 (dupacknum (si (v_fwd v)) + 1)
     else dupack_num (v_cur v))
  /\ dupack_frame (v_cur (classified v))
     = (if counted (v_fwd v) (v_rev v) then lastnondupack (si (v_fwd v))
        else dupack_frame (v_cur v)).
Proof.
  unfold classified.
  rewrite (check_retransmission_cur dupack_num), (check_retransmission_cur dupack_frame)
    by (intros ? ?; reflexivity).
  apply checked_dupack.
Qed.

Lemma classified_rto v :
  rto_frame (v_cur (classified v))
  = (match kind_of v with
     | PlainRetrans => nextseqframe (si (v_fwd v))
     | _ => rto_frame (v_cur v)
     end)
  /\ rto_ts (v_cur (classified v))
     = (match kind_of v with
        | PlainRetrans => nstime_delta (abs_ts pinfo) (nextseqtime (si (v_fwd v)))
        | _ => rto_ts (v_cur v)
        end).
Proof.
  unfold classified.
  destruct (check_retransmission_rto (checked v)) as [-> ->].
  rewrite family_kind_checked.
  rewrite (checked_cur rto_frame), (checked_cur rto_ts) by (intros ? ?; reflexivity).
  rewrite checked_si.
  assert (E : forall (b c : bool) d n d',
             nextseqframe (if b then si_dupacknum d (si_lastnondupack n (si (v_fwd v)))
                           else if c then si_dupacknum d' (si (v_fwd v)) else si (v_fwd v))
             = nextseqframe (si (v_fwd v))
             /\ nextseqtime (if b then si_dupacknum d (si_lastnondupack n (si (v_fwd v)))
                             else if c then si_dupacknum d' (si (v_fwd v)) else si (v_fwd v))
                = nextseqtime (si (v_fwd v)))
    by (intros [] [] ? ? ?; split; reflexivity).
  destruct (E (negb (ack =? lastack (si (v_fwd v)))) (counted (v_fwd v) (v_rev v)) 0
              (num pinfo) (u32 (dupacknum (si (v_fwd v)) + 1))) as [-> ->].
  split; reflexivity.
Qed.

(** *** [remember_segment] *)

Lemma remember_flow_fields z lf f :
  let f' := remember_flow TCP_MAX_UNACKED_SEGMENTS pinfo seq ack seglen flags window z lf f in
  T.window f' = window
  /\ lastack (si f') = ack
  /\ lastacktime (si f') = abs_ts pinfo
  /\ lastsegmentflags f' = lf
  /\ dupacknum (si f') = dupacknum (si f)
  /\ lastnondupack (si f') = lastnondupack (si f)
  /\ valid_bif f' = valid_bif f.
Proof.
  unfold remember_flow, store_ack_window, store_maxseqtobeacked, store_nextseq, add_unacked.
  cbv zeta.
  repeat match goal with
         | |- context [if ?c then _ else _] => destruct c
         end; cbn; auto 10.
Qed.


Lemma remember_flow_segments z lf f :
  let f' := remember_flow TCP_MAX_UNACKED_SEGMENTS pinfo seq ack seglen flags window z lf f in
  segments (si f')
  = if keeps_segment TCP_MAX_UNACKED_SEGMENTS seglen flags f
    then Unacked (num pinfo) seq (segment_nextseq TCP_MAX_UNACKED_SEGMENTS seq seglen flags f)
                 (abs_ts pinfo) :: segments (si f)
    else segments (si f).
Proof.
  unfold remember_flow, store_ack_window, store_maxseqtobeacked, store_nextseq, add_unacked.
  cbv zeta.
  set (nxt := segment_nextseq TCP_MAX_UNACKED_SEGMENTS seq seglen flags f).
  destruct (keeps_segment TCP_MAX_UNACKED_SEGMENTS seglen flags f); cbn;
    destruct (GT_SEQ nxt (nextseq (si f)) || (nextseq (si f) =? 0)); cbn;
    destruct z; cbn;
    repeat match goal with
         | |- context [if ?c then _ else _] => destruct c
         end; cbn; reflexivity.
Qed.

(** *** The walk over the reverse list and the bytes in flight *)

Definition past_maxsizeacked {A} (q : tcp_flow_t -> A) : Prop :=
  forall m f, q (fl_maxsizeacked m f) = q f.
Definition past_fl_push {A} (q : tcp_flow_t -> A) : Prop :=
  forall a b f, q (fl_push a b f) = q f.

Lemma delete_unacked_v_keeps {A B} (p : tcp_acked -> A) (q : tcp_flow_t -> B) ual v :
  past_maxsizeacked q ->
  p (v_cur (delete_unacked_v ual v)) = p (v_cur v)
  /\ q (v_fwd (delete_unacked_v ual v)) = q (v_fwd v).
Proof.
  intros Hq. unfold delete_unacked_v. cbv zeta.
  destruct (scps_capable (v_rev v)); [|split; reflexivity].
  destruct (maxsizeacked (v_fwd v) <? u32 (ual_nextseq ual - ual_seq ual));
    cbn; rewrite ?Hq; split; reflexivity.
Qed.

Lemma ack_walk_v_keeps {A B} (p : tcp_acked -> A) (q : tcp_flow_t -> B) l :
  past_acked p -> past_maxsizeacked q ->
  forall v,
    p (v_cur (snd (ack_walk_v l v))) = p (v_cur v)
    /\ q (v_fwd (snd (ack_walk_v l v))) = q (v_fwd v).
Proof.
  intros Hp Hq. induction l as [|ual next IH]; intros v; [split; reflexivity|].
  cbn [ack_walk_v].
  destruct (ack =? ual_nextseq ual).
  { destruct (IH (delete_unacked_v ual
                    (v_cur_map (ta_with_acked (ual_frame ual)
                                  (nstime_delta (abs_ts pinfo) (ual_ts ual))) v)))
      as [-> ->].
    destruct (delete_unacked_v_keeps p q ual
                (v_cur_map (ta_with_acked (ual_frame ual)
                              (nstime_delta (abs_ts pinfo) (ual_ts ual))) v) Hq)
      as [-> ->].
    cbn. rewrite Hp. split; reflexivity. }
  cbv zeta.
  match goal with |- context [GT_SEQ (ual_nextseq ?u) ack] => set (ual' := u) end.
  destruct (GT_SEQ (ual_nextseq ual') ack).
  { specialize (IH v). destruct (ack_walk_v next v) as [kept v']. exact IH. }
  destruct (IH (delete_unacked_v ual' v)) as [-> ->].
  apply delete_unacked_v_keeps. exact Hq.
Qed.

Lemma remove_acked_segments_v_keeps {A B} (p : tcp_acked -> A) (q : tcp_flow_t -> B) v :
  past_acked p -> past_maxsizeacked q ->
  p (v_cur (remove_acked_segments_v v)) = p (v_cur v)
  /\ q (v_fwd (remove_acked_segments_v v)) = q (v_fwd v).
Proof.
  intros Hp Hq. unfold remove_acked_segments_v.
  pose proof (ack_walk_v_keeps p q (segments (si (v_rev v))) Hp Hq v) as K.
  destruct (ack_walk_v (segments (si (v_rev v))) v) as [kept v']. exact K.
Qed.

Lemma count_push_bytes_keeps {A} (q : tcp_flow_t -> A) f :
  past_fl_push q -> q (count_push_bytes seglen flags f) = q f.
Proof.
  intros Hq. unfold count_push_bytes.
  repeat match goal with
         | |- context [if ?c then _ else _] => destruct c
         end; apply Hq.
Qed.

Lemma track_bytes_in_flight_v_keeps {A B} (p : tcp_acked -> A) (q : tcp_flow_t -> B) v :
  past_bif p -> past_push p -> past_fl_push q ->
  p (v_cur (track_bytes_in_flight_v v)) = p (v_cur v)
  /\ q (v_fwd (track_bytes_in_flight_v v)) = q (v_fwd v).
Proof.
  intros Hb Hp Hq. unfold track_bytes_in_flight_v.
  destruct (tracks_in_flight tcp_track_bytes_in_flight seglen (v_fwd v));
    [|split; reflexivity].
  cbv zeta.
  destruct ((0 <? in_flight (v_fwd v)) && (in_flight (v_fwd v) <? 2000000000));
    cbn; rewrite ?Hp, ?Hb, count_push_bytes_keeps by exact Hq; split; reflexivity.
Qed.

Lemma track_bytes_in_flight_v_bif v :
  bytes_in_flight (v_cur (track_bytes_in_flight_v v))
  = if tracks_in_flight tcp_track_bytes_in_flight seglen (v_fwd v)
       && (0 <? in_flight (v_fwd v)) && (in_flight (v_fwd v) <? 2000000000)
    then in_flight (v_fwd v)
    else bytes_in_flight (v_cur v).
Proof.
  unfold track_bytes_in_flight_v.
  destruct (tracks_in_flight tcp_track_bytes_in_flight seglen (v_fwd v)); [|reflexivity].
  cbv zeta. cbn [andb].
  destruct (0 <? in_flight (v_fwd v)); cbn [andb]; [|reflexivity].
  destruct (in_flight (v_fwd v) <? 2000000000); reflexivity.
Qed.


(** *** The whole analysis on the view *)

Lemma analyze_v_cur {A} (p : tcp_acked -> A) v :
  past_acked p -> past_bif p -> past_push p ->
  p (v_cur (analyze_v v)) = p (v_cur (classified v)).
Proof.
  intros Ha Hb Hp. unfold analyze_v. fold (checked v). fold (classified v).
  destruct (track_bytes_in_flight_v_keeps p (fun _ => tt)
              (remove_acked_segments_v (remember_segment_v (classified v))) Hb Hp
              (fun _ _ _ => eq_refl)) as [-> _].
  destruct (remove_acked_segments_v_keeps p (fun _ => tt)
              (remember_segment_v (classified v)) Ha (fun _ _ => eq_refl)) as [-> _].
  reflexivity.
Qed.

(** the forward flow as [remember_segment] leaves it *)
Definition remembered (v : view) : tcp_flow_t :=
  remember_flow TCP_MAX_UNACKED_SEGMENTS pinfo seq ack seglen flags window
    (negb (tst (ta_flags (v_cur (classified v))) TCP_A_ZERO_WINDOW_PROBE))
    (ta_flags (v_cur (classified v)))
    (v_fwd (checked v)).

Lemma analyze_v_fwd {A} (q : tcp_flow_t -> A) v :
  past_maxsizeacked q -> past_fl_push q ->
  q (v_fwd (analyze_v v)) = q (remembered v).
Proof.
  intros Hm Hp. unfold analyze_v. fold (checked v). fold (classified v).
  destruct (track_bytes_in_flight_v_keeps (fun _ => tt) q
              (remove_acked_segments_v (remember_segment_v (classified v)))
              (fun _ _ => eq_refl) (fun _ _ => eq_refl) Hp) as [_ ->].
  destruct (remove_acked_segments_v_keeps (fun _ => tt) q
              (remember_segment_v (classified v)) (fun _ _ _ => eq_refl) Hm) as [_ ->].
  unfold remember_segment_v, remembered. cbn [v_fwd v_fwd_map].
  rewrite classified_fwd. reflexivity.
Qed.

Lemma analyze_v_bif v :
  let f' := v_fwd (analyze_v v) in
  bytes_in_flight (v_cur (analyze_v v))
  = if tracks_in_flight tcp_track_bytes_in_flight seglen f'
       && (0 <? in_flight f') && (in_flight f' <? 2000000000)
    then in_flight f'
    else bytes_in_flight (v_cur v).
Proof.
  cbv zeta. unfold analyze_v. fold (checked v). fold (classified v).
  set (v6 := remove_acked_segments_v (remember_segment_v (classified v))).
  rewrite track_bytes_in_flight_v_bif.
  destruct (track_bytes_in_flight_v_keeps (fun _ => tt)
              (tracks_in_flight tcp_track_bytes_in_flight seglen) v6
              (fun _ _ => eq_refl) (fun _ _ => eq_refl) (fun _ _ _ => eq_refl)) as [_ ->].
  destruct (track_bytes_in_flight_v_keeps (fun _ => tt) in_flight v6
              (fun _ _ => eq_refl) (fun _ _ => eq_refl) (fun _ _ _ => eq_refl)) as [_ ->].
  unfold v6.
  destruct (remove_acked_segments_v_keeps bytes_in_flight (fun _ => tt)
              (remember_segment_v (classified v))
              (fun _ _ _ => eq_refl) (fun _ _ => eq_refl)) as [-> _].
  cbn [remember_segment_v v_cur v_fwd_map].
  rewrite (classified_cur bytes_in_flight) by (intros ? ?; reflexivity).
  reflexivity.
Qed.


(** the flags of the forward checks, bit by bit *)
Definition TCP_A_FAMILY : Z :=
  Z.lor (Z.lor (Z.lor TCP_A_RETRANSMISSION TCP_A_FAST_RETRANSMISSION) TCP_A_OUT_OF_ORDER)
        TCP_A_SPURIOUS_RETRANSMISSION.

Lemma fwd_bits_family f r : Z.land (fwd_bits f r) TCP_A_FAMILY = 0.
Proof.
  unfold fwd_bits, bits5.
  repeat match goal with
         | |- context [if ?c then _ else _] => destruct c
         end; reflexivity.
Qed.

Lemma fwd_bits_duplicate_ack f r : tst (fwd_bits f r) TCP_A_DUPLICATE_ACK = counted f r.
Proof.
  unfold fwd_bits, bits5, counted.
  destruct (zwp_test seq seglen f r); [reflexivity|].
  destruct (keepalive_ack_test seq ack seglen flags window f r);
    destruct (zwp_ack_test seq ack seglen flags window f r);
    destruct (dupack_test seq ack seglen flags window f);
    repeat match goal with
           | |- context [if ?c then _ else _] => destruct c
           end; reflexivity.
Qed.

(** A counted duplicate ACK is a segment that passes the test of lines
    2048-2053 while the last segment of the reverse flow was no keep-alive:
    the zero window probe wants a byte of data, its ACK a zero window. *)
Lemma counted_test f r :
  counted f r
  = dupack_test seq ack seglen flags window f
    && negb (tst (lastsegmentflags r) TCP_A_KEEP_ALIVE).
Proof.
  unfold counted, zwp_test, keepalive_ack_test, zwp_ack_test, dupack_test.
  destruct (Z.eqb_spec seglen 0) as [E0|E0]; destruct (Z.eqb_spec seglen 1) as [E1|E1];
    try lia;
    destruct (window =? 0); destruct (window =? T.window f);
    destruct (seq =? nextseq (si f)); destruct (ack =? lastack (si f));
    destruct (tst (lastsegmentflags r) TCP_A_KEEP_ALIVE);
    destruct (tst (lastsegmentflags r) TCP_A_ZERO_WINDOW_PROBE);
    destruct (no_syn_fin_rst flags); destruct (T.window r =? 0); reflexivity.
Qed.


(** ** One call of the analysis: what it leaves in record and result *)

(** the call on the view of the record it is made on *)
Lemma analyze_view t :
  packet_ready t ->
  let t' := analyze tcp_track_bytes_in_flight TCP_MAX_UNACKED_SEGMENTS
                    pinfo seq ack seglen flags window t in
  cur t' = v_cur (analyze_v (view_of t))
  /\ fwd t' = v_fwd (analyze_v (view_of t)).
Proof.
  intros H t'. destruct (analyze_acts t H) as [_ V]. fold t' in V.
  rewrite <- V. split; reflexivity.
Qed.

Lemma analyze_flags t :
  packet_ready t ->
  ta_flags (cur (analyze tcp_track_bytes_in_flight TCP_MAX_UNACKED_SEGMENTS
                         pinfo seq ack seglen flags window t))
  = Z.lor (Z.lor (Z.lor (ta_flags (cur t)) (fwd_bits (fwd t) (rev t)))
                 (if ack_lost_test ack flags (rev t) then TCP_A_ACK_LOST_PACKET else 0))
          (kind_flag (kind_of (view_of t))).
Proof.
  intros H. destruct (analyze_view t H) as [-> _].
  rewrite (analyze_v_cur ta_flags) by (intros ? ?; reflexivity).
  apply classified_flags.
Qed.

(** C1, with the threshold of the code. On a segment of the first pass with
    data or with SYN or FIN, and not flagged as a keep-alive, the
    retransmission family is a chain in which the first match decides and
    sets its one flag: fast retransmission, then out-of-order, then spurious
    retransmission, then retransmission, the last one recording the frame
    and the time since the forward flow's [nextseqtime]. The conditions are
    those of [family_chain] on the flows the call starts from; the
    out-of-order threshold is 3 ms while no first RTT is known and the first
    RTT otherwise. No other segment gets a flag of the family, and only
    the plain retransmission writes the RTO fields. *)
Theorem retransmission_family_first_match t :
  packet_ready t ->
  let t' := analyze tcp_track_bytes_in_flight TCP_MAX_UNACKED_SEGMENTS
                    pinfo seq ack seglen flags window t in
  let looked_at :=
    ((0 <? seglen) || tst flags (Z.lor TH_SYN TH_FIN))
    && negb (tst (ta_flags (cur t')) TCP_A_KEEP_ALIVE) in
  let kind :=
    if looked_at then family_chain (ooo_thres (ts_first_rtt t)) (fwd t) (rev t)
    else NotRetrans in
  Z.land (ta_flags (cur t')) TCP_A_FAMILY
  = Z.lor (Z.land (ta_flags (cur t)) TCP_A_FAMILY) (kind_flag kind)
  /\ rto_frame (cur t')
     = (match kind with
        | PlainRetrans => nextseqframe (si (fwd t))
        | _ => rto_frame (cur t)
        end)
  /\ rto_ts (cur t')
     = (match kind with
        | PlainRetrans => nstime_delta (abs_ts pinfo) (nextseqtime (si (fwd t)))
        | _ => rto_ts (cur t)
        end).
Proof.
  intros H t' looked_at kind.
  pose proof (analyze_flags t H) as Fl. fold t' in Fl.
  assert (KA : tst (ta_flags (cur t')) TCP_A_KEEP_ALIVE
               = tst (Z.lor (ta_flags (cur t)) (fwd_bits (fwd t) (rev t))) TCP_A_KEEP_ALIVE).
  { rewrite Fl.
    rewrite (tst_lor _ (kind_flag _)), (tst_lor _ (if ack_lost_test _ _ _ then _ else _)).
    replace (tst (kind_flag (kind_of (view_of t))) TCP_A_KEEP_ALIVE) with false
      by (destruct (kind_of (view_of t)); reflexivity).
    replace (tst (if ack_lost_test ack flags (rev t) then TCP_A_ACK_LOST_PACKET else 0)
                 TCP_A_KEEP_ALIVE) with false
      by (destruct (ack_lost_test ack flags (rev t)); reflexivity).
    rewrite !orb_false_r. reflexivity. }
  assert (K : kind = kind_of (view_of t)).
  { unfold kind, looked_at, kind_of. rewrite KA. reflexivity. }
  rewrite K. split.
  - rewrite Fl, !Z.land_lor_distr_l, fwd_bits_family.
    replace (Z.land (if ack_lost_test ack flags (rev t) then TCP_A_ACK_LOST_PACKET else 0)
                    TCP_A_FAMILY) with 0
      by (destruct (ack_lost_test ack flags (rev t)); reflexivity).
    replace (Z.land (kind_flag (kind_of (view_of t))) TCP_A_FAMILY)
      with (kind_flag (kind_of (view_of t)))
      by (destruct (kind_of (view_of t)); reflexivity).
    rewrite !Z.lor_0_r. reflexivity.
  - destruct (analyze_view t H) as [C _]. fold t' in C. rewrite C.
    rewrite (analyze_v_cur rto_frame), (analyze_v_cur rto_ts) by (intros ? ?; reflexivity).
    apply classified_rto.
Qed.



(** C8, the general part as the code has it. One call on the first pass
    counts a duplicate ACK exactly when the segment passes the test of the
    analysis (no data, a window that is not zero and is the flow's last one,
    seq equal to the flow's [nextseq], ack equal to its [lastack], none of
    SYN, FIN and RST) and the last segment of the reverse flow was not
    flagged as a keep-alive. Counting sets the flag, adds one to the flow's
    [dupacknum] and stores the new count and the frame of the last ACK
    that was no duplicate in the packet's result. A packet whose ack is
    not the flow's [lastack] sets [dupacknum] to 0. A segment with data
    is never counted. *)
Theorem duplicate_ack_counting t :
  packet_ready t ->
  let t' := analyze tcp_track_bytes_in_flight TCP_MAX_UNACKED_SEGMENTS
                    pinfo seq ack seglen flags window t in
  let f := fwd t in
  let dup :=
    dupack_test seq ack seglen flags window f
    && negb (tst (lastsegmentflags (rev t)) TCP_A_KEEP_ALIVE) in
  tst (ta_flags (cur t')) TCP_A_DUPLICATE_ACK
  = tst (ta_flags (cur t)) TCP_A_DUPLICATE_ACK || dup
  /\ dupacknum (si (fwd t'))
     = (if negb (ack =? lastack (si f)) then 0
        else if dup then u32 (dupacknum (si f) + 1) else dupacknum (si f))
  /\ dupack_num (cur t')
     = (if dup then u32 (dupacknum (si f) + 1) else dupack_num (cur t))
  /\ dupack_frame (cur t')
     = (if dup then lastnondupack (si f) else dupack_frame (cur t))
  /\ (seglen <> 0 -> dup = false).
Proof.
  intros H t' f dup.
  assert (D : dup = counted (fwd t) (rev t)) by (symmetry; apply counted_test).
  destruct (analyze_view t H) as [C F]. fold t' in C, F.
  set (v := view_of t) in *.
  split; [|split; [|split; [|split]]].
  - pose proof (analyze_flags t H) as Fl. fold t' in Fl. rewrite Fl.
    rewrite (tst_lor _ (kind_flag _)), (tst_lor _ (if ack_lost_test _ _ _ then _ else _)),
      (tst_lor _ (fwd_bits _ _)).
    replace (tst (kind_flag (kind_of (view_of t))) TCP_A_DUPLICATE_ACK) with false
      by (destruct (kind_of (view_of t)); reflexivity).
    replace (tst (if ack_lost_test ack flags (rev t) then TCP_A_ACK_LOST_PACKET else 0)
                 TCP_A_DUPLICATE_ACK) with false
      by (destruct (ack_lost_test ack flags (rev t)); reflexivity).
    rewrite !orb_false_r, fwd_bits_duplicate_ack, D. reflexivity.
  - rewrite F, (analyze_v_fwd (fun g => dupacknum (si g))) by (intros ? ?; reflexivity).
    unfold remembered.
    destruct (remember_flow_fields
                (negb (tst (ta_flags (v_cur (classified v))) TCP_A_ZERO_WINDOW_PROBE))
                (ta_flags (v_cur (classified v))) (v_fwd (checked v)))
      as (_ & _ & _ & _ & -> & _).
    rewrite checked_si, D. change (v_fwd v) with (fwd t). change (v_rev v) with (rev t).
    fold f.
    destruct (negb (ack =? lastack (si f))); [reflexivity|].
    destruct (counted f (rev t)); reflexivity.
  - rewrite C, (analyze_v_cur dupack_num) by (intros ? ?; reflexivity).
    destruct (classified_dupack v) as [-> _]. rewrite D. reflexivity.
  - rewrite C, (analyze_v_cur dupack_frame) by (intros ? ?; reflexivity).
    destruct (classified_dupack v) as [_ ->]. rewrite D. reflexivity.
  - intros N. unfold dup, dupack_test.
    destruct (Z.eqb_spec seglen 0); [contradiction|reflexivity].
Qed.

(** *** The bytes in flight *)

(** the sequence numbers of the unacked segments relative to [base] *)
Definition rel_seqs (base : Z) (l : list tcp_unacked_t) : list Z :=
  map (fun ual => u32 (ual_seq ual - base)) l.
Definition rel_nextseqs (base : Z) (l : list tcp_unacked_t) : list Z :=
  map (fun ual => u32 (ual_nextseq ual - base)) l.

(** the estimate: the highest [nextseq] minus the lowest [seq] of the
    unacked segments, in 32 bits *)
Definition bif_estimate (f : tcp_flow_t) : Z :=
  match segments (si f) with
  | [] => 0
  | ual0 :: l =>
      u32 (fold_right Z.max (u32 (ual_nextseq ual0 - base_seq f)) (rel_nextseqs (base_seq f) l)
           - fold_right Z.min (u32 (ual_seq ual0 - base_seq f)) (rel_seqs (base_seq f) l))
  end.

Lemma fold_right_min_init a x l :
  fold_right Z.min (Z.min a x) l = Z.min x (fold_right Z.min a l).
Proof. induction l as [|y l IH]; cbn; [lia | rewrite IH; lia]. Qed.

Lemma fold_right_max_init a x l :
  fold_right Z.max (Z.max a x) l = Z.max x (fold_right Z.max a l).
Proof. induction l as [|y l IH]; cbn; [lia | rewrite IH; lia]. Qed.

Lemma in_flight_scan base l : forall a b,
  fold_left
    (fun (acc : Z * Z) (ual : tcp_unacked_t) =>
       let '(first_seq, last_seq) := acc in
       let last_seq :=
         if last_seq <? u32 (ual_nextseq ual - base)
         then u32 (ual_nextseq ual - base) else last_seq in
       let first_seq :=
         if u32 (ual_seq ual - base) <? first_seq
         then u32 (ual_seq ual - base) else first_seq in
       (first_seq, last_seq))
    l (a, b)
  = (fold_right Z.min a (rel_seqs base l), fold_right Z.max b (rel_nextseqs base l)).
Proof.
  induction l as [|ual l IH]; intros a b; [reflexivity|].
  cbn [fold_left rel_seqs rel_nextseqs map fold_right].
  fold (rel_seqs base l). fold (rel_nextseqs base l).
  replace (if b <? u32 (ual_nextseq ual - base) then u32 (ual_nextseq ual - base) else b)
    with (Z.max b (u32 (ual_nextseq ual - base)))
    by (destruct (Z.ltb_spec b (u32 (ual_nextseq ual - base))); lia).
  replace (if u32 (ual_seq ual - base) <? a then u32 (ual_seq ual - base) else a)
    with (Z.min a (u32 (ual_seq ual - base)))
    by (destruct (Z.ltb_spec (u32 (ual_seq ual - base)) a); lia).
  rewrite IH, fold_right_min_init, fold_right_max_init. reflexivity.
Qed.

(** the scan of lines 2311-2322 computes the estimate *)
Lemma in_flight_estimate f : in_flight f = bif_estimate f.
Proof.
  unfold in_flight, bif_estimate, in_flight_range.
  destruct (segments (si f)) as [|ual0 l]; [reflexivity|].
  rewrite in_flight_scan.
  cbn [rel_seqs rel_nextseqs map fold_right].
  fold (rel_seqs (base_seq f) l). fold (rel_nextseqs (base_seq f) l).
  set (a := u32 (ual_seq ual0 - base_seq f)).
  set (b := u32 (ual_nextseq ual0 - base_seq f)).
  assert (A : Z.min a (fold_right Z.min a (rel_seqs (base_seq f) l))
              = fold_right Z.min a (rel_seqs (base_seq f) l)).
  { rewrite <- fold_right_min_init. rewrite Z.min_id. reflexivity. }
  assert (B : Z.max b (fold_right Z.max b (rel_nextseqs (base_seq f) l))
              = fold_right Z.max b (rel_nextseqs (base_seq f) l)).
  { rewrite <- fold_right_max_init. rewrite Z.max_id. reflexivity. }
  rewrite A, B. reflexivity.
Qed.

(** C10. One call on the first pass writes the bytes in flight of the
    packet's result only when tracking is on, the segment has data, the
    forward list of unacked segments is not empty, the flow's [valid_bif] is
    set and the estimate (the highest [nextseq] minus the lowest [seq] of
    the unacked segments, relative to [base_seq]) is above 0 and below
    2000000000; the value written is the estimate. List, [valid_bif] and
    [base_seq] are those the call leaves. A segment without data leaves
    the field as it was, which is 0 when the packet had no result. *)
Theorem bytes_in_flight_attached t :
  packet_ready t ->
  let t' := analyze tcp_track_bytes_in_flight TCP_MAX_UNACKED_SEGMENTS
                    pinfo seq ack seglen flags window t in
  let f' := fwd t' in
  let attached :=
    tcp_track_bytes_in_flight
    && negb (seglen =? 0)
    && match segments (si f') with [] => false | _ :: _ => true end
    && valid_bif f'
    && (0 <? bif_estimate f') && (bif_estimate f' <? 2000000000) in
  bytes_in_flight (cur t')
  = (if attached then bif_estimate f' else bytes_in_flight (cur t))
  /\ (seglen = 0 -> bytes_in_flight (cur t') = bytes_in_flight (cur t))
  /\ (seglen = 0 -> ta t = None -> bytes_in_flight (cur t') = 0).
Proof.
  intros H t' f' attached.
  destruct (analyze_view t H) as [C F]. fold t' in C, F. fold f' in F.
  assert (E : bytes_in_flight (cur t')
              = (if attached then bif_estimate f' else bytes_in_flight (cur t))).
  { rewrite C. pose proof (analyze_v_bif (view_of t)) as B. cbv zeta in B.
    rewrite <- F in B. rewrite B. rewrite in_flight_estimate. reflexivity. }
  split; [exact E|].
  assert (Z0 : seglen = 0 -> bytes_in_flight (cur t') = bytes_in_flight (cur t)).
  { intros S. rewrite E. unfold attached. rewrite S. cbn [Z.eqb negb].
    rewrite andb_false_r. reflexivity. }
  split; [exact Z0|].
  intros S N. rewrite (Z0 S). unfold cur. unfold packet_ready in H. rewrite N in H.
  rewrite H. reflexivity.
Qed.


End SeqProps.

(** ** The first pass over a conversation *)

Section FirstPassProps.

Import Seq Conv.

Variable tcp_track_bytes_in_flight : bool.
Variable TCP_MAX_UNACKED_SEGMENTS : Z.

Lemma ta_modify_flows g t :
  flow1 (ta_modify g t) = flow1 t /\ flow2 (ta_modify g t) = flow2 t.
Proof. unfold ta_modify. destruct (ta t); split; reflexivity. Qed.

Lemma ensure_ta_flows pinfo seq ack t :
  flow1 (ensure_ta pinfo seq ack t) = flow1 t
  /\ flow2 (ensure_ta pinfo seq ack t) = flow2 t.
Proof.
  unfold ensure_ta, tcp_analyze_get_acked_struct.
  destruct (ta t); [split; reflexivity|].
  cbv zeta. destruct (acked_table t !! _); split; reflexivity.
Qed.

Lemma set_flag_flows pinfo seq ack F t :
  flow1 (set_flag pinfo seq ack F t) = flow1 t
  /\ flow2 (set_flag pinfo seq ack F t) = flow2 t.
Proof.
  unfold set_flag.
  destruct (ta_modify_flows (fun a => ta_with_flags (Z.lor (ta_flags a) F) a)
              (ensure_ta pinfo seq ack t)) as [-> ->].
  apply ensure_ta_flows.
Qed.

Lemma nextseq_step_refl f : nextseq_step f f.
Proof. left. reflexivity. Qed.

(** one call of the analysis, flow by flow *)
Lemma analyze_nextseq_flows pinfo seq ack seglen flags window t :
  let t' := analyze tcp_track_bytes_in_flight TCP_MAX_UNACKED_SEGMENTS
                    pinfo seq ack seglen flags window t in
  nextseq_step (flow1 t) (flow1 t') /\ nextseq_step (flow2 t) (flow2 t').
Proof.
  intros t'.
  destruct (analyze_nextseq_step tcp_track_bytes_in_flight TCP_MAX_UNACKED_SEGMENTS
              pinfo seq ack seglen flags window t) as (A & B & O).
  fold t' in A, B, O. unfold fwd, rev in A, B. rewrite O in A, B.
  destruct (fwd_is_flow1 t); split; try exact A; left; exact B.
Qed.

Lemma analyze_base_seq_flows pinfo seq ack seglen flags window t :
  let t' := analyze tcp_track_bytes_in_flight TCP_MAX_UNACKED_SEGMENTS
                    pinfo seq ack seglen flags window t in
  (tst (static_flags (flow1 t)) TCP_S_BASE_SEQ_SET = true ->
   base_seq (flow1 t') = base_seq (flow1 t)
   /\ tst (static_flags (flow1 t')) TCP_S_BASE_SEQ_SET = true)
  /\ (tst (static_flags (flow2 t)) TCP_S_BASE_SEQ_SET = true ->
      base_seq (flow2 t') = base_seq (flow2 t)
      /\ tst (static_flags (flow2 t')) TCP_S_BASE_SEQ_SET = true).
Proof.
  intros t'.
  destruct (analyze_base_seq tcp_track_bytes_in_flight TCP_MAX_UNACKED_SEGMENTS
              pinfo seq ack seglen flags window t) as (A & B & _).
  destruct (analyze_nextseq_step tcp_track_bytes_in_flight TCP_MAX_UNACKED_SEGMENTS
              pinfo seq ack seglen flags window t) as (_ & _ & O).
  fold t' in A, B, O. unfold fwd, rev in A, B. rewrite O in A, B.
  destruct (fwd_is_flow1 t); split; assumption.
Qed.

(** the port-reuse tests leave the flows alone unless they exchange the
    record *)
Lemma reused_ports_syn_flows pinfo direction stream_count th_flags th_seq th_ack t t' :
  reused_ports_syn pinfo direction stream_count th_flags th_seq th_ack t = (t', false) ->
  flow1 t' = flow1 t /\ flow2 t' = flow2 t.
Proof.
  unfold reused_ports_syn.
  destruct ((Z.land th_flags (Z.lor TH_SYN TH_ACK) =? TH_SYN)
            && tst (static_flags (fwd t)) TCP_S_BASE_SEQ_SET
            && negb (th_seq =? base_seq (fwd t))).
  - destruct (negb (visited pinfo)); intros [= <-]. apply set_flag_flows.
  - intros [= <-]. split; reflexivity.
Qed.

Lemma reused_ports_synack_flows pinfo direction other_conv th_flags th_seq th_ack t t' :
  reused_ports_synack pinfo direction other_conv th_flags th_seq th_ack t = (t', false) ->
  flow1 t' = flow1 t /\ flow2 t' = flow2 t.
Proof.
  unfold reused_ports_synack.
  destruct ((Z.land th_flags (Z.lor TH_SYN TH_ACK) =? Z.lor TH_SYN TH_ACK)
            && tst (static_flags (fwd t)) TCP_S_BASE_SEQ_SET
            && negb (th_seq =? base_seq (fwd t))).
  - destruct other_conv; intros [= <-]. apply set_flag_flows.
  - intros [= <-]. split; reflexivity.
Qed.

Lemma dissect_tcp_analysis_nextseq stream_count other_conv g t t' :
  dissect_tcp_analysis tcp_track_bytes_in_flight TCP_MAX_UNACKED_SEGMENTS
                       stream_count other_conv g t = (t', false) ->
  nextseq_step (flow1 t) (flow1 t') /\ nextseq_step (flow2 t) (flow2 t').
Proof.
  unfold dissect_tcp_analysis. cbv zeta.
  destruct (reused_ports_syn (sg_pinfo g) (sg_direction g) stream_count
              (sg_flags g) (sg_seq g) (sg_ack g)
              (get_tcp_conversation_data (sg_direction g) t)) as [t1 fresh] eqn:E1.
  destruct (reused_ports_synack (sg_pinfo g) (sg_direction g) other_conv
              (sg_flags g) (sg_seq g) (sg_ack g) t1) as [t2 other] eqn:E2.
  intros [= <- O]. apply orb_false_iff in O. destruct O as [-> ->].
  destruct (reused_ports_syn_flows _ _ _ _ _ _ _ _ E1) as [A1 A2].
  destruct (reused_ports_synack_flows _ _ _ _ _ _ _ _ E2) as [B1 B2].
  cbn in A1, A2.
  assert (F1 : flow1 t2 = flow1 t) by congruence.
  assert (F2 : flow2 t2 = flow2 t) by congruence.
  rewrite <- F1, <- F2.
  destruct (visited (sg_pinfo g)).
  - split; apply nextseq_step_refl.
  - apply analyze_nextseq_flows.
Qed.

Lemma first_pass_head gs t :
  first_pass tcp_track_bytes_in_flight TCP_MAX_UNACKED_SEGMENTS gs t !! 0%nat = Some t.
Proof. destruct gs; reflexivity. Qed.

Lemma first_pass_nextseq gs : forall t i a b,
  first_pass tcp_track_bytes_in_flight TCP_MAX_UNACKED_SEGMENTS gs t !! i = Some a ->
  first_pass tcp_track_bytes_in_flight TCP_MAX_UNACKED_SEGMENTS gs t !! S i = Some b ->
  nextseq_step (flow1 a) (flow1 b) /\ nextseq_step (flow2 a) (flow2 b).
Proof.
  induction gs as [|g gs IH]; intros t i a b Ha Hb.
  - destruct i; discriminate.
  - cbn [first_pass] in Ha, Hb. destruct i as [|i].
    + cbn in Ha, Hb. injection Ha as <-. rewrite first_pass_head in Hb.
      injection Hb as <-. unfold analyze_segment.
      exact (analyze_nextseq_flows _ _ _ _ _ _
               (get_tcp_conversation_data (sg_direction g) t)).
    + cbn in Ha, Hb. exact (IH _ _ _ _ Ha Hb).
Qed.

(** Where [nextseq] cannot go back. A call of the first pass that does
    not exchange the connection record leaves the [nextseq] of each flow as
    it was, or assigns it while it was zero, or assigns it a value after
    it in sequence space; so does each call to the next in a run of the
    analysis over the segments of a conversation. A [nextseq] that is not
    zero is therefore followed by one that is equal or later in sequence
    space: the only way back is through the value zero, which line 2220
    reads as "nothing stored yet". Only a call in which a port-reuse test
    exchanges the record is left out. *)
Theorem nextseq_non_decreasing :
  (forall stream_count other_conv g t t',
     dissect_tcp_analysis tcp_track_bytes_in_flight TCP_MAX_UNACKED_SEGMENTS
                          stream_count other_conv g t = (t', false) ->
     (nextseq_step (flow1 t) (flow1 t') /\ nextseq_step (flow2 t) (flow2 t'))
     /\ (nextseq (tcp_analyze_seq_info (flow1 t)) <> 0 ->
         GE_SEQ (nextseq (tcp_analyze_seq_info (flow1 t')))
                (nextseq (tcp_analyze_seq_info (flow1 t))) = true)
     /\ (nextseq (tcp_analyze_seq_info (flow2 t)) <> 0 ->
         GE_SEQ (nextseq (tcp_analyze_seq_info (flow2 t')))
                (nextseq (tcp_analyze_seq_info (flow2 t))) = true))
  /\ (forall gs t i a b,
        first_pass tcp_track_bytes_in_flight TCP_MAX_UNACKED_SEGMENTS gs t !! i = Some a ->
        first_pass tcp_track_bytes_in_flight TCP_MAX_UNACKED_SEGMENTS gs t !! S i = Some b ->
        (nextseq (tcp_analyze_seq_info (flow1 a)) <> 0 ->
         GE_SEQ (nextseq (tcp_analyze_seq_info (flow1 b)))
                (nextseq (tcp_analyze_seq_info (flow1 a))) = true)
        /\ (nextseq (tcp_analyze_seq_info (flow2 a)) <> 0 ->
            GE_SEQ (nextseq (tcp_analyze_seq_info (flow2 b)))
                   (nextseq (tcp_analyze_seq_info (flow2 a))) = true)).
Proof.
  split.
  - intros stream_count other_conv g t t' E.
    destruct (dissect_tcp_analysis_nextseq _ _ _ _ _ E) as [A B].
    split; [split; assumption|]. split; apply nextseq_step_ge; assumption.
  - intros gs t i a b Ha Hb.
    destruct (first_pass_nextseq gs t i a b Ha Hb) as [A B].
    split; apply nextseq_step_ge; assumption.
Qed.

(** a base sequence number that is set stays *)
Definition set_once (f f' : tcp_flow_t) : Prop :=
  tst (static_flags f) TCP_S_BASE_SEQ_SET = true ->
  base_seq f' = base_seq f /\ tst (static_flags f') TCP_S_BASE_SEQ_SET = true.

Lemma set_once_trans f1 f2 f3 : set_once f1 f2 -> set_once f2 f3 -> set_once f1 f3.
Proof.
  unfold set_once. intros A B H. destruct (A H) as [E1 S1]. destruct (B S1) as [E2 S2].
  split; congruence.
Qed.

Lemma first_pass_base_seq gs : forall t i a,
  first_pass tcp_track_bytes_in_flight TCP_MAX_UNACKED_SEGMENTS gs t !! i = Some a ->
  set_once (flow1 t) (flow1 a) /\ set_once (flow2 t) (flow2 a).
Proof.
  induction gs as [|g gs IH]; intros t i a Ha.
  - destruct i; [|discriminate]. cbn in Ha. injection Ha as <-.
    split; intros H; auto.
  - cbn [first_pass] in Ha. destruct i as [|i].
    + cbn in Ha. injection Ha as <-. split; intros H; auto.
    + cbn in Ha. destruct (IH _ _ _ Ha) as [A B].
      destruct (analyze_base_seq_flows (sg_pinfo g) (sg_seq g) (sg_ack g) (sg_seglen g)
                  (sg_flags g) (sg_window g)
                  (get_tcp_conversation_data (sg_direction g) t)) as [A0 B0].
      split; eapply set_once_trans; try eassumption.
Qed.

End FirstPassProps.

(** ** A conversation: the handshake and a segment sent three times *)

Module Scenario.

Import Seq Conv.

(** frame [frame], [ms] milliseconds into the capture *)
Definition frame_at (frame ms : Z) : packet_info :=
  PInfo frame (NsTime 100 (ms * 1000000)) false.

(** client to server is the direction of [flow1] *)
Definition to_server : Z := 1.
Definition to_client : Z := -1.

Definition syn : segment :=
  Segment (frame_at 1 0) to_server 100 0 0 TH_SYN 65535.
Definition syn_ack : segment :=
  Segment (frame_at 2 1) to_client 500 101 0 (Z.lor TH_SYN TH_ACK) 65535.
Definition handshake_ack : segment :=
  Segment (frame_at 3 2) to_server 101 501 0 TH_ACK 65535.

(** seq=101, len=50, ack=501, the window as before *)
Definition data (frame ms : Z) : segment :=
  Segment (frame_at frame ms) to_server 101 501 50 TH_ACK 65535.

(** bytes in flight tracked, room for 10000 unacked segments *)
Definition run (gs : list segment) : list tcp_analysis :=
  first_pass true 10000 gs (init_tcp_conversation_data 0).

Definition after (gs : list segment) : tcp_analysis :=
  default (init_tcp_conversation_data 0) (last (run gs)).

(** the result of the analysis for a segment, zeroed if it has none *)
Definition result_of (g : segment) (t : tcp_analysis) : tcp_acked :=
  cur (sg_pinfo g) (sg_seq g) (sg_ack g) t.

Definition handshake : list segment := [syn; syn_ack; handshake_ack].

End Scenario.

(** C6. A base sequence number that is set stays: over a run of the
    analysis, a flow that has the flag TCP_S_BASE_SEQ_SET keeps it and its
    [base_seq]. The call that finds the forward flow without the flag sets
    its [base_seq] to seq for a SYN and to seq - 1 otherwise; the call
    with an ACK that finds the reverse flow without the flag sets that
    flow's [base_seq] to ack - 1, and a call without ACK leaves it unset.
    The handshake SYN(seq=100), SYN/ACK(seq=500, ack=101), ACK(seq=101,
    ack=501) ends with the bases 100 and 500 and with no flag in the result
    of any packet. *)
Theorem base_seq_set_once :
  (forall track bound gs t i a,
     Conv.first_pass track bound gs t !! i = Some a ->
     (tst (static_flags (flow1 t)) TCP_S_BASE_SEQ_SET = true ->
      base_seq (flow1 a) = base_seq (flow1 t)
      /\ tst (static_flags (flow1 a)) TCP_S_BASE_SEQ_SET = true)
     /\ (tst (static_flags (flow2 t)) TCP_S_BASE_SEQ_SET = true ->
         base_seq (flow2 a) = base_seq (flow2 t)
         /\ tst (static_flags (flow2 a)) TCP_S_BASE_SEQ_SET = true))
  /\ (forall track bound pinfo seq ack seglen flags window t,
        let t' := Seq.analyze track bound pinfo seq ack seglen flags window t in
        (tst (static_flags (Seq.fwd t)) TCP_S_BASE_SEQ_SET = false ->
         base_seq (Seq.fwd t') = (if tst flags TH_SYN then seq else u32 (seq - 1))
         /\ tst (static_flags (Seq.fwd t')) TCP_S_BASE_SEQ_SET = true)
        /\ (tst (static_flags (Seq.rev t)) TCP_S_BASE_SEQ_SET = false ->
            tst flags TH_ACK = true ->
            base_seq (Seq.rev t') = u32 (ack - 1)
            /\ tst (static_flags (Seq.rev t')) TCP_S_BASE_SEQ_SET = true)
        /\ (tst (static_flags (Seq.rev t)) TCP_S_BASE_SEQ_SET = false ->
            tst flags TH_ACK = false ->
            base_seq (Seq.rev t') = base_seq (Seq.rev t)
            /\ tst (static_flags (Seq.rev t')) TCP_S_BASE_SEQ_SET = false))
  /\ (map (fun t => (base_seq (flow1 t), base_seq (flow2 t)))
          (Scenario.run Scenario.handshake)
      = [(0, 0); (100, 0); (100, 500); (100, 500)]
      /\ map_Forall (fun _ a => ta_flags a = 0)
                    (acked_table (Scenario.after Scenario.handshake))
      /\ ta_flags (Scenario.result_of Scenario.syn
                     (Scenario.after Scenario.handshake)) = 0
      /\ ta_flags (Scenario.result_of Scenario.syn_ack
                     (Scenario.after Scenario.handshake)) = 0
      /\ ta_flags (Scenario.result_of Scenario.handshake_ack
                     (Scenario.after Scenario.handshake)) = 0).
Proof.
  split; [|split].
  - intros track bound gs t i a H.
    exact (first_pass_base_seq track bound gs t i a H).
  - intros track bound pinfo seq ack seglen flags window t t'.
    destruct (analyze_base_seq track bound pinfo seq ack seglen flags window t)
      as (_ & _ & A & B & C).
    auto.
  - split; [vm_compute; reflexivity|].
    split; [|repeat apply conj; vm_compute; reflexivity].
    apply map_Forall_to_list. vm_compute. repeat constructor.
Qed.

(** ** The analysis on the conversation *)

Section ScenarioExamples.

Import Seq Conv Scenario.

(** the record as [dissect_tcp] hands it over for a segment to the server *)
Definition established : tcp_analysis :=
  get_tcp_conversation_data to_server (after (handshake ++ [data 4 3])).

(** the first data segment took [nextseq] of the client's flow to 151 *)
Example data_advances_nextseq :
  nextseq (tcp_analyze_seq_info (fwd established)) = 151
  /\ maxseqtobeacked (tcp_analyze_seq_info (fwd established)) = 151.
Proof. split; vm_compute; reflexivity. Qed.

Lemma retransmission_family_first_match_witness :
  packet_ready (frame_at 5 4) 101 501 established
  /\ Z.land (ta_flags (cur (frame_at 5 4) 101 501
                           (analyze true 10000 (frame_at 5 4) 101 501 50 TH_ACK 65535
                                    established)))
            TCP_A_FAMILY
     = TCP_A_RETRANSMISSION.
Proof.
  assert (H : packet_ready (frame_at 5 4) 101 501 established) by (vm_compute; reflexivity).
  split; [exact H|].
  destruct (retransmission_family_first_match true 10000 (frame_at 5 4) 101 501 50 TH_ACK
              65535 established H) as (E & _).
  rewrite E. vm_compute. reflexivity.
Defined.


Lemma duplicate_ack_counting_witness :
  packet_ready (frame_at 5 4) 101 501 established
  /\ 50 <> 0
  /\ dupack_num (cur (frame_at 5 4) 101 501
                     (analyze true 10000 (frame_at 5 4) 101 501 50 TH_ACK 65535
                              established)) = 0.
Proof.
  assert (H : packet_ready (frame_at 5 4) 101 501 established) by (vm_compute; reflexivity).
  assert (N : 50 <> 0) by lia.
  split; [exact H|]. split; [exact N|].
  destruct (duplicate_ack_counting true 10000 (frame_at 5 4) 101 501 50 TH_ACK
              65535 established H) as (_ & _ & E & _ & D).
  rewrite E, (D N). vm_compute. reflexivity.
Defined.

(** the first data segment has its 50 bytes in flight; the pure ACK after it
    has none, while that segment is still unacked *)
Lemma bytes_in_flight_attached_witness :
  packet_ready (frame_at 4 3) 101 501
               (get_tcp_conversation_data to_server (after handshake))
  /\ bytes_in_flight
       (cur (frame_at 4 3) 101 501
            (analyze true 10000 (frame_at 4 3) 101 501 50 TH_ACK 65535
                     (get_tcp_conversation_data to_server (after handshake)))) = 50
  /\ packet_ready (frame_at 5 4) 151 501 established
  /\ ta established = None
  /\ segments (tcp_analyze_seq_info
                 (fwd (analyze true 10000 (frame_at 5 4) 151 501 0 TH_ACK 65535
                               established))) <> []
  /\ bytes_in_flight
       (cur (frame_at 5 4) 151 501
            (analyze true 10000 (frame_at 5 4) 151 501 0 TH_ACK 65535 established)) = 0.
Proof.
  assert (H : packet_ready (frame_at 4 3) 101 501
                (get_tcp_conversation_data to_server (after handshake)))
    by (vm_compute; reflexivity).
  assert (H' : packet_ready (frame_at 5 4) 151 501 established)
    by (vm_compute; reflexivity).
  assert (N : ta established = None) by reflexivity.
  split; [exact H|]. split; [|split; [exact H'|split; [exact N|split]]].
  - destruct (bytes_in_flight_attached true 10000 (frame_at 4 3) 101 501 50 TH_ACK
                65535 (get_tcp_conversation_data to_server (after handshake)) H)
      as (E & _).
    rewrite E. vm_compute. reflexivity.
  - vm_compute. discriminate.
  - destruct (bytes_in_flight_attached true 10000 (frame_at 5 4) 151 501 0 TH_ACK
                65535 established H') as (_ & _ & E).
    exact (E eq_refl N).
Defined.

Lemma nextseq_non_decreasing_witness :
  dissect_tcp_analysis true 10000 1 None (data 4 3) (after handshake)
  = (after (handshake ++ [data 4 3]), false)
  /\ nextseq (tcp_analyze_seq_info (flow1 (after handshake))) <> 0
  /\ GE_SEQ (nextseq (tcp_analyze_seq_info (flow1 (after (handshake ++ [data 4 3])))))
            (nextseq (tcp_analyze_seq_info (flow1 (after handshake)))) = true.
Proof.
  assert (H : dissect_tcp_analysis true 10000 1 None (data 4 3) (after handshake)
              = (after (handshake ++ [data 4 3]), false)) by (vm_compute; reflexivity).
  assert (N : nextseq (tcp_analyze_seq_info (flow1 (after handshake))) <> 0)
    by (vm_compute; discriminate).
  split; [exact H|]. split; [exact N|].
  destruct (nextseq_non_decreasing true 10000) as [A _].
  destruct (A 1 None (data 4 3) (after handshake) (after (handshake ++ [data 4 3])) H)
    as (_ & G & _).
  exact (G N).
Defined.

Lemma base_seq_set_once_witness :
  first_pass true 10000 [syn_ack; handshake_ack] (after [syn]) !! 2%nat
  = Some (after handshake)
  /\ tst (static_flags (flow1 (after [syn]))) TCP_S_BASE_SEQ_SET = true
  /\ base_seq (flow1 (after handshake)) = base_seq (flow1 (after [syn])).
Proof.
  assert (H : first_pass true 10000 [syn_ack; handshake_ack] (after [syn]) !! 2%nat
              = Some (after handshake)) by (vm_compute; reflexivity).
  assert (S : tst (static_flags (flow1 (after [syn]))) TCP_S_BASE_SEQ_SET = true)
    by (vm_compute; reflexivity).
  split; [exact H|]. split; [exact S|].
  destruct base_seq_set_once as (A & _).
  destruct (A true 10000 [syn_ack; handshake_ack] (after [syn]) 2%nat (after handshake) H)
    as (B & _).
  exact (proj1 (B S)).
Defined.

(** *** Where the code and the specification part *)

(** the out-of-order threshold as max(3 ms, initial RTT) *)
Definition ooo_thres_max (first_rtt : nstime_t) : Z :=
  Z.max 3000000 (nsecs first_rtt + secs first_rtt * 1000000000).

(** the connection with the first RTT of the handshake: 2 ms from the SYN
    to the ACK *)
Definition established_rtt : tcp_analysis :=
  Analysis (flow1 established) (flow2 established) (fwd_is_flow1 established)
           (ta established) (acked_table established) (NsTime 0 2000000)
           (stream established).

(** C1, the case that tells the thresholds apart. With a first RTT of 2 ms,
    20 bytes of the segment that went out 2 ms ago come again: seq is
    behind [nextseq] and seq + length is not [nextseq]. 2 ms is below
    max(3 ms, RTT), which makes the segment out of order; it is not below
    the RTT the code compares with, and the segment is flagged as a
    retransmission. *)
Lemma retransmission_within_3ms :
  packet_ready (frame_at 5 5) 101 501 established_rtt
  /\ time_since (abs_ts (frame_at 5 5))
                (nextseqtime (tcp_analyze_seq_info (fwd established_rtt))) = 2000000
  /\ family_chain (frame_at 5 5) 101 20 (ooo_thres_max (ts_first_rtt established_rtt))
                  (fwd established_rtt) (rev established_rtt) = OutOfOrder
  /\ family_chain (frame_at 5 5) 101 20 (ooo_thres (ts_first_rtt established_rtt))
                  (fwd established_rtt) (rev established_rtt) = PlainRetrans
  /\ ta_flags (cur (frame_at 5 5) 101 501
                   (analyze true 10000 (frame_at 5 5) 101 501 20 TH_ACK 65535
                            established_rtt))
     = TCP_A_RETRANSMISSION.
Proof. repeat apply conj; vm_compute; reflexivity. Qed.



(** C8, the scenario. The segment seq=101, len=50, ack=501 comes three
    times, in the frames 4, 5 and 6. It has data, so the test for a
    duplicate ACK fails; seq is behind [nextseq], so the frames 5 and 6 are
    flagged as retransmissions. No duplicate ACK is counted. *)
Lemma repeated_segment_is_retransmission :
  let t := after (handshake ++ [data 4 3; data 5 4; data 6 5]) in
  nextseq (tcp_analyze_seq_info (flow1 (after (handshake ++ [data 4 3])))) = 151
  /\ ta_flags (result_of (data 6 5) t) = TCP_A_RETRANSMISSION
  /\ tst (ta_flags (result_of (data 6 5) t)) TCP_A_DUPLICATE_ACK = false
  /\ dupack_num (result_of (data 6 5) t) = 0
  /\ dupack_frame (result_of (data 6 5) t) = 0
  /\ ta_flags (result_of (data 5 4) t) = TCP_A_RETRANSMISSION
  /\ dupacknum (tcp_analyze_seq_info (flow1 t)) = 0.
Proof. repeat apply conj; vm_compute; reflexivity. Qed.

(** C3, the run on which the code breaks it. The flow starts at the end of
    the sequence space: the second segment ends at 2^32, which takes
    [nextseq] to 0, the value line 2220 reads as "nothing stored yet". The
    third segment, an older one, is then stored whatever it is, and
    [nextseq] goes back from 0 to 0xFFFFFF10, behind both values it had,
    against the comment of lines 2215-2217, "Store the highest number seen
    so far". No segment has SYN: no port-reuse test exchanges the
    record. *)
Definition wrapping : list segment :=
  [Segment (frame_at 1 0) to_server 0xFFFFFFE0 1 16 TH_ACK 65535;
   Segment (frame_at 2 1) to_server 0xFFFFFFF0 1 16 TH_ACK 65535;
   Segment (frame_at 3 2) to_server 0xFFFFFF00 1 16 TH_ACK 65535].

Lemma nextseq_goes_back :
  map (fun t => nextseq (tcp_analyze_seq_info (flow1 t))) (run wrapping)
  = [0; 0xFFFFFFF0; 0; 0xFFFFFF10]
  /\ GE_SEQ 0xFFFFFF10 0 = false
  /\ LT_SEQ 0xFFFFFF10 0xFFFFFFF0 = true
  /\ dissect_tcp_analysis true 10000 1 None
                          (Segment (frame_at 3 2) to_server 0xFFFFFF00 1 16 TH_ACK 65535)
                          (after (take 2 wrapping))
     = (after wrapping, false).
Proof. repeat apply conj; vm_compute; reflexivity. Qed.

End ScenarioExamples.


(** * The rest of the dissector *)

(** ** The TCP options *)

Section OptsProps.

Import Opts.

Variable tvb_get_guint8 : Z -> option Z.
Variable call_option_dissector : Z -> Z -> Z -> bool.
Variable opt_item : bool.
Variable eol : Z.

Lemma s32_small x : 0 <= x < 2^31 -> s32 x = x.
Proof.
  intros H. unfold s32. rewrite u32_id by lia. cbv zeta.
  destruct (Z.ltb_spec x (2^31)); [reflexivity | lia].
Qed.

Lemma u8_range x : 0 <= u8 x < 2^8.
Proof. unfold u8. apply Z.mod_pos_bound. lia. Qed.

(** the bytes an event stands for: where they start and how many they are *)
Definition span (ev : opt_event) : option (Z * Z) :=
  match ev with
  | EvEol o | EvNop o => Some (o, 1)
  | EvOption _ o l => Some (o, l)
  | _ => None
  end.

(** [tile_end pos evs] is where the bytes of [evs] end when they lie one
    after the other from [pos] on, without gap and without overlap *)
Fixpoint tile_end (pos : Z) (evs : list opt_event) : option Z :=
  match evs with
  | [] => Some pos
  | ev :: evs =>
      match span ev with
      | Some (o, l) => if (o =? pos) && (0 <? l) then tile_end (pos + l) evs else None
      | None => tile_end pos evs
      end
  end.

Lemma tile_end_app pos evs ev e :
  tile_end pos evs = Some e ->
  tile_end pos (evs ++ [ev])
  = match span ev with
    | Some (o, l) => if (o =? e) && (0 <? l) then Some (e + l) else None
    | None => Some e
    end.
Proof.
  revert pos. induction evs as [|a evs IH]; intros pos H; cbn in *.
  - injection H as <-. destruct (span ev) as [[o l]|]; [|reflexivity].
    destruct ((o =? pos) && (0 <? l)); reflexivity.
  - destruct (span a) as [[o l]|]; [|apply IH; exact H].
    destruct ((o =? pos) && (0 <? l)); [apply IH; exact H | discriminate].
Qed.

Lemma tile_end_app_none pos evs ev e :
  span ev = None -> tile_end pos evs = Some e -> tile_end pos (evs ++ [ev]) = Some e.
Proof. intros S H. rewrite (tile_end_app _ _ _ _ H), S. reflexivity. Qed.

Lemma tile_end_app_some pos evs ev e l :
  span ev = Some (e, l) -> 0 < l -> tile_end pos evs = Some e ->
  tile_end pos (evs ++ [ev]) = Some (e + l).
Proof.
  intros S L H. rewrite (tile_end_app _ _ _ _ H), S, Z.eqb_refl.
  destruct (Z.ltb_spec 0 l); [reflexivity | lia].
Qed.

Lemma options_loop_tiles start hi : forall fuel offset length nop_count evs,
  0 <= offset -> 0 <= length -> offset + length <= hi -> hi < 2^31 ->
  (Z.to_nat length <= fuel)%nat ->
  tile_end start evs = Some offset ->
  exists e evs' end_,
    options_loop tvb_get_guint8 call_option_dissector opt_item eol
                 fuel offset length nop_count evs = Some (e, evs')
    /\ tile_end start evs' = Some end_ /\ end_ <= hi.
Proof.
  induction fuel as [|fuel IH]; intros offset length nop_count evs Ho Hl Hb Hh Hf Ht.
  - assert (length = 0) by lia. subst length. cbn. exists OptReturned, evs, offset.
    repeat split; [exact Ht | lia].
  - cbn [options_loop].
    destruct (Z.eqb_spec length 0) as [E|E].
    { exists OptReturned, evs, offset. repeat split; [exact Ht | lia]. }
    destruct (tvb_get_guint8 offset) as [b|].
    2: { exists OptRaised, evs, offset. repeat split; [exact Ht | lia]. }
    rewrite (u32_id (length - 1)) by lia.
    destruct ((u8 b =? TCPOPT_EOL) || (u8 b =? TCPOPT_NOP)) eqn:K.
    + rewrite (s32_small (offset + 1)) by lia.
      set (ev := if u8 b =? TCPOPT_EOL then EvEol offset else EvNop offset).
      assert (Sp : span ev = Some (offset, 1)) by (unfold ev; destruct (u8 b =? TCPOPT_EOL); reflexivity).
      assert (step : forall n evs0, tile_end start evs0 = Some offset ->
                exists e evs' end_,
                  (if u8 b =? eol then Some (OptReturned, evs0 ++ [ev])
                   else options_loop tvb_get_guint8 call_option_dissector opt_item eol
                          fuel (offset + 1) (length - 1) n (evs0 ++ [ev])) = Some (e, evs')
                  /\ tile_end start evs' = Some end_ /\ end_ <= hi).
      { intros n evs0 T0.
        pose proof (tile_end_app_some start evs0 ev offset 1 Sp ltac:(lia) T0) as T1.
        destruct (u8 b =? eol).
        - exists OptReturned, (evs0 ++ [ev]), (offset + 1). repeat split; [exact T1 | lia].
        - apply IH; try lia. exact T1. }
      destruct (u8 b =? TCPOPT_EOL); [apply step; exact Ht|].
      destruct (opt_item && ((nop_count =? 0) || negb (Z.rem offset 4 =? 0)));
        [|apply step; exact Ht].
      destruct (u32 (nop_count + 1) =? 4); [|apply step; exact Ht].
      apply step. apply tile_end_app_none; [reflexivity | exact Ht].
    + destruct (Z.eqb_spec (length - 1) 0) as [E1|E1].
      { eexists OptReturned, _, offset. repeat split; [|lia].
        apply tile_end_app_none; [reflexivity | exact Ht]. }
      destruct (tvb_get_guint8 (s32 (offset + 1))) as [l|].
      2: { exists OptRaised, evs, offset. repeat split; [exact Ht | lia]. }
      rewrite (u32_id (length - 1 - 1)) by lia.
      destruct (Z.ltb_spec (u8 l) 2) as [L2|L2].
      { eexists OptReturned, _, offset. repeat split; [|lia].
        apply tile_end_app_none; [reflexivity | exact Ht]. }
      pose proof (u8_range l) as Rl.
      rewrite (u32_id (u8 l - 2)) by lia.
      destruct (Z.ltb_spec (length - 1 - 1) (u8 l - 2)) as [L3|L3].
      { eexists OptReturned, _, offset. repeat split; [|lia].
        apply tile_end_app_none; [reflexivity | exact Ht]. }
      pose proof (tile_end_app_some start evs (EvOption (u8 b) offset (u8 l)) offset (u8 l)
                    eq_refl ltac:(lia) Ht) as T1.
      destruct (call_option_dissector (u8 b) offset (u8 l)).
      2: { eexists OptRaised, _, (offset + u8 l). repeat split; [exact T1 | lia]. }
      rewrite (s32_small (offset + u8 l)) by lia.
      rewrite (u32_id (length - 1 - 1 - (u8 l - 2))) by lia.
      destruct (u8 b =? eol).
      { eexists OptReturned, _, (offset + u8 l). repeat split; [exact T1 | lia]. }
      apply IH; try lia. exact T1.
Qed.

(** an item or a call is what the bytes say: the kind is the byte at its
    offset, and the length of an option is the byte after it, 2 at least *)
Definition as_read (ev : opt_event) : Prop :=
  match ev with
  | EvEol o => exists b, tvb_get_guint8 o = Some b /\ u8 b = TCPOPT_EOL
  | EvNop o => exists b, tvb_get_guint8 o = Some b /\ u8 b = TCPOPT_NOP
  | EvOption k o l =>
      2 <= l
      /\ (exists b, tvb_get_guint8 o = Some b /\ u8 b = k)
      /\ (exists lb, tvb_get_guint8 (o + 1) = Some lb /\ u8 lb = l)
  | _ => True
  end.

Lemma as_read_snoc evs ev : Forall as_read evs -> as_read ev -> Forall as_read (evs ++ [ev]).
Proof. intros A B. apply Forall_app. split; [exact A | constructor; [exact B | constructor]]. Qed.

Lemma options_loop_as_read hi : forall fuel offset length nop_count evs e evs',
  0 <= offset -> 0 <= length -> offset + length <= hi -> hi < 2^31 ->
  options_loop tvb_get_guint8 call_option_dissector opt_item eol
               fuel offset length nop_count evs = Some (e, evs') ->
  Forall as_read evs -> Forall as_read evs'.
Proof.
  induction fuel as [|fuel IH]; intros offset length nop_count evs e evs' Ho Hl Hb Hh E A.
  - cbn in E. destruct (length =? 0); [|discriminate E]. injection E as <- <-. exact A.
  - cbn [options_loop] in E.
    destruct (Z.eqb_spec length 0) as [L0|L0]; [injection E as <- <-; exact A|].
    destruct (tvb_get_guint8 offset) as [b|] eqn:Gb; [|injection E as <- <-; exact A].
    rewrite (u32_id (length - 1)) in E by lia.
    destruct ((u8 b =? TCPOPT_EOL) || (u8 b =? TCPOPT_NOP)) eqn:K.
    + rewrite (s32_small (offset + 1)) in E by lia.
      set (ev := if u8 b =? TCPOPT_EOL then EvEol offset else EvNop offset) in E.
      assert (Aev : as_read ev).
      { unfold ev. destruct (Z.eqb_spec (u8 b) TCPOPT_EOL) as [E0|E0].
        - exists b. split; [exact Gb | exact E0].
        - cbn [orb] in K. apply Z.eqb_eq in K. exists b. split; [exact Gb | exact K]. }
      assert (step : forall n evs0,
                (if u8 b =? eol then Some (OptReturned, evs0 ++ [ev])
                 else options_loop tvb_get_guint8 call_option_dissector opt_item eol
                        fuel (offset + 1) (length - 1) n (evs0 ++ [ev])) = Some (e, evs') ->
                Forall as_read evs0 -> Forall as_read evs').
      { intros n evs0 E0 A0.
        pose proof (as_read_snoc evs0 ev A0 Aev) as A1.
        destruct (u8 b =? eol); [injection E0 as <- <-; exact A1|].
        apply (IH (offset + 1) (length - 1) n (evs0 ++ [ev]) e evs'); try lia;
          assumption. }
      destruct (u8 b =? TCPOPT_EOL); [apply (step _ _ E A)|].
      destruct (opt_item && ((nop_count =? 0) || negb (Z.rem offset 4 =? 0)));
        [|apply (step _ _ E A)].
      destruct (u32 (nop_count + 1) =? 4); [|apply (step _ _ E A)].
      apply (step _ _ E). apply as_read_snoc; [exact A | exact I].
    + destruct (Z.eqb_spec (length - 1) 0) as [E1|E1].
      { injection E as <- <-. apply as_read_snoc; [exact A | exact I]. }
      rewrite (s32_small (offset + 1)) in E by lia.
      destruct (tvb_get_guint8 (offset + 1)) as [l|] eqn:Gl;
        [|injection E as <- <-; exact A].
      rewrite (u32_id (length - 1 - 1)) in E by lia.
      destruct (Z.ltb_spec (u8 l) 2) as [L2|L2].
      { injection E as <- <-. apply as_read_snoc; [exact A | exact I]. }
      pose proof (u8_range l) as Rl.
      rewrite (u32_id (u8 l - 2)) in E by lia.
      destruct (Z.ltb_spec (length - 1 - 1) (u8 l - 2)) as [L3|L3].
      { injection E as <- <-. apply as_read_snoc; [exact A | exact I]. }
      assert (A1 : Forall as_read (evs ++ [EvOption (u8 b) offset (u8 l)])).
      { apply as_read_snoc; [exact A|]. cbn. split; [exact L2|].
        split; [exists b | exists l]; split; first [assumption | reflexivity]. }
      destruct (call_option_dissector (u8 b) offset (u8 l));
        [|injection E as <- <-; exact A1].
      rewrite (s32_small (offset + u8 l)) in E by lia.
      rewrite (u32_id (length - 1 - 1 - (u8 l - 2))) in E by lia.
      destruct (u8 b =? eol); [injection E as <- <-; exact A1|].
      apply (IH (offset + u8 l) (length - 1 - 1 - (u8 l - 2)) nop_count
                (evs ++ [EvOption (u8 b) offset (u8 l)]) e evs'); try lia; assumption.
Qed.

(** X1. Whatever the bytes and the option dissectors do, [tcp_dissect_options]
    comes to an end, and what it dissects lies inside the options: the EOL
    and NOP items and the options handed to their dissectors follow one
    another from [offset] on without gap and without overlap, each option
    with the length its length byte gives, and end no later than [offset +
    length]. Each item and each call is of the kind the byte at its offset
    gives; the length of an option is the byte after its kind. *)
Theorem tcp_dissect_options_in_bounds (offset length : Z) :
  0 <= offset -> offset + u32 length < 2^31 ->
  exists e evs end_,
    tcp_dissect_options tvb_get_guint8 call_option_dissector opt_item eol offset length
    = Some (e, evs)
    /\ tile_end offset evs = Some end_
    /\ end_ <= offset + u32 length
    /\ Forall as_read evs.
Proof.
  intros Ho Hb. unfold tcp_dissect_options.
  pose proof (u32_range length) as R.
  destruct (options_loop_tiles offset (offset + u32 length) (Z.to_nat (u32 length))
              offset (u32 length) 0 []) as (e & evs & end_ & E & T & B);
    try lia; [reflexivity|].
  exists e, evs, end_. split; [exact E|]. split; [exact T|]. split; [exact B|].
  apply (options_loop_as_read (offset + u32 length) (Z.to_nat (u32 length))
           offset (u32 length) 0 [] e evs); try lia; [exact E | constructor].
Qed.

(** *** Well-formed options come out as they went in *)

Inductive tcp_option : Type :=
  | Nop
  | Opt (kind : Z) (payload : list Z).

(** kind, length, payload; the length counts the two bytes before the
    payload *)
Definition encode_option (o : tcp_option) : list Z :=
  match o with
  | Nop => [TCPOPT_NOP]
  | Opt k p => k :: (2 + Z.of_nat (length p)) :: p
  end.

Definition encode_options (os : list tcp_option) : list Z :=
  flat_map encode_option os.

Definition well_formed (o : tcp_option) : Prop :=
  match o with
  | Nop => True
  | Opt k p => 2 <= k <= 255 /\ (length p <= 253)%nat
  end.

Fixpoint events_of (offset : Z) (os : list tcp_option) : list opt_event :=
  match os with
  | [] => []
  | Nop :: os => EvNop offset :: events_of (offset + 1) os
  | Opt k p :: os =>
      EvOption k offset (2 + Z.of_nat (length p))
      :: events_of (offset + (2 + Z.of_nat (length p))) os
  end.

(** the buffer holds the bytes [l] from [offset] on *)
Definition reads (offset : Z) (l : list Z) : Prop :=
  forall i x, l !! i = Some x -> tvb_get_guint8 (offset + Z.of_nat i) = Some x.

Lemma reads_cons offset x l :
  reads offset (x :: l) -> tvb_get_guint8 offset = Some x /\ reads (offset + 1) l.
Proof.
  intros H. split.
  - specialize (H 0%nat x eq_refl). rewrite Z.add_0_r in H. exact H.
  - intros i y Hi. specialize (H (S i) y Hi).
    replace (offset + 1 + Z.of_nat i) with (offset + Z.of_nat (S i)) by lia. exact H.
Qed.

Lemma reads_app offset l1 l2 :
  reads offset (l1 ++ l2) -> reads (offset + Z.of_nat (length l1)) l2.
Proof.
  intros H i y Hi. specialize (H (length l1 + i)%nat y).
  rewrite lookup_app_r in H by lia.
  replace (length l1 + i - length l1)%nat with i in H by lia.
  replace (offset + Z.of_nat (length l1) + Z.of_nat i)
    with (offset + Z.of_nat (length l1 + i)) by lia.
  apply H. exact Hi.
Qed.

(** the events but the note on NOPs in a row *)
Definition shown (evs : list opt_event) : list opt_event :=
  List.filter (fun ev => match ev with EvNopRow => false | _ => true end) evs.

Lemma shown_app evs1 evs2 : shown (evs1 ++ evs2) = shown evs1 ++ shown evs2.
Proof. unfold shown. apply List.filter_app. Qed.

(** what is left after the options: nothing, or an EOL and whatever
    follows it *)
Definition tail_events (offset : Z) (tail : list Z) : list opt_event :=
  match tail with
  | [] => []
  | _ :: _ => [EvEol offset]
  end.

Lemma options_loop_decodes (tail : list Z) :
  (tail = [] \/ exists rest, tail = TCPOPT_EOL :: rest) ->
  (forall k o l, call_option_dissector k o l = true) ->
  eol = TCPOPT_EOL ->
  forall os fuel offset nop_count evs,
    Forall well_formed os ->
    reads offset (encode_options os ++ tail) ->
    0 <= offset ->
    offset + Z.of_nat (length (encode_options os ++ tail)) < 2^31 ->
    (length (encode_options os ++ tail) <= fuel)%nat ->
    exists evs',
      options_loop tvb_get_guint8 call_option_dissector opt_item eol fuel offset
                   (Z.of_nat (length (encode_options os ++ tail))) nop_count evs
      = Some (OptReturned, evs')
      /\ shown evs'
         = shown evs ++ events_of offset os
           ++ tail_events (offset + Z.of_nat (length (encode_options os))) tail.
Proof.
  intros Htail Hcall Heol.
  induction os as [|o os IH]; intros fuel offset nop_count evs Hwf Hr Ho Hb Hf.
  - cbn [encode_options flat_map app events_of length] in *. rewrite Z.add_0_r.
    destruct Htail as [-> | [rest ->]].
    + destruct fuel; cbn; exists evs; rewrite app_nil_r; split; reflexivity.
    + destruct fuel as [|fuel]; [cbn in Hf; lia|].
      destruct (reads_cons _ _ _ Hr) as [R0 _].
      cbn [options_loop length]. rewrite R0.
      destruct (Z.eqb_spec (Z.of_nat (S (length rest))) 0); [lia|].
      change (u8 TCPOPT_EOL) with 0. change (0 =? TCPOPT_EOL) with true.
      cbn [orb]. rewrite Heol. change (0 =? TCPOPT_EOL) with true. cbv iota beta.
      eexists. split; [reflexivity|]. rewrite shown_app. reflexivity.
  - pose proof (Forall_inv Hwf) as Hw. pose proof (Forall_inv_tail Hwf) as Hws.
    destruct fuel as [|fuel]; [destruct o; cbn in Hf; lia|].
    destruct o as [|k p].
    + cbn [encode_options flat_map encode_option app length] in *.
      fold (encode_options os) in *.
      destruct (reads_cons _ _ _ Hr) as [R0 R1].
      cbn [options_loop]. rewrite R0.
      destruct (Z.eqb_spec (Z.of_nat (S (length (encode_options os ++ tail)))) 0); [lia|].
      change (u8 TCPOPT_NOP) with 1. change (1 =? TCPOPT_EOL) with false.
      change (1 =? TCPOPT_NOP) with true. cbn [orb]. rewrite Heol.
      change (1 =? TCPOPT_EOL) with false. cbv iota beta.
      rewrite (u32_id (Z.of_nat (S (length (encode_options os ++ tail))) - 1)) by lia.
      rewrite (s32_small (offset + 1)) by lia.
      replace (Z.of_nat (S (length (encode_options os ++ tail))) - 1)
        with (Z.of_nat (length (encode_options os ++ tail))) by lia.
      assert (step : forall cnt evs0, shown evs0 = shown evs ->
                exists evs',
                  options_loop tvb_get_guint8 call_option_dissector opt_item TCPOPT_EOL fuel
                    (offset + 1) (Z.of_nat (length (encode_options os ++ tail))) cnt
                    (evs0 ++ [EvNop offset]) = Some (OptReturned, evs')
                  /\ shown evs'
                     = shown evs ++ events_of offset (Nop :: os)
                       ++ tail_events
                            (offset + Z.of_nat (S (length (encode_options os)))) tail).
      { intros cnt evs0 E0. rewrite <- Heol.
        destruct (IH fuel (offset + 1) cnt (evs0 ++ [EvNop offset]) Hws R1) as (evs' & E & Sh);
          try lia.
        exists evs'. split; [exact E|]. rewrite Sh, shown_app, E0. cbn [events_of shown List.filter].
        rewrite <- app_assoc. cbn [app].
        replace (offset + 1 + Z.of_nat (length (encode_options os)))
          with (offset + Z.of_nat (S (length (encode_options os)))) by lia.
        reflexivity. }
      destruct (opt_item && ((nop_count =? 0) || negb (Z.rem offset 4 =? 0)));
        [|apply step; reflexivity].
      destruct (u32 (nop_count + 1) =? 4); [|apply step; reflexivity].
      apply step. rewrite shown_app. cbn. apply app_nil_r.
    + destruct Hw as [Hk Hp].
      cbn [encode_options flat_map encode_option app length] in *.
      fold (encode_options os) in *.
      rewrite <- !app_assoc in Hr. rewrite <- app_assoc in Hb, Hf.
      rewrite <- app_assoc.
      set (rest := encode_options os ++ tail) in *.
      cbn [app] in Hr.
      destruct (reads_cons _ _ _ Hr) as [R0 R1].
      destruct (reads_cons _ _ _ R1) as [R2 R3].
      pose proof (reads_app _ _ _ R3) as R4.
      rewrite !length_app in *.
      cbn [options_loop]. rewrite R0.
      destruct (Z.eqb_spec (Z.of_nat (S (S (length p + length rest)))) 0); [lia|].
      assert (Uk : u8 k = k) by (unfold u8; apply Z.mod_small; lia).
      rewrite Uk.
      destruct (Z.eqb_spec k TCPOPT_EOL) as [Ek|_]; [unfold TCPOPT_EOL in Ek; lia|].
      destruct (Z.eqb_spec k TCPOPT_NOP) as [Ek|_]; [unfold TCPOPT_NOP in Ek; lia|].
      cbn [orb].
      rewrite (u32_id (Z.of_nat (S (S (length p + length rest))) - 1)) by lia.
      destruct (Z.eqb_spec (Z.of_nat (S (S (length p + length rest))) - 1) 0); [lia|].
      rewrite (s32_small (offset + 1)) by lia. rewrite R2.
      assert (Ul : u8 (2 + Z.of_nat (length p)) = 2 + Z.of_nat (length p))
        by (unfold u8; apply Z.mod_small; lia).
      rewrite Ul.
      rewrite (u32_id (Z.of_nat (S (S (length p + length rest))) - 1 - 1)) by lia.
      destruct (Z.ltb_spec (2 + Z.of_nat (length p)) 2); [lia|].
      rewrite (u32_id (2 + Z.of_nat (length p) - 2)) by lia.
      destruct (Z.ltb_spec (Z.of_nat (S (S (length p + length rest))) - 1 - 1)
                           (2 + Z.of_nat (length p) - 2)); [lia|].
      rewrite Hcall. rewrite Heol.
      destruct (Z.eqb_spec k TCPOPT_EOL) as [Ek|_]; [unfold TCPOPT_EOL in Ek; lia|].
      rewrite (s32_small (offset + (2 + Z.of_nat (length p)))) by lia.
      rewrite (u32_id (Z.of_nat (S (S (length p + length rest))) - 1 - 1
                       - (2 + Z.of_nat (length p) - 2))) by lia.
      replace (Z.of_nat (S (S (length p + length rest))) - 1 - 1
               - (2 + Z.of_nat (length p) - 2))
        with (Z.of_nat (length rest)) by lia.
      replace (offset + 1 + 1 + Z.of_nat (length p))
        with (offset + (2 + Z.of_nat (length p))) in R4 by lia.
      rewrite <- Heol.
      destruct (IH fuel (offset + (2 + Z.of_nat (length p))) nop_count
                  (evs ++ [EvOption k offset (2 + Z.of_nat (length p))]) Hws R4)
        as (evs' & E & Sh); try lia.
      exists evs'. split; [exact E|]. rewrite Sh, shown_app. cbn [events_of shown List.filter].
      rewrite <- app_assoc. cbn [app].
      replace (offset + (2 + Z.of_nat (length p)) + Z.of_nat (length (encode_options os)))
        with (offset + Z.of_nat (S (S (length p + length (encode_options os))))) by lia.
      reflexivity.
Qed.

(** X2. Options that are well formed come out as they went in: when the
    buffer holds the encoding of a list of options (NOPs, and options of a
    kind from 2 to 255 with up to 253 bytes of payload), followed by nothing
    or by an EOL and any bytes, and no option dissector throws, then
    [tcp_dissect_options] returns having made one item per NOP and one
    call per option, in order, each at the offset and with the length of
    its encoding, then the EOL item if there is one, and nothing for the
    bytes after it. *)
Theorem tcp_dissect_options_decodes (os : list tcp_option) (tail : list Z) (offset : Z) :
  Forall well_formed os ->
  (tail = [] \/ exists rest, tail = TCPOPT_EOL :: rest) ->
  reads offset (encode_options os ++ tail) ->
  (forall k o l, call_option_dissector k o l = true) ->
  eol = TCPOPT_EOL ->
  0 <= offset ->
  offset + Z.of_nat (length (encode_options os ++ tail)) < 2^31 ->
  exists evs,
    tcp_dissect_options tvb_get_guint8 call_option_dissector opt_item eol offset
                        (Z.of_nat (length (encode_options os ++ tail)))
    = Some (OptReturned, evs)
    /\ shown evs
       = events_of offset os
         ++ tail_events (offset + Z.of_nat (length (encode_options os))) tail.
Proof.
  intros Hwf Htail Hr Hcall Heol Ho Hb. unfold tcp_dissect_options.
  rewrite (u32_id (Z.of_nat (length (encode_options os ++ tail)))) by lia.
  destruct (options_loop_decodes tail Htail Hcall Heol os
              (Z.to_nat (Z.of_nat (length (encode_options os ++ tail)))) offset 0 []
              Hwf Hr Ho Hb) as (evs & E & Sh); [lia|].
  exists evs. split; [exact E | exact Sh].
Qed.

End OptsProps.

Section OptsExamples.

Import Opts.

(** MSS 1460, a NOP, window scale 7, EOL and a byte that no longer
    belongs to the options, at offset 20 of the segment *)
Definition sample_options : list Z := [2; 4; 5; 180; 1; 3; 3; 7; 0; 99].

Definition sample_get (offset : Z) : option Z :=
  if offset <? 20 then None else sample_options !! Z.to_nat (offset - 20).

Lemma tcp_dissect_options_in_bounds_witness :
  0 <= 20
  /\ 20 + u32 10 < 2^31
  /\ exists e evs end_,
       tcp_dissect_options sample_get (fun _ _ _ => true) true TCPOPT_EOL 20 10
       = Some (e, evs)
       /\ tile_end 20 evs = Some end_
       /\ end_ <= 20 + u32 10
       /\ Forall (as_read sample_get) evs.
Proof.
  assert (H1 : 0 <= 20) by lia.
  assert (H2 : 20 + u32 10 < 2^31) by (vm_compute; reflexivity).
  split; [exact H1|]. split; [exact H2|].
  exact (tcp_dissect_options_in_bounds sample_get (fun _ _ _ => true) true TCPOPT_EOL
           20 10 H1 H2).
Defined.

Lemma sample_reads :
  reads sample_get 20 (encode_options [Opt 2 [5; 180]; Nop; Opt 3 [7]] ++ [0; 99]).
Proof.
  intros i x H.
  do 10 (destruct i as [|i]; [injection H as <-; reflexivity|]).
  discriminate.
Qed.

Lemma tcp_dissect_options_decodes_witness :
  Forall well_formed [Opt 2 [5; 180]; Nop; Opt 3 [7]]
  /\ exists evs,
       tcp_dissect_options sample_get (fun _ _ _ => true) true TCPOPT_EOL 20
         (Z.of_nat (length (encode_options [Opt 2 [5; 180]; Nop; Opt 3 [7]] ++ [0; 99])))
       = Some (OptReturned, evs)
       /\ shown evs = [EvOption 2 20 4; EvNop 24; EvOption 3 25 3; EvEol 28].
Proof.
  assert (W : Forall well_formed [Opt 2 [5; 180]; Nop; Opt 3 [7]])
    by (repeat constructor; cbn; lia).
  split; [exact W|].
  exact (tcp_dissect_options_decodes sample_get (fun _ _ _ => true) true TCPOPT_EOL
           [Opt 2 [5; 180]; Nop; Opt 3 [7]] [0; 99] 20 W
           (or_intror (ex_intro _ [99] eq_refl)) sample_reads (fun _ _ _ => eq_refl)
           eq_refl ltac:(lia) ltac:(vm_compute; reflexivity)).
Defined.

End OptsExamples.

(** ** The TCP information of an exported PDU *)

Section ExpPduProps.

Import ExpPdu.

Variable EXP_PDU_TAG_TCP_INFO_DATA : Z.

Lemma byte_of_word x k :
  0 <= k ->
  Z.shiftr (Z.land x (Z.shiftl 255 k)) k = (x / 2 ^ k) mod 256.
Proof.
  intros Hk. rewrite Z.shiftr_land, Z.shiftr_shiftl_l by lia.
  rewrite Z.sub_diag, Z.shiftl_0_r.
  change 255 with (Z.ones 8). rewrite Z.land_ones by lia.
  rewrite Z.shiftr_div_pow2 by lia. reflexivity.
Qed.

Lemma low_byte x : Z.land x 255 = x mod 256.
Proof. change 255 with (Z.ones 8). rewrite Z.land_ones by lia. reflexivity. Qed.

Lemma word32_bytes x :
  0 <= x < 2^32 ->
  Mptcp.be_word [u8 (Z.shiftr (Z.land x 0xff000000) 24);
                 u8 (Z.shiftr (Z.land x 0x00ff0000) 16);
                 u8 (Z.shiftr (Z.land x 0x0000ff00) 8);
                 u8 (Z.land x 0x000000ff)] = x.
Proof.
  intros H.
  change 0xff000000 with (Z.shiftl 255 24). change 0x00ff0000 with (Z.shiftl 255 16).
  change 0x0000ff00 with (Z.shiftl 255 8).
  rewrite !byte_of_word by lia. rewrite low_byte.
  unfold u8. change (2 ^ 8) with 256. rewrite !Z.mod_mod by lia.
  unfold Mptcp.be_word. cbn [fold_left].
  change (2 ^ 24) with (256 * 256 * 256). change (2 ^ 16) with (256 * 256).
  change (2 ^ 8) with 256.
  rewrite <- !Z.div_div by lia.
  pose proof (Z.div_mod x 256 ltac:(lia)).
  pose proof (Z.div_mod (x / 256) 256 ltac:(lia)).
  pose proof (Z.div_mod (x / 256 / 256) 256 ltac:(lia)).
  assert (x / 256 / 256 / 256 < 256).
  { rewrite !Z.div_div by lia. apply Z.div_lt_upper_bound; lia. }
  assert (0 <= x / 256 / 256 / 256) by (repeat apply Z.div_pos; lia).
  rewrite (Z.mod_small (x / 256 / 256 / 256)) by lia.
  lia.
Qed.

Lemma word16_bytes x :
  0 <= x < 2^16 ->
  Mptcp.be_word [u8 (Z.shiftr (Z.land x 0xff00) 8); u8 (Z.land x 0x00ff)] = x.
Proof.
  intros H.
  change 0xff00 with (Z.shiftl 255 8).
  rewrite !byte_of_word by lia. rewrite low_byte.
  unfold u8. change (2 ^ 8) with 256. rewrite !Z.mod_mod by lia.
  unfold Mptcp.be_word. cbn [fold_left].
  pose proof (Z.div_mod x 256 ltac:(lia)).
  assert (x / 256 < 256) by (apply Z.div_lt_upper_bound; lia).
  assert (0 <= x / 256) by (apply Z.div_pos; lia).
  rewrite (Z.mod_small (x / 256)) by lia.
  lia.
Qed.

(** X3. On a buffer of at least 23 bytes
    [exp_pdu_tcp_dissector_data_populate_data] writes the first 23 bytes
    and nothing else, and returns 23, the size
    [exp_pdu_tcp_dissector_data_size] announces; the length field of the TLV
    is that size less the 4 bytes of tag and length. Read back big-endian,
    the bytes give the sequence number, the next sequence number, the last
    ACK, the flags and the urgent pointer the call was given. *)
Theorem exp_pdu_tcp_info_round_trip (d : tcpinfo) (buf : list Z) :
  (23 <= length buf)%nat ->
  0 <= ti_seq d < 2^32 -> 0 <= ti_nxtseq d < 2^32 -> 0 <= ti_lastackseq d < 2^32 ->
  0 <= ti_flags d < 2^16 -> 0 <= ti_urgent_pointer d < 2^16 ->
  let out := exp_pdu_tcp_dissector_data_populate_data EXP_PDU_TAG_TCP_INFO_DATA d buf in
  snd out = 23
  /\ snd out = exp_pdu_tcp_dissector_data_size
  /\ length (fst out) = length buf
  /\ drop 23 (fst out) = drop 23 buf
  /\ field 0 2 (fst out) = u8 EXP_PDU_TAG_TCP_INFO_DATA
  /\ field 2 2 (fst out) = snd out - 4
  /\ field 4 2 (fst out) = EXP_PDU_TCP_INFO_VERSION
  /\ field 6 4 (fst out) = ti_seq d
  /\ field 10 4 (fst out) = ti_nxtseq d
  /\ field 14 4 (fst out) = ti_lastackseq d
  /\ field 18 1 (fst out) = u8 (ti_is_reassembled d)
  /\ field 19 2 (fst out) = ti_flags d
  /\ field 21 2 (fst out) = ti_urgent_pointer d.
Proof.
  intros L Hs Hn Ha Hf Hu.
  do 23 (destruct buf as [|? buf]; [cbn in L; lia|]).
  cbv zeta. unfold exp_pdu_tcp_dissector_data_populate_data, store, field.
  cbn -[u8 Z.shiftr Z.land Mptcp.be_word Z.sub].
  repeat apply conj; try reflexivity;
    try (apply word32_bytes; assumption); try (apply word16_bytes; assumption).
  all: unfold Mptcp.be_word; cbn [fold_left]; try change (u8 0) with 0; lia.
Qed.

End ExpPduProps.

Lemma exp_pdu_tcp_info_round_trip_witness :
  let d := ExpPdu.TcpInfo 0x01020304 0x01020404 0xfffffffe 1 0x0018 0 in
  (23 <= length (repeat 0xaa 32))%nat
  /\ fst (ExpPdu.exp_pdu_tcp_dissector_data_populate_data 34 d (repeat 0xaa 32))
     = [0; 34; 0; 19; 0; 1; 1; 2; 3; 4; 1; 2; 4; 4;
        255; 255; 255; 254; 1; 0; 24; 0; 0] ++ repeat 0xaa 9
  /\ ExpPdu.field 6 4
       (fst (ExpPdu.exp_pdu_tcp_dissector_data_populate_data 34 d (repeat 0xaa 32)))
     = 0x01020304.
Proof.
  intros d.
  assert (L : (23 <= length (repeat 0xaa 32))%nat) by (cbn; lia).
  split; [exact L|]. split; [reflexivity|].
  destruct (exp_pdu_tcp_info_round_trip 34 d (repeat 0xaa 32) L)
    as (_ & _ & _ & _ & _ & _ & _ & E & _); try (cbn; lia).
  exact E.
Defined.

(** ** MPTCP data sequence numbers *)

Section DsnProps.

Import Dsn.

Lemma lor_high_low hi lo :
  0 <= lo < 2^32 -> Z.lor (Z.shiftl hi 32) lo = hi * 2^32 + lo.
Proof.
  intros H.
  assert (N : Z.land (Z.shiftl hi 32) lo = 0).
  { apply Z.bits_inj'. intros n Hn. rewrite Z.land_spec, Z.bits_0.
    destruct (Z.lt_ge_cases n 32).
    - rewrite Z.shiftl_spec_low by lia. reflexivity.
    - destruct (Z.eq_dec lo 0) as [->|]; [rewrite Z.bits_0; apply andb_false_r|].
      rewrite (Z.bits_above_log2 lo n); [apply andb_false_r | lia |].
      apply Z.lt_le_trans with 32; [apply Z.log2_lt_pow2; lia | lia]. }
  rewrite <- (Z.lxor_lor _ _ N), <- (Z.add_nocarry_lxor _ _ N).
  rewrite Z.shiftl_mul_pow2 by lia. reflexivity.
Qed.

(** X4. [mptcp_convert_dsn] fails, leaving the number as it was, exactly
    when it needs the base DSN (to widen, or to make relative) and the meta
    flow has none. With a base DSN, a 64-bit DSN whose upper 32 bits are
    those of the base comes back unchanged after it is narrowed to 32 bits
    and widened again; the narrowed number fits 32 bits, and the base DSN
    itself is relative DSN 0. *)
Theorem mptcp_convert_dsn_round_trip (meta : mptcp_meta_flow_t) (dsn : Z) :
  0 <= dsn < 2^64 -> 0 <= meta_base_dsn meta < 2^64 ->
  (forall conv relative,
     fst (mptcp_convert_dsn dsn meta conv relative) = false
     <-> ((conv = DSN_CONV_32_TO_64 \/ relative = true)
          /\ tst (meta_static_flags meta) MPTCP_META_HAS_BASE_DSN_MSB = false))
  /\ (forall conv relative,
        fst (mptcp_convert_dsn dsn meta conv relative) = false ->
        snd (mptcp_convert_dsn dsn meta conv relative) = dsn)
  /\ 0 <= snd (mptcp_convert_dsn dsn meta DSN_CONV_64_TO_32 false) < 2^32
  /\ (tst (meta_static_flags meta) MPTCP_META_HAS_BASE_DSN_MSB = true ->
      Z.shiftr dsn 32 = Z.shiftr (meta_base_dsn meta) 32 ->
      mptcp_convert_dsn (snd (mptcp_convert_dsn dsn meta DSN_CONV_64_TO_32 false))
                        meta DSN_CONV_32_TO_64 false
      = (true, dsn))
  /\ (tst (meta_static_flags meta) MPTCP_META_HAS_BASE_DSN_MSB = true ->
      mptcp_convert_dsn (meta_base_dsn meta) meta DSN_CONV_NONE true = (true, 0)).
Proof.
  intros Hd Hb. split; [|split; [|split; [|split]]].
  - intros conv relative. unfold mptcp_convert_dsn.
    destruct (tst (meta_static_flags meta) MPTCP_META_HAS_BASE_DSN_MSB);
      destruct conv, relative; cbn; split; intros H;
      try discriminate; try reflexivity; try tauto;
      try (destruct H as [[H|H] H']; discriminate); auto.
  - intros conv relative. unfold mptcp_convert_dsn.
    destruct ((is_32_to_64 conv || relative)
              && negb (tst (meta_static_flags meta) MPTCP_META_HAS_BASE_DSN_MSB));
      [reflexivity | discriminate].
  - unfold mptcp_convert_dsn. cbn. apply u32_range.
  - intros F E. unfold mptcp_convert_dsn. rewrite F. cbn.
    unfold KEEP_32MSB_OF_GUINT64. rewrite <- E.
    pose proof (u32_range dsn) as R.
    assert (S0 : Z.shiftl (Z.shiftr dsn 32) 32 = 2^32 * (dsn / 2^32)).
    { rewrite Z.shiftl_mul_pow2, Z.shiftr_div_pow2 by lia. lia. }
    assert (Q : 0 <= dsn / 2^32 < 2^32).
    { split; [apply Z.div_pos; lia | apply Z.div_lt_upper_bound; lia]. }
    assert (U : u64 (Z.shiftl (Z.shiftr dsn 32) 32) = Z.shiftl (Z.shiftr dsn 32) 32).
    { unfold u64. apply Z.mod_small. rewrite S0. lia. }
    rewrite U, lor_high_low by exact R.
    rewrite Z.shiftr_div_pow2 by lia. unfold u32.
    pose proof (Z.div_mod dsn (2^32) ltac:(lia)). f_equal. lia.
  - intros F. unfold mptcp_convert_dsn. rewrite F. cbn.
    rewrite Z.sub_diag. reflexivity.
Qed.

(** X5. [mptcp_map_relssn_to_rawdsn] succeeds exactly for a relative
    subflow sequence number inside the mapping, and leaves [*dsn] alone
    otherwise. Inside, the lower end maps to the mapping's raw DSN, and
    two numbers of the mapping give the same DSN only if they are the
    same. *)
Theorem mptcp_map_relssn_to_rawdsn_spec (mapping : mptcp_dss_mapping_t) (dsn0 : Z) :
  0 <= rawdsn mapping < 2^64 ->
  0 <= ssn_low mapping -> ssn_high mapping < 2^32 ->
  (forall relssn,
     fst (mptcp_map_relssn_to_rawdsn mapping relssn dsn0) = true
     <-> ssn_low mapping <= relssn <= ssn_high mapping)
  /\ (forall relssn,
        fst (mptcp_map_relssn_to_rawdsn mapping relssn dsn0) = false ->
        snd (mptcp_map_relssn_to_rawdsn mapping relssn dsn0) = dsn0)
  /\ (ssn_low mapping <= ssn_high mapping ->
      mptcp_map_relssn_to_rawdsn mapping (ssn_low mapping) dsn0 = (true, rawdsn mapping))
  /\ (forall r1 r2,
        ssn_low mapping <= r1 <= ssn_high mapping ->
        ssn_low mapping <= r2 <= ssn_high mapping ->
        snd (mptcp_map_relssn_to_rawdsn mapping r1 dsn0)
        = snd (mptcp_map_relssn_to_rawdsn mapping r2 dsn0) ->
        r1 = r2).
Proof.
  intros Hr Hl Hh. unfold mptcp_map_relssn_to_rawdsn. split; [|split; [|split]].
  - intros relssn.
    destruct (Z.ltb_spec relssn (ssn_low mapping)), (Z.ltb_spec (ssn_high mapping) relssn);
      cbn; split; intros; try discriminate; try lia; reflexivity.
  - intros relssn.
    destruct ((relssn <? ssn_low mapping) || (ssn_high mapping <? relssn));
      [reflexivity | discriminate].
  - intros L.
    destruct (Z.ltb_spec (ssn_low mapping) (ssn_low mapping)); [lia|].
    destruct (Z.ltb_spec (ssn_high mapping) (ssn_low mapping)); [lia|]. cbn.
    rewrite Z.sub_diag. change (u32 0) with 0. rewrite Z.add_0_r.
    unfold u64. rewrite Z.mod_small by lia. reflexivity.
  - intros r1 r2 H1 H2.
    destruct (Z.ltb_spec r1 (ssn_low mapping)); [lia|].
    destruct (Z.ltb_spec (ssn_high mapping) r1); [lia|].
    destruct (Z.ltb_spec r2 (ssn_low mapping)); [lia|].
    destruct (Z.ltb_spec (ssn_high mapping) r2); [lia|]. cbn.
    rewrite !u32_id by lia. unfold u64. intros E.
    set (a := r1 - ssn_low mapping) in *. set (b := r2 - ssn_low mapping) in *.
    assert (Ha : 0 <= a < 2^32) by (unfold a; lia).
    assert (Hb' : 0 <= b < 2^32) by (unfold b; lia).
    assert (a = b); [|unfold a, b in *; lia].
    destruct (Z.lt_ge_cases (rawdsn mapping + a) (2^64));
      destruct (Z.lt_ge_cases (rawdsn mapping + b) (2^64)).
    + rewrite !Z.mod_small in E by lia. lia.
    + rewrite (Z.mod_small (rawdsn mapping + a)) in E by lia.
      replace (rawdsn mapping + b) with (rawdsn mapping + b - 2^64 + 1 * 2^64) in E by lia.
      rewrite Z.mod_add, Z.mod_small in E by lia. lia.
    + rewrite (Z.mod_small (rawdsn mapping + b)) in E by lia.
      replace (rawdsn mapping + a) with (rawdsn mapping + a - 2^64 + 1 * 2^64) in E by lia.
      rewrite Z.mod_add, Z.mod_small in E by lia. lia.
    + replace (rawdsn mapping + a) with (rawdsn mapping + a - 2^64 + 1 * 2^64) in E by lia.
      replace (rawdsn mapping + b) with (rawdsn mapping + b - 2^64 + 1 * 2^64) in E by lia.
      rewrite !Z.mod_add, !Z.mod_small in E by lia. lia.
Qed.

End DsnProps.

Lemma mptcp_convert_dsn_round_trip_witness :
  let meta := Dsn.Meta 0x03 0x1122334455667788 in
  0 <= 0x11223344aabbccdd < 2^64
  /\ 0 <= Dsn.meta_base_dsn meta < 2^64
  /\ tst (Dsn.meta_static_flags meta) Dsn.MPTCP_META_HAS_BASE_DSN_MSB = true
  /\ Z.shiftr 0x11223344aabbccdd 32 = Z.shiftr (Dsn.meta_base_dsn meta) 32
  /\ Dsn.mptcp_convert_dsn 0x11223344aabbccdd meta Dsn.DSN_CONV_64_TO_32 false
     = (true, 0xaabbccdd)
  /\ Dsn.mptcp_convert_dsn
       (snd (Dsn.mptcp_convert_dsn 0x11223344aabbccdd meta Dsn.DSN_CONV_64_TO_32 false))
       meta Dsn.DSN_CONV_32_TO_64 false
     = (true, 0x11223344aabbccdd).
Proof.
  intros meta.
  assert (H1 : 0 <= 0x11223344aabbccdd < 2^64) by lia.
  assert (H2 : 0 <= Dsn.meta_base_dsn meta < 2^64) by (cbn; lia).
  assert (H3 : tst (Dsn.meta_static_flags meta) Dsn.MPTCP_META_HAS_BASE_DSN_MSB = true)
    by reflexivity.
  assert (H4 : Z.shiftr 0x11223344aabbccdd 32 = Z.shiftr (Dsn.meta_base_dsn meta) 32)
    by reflexivity.
  repeat (split; [assumption|]). split; [reflexivity|].
  destruct (mptcp_convert_dsn_round_trip meta 0x11223344aabbccdd H1 H2)
    as (_ & _ & _ & E & _).
  exact (E H3 H4).
Defined.

Lemma mptcp_map_relssn_to_rawdsn_spec_witness :
  let mapping := Dsn.Mapping 0xfffffffffffffff0 1000 1999 in
  0 <= Dsn.rawdsn mapping < 2^64
  /\ 0 <= Dsn.ssn_low mapping
  /\ Dsn.ssn_high mapping < 2^32
  /\ Dsn.ssn_low mapping <= 1500 <= Dsn.ssn_high mapping
  /\ fst (Dsn.mptcp_map_relssn_to_rawdsn mapping 1500 0) = true.
Proof.
  intros mapping.
  assert (H1 : 0 <= Dsn.rawdsn mapping < 2^64) by (cbn; lia).
  assert (H2 : 0 <= Dsn.ssn_low mapping) by (cbn; lia).
  assert (H3 : Dsn.ssn_high mapping < 2^32) by (cbn; lia).
  assert (H4 : Dsn.ssn_low mapping <= 1500 <= Dsn.ssn_high mapping) by (cbn; lia).
  repeat (split; [assumption|]).
  destruct (mptcp_map_relssn_to_rawdsn_spec mapping 0 H1 H2 H3) as (E & _).
  exact (proj2 (E 1500) H4).
Defined.

(** ** The table of results *)

Section AckedProps.

Import Seq.

(** X6. [tcp_analyze_get_acked_struct] never loses or changes a stored
    result. Called to look up ([createflag] FALSE) it leaves the table as it
    is and sets [tcpd->ta] to the result of the packet if there is one and to
    NULL otherwise. Called to create, it sets [tcpd->ta] to the packet's
    result, which is the stored one if there is one and a zeroed one
    otherwise, and every other key holds what it held. The same call
    once more changes nothing. In no case are the
    flows touched. *)
Theorem tcp_analyze_get_acked_struct_spec
        (frame seq ack : Z) (createflag : bool) (t : tcp_analysis) :
  let key : acked_key := (frame, seq, ack) in
  let t' := tcp_analyze_get_acked_struct frame seq ack createflag t in
  (forall k a, acked_table t !! k = Some a -> acked_table t' !! k = Some a)
  /\ (forall k, k <> key -> acked_table t' !! k = acked_table t !! k)
  /\ (createflag = false ->
      acked_table t' = acked_table t
      /\ ta t' = match acked_table t !! key with Some _ => Some key | None => None end)
  /\ (createflag = true ->
      ta t' = Some key
      /\ acked_table t' !! key = Some (default tcp_acked0 (acked_table t !! key)))
  /\ tcp_analyze_get_acked_struct frame seq ack createflag t' = t'
  /\ flow1 t' = flow1 t /\ flow2 t' = flow2 t /\ ts_first_rtt t' = ts_first_rtt t.
Proof.
  intros key t'.
  assert (E : t' = match acked_table t !! key with
                   | Some _ => an_ta (Some key) (acked_table t) t
                   | None =>
                       if createflag
                       then an_ta (Some key) (<[key := tcp_acked0]> (acked_table t)) t
                       else an_ta None (acked_table t) t
                   end) by reflexivity.
  assert (I : tcp_analyze_get_acked_struct frame seq ack createflag t'
              = match acked_table t' !! key with
                | Some _ => an_ta (Some key) (acked_table t') t'
                | None =>
                    if createflag
                    then an_ta (Some key) (<[key := tcp_acked0]> (acked_table t')) t'
                    else an_ta None (acked_table t') t'
                end) by reflexivity.
  rewrite I. clear I. clearbody t'. subst t'.
  destruct (acked_table t !! key) as [a|] eqn:K.
  - cbn. rewrite K. cbn. split; [auto|]. split; [auto|]. split; [auto|]. split; [auto|].
    auto.
  - destruct createflag; cbn.
    + rewrite lookup_insert_eq. cbn.
      split; [intros k a Hk; rewrite lookup_insert_ne; [exact Hk | congruence]|].
      split; [intros k Hk; apply lookup_insert_ne; congruence|].
      split; [discriminate|]. split; [auto|]. auto.
    + rewrite K. cbn. split; [auto|]. split; [auto|]. split; [auto|].
      split; [discriminate|]. auto.
Qed.

End AckedProps.

(** ** Window scaling *)

Section WScaleProps.

Import Seq Conv WScale.

Lemma scales_store a t : scales (upd_fwd (fl_win_scale a) t) = (a, snd (scales t)).
Proof. unfold scales. rewrite fwd_upd_fwd, rev_upd_fwd. reflexivity. Qed.

Lemma option_scales ws t :
  scales (match ws with
          | Some (optlen, shift_byte) =>
              default t (dissect_tcpopt_wscale false optlen shift_byte (Some t))
          | None => t
          end)
  = (default (fst (scales t)) (offered ws), snd (scales t)).
Proof.
  destruct ws as [[optlen s]|]; [|reflexivity].
  unfold dissect_tcpopt_wscale, offered, pdu_store_window_scale_option.
  destruct (optlen =? TCPOLEN_WINDOW); [|reflexivity].
  cbn [negb from_option id]. rewrite scales_store. f_equal.
  pose proof (u8_range s). destruct (Z.ltb_spec 14 (u8 s)).
  - change (u8 14) with 14. lia.
  - rewrite (Z.min_l (u8 s) 14) by lia. unfold u8 at 1. fold (u8 s).
    apply Z.mod_small. lia.
Qed.

Lemma verify_scales b t :
  scales (verify_tcp_window_scaling b t)
  = (if fst (scales t) =? -1 then (-2, -2)
     else if b && (snd (scales t) =? -2) then (-2, snd (scales t))
     else scales t).
Proof.
  unfold verify_tcp_window_scaling, scales. cbn [fst snd].
  destruct (win_scale (fwd t) =? -1).
  - rewrite fwd_upd_rev, rev_upd_rev, fwd_upd_fwd. reflexivity.
  - destruct (b && (win_scale (rev t) =? -2)); [|reflexivity].
    rewrite fwd_upd_fwd, rev_upd_fwd. reflexivity.
Qed.

Lemma syn_window_scaling_orientation ws b t :
  fwd_is_flow1 (syn_window_scaling ws b t) = fwd_is_flow1 t.
Proof.
  unfold syn_window_scaling, verify_tcp_window_scaling. cbv zeta.
  set (t0 := match ws with
             | Some (optlen, shift_byte) =>
                 default t (dissect_tcpopt_wscale false optlen shift_byte (Some t))
             | None => t
             end).
  assert (O : fwd_is_flow1 t0 = fwd_is_flow1 t).
  { unfold t0. destruct ws as [[optlen s]|]; [|reflexivity].
    unfold dissect_tcpopt_wscale, pdu_store_window_scale_option.
    destruct (negb (optlen =? TCPOLEN_WINDOW)); [reflexivity|].
    cbn [negb from_option id]. apply orientation_upd_fwd. }
  destruct (win_scale (fwd t0) =? -1).
  - rewrite orientation_upd_rev, orientation_upd_fwd. exact O.
  - destruct (false || b && (win_scale (rev t0) =? -2)) eqn:K; cbn [orb] in K; rewrite K;
      [rewrite orientation_upd_fwd|]; exact O.
Qed.

Lemma offered_range ws :
  match offered ws with Some a => 0 <= a <= 14 | None => True end.
Proof.
  destruct ws as [[optlen s]|]; cbn [offered]; [|exact I].
  destruct (optlen =? TCPOLEN_WINDOW); [|exact I].
  pose proof (u8_range s). lia.
Qed.

(** the SYN/ACK goes the other way: its forward flow is the reverse flow
    of the SYN *)
Lemma scales_turned d' t :
  (0 <=? d') = negb (fwd_is_flow1 t) ->
  scales (get_tcp_conversation_data d' t) = (snd (scales t), fst (scales t)).
Proof.
  intros D. unfold scales, fwd, rev, get_tcp_conversation_data.
  cbn [fwd_is_flow1 flow1 flow2 fst snd].
  rewrite D. destruct (fwd_is_flow1 t); reflexivity.
Qed.

Lemma scales_fresh d t :
  win_scale (flow1 t) = -1 -> win_scale (flow2 t) = -1 ->
  scales (get_tcp_conversation_data d t) = (-1, -1).
Proof.
  intros W1 W2. unfold scales, fwd, rev, get_tcp_conversation_data.
  cbn [fwd_is_flow1 flow1 flow2]. destruct (0 <=? d); rewrite W1, W2; reflexivity.
Qed.

(** X7. The handshake settles window scaling for both directions together.
    On a connection that has seen no SYN, after a SYN and the SYN/ACK that
    answers it, both flows carry a shift only if both segments had a window
    scale option of the right length: then each flow has the shift of its
    own option, 14 at most. In every other case both flows are marked as
    not scaling (-2). *)
Theorem handshake_window_scaling
        (t : tcp_analysis) (d_syn d_synack : Z) (ws_syn ws_synack : option (Z * Z)) :
  win_scale (flow1 t) = -1 -> win_scale (flow2 t) = -1 ->
  (0 <=? d_synack) = negb (0 <=? d_syn) ->
  let t1 := syn_window_scaling ws_syn false (get_tcp_conversation_data d_syn t) in
  let t2 := syn_window_scaling ws_synack true (get_tcp_conversation_data d_synack t1) in
  (win_scale (fwd t2), win_scale (rev t2))
  = match offered ws_synack, offered ws_syn with
    | Some b, Some a => (b, a)
    | _, _ => (-2, -2)
    end
  /\ (0 <= win_scale (fwd t2) -> 0 <= win_scale (rev t2) <= 14)
  /\ (0 <= win_scale (rev t2) -> 0 <= win_scale (fwd t2) <= 14).
Proof.
  intros W1 W2 D t1 t2.
  assert (E : scales t2
              = match offered ws_synack, offered ws_syn with
                | Some b, Some a => (b, a)
                | _, _ => (-2, -2)
                end).
  { assert (S1 : scales t1 = match offered ws_syn with
                             | Some a => (a, -1)
                             | None => (-2, -2)
                             end).
    { unfold t1, syn_window_scaling. cbv zeta.
      rewrite verify_scales, option_scales, (scales_fresh d_syn t W1 W2).
      cbn [fst snd andb]. pose proof (offered_range ws_syn) as Ra.
      destruct (offered ws_syn) as [a|]; cbn [from_option id]; [|reflexivity].
      destruct (Z.eqb_spec a (-1)); [lia | reflexivity]. }
    assert (O1 : fwd_is_flow1 t1 = (0 <=? d_syn))
      by (unfold t1; rewrite syn_window_scaling_orientation; reflexivity).
    unfold t2, syn_window_scaling. cbv zeta.
    rewrite verify_scales, option_scales, scales_turned by (rewrite O1; exact D).
    rewrite S1. pose proof (offered_range ws_syn) as Ra.
    pose proof (offered_range ws_synack) as Rb.
    destruct (offered ws_syn) as [a|], (offered ws_synack) as [b|]; cbn [fst snd from_option id].
    - destruct (Z.eqb_spec b (-1)); [lia|].
      destruct (Z.eqb_spec a (-2)); [lia|]. reflexivity.
    - reflexivity.
    - destruct (Z.eqb_spec b (-1)); [lia|]. reflexivity.
    - reflexivity. }
  unfold scales in E. split; [exact E|].
  pose proof (offered_range ws_syn) as Ra. pose proof (offered_range ws_synack) as Rb.
  destruct (offered ws_synack) as [b|], (offered ws_syn) as [a|];
    injection E as -> ->; lia.
Qed.

End WScaleProps.

Lemma handshake_window_scaling_witness :
  let t := Conv.init_tcp_conversation_data 0 in
  win_scale (flow1 t) = -1
  /\ win_scale (flow2 t) = -1
  /\ (0 <=? -1) = negb (0 <=? 1)
  /\ WScale.scales
       (WScale.syn_window_scaling (Some (3, 8)) true
          (Conv.get_tcp_conversation_data (-1)
             (WScale.syn_window_scaling (Some (3, 7)) false
                (Conv.get_tcp_conversation_data 1 t))))
     = (8, 7).
Proof.
  intros t.
  assert (H1 : win_scale (flow1 t) = -1) by reflexivity.
  assert (H2 : win_scale (flow2 t) = -1) by reflexivity.
  assert (H3 : (0 <=? -1) = negb (0 <=? 1)) by reflexivity.
  repeat (split; [assumption|]).
  destruct (handshake_window_scaling t 1 (-1) (Some (3, 7)) (Some (3, 8)) H1 H2 H3)
    as (E & _).
  exact E.
Defined.

(** ** Relative sequence numbers *)

Section RelProps.

Import Seq Rel.

Variable tcp_relative_seq : bool.
Variable tcp_track_bytes_in_flight : bool.
Variable TCP_MAX_UNACKED_SEGMENTS : Z.

Lemma u32_sub_add a b : 0 <= a < 2^32 -> u32 (u32 (a - b) + b) = a.
Proof.
  intros H. unfold u32. rewrite Z.add_mod_idemp_l by lia.
  replace (a - b + b) with a by lia. apply Z.mod_small. exact H.
Qed.

Lemma u32_sub_pred a : u32 (a - u32 (a - 1)) = 1.
Proof.
  unfold u32. rewrite Zminus_mod_idemp_r. replace (a - (a - 1)) with 1 by lia.
  reflexivity.
Qed.

(** X8. For a segment of known length the numbers [dissect_tcp] shows and
    the numbers it looks the analysis up with fit together: what is added
    back to the relative numbers gives the sequence number and the ACK of
    the header again, the key under which the analysis stored its result.
    On the first pass, the segment that meets its own flow without a base
    gets relative sequence number 0 if it is a SYN and 1 otherwise, and an
    ACK that meets the reverse flow without a base gets relative ACK 1. *)
Theorem relative_sequence_numbers (pinfo : packet_info)
        (th_seq th_ack th_seglen th_flags th_win : Z) (t : tcp_analysis) :
  0 <= th_seq < 2^32 -> 0 <= th_ack < 2^32 ->
  let n := dissect_tcp_numbers tcp_relative_seq tcp_track_bytes_in_flight
             TCP_MAX_UNACKED_SEGMENTS pinfo th_seq th_ack th_seglen th_flags th_win t in
  n_use_seq n = th_seq
  /\ n_use_ack n = th_ack
  /\ (tcp_relative_seq = true -> visited pinfo = false ->
      tst (static_flags (fwd t)) TCP_S_BASE_SEQ_SET = false ->
      n_th_seq n = (if tst th_flags TH_SYN then 0 else 1))
  /\ (tcp_relative_seq = true -> visited pinfo = false ->
      tst (static_flags (rev t)) TCP_S_BASE_SEQ_SET = false ->
      tst th_flags TH_ACK = true ->
      n_th_ack n = 1)
  /\ (tcp_relative_seq = true ->
      tst (static_flags (fwd t)) TCP_S_BASE_SEQ_SET = true ->
      n_th_seq n = u32 (th_seq - base_seq (fwd t))).
Proof.
  intros Hs Ha n. unfold n, dissect_tcp_numbers. cbv zeta. cbn [n_use_seq n_use_ack n_th_seq n_th_ack].
  pose proof (analyze_base_seq tcp_track_bytes_in_flight TCP_MAX_UNACKED_SEGMENTS pinfo
                th_seq th_ack th_seglen th_flags th_win t) as B.
  cbv zeta in B. destruct B as (B1 & B2 & B3 & B4 & B5).
  split; [|split; [|split; [|split]]].
  - destruct tcp_relative_seq; [apply u32_sub_add; exact Hs | reflexivity].
  - destruct (tcp_relative_seq && tst th_flags TH_ACK);
      [apply u32_sub_add; exact Ha | reflexivity].
  - intros -> -> U. cbn [negb]. destruct (B3 U) as [-> _].
    destruct (tst th_flags TH_SYN).
    + rewrite Z.sub_diag. reflexivity.
    + apply u32_sub_pred.
  - intros -> -> U A. cbn [negb]. rewrite A. cbn [andb].
    destruct (B4 U A) as [-> _]. apply u32_sub_pred.
  - intros -> S. destruct (negb (visited pinfo)); [|reflexivity].
    destruct (B1 S) as [-> _]. reflexivity.
Qed.

End RelProps.

Lemma relative_sequence_numbers_witness :
  let t := Conv.get_tcp_conversation_data 1 (Conv.init_tcp_conversation_data 0) in
  let n := Rel.dissect_tcp_numbers true true 10000 (Scenario.frame_at 1 0)
                                   0x90000000 0 0 TH_SYN 65535 t in
  0 <= 0x90000000 < 2^32
  /\ 0 <= 0 < 2^32
  /\ tst (static_flags (Seq.fwd t)) TCP_S_BASE_SEQ_SET = false
  /\ Rel.n_th_seq n = 0
  /\ Rel.n_use_seq n = 0x90000000.
Proof.
  intros t n.
  assert (H1 : 0 <= 0x90000000 < 2^32) by lia.
  assert (H2 : 0 <= 0 < 2^32) by lia.
  assert (H3 : tst (static_flags (Seq.fwd t)) TCP_S_BASE_SEQ_SET = false) by reflexivity.
  repeat (split; [assumption|]).
  destruct (relative_sequence_numbers true true 10000 (Scenario.frame_at 1 0)
              0x90000000 0 0 TH_SYN 65535 t H1 H2) as (E1 & _ & E3 & _).
  split; [exact (E3 eq_refl eq_refl H3) | exact E1].
Defined.

(** ** The lists of unacknowledged segments *)

Section UnackedProps.

Import Seq.

Variable tcp_track_bytes_in_flight : bool.
Variable TCP_MAX_UNACKED_SEGMENTS : Z.
Variable pinfo : packet_info.
Variables seq ack seglen flags window : Z.

(** [segment_count] counts the entries of the list, and the list is no
    longer than the limit *)
Definition listed (f : tcp_flow_t) : Prop :=
  segment_count (si f) = Z.of_nat (length (segments (si f)))
  /\ Z.of_nat (length (segments (si f))) <= TCP_MAX_UNACKED_SEGMENTS.

Lemma fwd_upto_list f f' :
  fwd_upto f f' ->
  segments (si f') = segments (si f) /\ segment_count (si f') = segment_count (si f).
Proof.
  intros (sf & bs & vb & d & n & ->).
  destruct f as [? ? ? ? ? ? ? ? ? ? ? ? ? ? []]. split; reflexivity.
Qed.

Lemma rev_upto_list r r' :
  rev_upto r r' ->
  segments (si r') = segments (si r) /\ segment_count (si r') = segment_count (si r).
Proof.
  intros (sf & bs & vb & m & ->).
  destruct r as [? ? ? ? ? ? ? ? ? ? ? ? ? ? []]. split; reflexivity.
Qed.

Lemma remember_flow_list z lf f :
  let f' := remember_flow TCP_MAX_UNACKED_SEGMENTS pinfo seq ack seglen flags window z lf f in
  (segments (si f'), segment_count (si f'))
  = if keeps_segment TCP_MAX_UNACKED_SEGMENTS seglen flags f
    then (Unacked (num pinfo) seq
                  (segment_nextseq TCP_MAX_UNACKED_SEGMENTS seq seglen flags f)
                  (abs_ts pinfo) :: segments (si f),
          u16 (segment_count (si f) + 1))
    else (segments (si f), segment_count (si f)).
Proof.
  unfold remember_flow, store_ack_window, store_maxseqtobeacked, store_nextseq, add_unacked.
  cbv zeta.
  set (nxt := segment_nextseq TCP_MAX_UNACKED_SEGMENTS seq seglen flags f).
  destruct (keeps_segment TCP_MAX_UNACKED_SEGMENTS seglen flags f); cbn;
    destruct (GT_SEQ nxt (nextseq (si f)) || (nextseq (si f) =? 0)); cbn;
    destruct z; cbn;
    repeat match goal with
         | |- context [if ?c then _ else _] => destruct c
         end; cbn; reflexivity.
Qed.

Lemma remember_flow_listed z lf f :
  TCP_MAX_UNACKED_SEGMENTS < 2^16 ->
  listed f ->
  listed (remember_flow TCP_MAX_UNACKED_SEGMENTS pinfo seq ack seglen flags window z lf f).
Proof.
  intros M [C L]. pose proof (remember_flow_list z lf f) as E. cbv zeta in E.
  pose proof (f_equal fst E) as E1. pose proof (f_equal snd E) as E2.
  cbn [fst snd] in E1, E2. clear E.
  unfold listed.
  destruct (keeps_segment TCP_MAX_UNACKED_SEGMENTS seglen flags f) eqn:K;
    cbn [fst snd] in E1, E2; rewrite E1, E2; [|split; assumption].
  unfold keeps_segment in K. apply andb_true_iff in K. destruct K as [_ K].
  apply Z.ltb_lt in K. cbn [length]. unfold u16.
  rewrite Z.mod_small by lia. lia.
Qed.

(** the reverse flow's list and counter after the deletion of one entry *)
Lemma delete_unacked_v_rev ual v :
  segments (si (v_rev (delete_unacked_v ual v))) = segments (si (v_rev v))
  /\ segment_count (si (v_rev (delete_unacked_v ual v)))
     = u16 (segment_count (si (v_rev v)) - 1).
Proof.
  unfold delete_unacked_v. cbv zeta.
  destruct (scps_capable (v_rev v)); [|split; reflexivity].
  destruct (maxsizeacked (v_fwd v) <? u32 (ual_nextseq ual - ual_seq ual));
    split; reflexivity.
Qed.

(** the walk takes entries out and counts each one it takes *)
Lemma ack_walk_v_counts l : forall v,
  0 <= segment_count (si (v_rev v)) < 2^16 ->
  let r := ack_walk_v pinfo ack l v in
  (length (fst r) <= length l)%nat
  /\ segments (si (v_rev (snd r))) = segments (si (v_rev v))
  /\ segment_count (si (v_rev (snd r)))
     = u16 (segment_count (si (v_rev v))
            - (Z.of_nat (length l) - Z.of_nat (length (fst r)))).
Proof.
  induction l as [|ual next IH]; intros v Hc; cbv zeta.
  { cbn. rewrite Z.sub_0_r. unfold u16. rewrite Z.mod_small by lia. auto. }
  assert (Del : forall u w,
             segments (si (v_rev w)) = segments (si (v_rev v)) ->
             segment_count (si (v_rev w)) = segment_count (si (v_rev v)) ->
             let r := ack_walk_v pinfo ack next (delete_unacked_v u w) in
             (length (fst r) <= length (ual :: next))%nat
             /\ segments (si (v_rev (snd r))) = segments (si (v_rev v))
             /\ segment_count (si (v_rev (snd r)))
                = u16 (segment_count (si (v_rev v))
                       - (Z.of_nat (length (ual :: next)) - Z.of_nat (length (fst r))))).
  { intros u w Sw Cw. cbv zeta.
    destruct (delete_unacked_v_rev u w) as [S1 C1].
    assert (R1 : 0 <= segment_count (si (v_rev (delete_unacked_v u w))) < 2^16)
      by (rewrite C1; unfold u16; apply Z.mod_pos_bound; lia).
    destruct (IH _ R1) as (L & S2 & C2). cbv zeta in L, S2, C2.
    split; [cbn [length]; lia|]. split; [congruence|].
    rewrite C2, C1, Cw. unfold u16. rewrite Zminus_mod_idemp_l.
    f_equal. cbn [length]. lia. }
  cbn [ack_walk_v].
  destruct (ack =? ual_nextseq ual).
  { cbv zeta. apply Del; reflexivity. }
  cbv zeta.
  match goal with |- context [GT_SEQ (ual_nextseq ?u) ack] => set (ual' := u) end.
  destruct (GT_SEQ (ual_nextseq ual') ack).
  { destruct (IH v Hc) as (L & S2 & C2). cbv zeta in L, S2, C2.
    destruct (ack_walk_v pinfo ack next v) as [kept v']. cbn [fst snd] in *.
    split; [cbn [length]; lia|]. split; [exact S2|].
    rewrite C2. f_equal. cbn [length]. lia. }
  apply Del; reflexivity.
Qed.

Lemma remove_acked_segments_v_listed v :
  TCP_MAX_UNACKED_SEGMENTS < 2^16 ->
  listed (v_rev v) -> listed (v_rev (remove_acked_segments_v pinfo ack v)).
Proof.
  intros M [C L]. unfold remove_acked_segments_v.
  assert (Hc : 0 <= segment_count (si (v_rev v)) < 2^16) by lia.
  pose proof (ack_walk_v_counts (segments (si (v_rev v))) v Hc) as K. cbv zeta in K.
  destruct (ack_walk_v pinfo ack (segments (si (v_rev v))) v) as [kept v'].
  cbn [fst snd] in K. destruct K as (Lk & _ & Ck).
  unfold listed. cbn [v_rev v_rev_map].
  assert (E : segment_count (si (fl_si (si_segments kept) (v_rev v')))
              = segment_count (si (v_rev v')))
    by (destruct (v_rev v') as [? ? ? ? ? ? ? ? ? ? ? ? ? ? []]; reflexivity).
  assert (E2 : segments (si (fl_si (si_segments kept) (v_rev v'))) = kept)
    by (destruct (v_rev v') as [? ? ? ? ? ? ? ? ? ? ? ? ? ? []]; reflexivity).
  rewrite E, E2, Ck, C. unfold u16. rewrite Z.mod_small by lia. lia.
Qed.

Lemma track_bytes_in_flight_v_rev v :
  v_rev (track_bytes_in_flight_v tcp_track_bytes_in_flight seglen flags v) = v_rev v.
Proof.
  unfold track_bytes_in_flight_v.
  destruct (tracks_in_flight tcp_track_bytes_in_flight seglen (v_fwd v)); [|reflexivity].
  cbv zeta.
  destruct ((0 <? in_flight (v_fwd v)) && (in_flight (v_fwd v) <? 2000000000));
    reflexivity.
Qed.

(** X9. One call of the analysis keeps both lists of unacknowledged
    segments in order: if, in each flow, [segment_count] is the length of
    the list and the list is no longer than TCP_MAX_UNACKED_SEGMENTS
    (itself below 65536, the range of the counter), the same holds after
    the call. *)
Theorem unacked_lists_bounded (t : tcp_analysis) :
  packet_ready pinfo seq ack t ->
  TCP_MAX_UNACKED_SEGMENTS < 2^16 ->
  listed (fwd t) -> listed (rev t) ->
  let t' := analyze tcp_track_bytes_in_flight TCP_MAX_UNACKED_SEGMENTS
                    pinfo seq ack seglen flags window t in
  listed (fwd t') /\ listed (rev t').
Proof.
  intros H M Lf Lr t'.
  destruct (analyze_acts tcp_track_bytes_in_flight TCP_MAX_UNACKED_SEGMENTS
              pinfo seq ack seglen flags window t H) as [_ V].
  fold t' in V.
  assert (Ef : fwd t' = v_fwd (view_of pinfo seq ack t')) by reflexivity.
  assert (Er : rev t' = v_rev (view_of pinfo seq ack t')) by reflexivity.
  rewrite Ef, Er, V. clear Ef Er V t'.
  set (v := view_of pinfo seq ack t).
  destruct (checked_upto pinfo seq ack seglen flags window v) as (Uf & Ur & _).
  destruct (fwd_upto_list _ _ Uf) as [Sf Cf].
  destruct (rev_upto_list _ _ Ur) as [Sr Cr].
  split.
  - pose proof (analyze_v_fwd tcp_track_bytes_in_flight TCP_MAX_UNACKED_SEGMENTS
                  pinfo seq ack seglen flags window
                  (fun f => (segments (si f), segment_count (si f))) v
                  (fun _ _ => eq_refl) (fun _ _ _ => eq_refl)) as E.
    cbv beta in E.
    pose proof (f_equal fst E) as E1. pose proof (f_equal snd E) as E2.
    cbn [fst snd] in E1, E2. clear E.
    assert (Lrem : listed (remembered TCP_MAX_UNACKED_SEGMENTS pinfo seq ack seglen
                             flags window v)).
    { unfold remembered. apply remember_flow_listed; [exact M|].
      unfold listed. rewrite Sf, Cf. exact Lf. }
    unfold listed in *. rewrite E1, E2. exact Lrem.
  - unfold analyze_v. rewrite track_bytes_in_flight_v_rev.
    apply remove_acked_segments_v_listed; [exact M|].
    unfold remember_segment_v. cbn [v_rev v_fwd_map].
    match goal with
    | |- context [check_retransmission_v ?a ?b ?c ?d ?x] =>
        destruct (check_retransmission_flows a b c d x) as (_ & -> & _)
    end.
    fold (checked pinfo seq ack seglen flags window v).
    unfold listed. rewrite Sr, Cr. exact Lr.
Qed.

(** the entry an ACK is measured against: the last of the list that ends
    at the ACK number; the list has the newest segment first *)
Fixpoint acked_segment (l : list tcp_unacked_t) : option tcp_unacked_t :=
  match l with
  | [] => None
  | ual :: next =>
      match acked_segment next with
      | Some u => Some u
      | None => if ack =? ual_nextseq ual then Some ual else None
      end
  end.

Definition acked_by (a : tcp_acked) : Z * nstime_t := (frame_acked a, ack_ts a).

Lemma ack_walk_v_acked l : forall v,
  acked_by (v_cur (snd (ack_walk_v pinfo ack l v)))
  = match acked_segment l with
    | Some u => (ual_frame u, nstime_delta (abs_ts pinfo) (ual_ts u))
    | None => acked_by (v_cur v)
    end.
Proof.
  induction l as [|ual next IH]; intros v; [reflexivity|].
  cbn [ack_walk_v acked_segment].
  destruct (ack =? ual_nextseq ual) eqn:E.
  { cbv zeta. rewrite IH.
    destruct (acked_segment next); [reflexivity|].
    destruct (delete_unacked_v_keeps acked_by (fun _ => tt) ual
                (v_cur_map (ta_with_acked (ual_frame ual)
                              (nstime_delta (abs_ts pinfo) (ual_ts ual))) v)
                (fun _ _ => eq_refl)) as [-> _].
    reflexivity. }
  cbv zeta.
  match goal with |- context [GT_SEQ (ual_nextseq ?u) ack] => set (ual' := u) end.
  destruct (GT_SEQ (ual_nextseq ual') ack).
  { specialize (IH v). destruct (ack_walk_v pinfo ack next v) as [kept v'].
    cbn [snd] in *. rewrite IH. destruct (acked_segment next); reflexivity. }
  rewrite IH. destruct (acked_segment next); [reflexivity|].
  destruct (delete_unacked_v_keeps acked_by (fun _ => tt) ual' v (fun _ _ => eq_refl))
    as [-> _].
  reflexivity.
Qed.

(** X18. The frame an ACK is said to acknowledge, and the RTT shown with
    it, come from the reverse flow's list of unacknowledged segments: of
    the entries that end exactly at the ACK number the last one of the
    list decides, which is the one sent first, since new segments go to
    the head. The RTT is the packet's time less that entry's. If no entry
    ends at the ACK number, neither field is written. *)
Theorem acked_frame_and_rtt (t : tcp_analysis) :
  packet_ready pinfo seq ack t ->
  let t' := analyze tcp_track_bytes_in_flight TCP_MAX_UNACKED_SEGMENTS
                    pinfo seq ack seglen flags window t in
  (frame_acked (cur pinfo seq ack t'), ack_ts (cur pinfo seq ack t'))
  = match acked_segment (segments (si (rev t))) with
    | Some u => (ual_frame u, nstime_delta (abs_ts pinfo) (ual_ts u))
    | None => (frame_acked (cur pinfo seq ack t), ack_ts (cur pinfo seq ack t))
    end.
Proof.
  intros H t'.
  destruct (analyze_acts tcp_track_bytes_in_flight TCP_MAX_UNACKED_SEGMENTS
              pinfo seq ack seglen flags window t H) as [_ V].
  fold t' in V.
  change (acked_by (v_cur (view_of pinfo seq ack t'))
          = match acked_segment (segments (si (v_rev (view_of pinfo seq ack t)))) with
            | Some u => (ual_frame u, nstime_delta (abs_ts pinfo) (ual_ts u))
            | None => acked_by (v_cur (view_of pinfo seq ack t))
            end).
  rewrite V. clear V t'.
  set (v := view_of pinfo seq ack t).
  unfold analyze_v.
  match goal with
  | |- context [track_bytes_in_flight_v ?a ?b ?c ?x] =>
      destruct (track_bytes_in_flight_v_keeps a b c acked_by (fun _ => tt) x
                  (fun _ _ => eq_refl) (fun _ _ => eq_refl) (fun _ _ _ => eq_refl))
        as [-> _]
  end.
  unfold remove_acked_segments_v.
  match goal with
  | |- context [ack_walk_v pinfo ack ?l ?x] =>
      pose proof (ack_walk_v_acked l x) as W;
      destruct (ack_walk_v pinfo ack l x) as [kept v']
  end.
  cbn [snd] in W. cbn [v_cur v_rev_map]. rewrite W. clear W.
  unfold remember_segment_v. cbn [v_rev v_cur v_fwd_map].
  fold (checked pinfo seq ack seglen flags window v).
  fold (classified pinfo seq ack seglen flags window v).
  destruct (check_retransmission_flows pinfo seq seglen flags
              (checked pinfo seq ack seglen flags window v)) as (_ & Er & _).
  fold (classified pinfo seq ack seglen flags window v) in Er. rewrite Er.
  destruct (checked_upto pinfo seq ack seglen flags window v) as (_ & Ur & _).
  destruct (rev_upto_list _ _ Ur) as [-> _].
  rewrite (classified_cur pinfo seq ack seglen flags window acked_by v
             (fun _ _ => eq_refl) (fun _ _ _ => eq_refl) (fun _ _ _ => eq_refl)).
  reflexivity.
Qed.

End UnackedProps.

Lemma unacked_lists_bounded_witness :
  let t' := Seq.analyze true 10000 (Scenario.frame_at 5 4) 151 501 50 TH_ACK 65535
                        established in
  packet_ready (Scenario.frame_at 5 4) 151 501 established
  /\ 10000 < 2^16
  /\ listed 10000 (Seq.fwd established) /\ listed 10000 (Seq.rev established)
  /\ listed 10000 (Seq.fwd t') /\ listed 10000 (Seq.rev t').
Proof.
  intros t'.
  assert (H : packet_ready (Scenario.frame_at 5 4) 151 501 established)
    by (vm_compute; reflexivity).
  assert (M : 10000 < 2^16) by lia.
  assert (Lf : listed 10000 (Seq.fwd established))
    by (split; vm_compute; [reflexivity | discriminate]).
  assert (Lr : listed 10000 (Seq.rev established))
    by (split; vm_compute; [reflexivity | discriminate]).
  repeat (split; [assumption|]).
  exact (unacked_lists_bounded true 10000 (Scenario.frame_at 5 4) 151 501 50 TH_ACK 65535
           established H M Lf Lr).
Defined.

Lemma acked_frame_and_rtt_witness :
  let t := Conv.get_tcp_conversation_data Scenario.to_client established in
  let t' := Seq.analyze true 10000 (Scenario.frame_at 5 9) 501 151 0 TH_ACK 65535 t in
  packet_ready (Scenario.frame_at 5 9) 501 151 t
  /\ (frame_acked (cur (Scenario.frame_at 5 9) 501 151 t'),
      ack_ts (cur (Scenario.frame_at 5 9) 501 151 t'))
     = (4, NsTime 0 6000000).
Proof.
  intros t t'.
  assert (H : packet_ready (Scenario.frame_at 5 9) 501 151 t) by (vm_compute; reflexivity).
  split; [exact H|].
  exact (acked_frame_and_rtt true 10000 (Scenario.frame_at 5 9) 501 151 0 TH_ACK 65535 t H).
Defined.

(** ** The flags of a segment as text *)

Section FlagsStrProps.

Import Stdlib.Strings.Ascii Stdlib.Strings.String FlagsStr.
Local Open Scope string_scope.

Variable TH_RES : Z.

(** a name: not empty, and not beginning like <None> *)
Definition plain (s : string) : Prop :=
  match s with
  | EmptyString => False
  | String c _ => c <> "<"%char
  end.

Definition named (l : list string) : Prop := Forall plain l.

Lemma append_nil (b : string) : "" ++ b = b.
Proof. reflexivity. Qed.

Lemma append_cons (c : ascii) (a b : string) : String c a ++ b = String c (a ++ b).
Proof. reflexivity. Qed.

Lemma append_assoc3 (a b c : string) : (a ++ b) ++ c = a ++ b ++ c.
Proof.
  induction a as [|x a IH]; [reflexivity|].
  rewrite !append_cons. f_equal. exact IH.
Qed.

Lemma concat_plain (x : string) (l : list string) :
  named (x :: l) -> plain (concat ", " (x :: l)%list).
Proof.
  intros N. pose proof (Forall_inv N) as Hx.
  destruct x as [|c x]; [destruct Hx|].
  destruct l; exact Hx.
Qed.

Lemma concat_empty (l : list string) : named l -> concat ", " l = "" -> l = []%list.
Proof.
  intros N E. destruct l as [|x l]; [reflexivity|].
  pose proof (concat_plain x l N) as P. rewrite E in P. destruct P.
Qed.

(** one more name at the end of the text *)
Lemma add_flag_concat (l : list string) (name : string) :
  named l -> add_flag name (concat ", " l) = concat ", " (l ++ [name]).
Proof.
  intros N. induction l as [|x l IH].
  { reflexivity. }
  pose proof (Forall_inv N) as Hx. pose proof (Forall_inv_tail N) as Nl.
  specialize (IH Nl).
  destruct l as [|y l].
  { destruct x; [destruct Hx|]. unfold add_flag. cbn [app concat].
    rewrite append_assoc3. reflexivity. }
  change (concat ", " ((x :: y :: l) ++ [name])%list)
    with (x ++ ", " ++ concat ", " ((y :: l) ++ [name])%list).
  rewrite <- IH.
  change (concat ", " (x :: y :: l)%list) with (x ++ ", " ++ concat ", " (y :: l)%list).
  assert (Hne : concat ", " (y :: l)%list <> "").
  { intros E. apply concat_empty in E; [discriminate | exact Nl]. }
  unfold add_flag. destruct x as [|c x]; [destruct Hx|].
  destruct (concat ", " (y :: l)%list) as [|d r] eqn:E; [contradiction|].
  rewrite !append_cons. rewrite !append_assoc3. reflexivity.
Qed.

Lemma names_set_named (th_flags : Z) (names : list string) : forall i,
  named names -> named (names_set i names th_flags).
Proof.
  induction names as [|n names IH]; intros i N; [constructor|].
  cbn [names_set]. apply Forall_app. split.
  - destruct (tst th_flags (Z.shiftl 1 i)); [|constructor].
    constructor; [exact (Forall_inv N) | constructor].
  - apply IH. exact (Forall_inv_tail N).
Qed.

Lemma flags_loop_concat (th_flags : Z) (names : list string) : forall i acc,
  named names -> named acc ->
  flags_loop i names th_flags (concat ", " acc)
  = concat ", " (acc ++ names_set i names th_flags).
Proof.
  induction names as [|n names IH]; intros i acc N A.
  { cbn. rewrite app_nil_r. reflexivity. }
  cbn [flags_loop names_set].
  pose proof (Forall_inv N) as Hn. pose proof (Forall_inv_tail N) as Nn.
  destruct (tst th_flags (Z.shiftl 1 i)).
  - rewrite add_flag_concat by exact A. rewrite IH.
    + rewrite <- app_assoc. reflexivity.
    + exact Nn.
    + apply Forall_app. split; [exact A | constructor; [exact Hn | constructor]].
  - cbn [app]. apply IH; assumption.
Qed.

Lemma flags_named : named flags.
Proof. repeat constructor; cbn; discriminate. Qed.

(** the length of the names with a separator after each *)
Fixpoint room (l : list string) : nat :=
  match l with
  | []%list => 0%nat
  | (s :: l)%list => (length s + 2 + room l)%nat
  end.

Lemma length_append (a b : string) : length (a ++ b) = (length a + length b)%nat.
Proof.
  induction a as [|c a IH]; [reflexivity|].
  rewrite append_cons. cbn [length]. rewrite IH. reflexivity.
Qed.

Lemma concat_length (l : list string) :
  l <> []%list -> (length (concat ", " l) + 2 = room l)%nat.
Proof.
  induction l as [|x l IH]; intros Hl; [contradiction|].
  destruct l as [|y l].
  { cbn. lia. }
  change (concat ", " (x :: y :: l)%list) with (x ++ ", " ++ concat ", " (y :: l)%list).
  rewrite !length_append.
  assert (Hy : (y :: l)%list <> []%list) by discriminate.
  specialize (IH Hy). cbn [room] in *. cbn [length]. lia.
Qed.

Lemma room_app (a b : list string) : room (a ++ b) = (room a + room b)%nat.
Proof. induction a as [|x a IH]; cbn [app room]; [reflexivity | rewrite IH; lia]. Qed.

Lemma names_set_room (th_flags : Z) (names : list string) : forall i,
  (room (names_set i names th_flags) <= room names)%nat.
Proof.
  induction names as [|n names IH]; intros i; [cbn; lia|].
  cbn [names_set]. rewrite room_app. specialize (IH (i + 1)).
  destruct (tst th_flags (Z.shiftl 1 i)); cbn [room]; lia.
Qed.

Lemma tcp_flags_buffer_concat (th_flags : Z) :
  tcp_flags_buffer TH_RES th_flags = concat ", " (shown_flags TH_RES th_flags).
Proof.
  unfold tcp_flags_buffer, shown_flags. cbv zeta.
  pose proof (flags_loop_concat th_flags flags 0 []%list flags_named
                (List.Forall_nil _)) as E.
  cbn [app concat] in E. rewrite E.
  destruct (tst th_flags TH_RES).
  - apply add_flag_concat. apply names_set_named. exact flags_named.
  - rewrite app_nil_r. reflexivity.
Qed.

(** X10. The text [tcp_flags_to_str] gives is the names of the flag bits
    that are set, from FIN (bit 0) up to NS (bit 8) and then Reserved if a
    bit of TH_RES is set, separated by a comma and a space; it is <None>
    exactly if there is no such name. What the function writes to its
    buffer of 64 bytes is, with the terminating NUL, never longer than 53
    bytes. *)
Theorem tcp_flags_to_str_spec (th_flags : Z) :
  tcp_flags_to_str TH_RES th_flags
  = match shown_flags TH_RES th_flags with
    | []%list => "<None>"
    | names => concat ", " names
    end
  /\ (tcp_flags_to_str TH_RES th_flags = "<None>" <-> shown_flags TH_RES th_flags = []%list)
  /\ Z.of_nat (length (tcp_flags_buffer TH_RES th_flags)) + 1 <= 53
  /\ 53 <= maxlength.
Proof.
  assert (N : named (shown_flags TH_RES th_flags)).
  { unfold shown_flags. apply Forall_app. split.
    - apply names_set_named. exact flags_named.
    - destruct (tst th_flags TH_RES); repeat constructor. cbn. discriminate. }
  assert (E : tcp_flags_to_str TH_RES th_flags
              = match shown_flags TH_RES th_flags with
                | []%list => "<None>"
                | names => concat ", " names
                end).
  { unfold tcp_flags_to_str. rewrite tcp_flags_buffer_concat.
    destruct (shown_flags TH_RES th_flags) as [|x l] eqn:S; [reflexivity|].
    destruct (concat ", " (x :: l)%list) eqn:C; [|reflexivity].
    apply concat_empty in C; [discriminate | exact N]. }
  split; [exact E|]. split; [|split].
  - rewrite E. split.
    + intros H. destruct (shown_flags TH_RES th_flags) as [|x l] eqn:S; [reflexivity|].
      pose proof (concat_plain x l N) as P. rewrite H in P. exfalso. apply P. reflexivity.
    + intros ->. reflexivity.
  - rewrite tcp_flags_buffer_concat.
    destruct (shown_flags TH_RES th_flags) as [|x l] eqn:S; [cbn; lia|].
    assert (Hl : (x :: l)%list <> []%list) by discriminate.
    pose proof (concat_length _ Hl) as L. rewrite <- S in L.
    unfold shown_flags in L at 2. rewrite room_app in L.
    pose proof (names_set_room th_flags flags 0) as R.
    assert (R2 : (room (if tst th_flags TH_RES then ["Reserved"]%list else []%list) <= 10)%nat)
      by (destruct (tst th_flags TH_RES); cbn; lia).
    change (room flags) with 44%nat in R. rewrite <- S. lia.
  - unfold maxlength. lia.
Qed.

End FlagsStrProps.

(** ** The SACK option *)

Section SackProps.

Import Sack.

Variable tvb_get_ntohl : Z -> option Z.
Variable MAX_TCP_SACK_RANGES : Z.
Variable base_ack : Z.

Let loop := sack_loop tvb_get_ntohl MAX_TCP_SACK_RANGES base_ack.
Let edge := edge tvb_get_ntohl base_ack.

Lemma sack_loop_decodes (fuel : nat) : forall offset optlen num tcph evs,
  0 <= optlen <= Z.of_nat fuel ->
  0 <= num -> num + optlen / 8 < 2^32 ->
  (forall o, offset <= o -> o + 4 <= offset + optlen -> is_Some (tvb_get_ntohl o)) ->
  let n := Z.to_nat (optlen / 8) in
  loop fuel offset optlen num tcph evs
  = Some (SackReturned (num + optlen / 8),
          tap_ranges MAX_TCP_SACK_RANGES (ranges_from tvb_get_ntohl base_ack n offset) tcph,
          evs ++ range_events tvb_get_ntohl base_ack n offset
              ++ rest_events tvb_get_ntohl base_ack (offset + 8 * (optlen / 8)) (optlen mod 8)).
Proof.
  induction fuel as [|fuel IH]; intros offset optlen num tcph evs Hf Hn Hb Hr n.
  { assert (optlen = 0) by lia. subst optlen. subst n. cbn.
    rewrite Z.add_0_r, app_nil_r. reflexivity. }
  unfold loop. cbn [sack_loop]. fold loop.
  destruct (0 <? optlen) eqn:P.
  2:{ apply Z.ltb_ge in P. assert (optlen = 0) by lia. subst optlen. subst n. cbn.
      rewrite Z.add_0_r, app_nil_r. reflexivity. }
  apply Z.ltb_lt in P.
  destruct (optlen <? 4) eqn:L4.
  { apply Z.ltb_lt in L4.
    assert (D : optlen / 8 = 0) by (apply Z.div_small; lia).
    assert (M : optlen mod 8 = optlen) by (apply Z.mod_small; lia).
    subst n. rewrite D, M. cbn [Z.to_nat ranges_from range_events tap_ranges fold_left app].
    rewrite Z.mul_0_r, !Z.add_0_r. unfold rest_events.
    replace (optlen =? 0) with false by (symmetry; apply Z.eqb_neq; lia).
    replace (optlen <? 4) with true by (symmetry; apply Z.ltb_lt; lia).
    reflexivity. }
  apply Z.ltb_ge in L4.
  destruct (Hr offset ltac:(lia) ltac:(lia)) as [w Ew].
  rewrite Ew. cbv zeta.
  assert (El : u32 (w - base_ack) = edge offset)
    by (unfold edge, Sack.edge; rewrite Ew; reflexivity).
  rewrite El.
  destruct (optlen - 4 <? 4) eqn:L8.
  { apply Z.ltb_lt in L8.
    assert (D : optlen / 8 = 0) by (apply Z.div_small; lia).
    assert (M : optlen mod 8 = optlen) by (apply Z.mod_small; lia).
    subst n. rewrite D, M. cbn [Z.to_nat ranges_from range_events tap_ranges fold_left app].
    rewrite Z.mul_0_r, !Z.add_0_r. unfold rest_events.
    replace (optlen =? 0) with false by (symmetry; apply Z.eqb_neq; lia).
    replace (optlen <? 4) with false by (symmetry; apply Z.ltb_ge; lia).
    rewrite <- app_assoc. reflexivity. }
  apply Z.ltb_ge in L8.
  destruct (Hr (offset + 4) ltac:(lia) ltac:(lia)) as [w' Ew'].
  rewrite Ew'.
  assert (Er : u32 (w' - base_ack) = edge (offset + 4))
    by (unfold edge, Sack.edge; rewrite Ew'; reflexivity).
  rewrite Er.
  assert (D : optlen / 8 = (optlen - 4 - 4) / 8 + 1).
  { replace optlen with ((optlen - 4 - 4) + 1 * 8) at 1 by lia.
    apply Z.div_add. lia. }
  assert (M : optlen mod 8 = (optlen - 4 - 4) mod 8).
  { replace optlen with ((optlen - 4 - 4) + 1 * 8) at 1 by lia.
    apply Z.mod_add. lia. }
  assert (Dn : 0 <= (optlen - 4 - 4) / 8) by (apply Z.div_pos; lia).
  assert (U : u32 (num + 1) = num + 1) by (apply u32_id; lia).
  rewrite U.
  rewrite IH.
  - subst n. rewrite D, M.
    replace (Z.to_nat ((optlen - 4 - 4) / 8 + 1)) with (S (Z.to_nat ((optlen - 4 - 4) / 8)))
      by lia.
    cbn [ranges_from range_events tap_ranges fold_left fst snd].
    fold edge.
    replace (offset + 8 + 8 * ((optlen - 4 - 4) / 8))
      with (offset + 8 * ((optlen - 4 - 4) / 8 + 1)) by lia.
    replace (num + 1 + (optlen - 4 - 4) / 8) with (num + ((optlen - 4 - 4) / 8 + 1)) by lia.
    rewrite <- !app_assoc. reflexivity.
  - lia.
  - lia.
  - lia.
  - intros o H1 H2. apply Hr; lia.
Qed.

Lemma update_tap_num (l r : Z) (h : sack_tap) :
  0 <= num_sack_ranges h <= MAX_TCP_SACK_RANGES ->
  exists h', update_tap MAX_TCP_SACK_RANGES l r (Some h) = Some h'
             /\ num_sack_ranges h' = Z.min MAX_TCP_SACK_RANGES (num_sack_ranges h + 1)
             /\ length (sack_left_edge h') = length (sack_left_edge h)
             /\ length (sack_right_edge h') = length (sack_right_edge h).
Proof.
  intros H. unfold update_tap.
  destruct (num_sack_ranges h <? MAX_TCP_SACK_RANGES) eqn:E.
  - apply Z.ltb_lt in E. eexists. split; [reflexivity|]. cbn.
    rewrite !length_insert. repeat split. lia.
  - apply Z.ltb_ge in E. exists h. repeat split. lia.
Qed.

Lemma tap_ranges_num (rs : list (Z * Z)) : forall h,
  0 <= num_sack_ranges h <= MAX_TCP_SACK_RANGES ->
  exists h', tap_ranges MAX_TCP_SACK_RANGES rs (Some h) = Some h'
             /\ num_sack_ranges h'
                = Z.min MAX_TCP_SACK_RANGES (num_sack_ranges h + Z.of_nat (length rs))
             /\ length (sack_left_edge h') = length (sack_left_edge h)
             /\ length (sack_right_edge h') = length (sack_right_edge h).
Proof.
  induction rs as [|r rs IH]; intros h H.
  { exists h. cbn. repeat split. lia. }
  destruct (update_tap_num (fst r) (snd r) h H) as (h1 & E1 & N1 & L1 & R1).
  destruct (IH h1 ltac:(lia)) as (h2 & E2 & N2 & L2 & R2).
  exists h2. unfold tap_ranges in *. cbn [fold_left]. rewrite E1, E2.
  split; [reflexivity|]. split; [|split; congruence].
  rewrite N2, N1. cbn [length]. lia.
Qed.

Lemma ranges_from_length (n : nat) : forall offset,
  length (ranges_from tvb_get_ntohl base_ack n offset) = n.
Proof. induction n as [|n IH]; intros offset; cbn; [reflexivity | rewrite IH; reflexivity]. Qed.

(** X11. A SACK option of [reported_length] bytes whose words can all be
    read holds (reported_length - 2) / 8 ranges: [dissect_tcpopt_sack]
    returns, shows the two edges of each range less the base, and
    generates that range count. Bytes left over after the last whole
    range get the note on a malformed suboption (after a left edge, if
    there are at least four of them), and nothing else does. The tap's
    arrays take the ranges in order as long as there is room: their
    counter ends at the smaller of MAX_TCP_SACK_RANGES and the old count
    plus the number of ranges, and the arrays keep their size. *)
Theorem dissect_tcpopt_sack_spec (reported_length : Z) (h : sack_tap) :
  2 <= reported_length < 2^31 ->
  (forall o, 2 <= o -> o + 4 <= reported_length -> is_Some (tvb_get_ntohl o)) ->
  0 <= num_sack_ranges h <= MAX_TCP_SACK_RANGES ->
  let count := (reported_length - 2) / 8 in
  let rest := (reported_length - 2) mod 8 in
  let ranges := ranges_from tvb_get_ntohl base_ack (Z.to_nat count) 2 in
  exists h',
    dissect_tcpopt_sack tvb_get_ntohl MAX_TCP_SACK_RANGES base_ack reported_length (Some h)
    = Some (SackReturned count, Some h',
            range_events tvb_get_ntohl base_ack (Z.to_nat count) 2
            ++ rest_events tvb_get_ntohl base_ack (2 + 8 * count) rest)
    /\ Some h' = tap_ranges MAX_TCP_SACK_RANGES ranges (Some h)
    /\ num_sack_ranges h' = Z.min MAX_TCP_SACK_RANGES (num_sack_ranges h + count)
    /\ length (sack_left_edge h') = length (sack_left_edge h)
    /\ length (sack_right_edge h') = length (sack_right_edge h)
    /\ (rest = 0 <-> rest_events tvb_get_ntohl base_ack (2 + 8 * count) rest = []).
Proof.
  intros Hl Hr Hh count rest ranges.
  assert (C0 : 0 <= count) by (apply Z.div_pos; lia).
  assert (C1 : count < 2^32).
  { unfold count. apply Z.div_lt_upper_bound; lia. }
  destruct (tap_ranges_num ranges h Hh) as (h' & E & N & L & R).
  exists h'. split; [|split; [|split; [|split; [|split]]]].
  - unfold dissect_tcpopt_sack.
    pose proof (sack_loop_decodes (Z.to_nat reported_length) 2 (reported_length - 2) 0
                  (Some h) [] ltac:(lia) ltac:(lia) ltac:(fold count; lia)) as D.
    cbv zeta in D. unfold loop in D. rewrite D.
    + fold count. fold rest. fold ranges. rewrite E. reflexivity.
    + intros o H1 H2. apply Hr; lia.
  - symmetry. exact E.
  - rewrite N. unfold ranges. rewrite ranges_from_length. f_equal. lia.
  - exact L.
  - exact R.
  - assert (Rr : 0 <= rest < 8) by (apply Z.mod_pos_bound; lia).
    unfold rest_events. split.
    + intros ->. reflexivity.
    + destruct (rest =? 0) eqn:Z0; [intros _; apply Z.eqb_eq; exact Z0|].
      destruct (rest <? 4); discriminate.
Qed.

End SackProps.

Definition sample_sack (offset : Z) : option Z :=
  if (2 <=? offset) && (offset <=? 16) then Some (1000 + offset) else None.

Lemma dissect_tcpopt_sack_spec_witness :
  2 <= 20 < 2^31
  /\ (forall o, 2 <= o -> o + 4 <= 20 -> is_Some (sample_sack o))
  /\ exists h',
       Sack.dissect_tcpopt_sack sample_sack 4 1000 20
         (Some (Sack.SackTap 3 [0;0;0;0] [0;0;0;0]))
       = Some (Sack.SackReturned 2, Some h',
               [Sack.EvSle 2 2; Sack.EvSre 6 6; Sack.EvSle 10 10; Sack.EvSre 14 14;
                Sack.EvSuboptionMalformed 18 2])
       /\ Sack.num_sack_ranges h' = 4.
Proof.
  assert (H1 : 2 <= 20 < 2^31) by lia.
  assert (H2 : forall o, 2 <= o -> o + 4 <= 20 -> is_Some (sample_sack o)).
  { intros o A B. unfold sample_sack.
    replace (2 <=? o) with true by (symmetry; apply Z.leb_le; lia).
    replace (o <=? 16) with true by (symmetry; apply Z.leb_le; lia).
    eexists. reflexivity. }
  assert (H3 : 0 <= Sack.num_sack_ranges (Sack.SackTap 3 [0;0;0;0] [0;0;0;0]) <= 4)
    by (cbn; lia).
  split; [exact H1|]. split; [exact H2|].
  destruct (dissect_tcpopt_sack_spec sample_sack 4 1000 20
              (Sack.SackTap 3 [0;0;0;0] [0;0;0;0]) H1 H2 H3) as (h' & E & _ & N & _).
  exists h'. split; [exact E | exact N].
Defined.

(** ** Follow TCP stream *)

Section FollowProps.

Import Follow.

Context {address : Type}.
Variable addresses_equal : address -> address -> bool.
Variable missing_in_capture : Z -> list Z.

Let info : Type := @follow_info_t address.

Let check := @check_follow_fragments address missing_in_capture.
Let drain := @follow_drain address missing_in_capture.

Lemma ix_set_ix {A} (d : bool) (v : A) (p : A * A) : ix (set_ix d v p) d = v.
Proof. destruct d; reflexivity. Qed.

Lemma ix_set_ix_other {A} (d : bool) (v : A) (p : A * A) :
  ix (set_ix d v p) (negb d) = ix p (negb d).
Proof. destruct d; reflexivity. Qed.

(** a fragment that begins at or before a position of the stream *)
Definition fits_at (position : Z) (fragment : follow_record_t) : bool :=
  LT_SEQ (fr_seq fragment) position || EQ_SEQ (fr_seq fragment) position.

Definition fits (position : Z) (l : list follow_record_t) : bool :=
  existsb (fits_at position) l.

(** what one fragment that fits does to the state, at position [k] of the
    list *)
Definition apply_fragment (d : bool) (k : nat) (fragment : follow_record_t) (fi : info)
  : info :=
  if LT_SEQ (fr_seq fragment) (ix (fi_seq fi) d)
  then apply_dated d k fragment fi
  else apply_fitting d k fragment fi.

(** the walk stops at the first fragment that fits *)
Lemma scan_fragments_first (d : bool) (fi : info) (l : list follow_record_t) :
  forall i lowest,
    match scan_fragments d i l lowest fi with
    | inl fi' =>
        exists k fragment,
          l !! k = Some fragment
          /\ fits_at (ix (fi_seq fi) d) fragment = true
          /\ fits (ix (fi_seq fi) d) (take k l) = false
          /\ fi' = apply_fragment d (i + k) fragment fi
    | inr lowest' =>
        fits (ix (fi_seq fi) d) l = false
        /\ (lowest' = lowest \/ In lowest' (map fr_seq l))
    end.
Proof.
  induction l as [|fragment next IH]; intros i lowest.
  { cbn. auto. }
  cbn [scan_fragments]. cbv zeta.
  destruct (LT_SEQ (fr_seq fragment) (ix (fi_seq fi) d)) eqn:L.
  { exists 0%nat, fragment. rewrite Nat.add_0_r. unfold fits_at, apply_fragment.
    rewrite L. cbn. auto. }
  destruct (EQ_SEQ (fr_seq fragment) (ix (fi_seq fi) d)) eqn:E.
  { exists 0%nat, fragment. rewrite Nat.add_0_r. unfold fits_at, apply_fragment.
    rewrite L, E. cbn. auto. }
  specialize (IH (S i)
                 (if GT_SEQ lowest (fr_seq fragment) then fr_seq fragment else lowest)).
  destruct (scan_fragments d (S i) next _ fi) as [fi'|lowest'].
  - destruct IH as (k & fr & Hk & Hf & Hn & ->).
    exists (S k), fr. cbn [lookup take]. split; [exact Hk|]. split; [exact Hf|].
    split.
    + cbn [fits existsb]. unfold fits_at at 1. rewrite L, E. exact Hn.
    + f_equal. lia.
  - destruct IH as (Hn & Hl). split.
    + cbn [fits existsb]. unfold fits_at at 1. rewrite L, E. exact Hn.
    + cbn [map In].
      destruct Hl as [->|Hl]; [|auto].
      destruct (GT_SEQ lowest (fr_seq fragment)); auto.
Qed.

(** nothing but the payload, and the direction's list and position, is
    touched; the list loses the entry at [k] *)
Lemma apply_fragment_frame (d : bool) (k : nat) (fragment : follow_record_t) (fi : info) :
  let fi' := apply_fragment d k fragment fi in
  ix (fragments fi') d = delete k (ix (fragments fi) d)
  /\ ix (fragments fi') (negb d) = ix (fragments fi) (negb d)
  /\ ix (fi_seq fi') (negb d) = ix (fi_seq fi) (negb d)
  /\ bytes_written fi' = bytes_written fi
  /\ (exists added, payload fi' = added ++ payload fi)
  /\ client_port fi' = client_port fi /\ client_ip fi' = client_ip fi.
Proof.
  unfold apply_fragment, apply_dated, apply_fitting, delete_link. cbv zeta.
  destruct (LT_SEQ (fr_seq fragment) (ix (fi_seq fi) d)).
  - destruct (GT_SEQ _ (ix (fi_seq fi) d)).
    + destruct (_ <? fr_len fragment); cbn;
        rewrite ix_set_ix, !ix_set_ix_other;
        (repeat split; try reflexivity);
        [eexists [_] | exists []]; reflexivity.
    + cbn. rewrite ix_set_ix, !ix_set_ix_other. repeat split. exists []. reflexivity.
  - destruct (0 <? fr_len fragment); cbn;
      rewrite ix_set_ix, !ix_set_ix_other;
      (repeat split; try reflexivity);
      [eexists [_] | exists []]; reflexivity.
Qed.

(** the calls that are still to come, at most *)
Definition calls_left (d : bool) (fi : info) : nat :=
  (2 * length (ix (fragments fi) d)
   + (if fits (ix (fi_seq fi) d) (ix (fragments fi) d) then 0 else 1))%nat.

(** what a series of calls keeps *)
Definition drained (d : bool) (fi fi' : info) : Prop :=
  sublist (ix (fragments fi') d) (ix (fragments fi) d)
  /\ (exists added, payload fi' = added ++ payload fi)
  /\ ix (fragments fi') (negb d) = ix (fragments fi) (negb d)
  /\ ix (fi_seq fi') (negb d) = ix (fi_seq fi) (negb d)
  /\ bytes_written fi' = bytes_written fi
  /\ client_port fi' = client_port fi /\ client_ip fi' = client_ip fi.

Lemma drained_refl d fi : drained d fi fi.
Proof. unfold drained. repeat split; try reflexivity. exists []. reflexivity. Qed.

Lemma drained_trans d fi1 fi2 fi3 : drained d fi1 fi2 -> drained d fi2 fi3 -> drained d fi1 fi3.
Proof.
  intros (S1 & (a1 & P1) & F1 & Q1 & B1 & C1 & I1) (S2 & (a2 & P2) & F2 & Q2 & B2 & C2 & I2).
  unfold drained. repeat split; try congruence.
  - etransitivity; eassumption.
  - exists (a2 ++ a1). rewrite P2, P1, app_assoc. reflexivity.
Qed.

Lemma check_step (d : bool) (acknowledged packet_num : Z) (fi : info) :
  let r := check fi d acknowledged packet_num in
  if fst r
  then (calls_left d (snd r) < calls_left d fi)%nat /\ drained d fi (snd r)
  else snd r = fi.
Proof.
  cbv zeta. unfold check, check_follow_fragments.
  destruct (ix (fragments fi) d) as [|first rest] eqn:Fr; [reflexivity|].
  rewrite <- Fr.
  pose proof (scan_fragments_first d fi (ix (fragments fi) d) 0 (fr_seq first)) as S.
  destruct (scan_fragments d 0 (ix (fragments fi) d) (fr_seq first) fi) as [fi'|lowest].
  - destruct S as (k & fragment & Hk & Hf & Hn & ->). cbn [fst snd Nat.add].
    destruct (apply_fragment_frame d k fragment fi) as (D & O & Q & B & P & C & I).
    cbv zeta in D, O, Q, B, P, C, I.
    split.
    + unfold calls_left. rewrite D.
      rewrite length_delete by (eexists; exact Hk).
      pose proof (lookup_lt_Some _ _ _ Hk) as Lk.
      destruct (fits _ (delete k _)), (fits _ (ix (fragments fi) d)); lia.
    + unfold drained. rewrite D. repeat split; try assumption.
      apply sublist_delete.
  - destruct S as (Hn & Hl).
    destruct (GT_SEQ acknowledged lowest); [|reflexivity].
    cbn [fst snd]. unfold apply_missing. cbv zeta. split.
    + unfold calls_left. cbn [fragments fi_seq with_payload with_seq].
      rewrite ix_set_ix. rewrite Hn.
      assert (Hin : In lowest (map fr_seq (ix (fragments fi) d))).
      { destruct Hl as [->|Hl]; [|exact Hl]. rewrite Fr. left. reflexivity. }
      assert (F : fits lowest (ix (fragments fi) d) = true).
      { apply in_map_iff in Hin. destruct Hin as (fr & E & Hin).
        apply existsb_exists. exists fr. split; [exact Hin|].
        unfold fits_at, EQ_SEQ. rewrite E, Z.eqb_refl. apply orb_true_r. }
      rewrite F. lia.
    + unfold drained. cbn [fragments fi_seq with_payload with_seq payload bytes_written
                           client_port client_ip].
      rewrite ix_set_ix_other. repeat split; try reflexivity.
      eexists [_]. reflexivity.
Qed.

Lemma drain_ends (d : bool) (acknowledged packet_num : Z) (fuel : nat) : forall fi,
  (calls_left d fi < fuel)%nat ->
  exists fi',
    drain fuel fi d acknowledged packet_num = Some fi'
    /\ check fi' d acknowledged packet_num = (false, fi')
    /\ drained d fi fi'.
Proof.
  induction fuel as [|fuel IH]; intros fi Hc; [lia|].
  unfold drain. cbn [follow_drain]. fold drain.
  pose proof (check_step d acknowledged packet_num fi) as S. cbv zeta in S.
  fold check.
  destruct (check fi d acknowledged packet_num) as [again fi1] eqn:E. cbn [fst snd] in S.
  destruct again.
  - destruct S as [Lt Dr].
    destruct (IH fi1 ltac:(lia)) as (fi' & E' & F' & D').
    exists fi'. split; [exact E'|]. split; [exact F'|].
    eapply drained_trans; eassumption.
  - subst fi1. exists fi. split; [reflexivity|]. split; [exact E|]. apply drained_refl.
Qed.

(** X12. The loop [while (check_follow_fragments(...));] comes to an end:
    with a list of n waiting fragments it makes at most 2n + 2 calls. When
    it ends no fragment fits any more (a further call returns FALSE and
    changes nothing). The loop only takes fragments out of the
    direction's list and puts chunks in front of the payload; the other
    direction's list and position, the byte counters and the client are
    as before. *)
Theorem follow_drain_ends (d : bool) (acknowledged packet_num : Z) (fi : info) :
  exists fi',
    follow_drain missing_in_capture
                 (2 * length (ix (fragments fi) d) + 2) fi d acknowledged packet_num
    = Some fi'
    /\ check_follow_fragments missing_in_capture fi' d acknowledged packet_num = (false, fi')
    /\ sublist (ix (fragments fi') d) (ix (fragments fi) d)
    /\ (exists added, payload fi' = added ++ payload fi)
    /\ ix (fragments fi') (negb d) = ix (fragments fi) (negb d)
    /\ ix (fi_seq fi') (negb d) = ix (fi_seq fi) (negb d)
    /\ bytes_written fi' = bytes_written fi
    /\ client_port fi' = client_port fi /\ client_ip fi' = client_ip fi.
Proof.
  apply drain_ends. unfold calls_left.
  destruct (fits _ _); lia.
Qed.

(** the sequence arithmetic of a fragment against a position *)
Lemma dated_offset (fseq pos len : Z) :
  0 <= fseq < 2^32 -> 0 <= pos < 2^32 -> 0 <= len < 2^31 ->
  LT_SEQ fseq pos = true ->
  let off := u32 (pos - fseq) in
  0 < off
  /\ GT_SEQ (u32 (fseq + len)) pos = (off <? len)
  /\ (off < len ->
      u32 (len - off) = len - off
      /\ u32 (pos + u32 (len - off)) = u32 (fseq + len)).
Proof.
  intros Hf Hp Hl L off. unfold off.
  unfold LT_SEQ, GT_SEQ, s32, u32 in *.
  change (2^32) with 4294967296 in *. change (2^31) with 2147483648 in *.
  cbv zeta in *.
  repeat match goal with
         | H : context [if ?c then _ else _] |- _ => destruct c eqn:?
         | |- context [if ?c then _ else _] => destruct c eqn:?
         end;
  repeat match goal with
         | H : (_ <? _) = true |- _ => apply Z.ltb_lt in H
         | H : (_ <? _) = false |- _ => apply Z.ltb_ge in H
         end.
  all: split; [|split];
    [ | first [ symmetry; apply Z.ltb_lt | symmetry; apply Z.ltb_ge | idtac ]
      | intros ?; split ].
  all: try (Z.div_mod_to_equations; lia).
Qed.

(** X13. When a waiting fragment begins at or before the position of the
    stream, [check_follow_fragments] returns TRUE on the first such
    fragment of the list and takes it out of the list. If the fragment
    reaches beyond the position, one chunk goes in front of the payload:
    the fragment's bytes from the position on, none of those before it,
    and the position moves to the fragment's end. If it does not, the
    payload and the position stay as they are. (Sequence numbers are 32-bit
    values and a fragment holds fewer than 2^31 bytes.) *)
Theorem check_follow_fragments_fits (d : bool) (acknowledged packet_num : Z) (fi : info) :
  let position := ix (fi_seq fi) d in
  let waiting := ix (fragments fi) d in
  0 <= position < 2^32 ->
  Forall (fun fr => 0 <= fr_seq fr < 2^32 /\ fr_len fr < 2^31) waiting ->
  fits position waiting = true ->
  exists k fragment fi',
    waiting !! k = Some fragment
    /\ fits_at position fragment = true
    /\ fits position (take k waiting) = false
    /\ check_follow_fragments missing_in_capture fi d acknowledged packet_num = (true, fi')
    /\ ix (fragments fi') d = delete k waiting
    /\ let off := u32 (position - fr_seq fragment) in
       if off <? fr_len fragment
       then (exists chunk, payload fi' = chunk :: payload fi
                           /\ fr_data chunk = drop (Z.to_nat off) (fr_data fragment))
            /\ ix (fi_seq fi') d = u32 (fr_seq fragment + fr_len fragment)
       else payload fi' = payload fi /\ ix (fi_seq fi') d = position.
Proof.
  intros position waiting Hp Hw Hfits.
  assert (W : ix (fragments fi) d = waiting) by reflexivity.
  assert (P : ix (fi_seq fi) d = position) by reflexivity.
  clearbody waiting position.
  unfold check_follow_fragments. rewrite W.
  destruct waiting as [|first rest] eqn:Fr; [discriminate Hfits|].
  rewrite <- Fr in *.
  pose proof (scan_fragments_first d fi waiting 0 (fr_seq first)) as S.
  rewrite P in S.
  destruct (scan_fragments d 0 waiting (fr_seq first) fi) as [fi'|lowest].
  2:{ destruct S as [Hn _]. rewrite Hn in Hfits. discriminate. }
  destruct S as (k & fragment & Hk & Hf & Hn & ->). cbn [Nat.add].
  exists k, fragment, (apply_fragment d k fragment fi).
  destruct (apply_fragment_frame d k fragment fi) as (D & _). cbv zeta in D.
  rewrite W in D.
  repeat (split; [first [assumption | reflexivity]|]).
  pose proof (proj1 (Forall_lookup _ _) Hw k fragment Hk) as [Rs Rl].
  assert (L0 : 0 <= fr_len fragment) by (unfold fr_len; lia).
  cbv zeta. unfold apply_fragment. rewrite P.
  destruct (LT_SEQ (fr_seq fragment) position) eqn:L.
  - destruct (dated_offset _ _ (fr_len fragment) Rs Hp ltac:(lia) L) as (O1 & O2 & O3).
    cbv zeta in O1, O2, O3.
    unfold apply_dated. cbv zeta. rewrite !P. rewrite O2.
    destruct (u32 (position - fr_seq fragment) <? fr_len fragment) eqn:Lt.
    + apply Z.ltb_lt in Lt. destruct (O3 Lt) as [U1 U2].
      cbn. rewrite ix_set_ix, ?P. split; [|exact U2].
      eexists. split; [reflexivity|]. cbn [fr_data].
      apply take_ge. rewrite length_drop, U1. unfold fr_len. lia.
    + cbn. split; [reflexivity|]. exact P.
  - unfold fits_at in Hf. rewrite L in Hf. cbn [orb] in Hf.
    apply Z.eqb_eq in Hf. rewrite <- Hf, Z.sub_diag.
    change (u32 0) with 0. unfold apply_fitting. cbv zeta.
    rewrite ?P. rewrite <- ?Hf.
    destruct (0 <? fr_len fragment) eqn:Lt.
    + cbn. rewrite ix_set_ix, ?P, <- ?Hf. split; [|reflexivity].
      exists fragment. split; reflexivity.
    + apply Z.ltb_ge in Lt. assert (E0 : fr_len fragment = 0) by lia.
      cbn. rewrite ix_set_ix, ?P, <- ?Hf, E0, Z.add_0_r. split; [reflexivity|].
      apply u32_id. exact Rs.
Qed.

(** the state with the position of the first segment's direction set
    (packet-tcp.c:1109-1111) *)
Definition positioned (d : bool) (sequence : Z) (fi : @follow_info_t address)
  : @follow_info_t address :=
  if (ix (bytes_written fi) d =? 0) && (ix (fi_seq fi) d =? 0)
  then with_seq (set_ix d sequence (fi_seq fi)) fi
  else fi.

(** X14. What the listener does with a segment that was captured whole,
    by where it begins against the position of its direction (for the
    first segment, the position is set to its own sequence number). A
    segment that begins at or before the position and reaches beyond it
    puts one chunk in front of the payload, its bytes from the position
    on; the position moves to the segment's end, the byte counter grows
    by the chunk's length, and the waiting fragments are then tried. If it
    does not reach beyond the position, or holds no bytes, nothing
    changes. A segment that begins behind the position is put whole at the
    end of the waiting fragments. *)
Theorem follow_segment_spec (fuel : nat) (d : bool) (packet_num sequence : Z)
        (tvb : list Z) (fi : info) :
  let len := Z.of_nat (length tvb) in
  let fi0 := positioned d sequence fi in
  let position := ix (fi_seq fi0) d in
  let off := u32 (position - sequence) in
  0 <= sequence < 2^32 -> 0 <= ix (fi_seq fi) d < 2^32 -> len < 2^31 ->
  follow_segment missing_in_capture fuel d packet_num sequence len tvb fi
  = if LT_SEQ sequence position || EQ_SEQ sequence position then
      if off <? len then
        follow_drain missing_in_capture fuel
          (with_payload
             (FollowRecord d packet_num position (drop (Z.to_nat off) tvb) :: payload fi0)
             (with_bytes_written
                (set_ix d (u32 (ix (bytes_written fi0) d + (len - off))) (bytes_written fi0))
                (with_seq (set_ix d (u32 (sequence + len)) (fi_seq fi0)) fi0)))
          d 0 packet_num
      else Some fi0
    else if len =? 0 then Some fi0
    else Some (with_fragments
                 (set_ix d (ix (fragments fi0) d ++ [FollowRecord d packet_num sequence tvb])
                         (fragments fi0)) fi0).
Proof.
  intros len fi0 position off Hs Hq Hl.
  assert (L0 : 0 <= len) by (unfold len; lia).
  assert (Hp : 0 <= position < 2^32).
  { unfold position, fi0, positioned.
    destruct ((ix (bytes_written fi) d =? 0) && (ix (fi_seq fi) d =? 0));
      [cbn; rewrite ix_set_ix; exact Hs | exact Hq]. }
  assert (F0 : positioned d sequence fi = fi0) by reflexivity.
  assert (P : ix (fi_seq fi0) d = position) by reflexivity.
  clearbody position. clearbody fi0.
  unfold follow_segment. cbv zeta. unfold positioned in F0. rewrite !F0, !P.
  fold len. unfold trim_segment.
  destruct (LT_SEQ sequence position) eqn:L.
  - destruct (dated_offset sequence position len Hs Hp ltac:(lia) L) as (O1 & O2 & O3).
    cbv zeta in O1, O2, O3. fold off in O1, O2, O3.
    cbv zeta. rewrite O2. cbn [orb].
    destruct (off <? len) eqn:Lt.
    + apply Z.ltb_lt in Lt. destruct (O3 Lt) as [U1 U2]. fold off.
      replace (len <=? off) with false by (symmetry; apply Z.leb_gt; lia).
      rewrite U1.
      replace (len - off =? 0) with false by (symmetry; apply Z.eqb_neq; lia).
      unfold LT_SEQ, EQ_SEQ. rewrite Z.sub_diag, s32_0, Z.eqb_refl. cbn [orb Z.ltb Z.compare].
      assert (Et : take (Z.to_nat (len - off)) (drop (Z.to_nat off) tvb)
                   = drop (Z.to_nat off) tvb)
        by (apply take_ge; rewrite length_drop; unfold len; lia).
      rewrite Et.
      assert (El : fr_len (FollowRecord d packet_num position (drop (Z.to_nat off) tvb))
                   = len - off)
        by (unfold fr_len; cbn [fr_data]; rewrite length_drop; unfold len; lia).
      rewrite El.
      assert (Eq : u32 (position + u32 (u32 (sequence + len) - position))
                   = u32 (sequence + len)).
      { rewrite <- U2. f_equal. f_equal.
        unfold off, u32. change (2^32) with 4294967296.
        unfold off, u32 in Lt, U1. change (2^32) with 4294967296 in Lt, U1.
        Z.div_mod_to_equations. lia. }
      rewrite Eq. reflexivity.
    + rewrite L. rewrite orb_true_r. reflexivity.
  - cbn [orb]. rewrite L.
    destruct (EQ_SEQ sequence position) eqn:E.
    + apply Z.eqb_eq in E. unfold off. rewrite <- E, Z.sub_diag. change (u32 0) with 0.
      rewrite orb_false_r.
      destruct (len =? 0) eqn:Z0.
      * apply Z.eqb_eq in Z0. rewrite Z0. reflexivity.
      * apply Z.eqb_neq in Z0.
        replace (0 <? len) with true by (symmetry; apply Z.ltb_lt; lia).
        rewrite Z.sub_0_r.
        assert (Et : take (Z.to_nat len) (drop (Z.to_nat 0) tvb) = tvb)
          by (cbn [Z.to_nat drop]; apply take_ge; unfold len; lia).
        rewrite Et. cbn [Z.to_nat drop].
        assert (El : fr_len (FollowRecord d packet_num sequence tvb) = len) by reflexivity.
        rewrite El. reflexivity.
    + rewrite orb_false_r.
      destruct (len =? 0) eqn:Z0; [reflexivity|].
      apply Z.eqb_neq in Z0.
      assert (Et : take (Z.to_nat len) (drop (Z.to_nat 0) tvb) = tvb)
        by (cbn [Z.to_nat drop]; apply take_ge; unfold len; lia).
      rewrite Et. reflexivity.
Qed.

End FollowProps.

(** a stream at position 103 of the client's direction, and a waiting
    fragment with the bytes 100 to 103 *)
Definition sample_follow : @Follow.follow_info_t unit :=
  Follow.FollowInfo [] ([Follow.FollowRecord false 7 100 [1; 2; 3; 4]], [])
                    (103, 0) (3, 0) 4000 tt 80 tt.

Lemma check_follow_fragments_fits_witness :
  0 <= 103 < 2^32
  /\ Forall (fun fr => 0 <= Follow.fr_seq fr < 2^32 /\ Follow.fr_len fr < 2^31)
            [Follow.FollowRecord false 7 100 [1; 2; 3; 4]]
  /\ fits 103 [Follow.FollowRecord false 7 100 [1; 2; 3; 4]] = true
  /\ exists fi',
       Follow.check_follow_fragments (fun _ => []) sample_follow false 0 9 = (true, fi')
       /\ Follow.ix (Follow.fragments fi') false = []
       /\ (exists chunk, Follow.payload fi' = [chunk] /\ Follow.fr_data chunk = [4])
       /\ Follow.ix (Follow.fi_seq fi') false = 104.
Proof.
  assert (H1 : 0 <= 103 < 2^32) by lia.
  assert (H2 : Forall (fun fr => 0 <= Follow.fr_seq fr < 2^32 /\ Follow.fr_len fr < 2^31)
                      [Follow.FollowRecord false 7 100 [1; 2; 3; 4]]).
  { constructor; [|constructor]. unfold Follow.fr_len. cbn. lia. }
  assert (H3 : fits 103 [Follow.FollowRecord false 7 100 [1; 2; 3; 4]] = true)
    by reflexivity.
  repeat (split; [assumption|]).
  destruct (check_follow_fragments_fits (fun _ => []) false 0 9 sample_follow H1 H2 H3)
    as (k & fragment & fi' & Hk & _ & _ & E & D & A).
  destruct k as [|k]; [|destruct k; discriminate Hk].
  injection Hk as <-.
  exists fi'. split; [exact E|]. split; [exact D|]. exact A.
Defined.

Lemma follow_segment_spec_witness :
  0 <= 101 < 2^32
  /\ 0 <= 103 < 2^32
  /\ Z.of_nat (length [11; 12; 13; 14; 15]) < 2^31
  /\ Follow.follow_segment (fun _ => []) 4 false 9 101 5 [11; 12; 13; 14; 15] sample_follow
     = Follow.follow_drain (fun _ => []) 4
         (Follow.FollowInfo [Follow.FollowRecord false 9 103 [13; 14; 15]]
                            ([Follow.FollowRecord false 7 100 [1; 2; 3; 4]], [])
                            (106, 0) (6, 0) 4000 tt 80 tt)
         false 0 9.
Proof.
  assert (H1 : 0 <= 101 < 2^32) by lia.
  assert (H2 : 0 <= Follow.ix (Follow.fi_seq sample_follow) false < 2^32) by (cbn; lia).
  assert (H3 : Z.of_nat (length [11; 12; 13; 14; 15]) < 2^31) by (cbn; lia).
  split; [exact H1|]. split; [exact H2|]. split; [exact H3|].
  exact (follow_segment_spec (fun _ => []) 4 false 9 101 [11; 12; 13; 14; 15]
           sample_follow H1 H2 H3).
Defined.

(** ** PDU tracking without reassembly *)

Section NextPduProps.

Import Reasm NextPdu.

(** the range query gives the greatest key at or below the number *)
Lemma wmem_tree_lookup32_le_spec {V} (m : gmap Z V) (k : Z) :
  match wmem_tree_lookup32_le m k with
  | Some key =>
      is_Some (m !! key) /\ key <= k
      /\ forall key', is_Some (m !! key') -> key' <= k -> key' <= key
  | None => forall key', is_Some (m !! key') -> k < key'
  end.
Proof.
  unfold wmem_tree_lookup32_le.
  apply (map_fold_weak_ind
           (fun (r : option Z) (m : gmap Z V) =>
              match r with
              | Some key =>
                  is_Some (m !! key) /\ key <= k
                  /\ forall key', is_Some (m !! key') -> key' <= k -> key' <= key
              | None => forall key', is_Some (m !! key') -> k < key'
              end)).
  - intros key' [x Hx]. rewrite lookup_empty in Hx. discriminate.
  - intros i x m0 r Hi IH.
    assert (Ins : forall key', is_Some (<[i:=x]> m0 !! key') ->
                               key' = i \/ is_Some (m0 !! key')).
    { intros key' H. destruct (decide (key' = i)) as [->|Ne]; [left; reflexivity|].
      rewrite lookup_insert_ne in H by congruence. right. exact H. }
    destruct (i <=? k) eqn:Le.
    + apply Z.leb_le in Le. destruct r as [b|].
      * destruct IH as (Hb & Hbk & Hmax).
        destruct (b <? i) eqn:Lt.
        -- apply Z.ltb_lt in Lt. split; [rewrite lookup_insert_eq; eauto|].
           split; [exact Le|]. intros key' H Hk.
           destruct (Ins key' H) as [->|H']; [lia|]. specialize (Hmax key' H' Hk). lia.
        -- apply Z.ltb_ge in Lt. split.
           { destruct (decide (b = i)) as [->|Ne];
               [rewrite lookup_insert_eq; eauto | rewrite lookup_insert_ne by congruence; exact Hb]. }
           split; [exact Hbk|]. intros key' H Hk.
           destruct (Ins key' H) as [->|H']; [lia|]. exact (Hmax key' H' Hk).
      * split; [rewrite lookup_insert_eq; eauto|]. split; [exact Le|].
        intros key' H Hk. destruct (Ins key' H) as [->|H']; [lia|].
        specialize (IH key' H'). lia.
    + apply Z.leb_gt in Le. destruct r as [b|].
      * destruct IH as (Hb & Hbk & Hmax). split.
        { destruct (decide (b = i)) as [->|Ne]; [lia|].
          rewrite lookup_insert_ne by congruence. exact Hb. }
        split; [exact Hbk|]. intros key' H Hk.
        destruct (Ins key' H) as [->|H']; [lia|]. exact (Hmax key' H' Hk).
      * intros key' H. destruct (Ins key' H) as [->|H']; [lia|]. exact (IH key' H').
Qed.

(** what [scan_for_next_pdu] never writes of a PDU *)
Definition pdu_extent (m : tcp_multisegment_pdu) : Z * Z * Z * Z * Z :=
  (msp_seq m, msp_nxtpdu m, msp_first_frame m, msp_first_frame_with_seq m, msp_flags m).

Lemma s32_id (x : Z) : 0 <= x < 2^31 -> s32 x = x.
Proof.
  intros H. unfold s32, u32. change (2^32) with 4294967296.
  change (2^31) with 2147483648 in *. cbv zeta.
  rewrite Z.mod_small by lia.
  replace (x <? 2147483648) with true by (symmetry; apply Z.ltb_lt; lia). reflexivity.
Qed.

(** X15. The offset [scan_for_next_pdu] returns is the same on the first
    pass and on a later one over the same tree. It is -1, or the offset it
    was given, or an offset strictly inside the segment: behind the
    first byte and before the end, where the PDU found before the segment
    ends. A later pass leaves the tree alone; the first pass writes no more
    than the last frame and its time of PDUs that are there. *)
Theorem scan_for_next_pdu_offset (frame : Z) (ts : nstime_t) (offset seq nxtseq : Z)
        (multisegment_pdus : gmap Z tcp_multisegment_pdu) :
  0 <= seq < 2^32 -> 0 <= nxtseq < 2^32 ->
  0 <= offset -> offset + (nxtseq - seq) < 2^31 ->
  let first := scan_for_next_pdu (PInfo frame ts false) offset seq nxtseq multisegment_pdus in
  let later := scan_for_next_pdu (PInfo frame ts true) offset seq nxtseq multisegment_pdus in
  let r := fst (fst first) in
  fst (fst later) = r
  /\ (r = -1 \/ r = offset \/ offset < r < offset + (nxtseq - seq))
  /\ snd (fst later) = multisegment_pdus
  /\ (forall k, pdu_extent <$> (snd (fst first) !! k)
                = pdu_extent <$> (multisegment_pdus !! k)).
Proof.
  intros Hs Hn Ho Hb first later r. unfold r, first, later, scan_for_next_pdu.
  cbn [visited negb]. clear r first later.
  destruct (wmem_tree_lookup32_le multisegment_pdus (u32 (seq - 1))) as [k|];
    [|cbn; auto 6].
  destruct (multisegment_pdus !! k) as [m|] eqn:Hk; [|cbn; auto 6].
  assert (Alt : forall j,
             pdu_extent <$> (alter (msp_with_last frame ts) k multisegment_pdus !! j)
             = pdu_extent <$> (multisegment_pdus !! j)).
  { intros j. destruct (decide (j = k)) as [->|Ne].
    - rewrite lookup_alter_eq, Hk. reflexivity.
    - rewrite lookup_alter_ne by congruence. reflexivity. }
  cbn [num abs_ts].
  set (within := (msp_seq m <? seq) && (nxtseq <=? msp_nxtpdu m)).
  set (straddles := (seq <? msp_nxtpdu m) && (msp_nxtpdu m <? nxtseq)).
  assert (Adj : straddles = true ->
                let r := s32 (offset + u32 (msp_nxtpdu m - seq)) in
                offset < r < offset + (nxtseq - seq)).
  { intros St. unfold straddles in St. apply andb_true_iff in St. destruct St as [A B].
    apply Z.ltb_lt in A. apply Z.ltb_lt in B. cbv zeta.
    rewrite (u32_id (msp_nxtpdu m - seq)) by lia.
    rewrite s32_id by lia. lia. }
  destruct ((msp_seq m <? seq) && (seq <? msp_nxtpdu m));
    destruct within; destruct straddles; cbn [fst snd];
    try specialize (Adj eq_refl); auto 8.
Qed.

(** X16. PDU tracking, from one segment to the next, while the sequence
    numbers do not wrap: 0 <= seq < nxtseq < nxtseq2 < 2^32 and nxtseq +
    bytes_until_next_pdu < 2^32, with 0 <= bytes_until_next_pdu, and an
    offset that stays an int, 0 <= offset and offset +
    bytes_until_next_pdu < 2^31. A subdissector that is handed the segment
    from [seq] to [nxtseq] asks for tracking with [bytes_until_next_pdu]
    bytes to go, and the PDU is stored as reaching to nxtseq +
    bytes_until_next_pdu. For the segment that follows, from [nxtseq] to
    [nxtseq2], on its first pass, [scan_for_next_pdu] then returns -1 if
    the segment ends within that PDU, and otherwise the offset moved on by
    exactly the bytes that were to go, the start of the next PDU. If the
    PDU reaches into the segment it is shown as a continuation of the first
    frame and becomes the PDU's last frame. No other PDU of the tree
    starts inside the first segment. Nothing is said of a PDU whose end
    wraps past 2^32. *)
Theorem pdu_tracking_round_trip (pinfo1 pinfo2 : packet_info)
        (offset seq nxtseq nxtseq2 bytes_until_next_pdu : Z)
        (multisegment_pdus : gmap Z tcp_multisegment_pdu) :
  visited pinfo2 = false ->
  0 <= seq < nxtseq -> nxtseq < nxtseq2 < 2^32 ->
  0 <= bytes_until_next_pdu -> nxtseq + bytes_until_next_pdu < 2^32 ->
  (forall k, is_Some (multisegment_pdus !! k) -> ~ seq < k < nxtseq) ->
  0 <= offset -> offset + bytes_until_next_pdu < 2^31 ->
  let stored :=
    pdu_store_sequencenumber_of_next_pdu pinfo1 seq (u32 (nxtseq + bytes_until_next_pdu))
                                         multisegment_pdus in
  let reaches_in := 0 <? bytes_until_next_pdu in
  scan_for_next_pdu pinfo2 offset nxtseq nxtseq2 stored
  = (if nxtseq2 <=? nxtseq + bytes_until_next_pdu then -1
     else offset + bytes_until_next_pdu,
     if reaches_in
     then <[seq := Msp seq (nxtseq + bytes_until_next_pdu) (num pinfo1) (num pinfo1)
                       (num pinfo2) (abs_ts pinfo2) 0]> multisegment_pdus
     else stored,
     if reaches_in then [EvContinuationTo (num pinfo1)] else []).
Proof.
  intros Hv Hs Hn Hb Hw Hfree Ho Hob stored reaches_in.
  assert (U : u32 (nxtseq + bytes_until_next_pdu) = nxtseq + bytes_until_next_pdu)
    by (apply u32_id; lia).
  assert (U1 : u32 (nxtseq - 1) = nxtseq - 1) by (apply u32_id; lia).
  unfold scan_for_next_pdu. rewrite Hv. cbn [negb]. rewrite U1.
  assert (Hseq : stored !! seq
                 = Some (Msp seq (nxtseq + bytes_until_next_pdu) (num pinfo1) (num pinfo1)
                             (num pinfo1) (abs_ts pinfo1) 0)).
  { unfold stored, pdu_store_sequencenumber_of_next_pdu.
    rewrite lookup_insert_eq, U. reflexivity. }
  assert (L : wmem_tree_lookup32_le stored (nxtseq - 1) = Some seq).
  { pose proof (wmem_tree_lookup32_le_spec stored (nxtseq - 1)) as Sp.
    destruct (wmem_tree_lookup32_le stored (nxtseq - 1)) as [key|].
    - destruct Sp as (Hin & Hle & Hmax).
      assert (seq <= key) by (apply Hmax; [rewrite Hseq; eauto | lia]).
      destruct (decide (key = seq)) as [->|Ne]; [reflexivity|].
      exfalso. unfold stored, pdu_store_sequencenumber_of_next_pdu in Hin.
      rewrite lookup_insert_ne in Hin by congruence.
      apply (Hfree key Hin). lia.
    - specialize (Sp seq ltac:(rewrite Hseq; eauto)). lia. }
  rewrite L, Hseq. cbn [msp_seq msp_nxtpdu msp_first_frame].
  replace (seq <? nxtseq) with true by (symmetry; apply Z.ltb_lt; lia).
  cbn [andb].
  assert (A : alter (msp_with_last (num pinfo2) (abs_ts pinfo2)) seq stored
              = <[seq := Msp seq (nxtseq + bytes_until_next_pdu) (num pinfo1) (num pinfo1)
                             (num pinfo2) (abs_ts pinfo2) 0]> multisegment_pdus).
  { unfold stored, pdu_store_sequencenumber_of_next_pdu.
    rewrite alter_insert_eq, U. reflexivity. }
  unfold reaches_in.
  replace (nxtseq <? nxtseq + bytes_until_next_pdu) with (0 <? bytes_until_next_pdu)
    by (destruct (0 <? bytes_until_next_pdu) eqn:E;
        [apply Z.ltb_lt in E; symmetry; apply Z.ltb_lt; lia
        |apply Z.ltb_ge in E; symmetry; apply Z.ltb_ge; lia]).
  replace (u32 (nxtseq + bytes_until_next_pdu - nxtseq)) with bytes_until_next_pdu
    by (replace (nxtseq + bytes_until_next_pdu - nxtseq) with bytes_until_next_pdu by lia;
        symmetry; apply u32_id; lia).
  rewrite (s32_id (offset + bytes_until_next_pdu)) by lia.
  destruct (0 <? bytes_until_next_pdu) eqn:B.
  - rewrite A.
    destruct (nxtseq2 <=? nxtseq + bytes_until_next_pdu) eqn:W; [reflexivity|].
    apply Z.leb_gt in W.
    replace (nxtseq + bytes_until_next_pdu <? nxtseq2) with true
      by (symmetry; apply Z.ltb_lt; lia).
    reflexivity.
  - apply Z.ltb_ge in B. assert (bytes_until_next_pdu = 0) by lia. subst bytes_until_next_pdu.
    rewrite !Z.add_0_r.
    replace (nxtseq2 <=? nxtseq) with false by (symmetry; apply Z.leb_gt; lia).
    cbn [andb]. reflexivity.
Qed.

End NextPduProps.

Lemma scan_for_next_pdu_offset_witness :
  let pdus := NextPdu.pdu_store_sequencenumber_of_next_pdu
                (PInfo 1 (NsTime 1 0) false) 1000 2100 ∅ in
  0 <= 2000 < 2^32 /\ 0 <= 2500 < 2^32 /\ 0 <= 20 /\ 20 + (2500 - 2000) < 2^31
  /\ fst (fst (NextPdu.scan_for_next_pdu (PInfo 2 (NsTime 2 0) true) 20 2000 2500 pdus))
     = fst (fst (NextPdu.scan_for_next_pdu (PInfo 2 (NsTime 2 0) false) 20 2000 2500 pdus))
  /\ fst (fst (NextPdu.scan_for_next_pdu (PInfo 2 (NsTime 2 0) false) 20 2000 2500 pdus))
     = 120.
Proof.
  intros pdus.
  assert (H1 : 0 <= 2000 < 2^32) by lia.
  assert (H2 : 0 <= 2500 < 2^32) by lia.
  assert (H3 : 0 <= 20) by lia.
  assert (H4 : 20 + (2500 - 2000) < 2^31) by lia.
  repeat (split; [assumption|]).
  destruct (scan_for_next_pdu_offset 2 (NsTime 2 0) 20 2000 2500 pdus H1 H2 H3 H4)
    as (E & _).
  split; [exact E | vm_compute; reflexivity].
Defined.

Lemma pdu_tracking_round_trip_witness :
  visited (PInfo 2 (NsTime 2 0) false) = false
  /\ 0 <= 1000 < 2000 /\ 2000 < 2500 < 2^32 /\ 0 <= 100 /\ 2000 + 100 < 2^32
  /\ (forall k, is_Some ((∅ : gmap Z tcp_multisegment_pdu) !! k) -> ~ 1000 < k < 2000)
  /\ 0 <= 20 /\ 20 + 100 < 2^31
  /\ NextPdu.scan_for_next_pdu (PInfo 2 (NsTime 2 0) false) 20 2000 2500
       (NextPdu.pdu_store_sequencenumber_of_next_pdu (PInfo 1 (NsTime 1 0) false)
          1000 (u32 (2000 + 100)) ∅)
     = (120,
        <[1000 := Msp 1000 2100 1 1 2 (NsTime 2 0) 0]> ∅,
        [NextPdu.EvContinuationTo 1]).
Proof.
  assert (H0 : visited (PInfo 2 (NsTime 2 0) false) = false) by reflexivity.
  assert (H1 : 0 <= 1000 < 2000) by lia.
  assert (H2 : 2000 < 2500 < 2^32) by lia.
  assert (H3 : 0 <= 100) by lia.
  assert (H4 : 2000 + 100 < 2^32) by lia.
  assert (H5 : forall k, is_Some ((∅ : gmap Z tcp_multisegment_pdu) !! k)
                         -> ~ 1000 < k < 2000).
  { intros k [x Hx]. rewrite lookup_empty in Hx. discriminate. }
  assert (H6 : 0 <= 20) by lia.
  assert (H7 : 20 + 100 < 2^31) by lia.
  repeat (split; [assumption|]).
  exact (pdu_tracking_round_trip (PInfo 1 (NsTime 1 0) false) (PInfo 2 (NsTime 2 0) false)
           20 1000 2000 2500 100 ∅ H0 H1 H2 H3 H4 H5 H6 H7).
Defined.

(** ** Flags that never come together *)

Section FlagsExclusive.

Import Seq.

Variable tcp_track_bytes_in_flight : bool.
Variable TCP_MAX_UNACKED_SEGMENTS : Z.
Variable pinfo : packet_info.
Variables seq ack seglen flags window : Z.

(** the flags of the checks that a zero window probe leaves out *)
Definition TCP_A_AFTER_PROBE : Z :=
  Z.lor (Z.lor (Z.lor (Z.lor (Z.lor (Z.lor (Z.lor
    TCP_A_ZERO_WINDOW TCP_A_LOST_PACKET) TCP_A_KEEP_ALIVE) TCP_A_WINDOW_UPDATE)
    TCP_A_WINDOW_FULL) TCP_A_KEEP_ALIVE_ACK) TCP_A_ZERO_WINDOW_PROBE_ACK)
    TCP_A_DUPLICATE_ACK.

(** the three flags for a segment that answers one of the other side *)
Definition TCP_A_ANSWERS : Z :=
  Z.lor (Z.lor TCP_A_KEEP_ALIVE_ACK TCP_A_ZERO_WINDOW_PROBE_ACK) TCP_A_DUPLICATE_ACK.

Lemma bits5_answers f r :
  Z.land (bits5 seq ack seglen flags window f r) TCP_A_ANSWERS = 0
  /\ tst (bits5 seq ack seglen flags window f r) TCP_A_ZERO_WINDOW_PROBE = false.
Proof.
  unfold bits5.
  destruct (zero_window_test flags window), (lost_test seq flags f),
    (keepalive_test seq seglen flags f),
    (window_update_test seq ack seglen flags window f),
    (window_full_test seq seglen flags r); split; reflexivity.
Qed.

Lemma kind_flag_bits k :
  Z.land (kind_flag k) TCP_A_AFTER_PROBE = 0
  /\ Z.land (kind_flag k) TCP_A_ANSWERS = 0
  /\ tst (kind_flag k) TCP_A_ZERO_WINDOW_PROBE = false
  /\ tst (kind_flag k) TCP_A_KEEP_ALIVE = false.
Proof. destruct k; repeat split; reflexivity. Qed.

Lemma ack_lost_bits (b : bool) :
  let x := if b then TCP_A_ACK_LOST_PACKET else 0 in
  Z.land x TCP_A_AFTER_PROBE = 0
  /\ Z.land x TCP_A_ANSWERS = 0
  /\ Z.land x TCP_A_FAMILY = 0
  /\ tst x TCP_A_ZERO_WINDOW_PROBE = false
  /\ tst x TCP_A_KEEP_ALIVE = false.
Proof. destruct b; repeat split; reflexivity. Qed.

(** X17. What the analysis never flags together, on a segment that comes
    to it without flags or with the port-reuse flag alone. A segment
    flagged as zero window probe has none of the flags of the later
    forward checks: zero window, lost packet, keep-alive, window update,
    window full, keep-alive ACK, zero window probe ACK, duplicate ACK. Of
    keep-alive ACK, zero window probe ACK and duplicate ACK a segment has
    at most one. A segment flagged as keep-alive has no flag of the
    retransmission family. *)
Theorem analysis_flags_exclusive (t : tcp_analysis) :
  packet_ready pinfo seq ack t ->
  ta_flags (cur pinfo seq ack t) = 0 \/ ta_flags (cur pinfo seq ack t) = TCP_A_REUSED_PORTS ->
  let found := ta_flags (cur pinfo seq ack
                           (analyze tcp_track_bytes_in_flight TCP_MAX_UNACKED_SEGMENTS
                                    pinfo seq ack seglen flags window t)) in
  (tst found TCP_A_ZERO_WINDOW_PROBE = true -> Z.land found TCP_A_AFTER_PROBE = 0)
  /\ (Z.land found TCP_A_ANSWERS = 0
      \/ Z.land found TCP_A_ANSWERS = TCP_A_KEEP_ALIVE_ACK
      \/ Z.land found TCP_A_ANSWERS = TCP_A_ZERO_WINDOW_PROBE_ACK
      \/ Z.land found TCP_A_ANSWERS = TCP_A_DUPLICATE_ACK)
  /\ (tst found TCP_A_KEEP_ALIVE = true -> Z.land found TCP_A_FAMILY = 0).
Proof.
  intros H Hprior found.
  pose proof (analyze_flags tcp_track_bytes_in_flight TCP_MAX_UNACKED_SEGMENTS
                pinfo seq ack seglen flags window t H) as Fl.
  fold found in Fl.
  set (prior := ta_flags (cur pinfo seq ack t)) in *.
  set (fb := fwd_bits seq ack seglen flags window (fwd t) (rev t)) in *.
  set (al := if ack_lost_test ack flags (rev t) then TCP_A_ACK_LOST_PACKET else 0) in *.
  set (k := kind_of pinfo seq ack seglen flags window (view_of pinfo seq ack t)) in *.
  destruct (kind_flag_bits k) as (K1 & K2 & K3 & K4).
  destruct (ack_lost_bits (ack_lost_test ack flags (rev t))) as (A1 & A2 & A3 & A4 & A5).
  cbv zeta in A1, A2, A3, A4, A5. fold al in A1, A2, A3, A4, A5.
  assert (P : Z.land prior TCP_A_AFTER_PROBE = 0 /\ Z.land prior TCP_A_ANSWERS = 0
              /\ Z.land prior TCP_A_FAMILY = 0
              /\ tst prior TCP_A_ZERO_WINDOW_PROBE = false
              /\ tst prior TCP_A_KEEP_ALIVE = false)
    by (destruct Hprior as [-> | ->]; repeat split; reflexivity).
  destruct P as (P1 & P2 & P3 & P4 & P5).
  destruct (bits5_answers (fwd t) (rev t)) as [B1 B2].
  split; [|split].
  - intros Z. rewrite Fl in Z. rewrite !tst_lor, P4, A4, K3 in Z.
    rewrite orb_false_r in Z. cbn [orb] in Z.
    assert (E : fb = TCP_A_ZERO_WINDOW_PROBE).
    { unfold fb, fwd_bits in *.
      destruct (zwp_test seq seglen (fwd t) (rev t)); [reflexivity|].
      rewrite tst_lor, B2 in Z. cbn [orb] in Z.
      destruct (keepalive_ack_test seq ack seglen flags window (fwd t) (rev t));
        [discriminate Z|].
      destruct (zwp_ack_test seq ack seglen flags window (fwd t) (rev t));
        [discriminate Z|].
      destruct (dupack_test seq ack seglen flags window (fwd t)); discriminate Z. }
    rewrite Fl, !Z.land_lor_distr_l, P1, A1, K1, E. reflexivity.
  - rewrite Fl, !Z.land_lor_distr_l, P2, A2, K2, !Z.lor_0_r, Z.lor_0_l.
    unfold fb, fwd_bits.
    destruct (zwp_test seq seglen (fwd t) (rev t)); [left; reflexivity|].
    rewrite Z.land_lor_distr_l, B1, Z.lor_0_l.
    destruct (keepalive_ack_test seq ack seglen flags window (fwd t) (rev t));
      [right; left; reflexivity|].
    destruct (zwp_ack_test seq ack seglen flags window (fwd t) (rev t));
      [right; right; left; reflexivity|].
    destruct (dupack_test seq ack seglen flags window (fwd t));
      [right; right; right; reflexivity | left; reflexivity].
  - intros KA. rewrite Fl in KA. rewrite !tst_lor, A5, K4, !orb_false_r in KA.
    rewrite Fl, !Z.land_lor_distr_l, P3, A3.
    unfold fb at 1. rewrite fwd_bits_family.
    assert (Kn : k = NotRetrans).
    { unfold k, kind_of. cbn [view_of v_cur v_fwd v_rev].
      fold prior. fold fb. rewrite tst_lor, KA. cbn [negb]. rewrite andb_false_r.
      reflexivity. }
    rewrite Kn. reflexivity.
Qed.

End FlagsExclusive.

Lemma analysis_flags_exclusive_witness :
  let found := ta_flags (cur (Scenario.frame_at 5 4) 150 501
                           (Seq.analyze true 10000 (Scenario.frame_at 5 4) 150 501 1 TH_ACK
                                        65535 established)) in
  packet_ready (Scenario.frame_at 5 4) 150 501 established
  /\ ta_flags (cur (Scenario.frame_at 5 4) 150 501 established) = 0
  /\ tst found TCP_A_KEEP_ALIVE = true
  /\ Z.land found TCP_A_FAMILY = 0.
Proof.
  intros found.
  assert (H : packet_ready (Scenario.frame_at 5 4) 150 501 established)
    by (vm_compute; reflexivity).
  assert (P : ta_flags (cur (Scenario.frame_at 5 4) 150 501 established) = 0)
    by (vm_compute; reflexivity).
  split; [exact H|]. split; [exact P|].
  destruct (analysis_flags_exclusive true 10000 (Scenario.frame_at 5 4) 150 501 1 TH_ACK
              65535 established H (or_introl P)) as (_ & _ & K).
  assert (KA : tst found TCP_A_KEEP_ALIVE = true) by (vm_compute; reflexivity).
  split; [exact KA | exact (K KA)].
Defined.
